(** * PTMCMCSampler: the parallel-tempering sampler of PTMCMCSampler.py

    A shallow embedding of [class PTSampler] and of the properties its
    specification states about it.

    - Numbers.  A Python/numpy float is a [pyfloat]: an exact rational
      for every finite value (rounding is not modelled) together with
      the three IEEE special values the code relies on ([-inf], [inf],
      [nan]).
    - The object.  [self] is the record [PTSampler]; a method is a
      function from the object to the mutated object and an outcome
      (a value or a raised exception), so that mutations done before a
      [raise] stay visible, as in Python.
    - The outside.  What a method receives from outside the process (a
      message of a neighbouring rank, a random draw) is an argument;
      what it does to the outside (a message sent, a call of the
      user's likelihood, a file created) is appended to [trace]. *)

From Stdlib Require Import ZArith QArith Qcanon List Bool String Lia.
From Stdlib Require Import Reals Lra.
From stdpp Require Import base option list gmap strings.

Local Open Scope Z_scope.

(** ** Python/numpy floats *)

Module PyFloat.

Inductive pyfloat : Type :=
| Finite (q : Qc)
| PInf
| NInf
| NaN.

Definition Qcltb (a b : Qc) : bool :=
  match (a ?= b)%Qc with Lt => true | _ => false end.

Definition Qceqb (a b : Qc) : bool :=
  match (a ?= b)%Qc with Eq => true | _ => false end.

Definition of_Z (z : Z) : pyfloat := Finite (Q2Qc (inject_Z z)).

Definition fneg (a : pyfloat) : pyfloat :=
  match a with
  | Finite q => Finite (- q)%Qc
  | PInf => NInf
  | NInf => PInf
  | NaN => NaN
  end.

Definition fadd (a b : pyfloat) : pyfloat :=
  match a, b with
  | NaN, _ | _, NaN => NaN
  | Finite x, Finite y => Finite (x + y)%Qc
  | PInf, NInf | NInf, PInf => NaN
  | PInf, _ | _, PInf => PInf
  | NInf, _ | _, NInf => NInf
  end.

Definition fsub (a b : pyfloat) : pyfloat := fadd a (fneg b).

(** The sign of a value that is not [nan]: [Lt] negative, [Eq] zero,
    [Gt] positive. *)
Definition fsign (a : pyfloat) : comparison :=
  match a with
  | Finite q => (q ?= 0)%Qc
  | PInf => Gt
  | NInf => Lt
  | NaN => Eq
  end.

Definition inf_of_sign (c : comparison) : pyfloat :=
  match c with Gt => PInf | Lt => NInf | Eq => NaN end.

Definition sign_mul (c d : comparison) : comparison :=
  match c, d with
  | Eq, _ | _, Eq => Eq
  | Gt, Gt | Lt, Lt => Gt
  | _, _ => Lt
  end.

Definition fmul (a b : pyfloat) : pyfloat :=
  match a, b with
  | NaN, _ | _, NaN => NaN
  | Finite x, Finite y => Finite (x * y)%Qc
  | _, _ => inf_of_sign (sign_mul (fsign a) (fsign b))
  end.

(** numpy's true division: a finite value over zero is an infinity of
    the sign of the numerator (zero over zero is [nan]); no exception
    is raised. *)
Definition fdiv (a b : pyfloat) : pyfloat :=
  match a, b with
  | NaN, _ | _, NaN => NaN
  | Finite x, Finite y =>
      if Qceqb y 0 then inf_of_sign (x ?= 0)%Qc else Finite (x / y)%Qc
  | Finite _, _ => Finite 0%Qc
  | _, Finite y =>
      inf_of_sign (sign_mul (fsign a) (if Qceqb y 0 then Gt else (y ?= 0)%Qc))
  | _, _ => NaN
  end.

(** [a > b]; every comparison with [nan] is false. *)
Definition fgt (a b : pyfloat) : bool :=
  match a, b with
  | NaN, _ | _, NaN => false
  | Finite x, Finite y => Qcltb y x
  | PInf, PInf => false
  | PInf, _ => true
  | _, PInf => false
  | NInf, _ => false
  | Finite _, NInf => true
  end.

(** [a == b]. *)
Definition feq (a b : pyfloat) : bool :=
  match a, b with
  | Finite x, Finite y => Qceqb x y
  | PInf, PInf | NInf, NInf => true
  | _, _ => false
  end.

Definition is_finite (a : pyfloat) : bool :=
  match a with Finite _ => true | _ => false end.

End PyFloat.
Export PyFloat.

Abbreviation vec := (list pyfloat).
Abbreviation matrix := (list (list pyfloat)).

(** ** Exceptions and outcomes *)

Inductive exn : Type :=
| AttributeError (attr : string)
| KeyError (key : string)
| IndexError
| TypeError
| ValueError (msg : string)
| ZeroDivisionError
| UnboundLocalError (var : string)
| Exception (msg : string).

Inductive res (A : Type) : Type :=
| Ok (a : A)
| Raise (e : exn).
Arguments Ok {A} a.
Arguments Raise {A} e.

(** ** Proposals *)

(** The dictionary [self.jump_proposal_kwargs] handed to every
    proposal ([update_jump_proposal_kwargs]). *)
Record jump_kwargs : Type := {
  kw_iter : Z;
  kw_beta : pyfloat;
  kw_groups : list (list Z);
  kw_U : list matrix;
  kw_S : list vec;
  kw_naccepted : pyfloat;
  kw_chain : list matrix;
  kw_DEBuffer : list matrix + matrix
}.

(** A jump proposal: a callable object with a [__name__]. *)
Record proposal : Type := {
  pname : string;
  pcall : vec -> jump_kwargs -> vec * pyfloat
}.

(** An auxiliary jump [aux(x, q, iter, beta)]. *)
Definition auxjump : Type := vec -> vec -> Z -> pyfloat -> vec * pyfloat.

(** ** What a process does to the outside *)

(** A message handed to [comm.send]; a call of the user's prior or
    likelihood; a file opened; a [write] of formatted numbers (the
    numbers are kept, their text is not modelled); an [np.save]. *)

Inductive payload : Type :=
| MFloat (f : pyfloat)
| MInt (z : Z)
| MVec (v : vec)
| MMat (m : matrix)
| MBuf (b : list matrix + matrix).

Inductive event : Type :=
| EvLogp (x : vec)
| EvLogl (x : vec)
| EvSend (dest tag : Z) (m : payload)
| EvOpen (path mode : string)
| EvWrite (path : string) (cells : list pyfloat)
| EvSave (path : string) (m : matrix).

(** ** The sampler object *)

(** Attributes bound by [__init__] and never rebound. *)
Record init_attrs : Type := {
  MPIrank : Z;
  nchain : Z;
  ndim : Z;
  logl : vec -> pyfloat;
  logp : vec -> pyfloat;
  logl_grad : option (vec -> pyfloat * vec);
  logp_grad : option (vec -> pyfloat * vec);
  outDir : string;
  resume : bool;
  groups : list (list Z)
}.

(** Attributes bound by [initialize]; they do not exist on the object
    before [initialize] has run.  [resumechain] is what [np.loadtxt]
    returns: an array of one axis for a file of a single row, of two
    axes otherwise. *)
Record run_attrs : Type := {
  ladder : list pyfloat;
  covUpdate : Z;
  burn : Z;
  Tskip : Z;
  thin : Z;
  isave : Z;
  Niter : Z;
  write_cold_chains : bool;
  writeHotChains : bool;
  save_jump_stats : bool;
  n_cold_chains : Z;
  temp : pyfloat;
  fname : string;
  resumeLength : Z;
  resumechain : vec + matrix
}.

(** The running moments and the covariance model ([self.U] and
    [self.S] are [svd_U] and [svd_S]). *)
Record cov_attrs : Type := {
  cov : matrix;
  svd_U : list matrix;
  svd_S : list vec;
  M2 : matrix;
  mu : vec
}.

(** The proposal cycle and the acceptance ledger. *)
Record cycle_attrs : Type := {
  propCycle : list proposal;
  jumpDict : gmap string (Z * Z);
  aux : list auxjump;
  randomizedPropCycle : list proposal
}.

(** The recorded trajectory and the buffers cut from it.  [_AMbuffer]
    and [_DEbuffer] are bound by [initialize] on rank 0 only;
    [_DEbuffer] is first a zero array of three axes and later a slice
    (two axes) of [_AMbuffer]. *)
Record store_attrs : Type := {
  _chain : list matrix;
  _lnlike : matrix;
  _lnprob : matrix;
  _AMbuffer : option (list matrix);
  _DEbuffer : option (list matrix + matrix)
}.

Record counter_attrs : Type := {
  naccepted : pyfloat;
  swapProposed : Z;
  nswap_accepted : Z
}.

Record PTSampler : Type := {
  init : init_attrs;
  run : option run_attrs;
  covm : cov_attrs;
  cycle : cycle_attrs;
  store : store_attrs;
  counters : counter_attrs;
  weights : list (string * Z);
  trace : list event
}.

Definition set_run (r : option run_attrs) (s : PTSampler) : PTSampler :=
  {| init := init s; run := r; covm := covm s; cycle := cycle s;
     store := store s; counters := counters s; weights := weights s;
     trace := trace s |}.

Definition set_covm (c : cov_attrs) (s : PTSampler) : PTSampler :=
  {| init := init s; run := run s; covm := c; cycle := cycle s;
     store := store s; counters := counters s; weights := weights s;
     trace := trace s |}.

Definition set_cycle (c : cycle_attrs) (s : PTSampler) : PTSampler :=
  {| init := init s; run := run s; covm := covm s; cycle := c;
     store := store s; counters := counters s; weights := weights s;
     trace := trace s |}.

Definition set_store (c : store_attrs) (s : PTSampler) : PTSampler :=
  {| init := init s; run := run s; covm := covm s; cycle := cycle s;
     store := c; counters := counters s; weights := weights s;
     trace := trace s |}.

Definition set_counters (c : counter_attrs) (s : PTSampler) : PTSampler :=
  {| init := init s; run := run s; covm := covm s; cycle := cycle s;
     store := store s; counters := c; weights := weights s;
     trace := trace s |}.

Definition set_weights (w : list (string * Z)) (s : PTSampler) : PTSampler :=
  {| init := init s; run := run s; covm := covm s; cycle := cycle s;
     store := store s; counters := counters s; weights := w;
     trace := trace s |}.

Definition set_trace (t : list event) (s : PTSampler) : PTSampler :=
  {| init := init s; run := run s; covm := covm s; cycle := cycle s;
     store := store s; counters := counters s; weights := weights s;
     trace := t |}.

Definition set_propCycle (l : list proposal) (c : cycle_attrs) : cycle_attrs :=
  {| propCycle := l; jumpDict := jumpDict c; aux := aux c;
     randomizedPropCycle := randomizedPropCycle c |}.

Definition set_jumpDict (d : gmap string (Z * Z)) (c : cycle_attrs) : cycle_attrs :=
  {| propCycle := propCycle c; jumpDict := d; aux := aux c;
     randomizedPropCycle := randomizedPropCycle c |}.

Definition set_randomizedPropCycle (l : list proposal) (c : cycle_attrs) : cycle_attrs :=
  {| propCycle := propCycle c; jumpDict := jumpDict c; aux := aux c;
     randomizedPropCycle := l |}.

(** ** Methods: state and exceptions *)

(** A method body: it may mutate the object and then returns or
    raises. *)
Definition M (A : Type) : Type := PTSampler -> PTSampler * res A.

Definition ret {A} (a : A) : M A := fun s => (s, Ok a).
Definition raise {A} (e : exn) : M A := fun s => (s, Raise e).
Definition bind {A B} (m : M A) (k : A -> M B) : M B :=
  fun s => match m s with
           | (s', Ok a) => k a s'
           | (s', Raise e) => (s', Raise e)
           end.
Definition get : M PTSampler := fun s => (s, Ok s).
Definition modify (f : PTSampler -> PTSampler) : M unit := fun s => (f s, Ok tt).
Definition emit (e : event) : M unit :=
  modify (fun s => set_trace (trace s ++ [e]) s).

Notation "'let*' x ':=' m 'in' k" := (bind m (fun x => k))
  (at level 10, x pattern, m at level 100, k at level 200).
Notation "'run*' m 'in' k" := (bind m (fun _ => k))
  (at level 10, m at level 100, k at level 200).

(** Reading an attribute that [initialize] binds. *)
Definition attr {A} (name : string) (f : run_attrs -> A) : M A :=
  fun s => match run s with
           | Some r => (s, Ok (f r))
           | None => (s, Raise (AttributeError name))
           end.

(** [for x in xs: body x]. *)
Fixpoint for_each {A} (xs : list A) (body : A -> M unit) : M unit :=
  match xs with
  | [] => ret tt
  | x :: xs' => run* body x in for_each xs' body
  end.

(** [range(lo, hi)]. *)
Definition range (lo hi : Z) : list Z := seqZ lo (hi - lo).

(** [l[i]] for a Python list or an axis of a numpy array: a negative
    index counts from the end, an index out of range raises. *)
Definition py_index {A} (l : list A) (i : Z) : res A :=
  let n := Z.of_nat (length l) in
  let j := if i <? 0 then i + n else i in
  if (0 <=? j) && (j <? n) then
    match l !! Z.to_nat j with
    | Some a => Ok a
    | None => Raise IndexError
    end
  else Raise IndexError.

(** [l[lo:hi]]: negative bounds count from the end, bounds are then
    clipped to the list. *)
Definition py_clip (n i : Z) : Z :=
  let j := if i <? 0 then i + n else i in
  Z.max 0 (Z.min n j).

Definition py_slice {A} (l : list A) (lo hi : Z) : list A :=
  let n := Z.of_nat (length l) in
  let a := py_clip n lo in
  let b := py_clip n hi in
  take (Z.to_nat (b - a)) (drop (Z.to_nat a) l).

Definition lift {A} (r : res A) : M A := fun s => (s, r).

(** ** Arrays *)

Definition res_bind {A B} (r : res A) (k : A -> res B) : res B :=
  match r with
  | Ok a => k a
  | Raise e => Raise e
  end.

Notation "'let?' x ':=' r 'in' k" := (res_bind r (fun x => k))
  (at level 10, x pattern, r at level 100, k at level 200).

Fixpoint res_map {A B} (f : A -> res B) (l : list A) : res (list B) :=
  match l with
  | [] => Ok []
  | x :: l' =>
      let? y := f x in
      let? ys := res_map f l' in
      Ok (y :: ys)
  end.

(** [l[i] = v]. *)
Definition py_set {A} (l : list A) (i : Z) (v : A) : res (list A) :=
  let n := Z.of_nat (length l) in
  let j := if i <? 0 then i + n else i in
  if (0 <=? j) && (j <? n) then Ok (<[Z.to_nat j := v]> l)
  else Raise IndexError.

(** [m[i, j]] and [m[i, j] = v]. *)
Definition py_index2 {A} (m : list (list A)) (i j : Z) : res A :=
  let? row := py_index m i in
  py_index row j.

Definition py_set2 {A} (m : list (list A)) (i j : Z) (v : A) : res (list (list A)) :=
  let? row := py_index m i in
  let? row' := py_set row j v in
  py_set m i row'.

(** [a[i, j, k]]. *)
Definition py_index3 {A} (a : list (list (list A))) (i j k : Z) : res A :=
  let? m := py_index a i in
  py_index2 m j k.

(** [a[i, j, :] = v]: the row is overwritten by a vector of its own
    length (numpy's broadcast of a shorter vector is not modelled: it
    raises here). *)
Definition py_set_row (a : list matrix) (i j : Z) (v : vec) : res (list matrix) :=
  let? m := py_index a i in
  let? row := py_index m j in
  if (length v =? length row)%nat then
    let? m' := py_set m j v in
    py_set a i m'
  else Raise (ValueError "could not broadcast input array").

Definition enumerate {A} (l : list A) : list (Z * A) :=
  zip (seqZ 0 (Z.of_nat (length l))) l.

(** Element-wise arithmetic on arrays of equal shape. *)
Definition vsub (x y : vec) : vec := zip_with fsub x y.
Definition madd (a b : matrix) : matrix := zip_with (zip_with fadd) a b.
Definition np_outer (x y : vec) : matrix := map (fun a => map (fun b => fmul a b) y) x.
Definition mdiv (a : matrix) (c : pyfloat) : matrix := map (map (fun v => fdiv v c)) a.

(** ** The proposal cycle *)

Definition jump_file (dir name : string) : string :=
  String.append dir (String.append "/" (String.append name "_jump.txt")).

(** [self.propCycle.append(func)]. *)
Definition propCycle_append (func : proposal) (s : PTSampler) : PTSampler :=
  set_cycle (set_propCycle (propCycle (cycle s) ++ [func]) (cycle s)) s.

(** [self.jumpDict[name] = [0, 0]]. *)
Definition jumpDict_add (name : string) (s : PTSampler) : PTSampler :=
  set_cycle (set_jumpDict (<[name := (0, 0)]> (jumpDict (cycle s))) (cycle s)) s.

(** [addProposalToCycle(self, func, weight)]. *)
Definition addProposalToCycle (func : proposal) (weight : Z) : M unit :=
  let* s := get in
  let length := Z.of_nat (length (propCycle (cycle s))) in
  if weight =? 0 then ret tt
  else
    run* for_each (range length (length + weight)) (fun _ =>
           modify (propCycle_append func)) in
    let* s := get in
    match jumpDict (cycle s) !! pname func with
    | None =>
        run* modify (jumpDict_add (pname func)) in
        let* stats := attr "save_jump_stats" save_jump_stats in
        if stats then emit (EvOpen (jump_file (outDir (init s)) (pname func)) "w")
        else ret tt
    | Some _ => ret tt
    end.

(** [addAuxilaryJump(self, func)]. *)
Definition addAuxilaryJump (func : auxjump) : M unit :=
  modify (fun s =>
    set_cycle {| propCycle := propCycle (cycle s); jumpDict := jumpDict (cycle s);
                 aux := aux (cycle s) ++ [func];
                 randomizedPropCycle := randomizedPropCycle (cycle s) |} s).

(** [randomizeProposalCycle(self)]; [index] is the shuffled
    [np.arange(length)] that [np.random.shuffle] leaves. *)
Definition randomizeProposalCycle (index : list Z) : M unit :=
  let* s := get in
  let* l := lift (res_map (py_index (propCycle (cycle s))) index) in
  modify (fun s => set_cycle (set_randomizedPropCycle l (cycle s)) s).

(** ** The temperature ladder *)

(** The arithmetic [temperatureLadder] is written in.  The sampler runs
    it on floats; its analysis reads it over the real numbers. *)
Class Numeric (T : Type) : Type := {
  num_of_Z : Z -> T;
  num_add : T -> T -> T;
  num_mul : T -> T -> T;
  num_div : T -> T -> T;
  num_pow : T -> Z -> T;
  num_exp : T -> T;
  num_log : T -> T;
  num_sqrt : T -> T;
  num_is_zero : T -> bool
}.

(** [temperatureLadder(self, Tmin, Tmax=None, tstep=None)], with
    [self.nchain] and [self.ndim] as arguments.  [2 / self.ndim] is a
    division of Python integers and [Tmax / Tmin] one of Python
    scalars: both raise on a zero divisor. *)
Definition temperatureLadder {T} `{Numeric T} (nchain ndim : Z)
    (Tmin : T) (Tmax tstep : option T) : res (list T) :=
  if 1 <? nchain then
    let tstep' :=
      match tstep, Tmax with
      | None, None =>
          if ndim =? 0 then Raise ZeroDivisionError
          else Ok (num_add (num_of_Z 1)
                     (num_sqrt (num_div (num_of_Z 2) (num_of_Z ndim))))
      | None, Some tmax =>
          if num_is_zero Tmin then Raise ZeroDivisionError
          else Ok (num_exp (num_div (num_log (num_div tmax Tmin))
                                    (num_of_Z (nchain - 1))))
      | Some t, _ => Ok t
      end in
    match tstep' with
    | Ok t => Ok ((fun ii => num_mul Tmin (num_pow t ii)) <$> range 0 nchain)
    | Raise e => Raise e
    end
  else Ok [num_of_Z 1].

(** ** numpy allocation *)

Definition np_zeros1 (n : Z) : res vec :=
  if n <? 0 then Raise (ValueError "negative dimensions are not allowed")
  else Ok (replicate (Z.to_nat n) (Finite 0%Qc)).

Definition np_zeros2 (r c : Z) : res matrix :=
  if (r <? 0) || (c <? 0) then Raise (ValueError "negative dimensions are not allowed")
  else Ok (replicate (Z.to_nat r) (replicate (Z.to_nat c) (Finite 0%Qc))).

Definition np_zeros3 (a r c : Z) : res (list matrix) :=
  if (a <? 0) || (r <? 0) || (c <? 0)
  then Raise (ValueError "negative dimensions are not allowed")
  else Ok (replicate (Z.to_nat a)
             (replicate (Z.to_nat r) (replicate (Z.to_nat c) (Finite 0%Qc)))).

(** ** Setup *)

Definition DE : string := "DifferentialEvolution".

Definition DE_alone_msg : string :=
  "The 'DifferentialEvolution' jump proposal can only be used after burnin. Please provide an additional jump proposal".

Definition no_jump_msg : string := "No jump proposals specified!".

Definition loadtxt_msg : string := "could not convert string to float".

Section Sampler.

(** The module [proposals] and numpy's functions are not part of this
    file of the repository; they are parameters.
    - [kwargs]: what a proposal class is built from;
    - [prop_getattr key]: [getattr(prop, key)] when [hasattr(prop, key)];
    - [prop_default]: [prop.__default__];
    - [is_DEJump f]: [f] is the object [prop.DEJump];
    - [grad_kwargs]: the dictionary built for the gradient jumps;
    - [kwargs_update d e]: [d] after [d[k] = e[k]] for every key of [e];
    - [str_of_float]: ["{0}".format(x)];
    - [np_exp], [np_log], [np_sqrt]: numpy's functions on floats;
    - [np_linalg_svd]: [np.linalg.svd], of which the first two results
      are kept. *)
Context {kwargs : Type}
        (prop_getattr : string -> option (option kwargs -> proposal))
        (prop_default : list string)
        (is_DEJump : proposal -> bool)
        (grad_kwargs : (vec -> pyfloat * vec) -> (vec -> pyfloat * vec) ->
                       matrix -> Z -> kwargs)
        (kwargs_update : kwargs -> kwargs -> kwargs)
        (str_of_float : pyfloat -> string)
        (np_exp np_log np_sqrt : pyfloat -> pyfloat)
        (np_linalg_svd : matrix -> matrix * vec).

Fixpoint pyfloat_pow (x : pyfloat) (n : nat) : pyfloat :=
  match n with
  | O => Finite 1%Qc
  | S n' => fmul x (pyfloat_pow x n')
  end.

#[local] Instance pyfloat_numeric : Numeric pyfloat := {|
  num_of_Z := of_Z;
  num_add := fadd;
  num_mul := fmul;
  num_div := fdiv;
  num_pow := fun x ii => pyfloat_pow x (Z.to_nat ii);
  num_exp := np_exp;
  num_log := np_log;
  num_sqrt := np_sqrt;
  num_is_zero := fun x => feq x (Finite 0%Qc)
|}.

(** [get_proposal_object_from_name(key)]. *)
Definition get_proposal_object_from_name (key : string)
  : res (option kwargs -> proposal) :=
  match prop_getattr key with
  | Some c => Ok c
  | None => Raise (AttributeError key)
  end.

(** [default_weights()]. *)
Definition default_weights : list (string * Z) :=
  (fun i => (i, 1)) <$> prop_default.

(** The weights [initialize_jump_proposals] works with:
    [if len(weights) == 0: weights = self.default_weights()]. *)
Definition effective_weights (weights : list (string * Z)) : list (string * Z) :=
  if (length weights =? 0)%nat then default_weights else weights.

(** [initialize_jump_proposals(self, weights, kwargs)].  A dictionary
    of weights is the list of its items in insertion order. *)
Definition initialize_jump_proposals (weights : list (string * Z))
    (initalize_jump_proposal_kwargs : gmap string kwargs) : M unit :=
  let weights := effective_weights weights in
  if decide (weights.*1 = [DE]) then raise (Exception DE_alone_msg)
  else
    for_each weights (fun '(key, w) =>
      let* name := lift (get_proposal_object_from_name key) in
      let kwargs := initalize_jump_proposal_kwargs !! key in
      if decide (key <> DE) then addProposalToCycle (name kwargs) w
      else ret tt).

Record initialize_args : Type := {
  a_Niter : Z;
  a_ladder : option (list pyfloat);
  a_Tmin : pyfloat;
  a_Tmax : option pyfloat;
  a_Tskip : Z;
  a_isave : Z;
  a_covUpdate : Z;
  a_weights : list (string * Z);
  a_initialize_jump_proposal_kwargs : gmap string kwargs;
  a_burn : Z;
  a_maxIter : option Z;
  a_thin : Z;
  a_i0 : Z;
  a_neff : Z;
  a_write_cold_chains : bool;
  a_writeHotChains : bool;
  a_save_jump_stats : bool;
  a_hotChain : bool;
  a_n_cold_chains : Z
}.

(** What [initialize] reads from outside: the shuffle, whether the
    chain file exists, and what [np.loadtxt] returns, before and after
    the last line of the file is removed ([None]: the [ValueError] of a
    line that does not parse). *)
Record initialize_env : Type := {
  e_index : list Z;
  e_isfile : bool;
  e_loadtxt : option (vec + matrix);
  e_loadtxt_retry : option (vec + matrix)
}.

Definition shape0 (a : vec + matrix) : Z :=
  match a with
  | inl v => Z.of_nat (length v)
  | inr m => Z.of_nat (length m)
  end.

Definition hot_temp : pyfloat :=
  Finite (Q2Qc (inject_Z (10 ^ 80))).

(** The default of [maxIter], at the head of [initialize] and of
    [sample]. *)
Definition default_maxIter (rank Niter : Z) (maxIter : option Z) : Z :=
  match maxIter with
  | Some m => m
  | None => if 0 <? rank then 2 * Niter else Niter
  end.

(** [int(maxIter / thin)]. *)
Definition chain_rows (maxIter thin : Z) : res Z :=
  if thin =? 0 then Raise ZeroDivisionError else Ok (Z.quot maxIter thin).

(** The attributes of a resumed chain file. *)
Definition set_resumechain (loaded : vec + matrix) (r : run_attrs) : run_attrs :=
  {| ladder := ladder r; covUpdate := covUpdate r; burn := burn r;
     Tskip := Tskip r; thin := thin r; isave := isave r; Niter := Niter r;
     write_cold_chains := write_cold_chains r;
     writeHotChains := writeHotChains r; save_jump_stats := save_jump_stats r;
     n_cold_chains := n_cold_chains r; temp := temp r; fname := fname r;
     resumeLength := shape0 loaded; resumechain := loaded |}.

(** [initialize], from its head to "write hot chains": the arrays,
    the ladder, the temperature and the file name.  The attributes
    [initialize] binds are bound together at the end of this part
    (the proposals registered next are the first to read one of them),
    [resumeLength] with the value [0] it gets further down; the
    attributes [neff], [tstart], [iter] and
    [initialize_jump_proposal_kwargs] are read by no modelled method
    and are left out.  The result is the dictionary handed to
    [initialize_jump_proposals]. *)
Definition initialize_attributes (a : initialize_args) : M (gmap string kwargs) :=
  let* s := get in
  let rank := MPIrank (init s) in
  let maxIter := default_maxIter rank (a_Niter a) (a_maxIter a) in
  let* N := lift (chain_rows maxIter (a_thin a)) in
  let* lnprob := lift (np_zeros2 (a_n_cold_chains a) N) in
  let* lnlike := lift (np_zeros2 (a_n_cold_chains a) N) in
  let* chain := lift (np_zeros3 (a_n_cold_chains a) N (ndim (init s))) in
  let* bufs :=
    if rank =? 0 then
      let* am := lift (np_zeros3 (a_n_cold_chains a) (a_Niter a + 1) (ndim (init s))) in
      let* de := lift (np_zeros3 (a_n_cold_chains a) (a_burn a + 1) (ndim (init s))) in
      ret (Some am, Some (inl de))
    else ret (_AMbuffer (store s), _DEbuffer (store s)) in
  run* modify (fun s =>
         set_counters {| naccepted := of_Z 0; swapProposed := 0; nswap_accepted := 0 |}
           (set_store {| _chain := chain; _lnlike := lnlike; _lnprob := lnprob;
                         _AMbuffer := bufs.1; _DEbuffer := bufs.2 |} s)) in
  let kw :=
    match logl_grad (init s), logp_grad (init s) with
    | Some gl, Some gp =>
        let mala := grad_kwargs gl gp (cov (covm s)) (a_burn a) in
        let kw1 := <["MALA" := mala]> (a_initialize_jump_proposal_kwargs a) in
        match kw1 !! "HMC" with
        | None => <["HMC" := mala]> kw1
        | Some hmc => <["HMC" := kwargs_update hmc mala]> kw1
        end
    | _, _ => a_initialize_jump_proposal_kwargs a
    end in
  let* ladder :=
    match a_ladder a with
    | Some l => ret l
    | None => lift (temperatureLadder (nchain (init s)) (ndim (init s))
                      (a_Tmin a) (a_Tmax a) None)
    end in
  let* temp0 := lift (py_index ladder rank) in
  let hot := a_hotChain a && (rank =? nchain (init s) - 1) in
  let temp := if hot then hot_temp else temp0 in
  let fname :=
    if hot then String.append (outDir (init s)) "/chain_hot.txt"
    else String.append (outDir (init s))
           (String.append "/chain_" (String.append (str_of_float temp) ".txt")) in
  let r := {| ladder := ladder; covUpdate := a_covUpdate a; burn := a_burn a;
              Tskip := a_Tskip a; thin := a_thin a; isave := a_isave a;
              Niter := a_Niter a; write_cold_chains := a_write_cold_chains a;
              writeHotChains := a_writeHotChains a;
              save_jump_stats := a_save_jump_stats a;
              n_cold_chains := a_n_cold_chains a; temp := temp; fname := fname;
              resumeLength := 0; resumechain := inl [] |} in
  run* modify (set_run (Some r)) in
  ret kw.

(** [initialize], from the registration of the proposals to its end:
    the check of the cycle, the shuffle, the chain file. *)
Definition initialize_cycle (a : initialize_args) (e : initialize_env)
    (kw : gmap string kwargs) : M unit :=
  run* initialize_jump_proposals (a_weights a) kw in
  let* s := get in
  if (length (propCycle (cycle s)) =? 0)%nat then raise (ValueError no_jump_msg)
  else
    run* randomizeProposalCycle (e_index e) in
    let* fname := attr "fname" fname in
    if resume (init s) && e_isfile e then
      let* loaded :=
        match e_loadtxt e with
        | Some arr => ret arr
        | None =>
            match e_loadtxt_retry e with
            | Some arr => ret arr
            | None => raise (ValueError loadtxt_msg)
            end
        end in
      run* modify (fun s => set_run (set_resumechain loaded <$> run s) s) in
      emit (EvOpen fname "a")
    else if a_write_cold_chains a then emit (EvOpen fname "w")
    else ret tt.

(** [initialize(self, Niter, ...)]. *)
Definition initialize (a : initialize_args) (e : initialize_env) : M unit :=
  let* kw := initialize_attributes a in
  initialize_cycle a e kw.

(** ** The covariance estimator *)

(** The loop "do svd on parameter groups" of [__init__],
    [_updateRecursive] and [PTMCMCOneStep]. *)
Definition svd_on_groups : M unit :=
  let* s := get in
  for_each (enumerate (groups (init s))) (fun '(ct, group) =>
    let* s := get in
    let* covgroup := lift (res_map (fun gi =>
                       res_map (fun gj => py_index2 (cov (covm s)) gi gj) group) group) in
    let '(u, sv) := np_linalg_svd covgroup in
    let* U' := lift (py_set (svd_U (covm s)) ct u) in
    let* S' := lift (py_set (svd_S (covm s)) ct sv) in
    modify (fun s => set_covm {| cov := cov (covm s); svd_U := U'; svd_S := S';
                                 M2 := M2 (covm s); mu := mu (covm s) |} s)).

(** [PTSampler.__init__] (one process, of rank [rank] among [size]);
    the creation of the output directory is left out.  The attributes
    that [initialize] and [sample] bind are not bound yet: [run] is
    [None], the buffers are [None], the arrays of [store] and
    [weights] are empty. *)
Definition PTSampler_init (rank size n : Z) (logl0 logp0 : vec -> pyfloat)
    (cov0 : matrix) (groups0 : option (list (list Z)))
    (logl_grad0 logp_grad0 : option (vec -> pyfloat * vec))
    (outDir0 : string) (resume0 : bool) : res PTSampler :=
  let grads :=
    match logl_grad0, logp_grad0 with
    | Some gl, Some gp => (Some gl, Some gp)
    | _, _ => (None, None)
    end in
  let gs :=
    match groups0 with
    | Some g => g
    | None => [range 0 n]
    end in
  let s :=
    {| init := {| MPIrank := rank; nchain := size; ndim := n; logl := logl0;
                  logp := logp0; logl_grad := grads.1; logp_grad := grads.2;
                  outDir := outDir0; resume := resume0; groups := gs |};
       run := None;
       covm := {| cov := cov0; svd_U := replicate (length gs) [];
                  svd_S := replicate (length gs) []; M2 := []; mu := [] |};
       cycle := {| propCycle := []; jumpDict := ∅; aux := [];
                   randomizedPropCycle := [] |};
       store := {| _chain := []; _lnlike := []; _lnprob := [];
                   _AMbuffer := None; _DEbuffer := None |};
       counters := {| naccepted := of_Z 0; swapProposed := 0; nswap_accepted := 0 |};
       weights := [];
       trace := [] |} in
  match svd_on_groups s with
  | (s', Ok _) =>
      let? z2 := np_zeros2 n n in
      let? z1 := np_zeros1 n in
      Ok (set_covm {| cov := cov (covm s'); svd_U := svd_U (covm s');
                      svd_S := svd_S (covm s'); M2 := z2; mu := z1 |} s')
  | (_, Raise e) => Raise e
  end.

Definition set_mu (m : vec) (s : PTSampler) : PTSampler :=
  set_covm {| cov := cov (covm s); svd_U := svd_U (covm s); svd_S := svd_S (covm s);
              M2 := M2 (covm s); mu := m |} s.

Definition set_M2 (m : matrix) (s : PTSampler) : PTSampler :=
  set_covm {| cov := cov (covm s); svd_U := svd_U (covm s); svd_S := svd_S (covm s);
              M2 := m; mu := mu (covm s) |} s.

Definition set_cov (m : matrix) (s : PTSampler) : PTSampler :=
  set_covm {| cov := m; svd_U := svd_U (covm s); svd_S := svd_S (covm s);
              M2 := M2 (covm s); mu := mu (covm s) |} s.

(** [self._AMbuffer]. *)
Definition get_AMbuffer : M (list matrix) :=
  fun s => match _AMbuffer (store s) with
           | Some am => (s, Ok am)
           | None => (s, Raise (AttributeError "_AMbuffer"))
           end.

(** The loop over [jj] of [_updateRecursive]: [diff] is the local
    array, [self.mu] is updated in place. *)
Fixpoint updateRecursive_jj (chain_ind row it : Z) (jjs : list Z) (diff : vec)
  : M vec :=
  match jjs with
  | [] => ret diff
  | jj :: jjs' =>
      let* am := get_AMbuffer in
      let* s := get in
      let* x := lift (py_index3 am chain_ind row jj) in
      let* m := lift (py_index (mu (covm s)) jj) in
      let* diff' := lift (py_set diff jj (fsub x m)) in
      let* d := lift (py_index diff' jj) in
      let* mu' := lift (py_set (mu (covm s)) jj (fadd m (fdiv d (of_Z it)))) in
      run* modify (set_mu mu') in
      updateRecursive_jj chain_ind row it jjs' diff'
  end.

(** The loop over [ii] of [_updateRecursive]; the local [it] is
    threaded through and returned. *)
Fixpoint updateRecursive_ii (iter mem chain_ind : Z) (iis : list Z) (it : Z)
  : M Z :=
  match iis with
  | [] => ret it
  | ii :: iis' =>
      let* s := get in
      let* diff0 := lift (np_zeros1 (ndim (init s))) in
      let it := it + 1 in
      let* diff := updateRecursive_jj chain_ind (iter - mem + ii) it
                     (range 0 (ndim (init s))) diff0 in
      let* am := get_AMbuffer in
      let* chain := lift (py_index am chain_ind) in
      let* x := lift (py_index chain (iter - mem + ii)) in
      run* modify (fun s =>
             set_M2 (madd (M2 (covm s)) (np_outer diff (vsub x (mu (covm s))))) s) in
      updateRecursive_ii iter mem chain_ind iis' it
  end.

(** [_updateRecursive(self, iter, mem, chain_ind)]. *)
Definition _updateRecursive (iter mem chain_ind : Z) : M unit :=
  let it := iter - mem in
  let* s := get in
  run* (if it =? 0 then
          let* z2 := lift (np_zeros2 (ndim (init s)) (ndim (init s))) in
          let* z1 := lift (np_zeros1 (ndim (init s))) in
          modify (fun s => set_mu z1 (set_M2 z2 s))
        else ret tt) in
  let* it := updateRecursive_ii iter mem chain_ind (range 0 mem) it in
  run* modify (fun s => set_cov (mdiv (M2 (covm s)) (of_Z (it - 1))) s) in
  svd_on_groups.

(** ** The differential-evolution buffer *)

Definition set_DEbuffer (b : option (list matrix + matrix)) (s : PTSampler) : PTSampler :=
  set_store {| _chain := _chain (store s); _lnlike := _lnlike (store s);
               _lnprob := _lnprob (store s); _AMbuffer := _AMbuffer (store s);
               _DEbuffer := b |} s.

(** [_updateDEbuffer(self, iter, burn, chain_ind)]. *)
Definition _updateDEbuffer (iter burn chain_ind : Z) : M unit :=
  let* am := get_AMbuffer in
  let* chain := lift (py_index am chain_ind) in
  modify (set_DEbuffer (Some (inr (py_slice chain (iter - burn) iter)))).

(** ** Recording the trajectory *)

(** [a % b] and [a / b] on Python integers. *)
Definition py_mod (a b : Z) : res Z :=
  if b =? 0 then Raise ZeroDivisionError else Ok (a mod b).

Definition py_truediv (a b : pyfloat) : res pyfloat :=
  if feq b (Finite 0%Qc) then Raise ZeroDivisionError else Ok (fdiv a b).

(** [range(lo, hi, step)]. *)
Definition range_step (lo hi step : Z) : res (list Z) :=
  if step =? 0 then Raise (ValueError "range() arg 3 must not be zero")
  else if 0 <? step then
    Ok ((fun k => lo + k * step) <$> seqZ 0 ((hi - lo + step - 1) / step))
  else
    Ok ((fun k => lo + k * step) <$> seqZ 0 ((lo - hi - step - 1) / (- step))).

(** ["%f" % a] for an array [a] of one axis: only an array of a single
    element converts to a scalar. *)
Definition format_array (a : vec) : res pyfloat :=
  match a with
  | [x] => Ok x
  | _ => Raise TypeError
  end.

Definition set_AMbuffer (b : option (list matrix)) (s : PTSampler) : PTSampler :=
  set_store {| _chain := _chain (store s); _lnlike := _lnlike (store s);
               _lnprob := _lnprob (store s); _AMbuffer := b;
               _DEbuffer := _DEbuffer (store s) |} s.

Definition set_chain (c : list matrix) (s : PTSampler) : PTSampler :=
  set_store {| _chain := c; _lnlike := _lnlike (store s);
               _lnprob := _lnprob (store s); _AMbuffer := _AMbuffer (store s);
               _DEbuffer := _DEbuffer (store s) |} s.

Definition set_lnlike (l : matrix) (s : PTSampler) : PTSampler :=
  set_store {| _chain := _chain (store s); _lnlike := l;
               _lnprob := _lnprob (store s); _AMbuffer := _AMbuffer (store s);
               _DEbuffer := _DEbuffer (store s) |} s.

Definition set_lnprob (l : matrix) (s : PTSampler) : PTSampler :=
  set_store {| _chain := _chain (store s); _lnlike := _lnlike (store s);
               _lnprob := l; _AMbuffer := _AMbuffer (store s);
               _DEbuffer := _DEbuffer (store s) |} s.

(** [_writeToFile(self, iter)].  A row of the chain file is two
    [write]s: the parameters, then the four trailing columns.  Of the
    jump statistics, the lines of [jumps.txt] are left out (they count
    objects of the cycle by identity). *)
Definition _writeToFile (iter : Z) : M unit :=
  let* fname := attr "fname" fname in
  run* emit (EvOpen fname "a+") in
  let* isave := attr "isave" isave in
  let* thin := attr "thin" thin in
  let* jjs := lift (range_step (iter - isave) iter thin) in
  run* for_each jjs (fun jj =>
         let ind := Z.quot jj thin in
         let* s := get in
         let pt_acc :=
           if (MPIrank (init s) <? nchain (init s) - 1)
              && negb (swapProposed (counters s) =? 0)
           then fdiv (of_Z (nswap_accepted (counters s)))
                     (of_Z (swapProposed (counters s)))
           else of_Z 1 in
         let* params := lift (res_map (fun kk =>
                          let? a := py_index2 (_chain (store s)) ind kk in
                          format_array a) (range 0 (ndim (init s)))) in
         run* emit (EvWrite fname params) in
         let* lnprob := lift (py_index (_lnprob (store s)) ind) in
         let* lnlike := lift (py_index (_lnlike (store s)) ind) in
         let* acc := lift (py_truediv (naccepted (counters s)) (of_Z iter)) in
         let* lnprob' := lift (format_array lnprob) in
         let* lnlike' := lift (format_array lnlike) in
         emit (EvWrite fname [lnprob'; lnlike'; acc; pt_acc])) in
  let* s := get in
  if MPIrank (init s) =? 0 then
    run* emit (EvOpen (String.append (outDir (init s)) "/jumps.txt") "w") in
    for_each (map_to_list (jumpDict (cycle s))) (fun '(jump, (proposed, accepted)) =>
      run* emit (EvOpen (jump_file (outDir (init s)) jump) "a+") in
      emit (EvWrite (jump_file (outDir (init s)) jump)
              [fdiv (of_Z accepted) (of_Z (Z.max 1 proposed))]))
  else ret tt.

(** [updateChains(self, p0, lnlike0, lnprob0, iter, chain_ind)]; the
    progress line printed to the screen is left out. *)
Definition updateChains (p0 : vec) (lnlike0 lnprob0 : pyfloat)
    (iter chain_ind : Z) : M unit :=
  let* s := get in
  run* (if MPIrank (init s) =? 0 then
          let* am := get_AMbuffer in
          let* am' := lift (py_set_row am chain_ind iter p0) in
          modify (set_AMbuffer (Some am'))
        else ret tt) in
  let* thin := attr "thin" thin in
  let* r := lift (py_mod iter thin) in
  run* (if r =? 0 then
          let ind := Z.quot iter thin in
          let* s := get in
          let* c := lift (py_set_row (_chain (store s)) chain_ind ind p0) in
          run* modify (set_chain c) in
          let* l := lift (py_set2 (_lnlike (store s)) chain_ind ind lnlike0) in
          run* modify (set_lnlike l) in
          let* l := lift (py_set2 (_lnprob (store s)) chain_ind ind lnprob0) in
          modify (set_lnprob l)
        else ret tt) in
  let* write_cold := attr "write_cold_chains" write_cold_chains in
  if write_cold then
    let* isave := attr "isave" isave in
    let* r := lift (py_mod iter isave) in
    let* resumeLength := attr "resumeLength" resumeLength in
    if (r =? 0) && (1 <? iter) && (resumeLength <? iter) then
      let* writeHot := attr "writeHotChains" writeHotChains in
      let* s := get in
      run* (if writeHot || (MPIrank (init s) =? 0) then _writeToFile iter
            else ret tt) in
      let* s := get in
      emit (EvSave (String.append (outDir (init s)) "/cov.npy") (cov (covm s)))
    else ret tt
  else ret tt.

(** ** The start of [sample] *)

(** The row [iter] of the resumed chain file:
    [resumechain[iter, :-4]], [resumechain[iter, -3]] and
    [resumechain[iter, -4]]. *)
Definition resume_row (a : vec + matrix) (iter : Z)
  : res (vec * pyfloat * pyfloat) :=
  match a with
  | inl _ => Raise IndexError
  | inr m =>
      let? row := py_index m iter in
      let p0 := py_slice row 0 (-4) in
      let? lnlike0 := py_index row (-3) in
      let? lnprob0 := py_index row (-4) in
      Ok (p0, lnlike0, lnprob0)
  end.

(** [lp = self.logp(y)] and [l = self.logl(y)]: the call is recorded. *)
Definition call_logp (y : vec) : M pyfloat :=
  let* s := get in
  run* emit (EvLogp y) in
  ret (logp (init s) y).

Definition call_logl (y : vec) : M pyfloat :=
  let* s := get in
  run* emit (EvLogl y) in
  ret (logl (init s) y).

(** [1 / self.temp * lnlike + lp]. *)
Definition tempered (temp lnlike lp : pyfloat) : pyfloat :=
  fadd (fmul (fdiv (of_Z 1) temp) lnlike) lp.

(** [self.resume and self.resumeLength > bound]. *)
Definition resuming_at (bound : Z) : M bool :=
  let* s := get in
  if resume (init s) then
    let* resumeLength := attr "resumeLength" resumeLength in
    ret (bound <? resumeLength)
  else ret false.

(** The arguments [sample] hands to [initialize]: its own, with the
    default of [maxIter] resolved and without [save_jump_stats]. *)
Definition sample_initialize_args (maxIter : Z) (a : initialize_args)
  : initialize_args :=
  {| a_Niter := a_Niter a; a_ladder := a_ladder a; a_Tmin := a_Tmin a;
     a_Tmax := a_Tmax a; a_Tskip := a_Tskip a; a_isave := a_isave a;
     a_covUpdate := a_covUpdate a; a_weights := a_weights a;
     a_initialize_jump_proposal_kwargs := a_initialize_jump_proposal_kwargs a;
     a_burn := a_burn a; a_maxIter := Some maxIter; a_thin := a_thin a;
     a_i0 := a_i0 a; a_neff := a_neff a;
     a_write_cold_chains := a_write_cold_chains a;
     a_writeHotChains := a_writeHotChains a;
     a_save_jump_stats := false; a_hotChain := a_hotChain a;
     a_n_cold_chains := a_n_cold_chains a |}.

(** [sample(self, p0, Niter, ...)] up to the barrier in front of the
    loop: setup, the first point and its record.  [sample] does not
    hand its [save_jump_stats] on, so [initialize] runs with its
    default [False]. *)
Definition sample_start (p0 : vec) (a : initialize_args) (e : initialize_env)
  : M (vec * pyfloat * pyfloat) :=
  let* s := get in
  let maxIter := default_maxIter (MPIrank (init s)) (a_Niter a) (a_maxIter a) in
  let* N := lift (chain_rows maxIter (a_thin a)) in
  run* (if a_i0 a =? 0 then initialize (sample_initialize_args maxIter a) e
        else ret tt) in
  run* modify (set_weights (a_weights a)) in
  let* resuming := resuming_at 0 in
  let* first :=
    if resuming then
      let* rc := attr "resumechain" resumechain in
      lift (resume_row rc 0)
    else
      let* lp := call_logp p0 in
      if feq lp NInf then ret (p0, NInf, NInf)
      else
        let* lnlike0 := call_logl p0 in
        let* temp := attr "temp" temp in
        ret (p0, lnlike0, tempered temp lnlike0 lp) in
  let '(p0, lnlike0, lnprob0) := first in
  run* updateChains p0 lnlike0 lnprob0 (a_i0 a) 0 in
  ret (p0, lnlike0, lnprob0).

(** ** One Metropolis step *)

(** [update_jump_proposal_kwargs(self, iter)]: the dictionary it binds
    to [self.jump_proposal_kwargs]. *)
Definition update_jump_proposal_kwargs (iter : Z) : M jump_kwargs :=
  let* s := get in
  let* temp := attr "temp" temp in
  match _DEbuffer (store s) with
  | None => raise (AttributeError "_DEbuffer")
  | Some de =>
      ret {| kw_iter := iter; kw_beta := fdiv (of_Z 1) temp;
             kw_groups := groups (init s); kw_U := svd_U (covm s);
             kw_S := svd_S (covm s); kw_naccepted := naccepted (counters s);
             kw_chain := _chain (store s); kw_DEBuffer := de |}
  end.

(** The loop over [self.aux] of [_jump]. *)
Fixpoint apply_aux (auxs : list auxjump) (x q : vec) (qxy : pyfloat) (iter : Z)
    (beta : pyfloat) : vec * pyfloat :=
  match auxs with
  | [] => (q, qxy)
  | a :: auxs' =>
      let '(q', qxy_aux) := a x q iter beta in
      apply_aux auxs' x q' (fadd qxy qxy_aux) iter beta
  end.

(** [_jump(self, x, iter)]; [ind] is the draw of
    [np.random.randint(0, length)]. *)
Definition _jump (x : vec) (iter : Z) (ind : Z) : M (vec * pyfloat * string) :=
  let* s := get in
  let length := Z.of_nat (length (propCycle (cycle s))) in
  if length <=? 0 then raise (ValueError "low >= high")
  else
    let* kw := update_jump_proposal_kwargs iter in
    let* f := lift (py_index (propCycle (cycle s)) ind) in
    let '(q, qxy) := pcall f x kw in
    let* temp := attr "temp" temp in
    let '(q, qxy) := apply_aux (aux (cycle s)) x q qxy iter (fdiv (of_Z 1) temp) in
    ret (q, qxy, pname f).

(** [self.jumpDict[name][k] += 1] for [k = 0] (proposed) and [k = 1]
    (accepted). *)
Definition jumpDict_incr (name : string) (k : nat) : M unit :=
  let* s := get in
  match jumpDict (cycle s) !! name with
  | None => raise (KeyError name)
  | Some (proposed, accepted) =>
      let entry := match k with
                   | O => (proposed + 1, accepted)
                   | _ => (proposed, accepted + 1)
                   end in
      modify (fun s => set_cycle (set_jumpDict (<[name := entry]> (jumpDict (cycle s)))
                                    (cycle s)) s)
  end.

Definition set_naccepted (v : pyfloat) (s : PTSampler) : PTSampler :=
  set_counters {| naccepted := v; swapProposed := swapProposed (counters s);
                  nswap_accepted := nswap_accepted (counters s) |} s.

(** The draws of one Metropolis step: the index into the cycle and
    [np.log(np.random.rand())]. *)
Record jump_env : Type := {
  e_randint : Z;
  e_logU : pyfloat
}.

(** The section "jump proposal" of [PTMCMCOneStep]: the replay of a
    resumed chain, or one Metropolis step.  The local [newlnlike] is
    bound only when the prior is finite. *)
Definition jump_proposal (p0 : vec) (lnlike0 lnprob0 : pyfloat) (iter : Z)
    (e : jump_env) : M (vec * pyfloat * pyfloat) :=
  let* resuming := resuming_at 0 in
  let* resumeLength := if resuming then attr "resumeLength" resumeLength else ret 0 in
  if resuming && (iter <? resumeLength) then
    let* rc := attr "resumechain" resumechain in
    let* row := lift (resume_row rc iter) in
    let* acc := lift match rc with
                     | inl _ => Raise IndexError
                     | inr m => py_index2 m iter (-2)
                     end in
    run* modify (set_naccepted (fmul (of_Z iter) acc)) in
    ret row
  else
    let* (y, qxy, jump_name) := _jump p0 iter (e_randint e) in
    run* jumpDict_incr jump_name 0 in
    let* lp := call_logp y in
    let* new :=
      if feq lp NInf then ret (None, NInf)
      else
        let* newlnlike := call_logl y in
        let* temp := attr "temp" temp in
        ret (Some newlnlike, tempered temp newlnlike lp) in
    let '(newlnlike, newlnprob) := new in
    let diff := fadd (fsub newlnprob lnprob0) qxy in
    if fgt diff (e_logU e) then
      match newlnlike with
      | None => raise (UnboundLocalError "newlnlike")
      | Some newlnlike =>
          let* s := get in
          run* modify (set_naccepted (fadd (naccepted (counters s)) (of_Z 1))) in
          run* jumpDict_incr jump_name 1 in
          ret (y, newlnlike, newlnprob)
      end
    else ret (p0, lnlike0, lnprob0).

(** ** The swap coordinator *)

(** What [PTswap] receives: the decision of the hotter neighbour
    (tag 888), the likelihood of the neighbour (tag 18), the parameters
    that [Sendrecv] leaves in [pnew] (tag 19), whether a proposal of
    the colder neighbour is pending ([Iprobe], tag 18), and
    [np.log(np.random.rand())]. *)
Record swap_env : Type := {
  e_swapAccepted : Z;
  e_lnlike : pyfloat;
  e_pnew : vec;
  e_readyToSwap : bool;
  e_logU_swap : pyfloat
}.

(** The last block of [PTswap]. *)
Definition swapReturn_of (swapProposed swapAccepted : Z) : Z :=
  if negb (swapProposed =? 0) then
    if negb (swapAccepted =? 0) then 2 else 1
  else 0.

(** The exchange both sides make on acceptance: the parameters go to
    [peer] and come back, the posterior is recomputed. *)
Definition exchange (peer : Z) (p0 : vec) (lnlike0 : pyfloat) (e : swap_env)
  : M (vec * pyfloat * pyfloat) :=
  run* emit (EvSend peer 19 (MVec p0)) in
  let p0 := e_pnew e in
  let* temp := attr "temp" temp in
  let* lp := call_logp p0 in
  ret (p0, lnlike0, tempered temp lnlike0 lp).

(** [logChainSwap]. *)
Definition logChainSwap (T_colder T_self lnlike0 newlnlike : pyfloat) : pyfloat :=
  fmul (fsub (fdiv (of_Z 1) T_colder) (fdiv (of_Z 1) T_self))
       (fsub lnlike0 newlnlike).

(** [PTswap(self, p0, lnlike0, lnprob0, iter)]. *)
Definition PTswap (p0 : vec) (lnlike0 lnprob0 : pyfloat) (iter : Z)
    (e : swap_env) : M (Z * vec * pyfloat * pyfloat) :=
  let* s := get in
  let rank := MPIrank (init s) in
  let* tskip := attr "Tskip" Tskip in
  let* r := lift (py_mod iter tskip) in
  let* out :=
    if (r =? 0) && (rank <? nchain (init s) - 1) then
      let swapProposed := 1 in
      run* emit (EvSend (rank + 1) 18 (MFloat lnlike0)) in
      let swapAccepted := e_swapAccepted e in
      if negb (swapAccepted =? 0) then
        let lnlike0 := e_lnlike e in
        let* (p0, lnlike0, lnprob0) := exchange (rank + 1) p0 lnlike0 e in
        ret (swapProposed, swapAccepted, p0, lnlike0, lnprob0)
      else ret (swapProposed, swapAccepted, p0, lnlike0, lnprob0)
    else if 0 <? rank then
      if e_readyToSwap e then
        let newlnlike := e_lnlike e in
        let* ladder := attr "ladder" ladder in
        let* T_colder := lift (py_index ladder (rank - 1)) in
        let* T_self := lift (py_index ladder rank) in
        let swapAccepted :=
          if fgt (logChainSwap T_colder T_self lnlike0 newlnlike) (e_logU_swap e)
          then 1 else 0 in
        run* emit (EvSend (rank - 1) 888 (MInt swapAccepted)) in
        if negb (swapAccepted =? 0) then
          run* emit (EvSend (rank - 1) 18 (MFloat lnlike0)) in
          let lnlike0 := newlnlike in
          let* (p0, lnlike0, lnprob0) := exchange (rank - 1) p0 lnlike0 e in
          ret (0, swapAccepted, p0, lnlike0, lnprob0)
        else ret (0, swapAccepted, p0, lnlike0, lnprob0)
      else ret (0, 0, p0, lnlike0, lnprob0)
    else ret (0, 0, p0, lnlike0, lnprob0) in
  let '(swapProposed, swapAccepted, p0, lnlike0, lnprob0) := out in
  ret (swapReturn_of swapProposed swapAccepted, p0, lnlike0, lnprob0).

(** ** The step driver *)

(** What one call of [PTMCMCOneStep] reads from outside: the two
    [Iprobe]s for a broadcast of rank 0 and the arrays then received,
    the shuffle of a re-randomised cycle, the draws of the Metropolis
    step and the messages of the swap. *)
Record step_env : Type := {
  e_getCovariance : bool;
  e_cov : matrix;
  e_getDEbuf : bool;
  e_DEbuf : list matrix + matrix;
  e_shuffle : list Z;
  e_jump : jump_env;
  e_swap : swap_env
}.

(** [d[key]] for a dictionary given by its items. *)
Fixpoint dict_get (d : list (string * Z)) (key : string) : res Z :=
  match d with
  | [] => Raise (KeyError key)
  | (k, v) :: d' => if decide (k = key) then Ok v else dict_get d' key
  end.

Definition dict_has (d : list (string * Z)) (key : string) : bool :=
  bool_decide (key ∈ d.*1).

(** "update covariance matrix": on rank 0, every [covUpdate]
    iterations, and the broadcast of the result. *)
Definition covariance_update (iter chain_ind : Z) : M unit :=
  let* s := get in
  let* covUpdate := attr "covUpdate" covUpdate in
  let* r := lift (py_mod (iter - 1) covUpdate) in
  if (r =? 0) && negb (iter - 1 =? 0) && (MPIrank (init s) =? 0) then
    run* _updateRecursive (iter - 1) covUpdate chain_ind in
    let* s := get in
    for_each (range 0 (nchain (init s) - 1)) (fun rank =>
      emit (EvSend (rank + 1) 111 (MMat (cov (covm s)))))
  else ret tt.

(** "check for sent covariance matrix from T = 0 chain". *)
Definition covariance_receive (e : step_env) : M unit :=
  let* s := get in
  if e_getCovariance e && (0 <? MPIrank (init s)) then
    run* modify (set_cov (e_cov e)) in
    svd_on_groups
  else ret tt.

(** "update DE buffer": on rank 0, every [burn] iterations, and the
    broadcast of the buffer. *)
Definition DEbuffer_update (iter chain_ind : Z) : M unit :=
  let* s := get in
  let* burn := attr "burn" burn in
  let* r := lift (py_mod (iter - 1) burn) in
  if (r =? 0) && negb (iter - 1 =? 0) && (MPIrank (init s) =? 0) then
    run* _updateDEbuffer (iter - 1) burn chain_ind in
    let* s := get in
    match _DEbuffer (store s) with
    | None => raise (AttributeError "_DEbuffer")
    | Some de =>
        for_each (range 0 (nchain (init s) - 1)) (fun rank =>
          emit (EvSend (rank + 1) 222 (MBuf de)))
    end
  else ret tt.

(** Registering the differential-evolution jump:
    [addProposalToCycle(name(kwargs=None), self.weights[DE])]. *)
Definition add_DE_jump : M unit :=
  let* name := lift (get_proposal_object_from_name DE) in
  let* s := get in
  let* w := lift (dict_get (weights s) DE) in
  addProposalToCycle (name None) w.

(** "check for sent DE buffer from T = 0 chain". *)
Definition DEbuffer_receive (e : step_env) : M unit :=
  let* s := get in
  if e_getDEbuf e && (0 <? MPIrank (init s)) && dict_has (weights s) DE then
    let* name := lift (get_proposal_object_from_name DE) in
    run* modify (set_DEbuffer (Some (e_DEbuf e))) in
    let* s := get in
    if negb (existsb is_DEJump (propCycle (cycle s))) then
      run* add_DE_jump in
      randomizeProposalCycle (e_shuffle e)
    else ret tt
  else ret tt.

(** "after burn in, add DE jumps". *)
Definition DE_after_burn (iter : Z) (e : step_env) : M unit :=
  let* s := get in
  let* burn := attr "burn" burn in
  if (iter - 1 =? burn) && (MPIrank (init s) =? 0) && dict_has (weights s) DE then
    run* add_DE_jump in
    randomizeProposalCycle (e_shuffle e)
  else ret tt.

(** "check return value": the swap counters. *)
Definition count_swap (swapReturn : Z) (s : PTSampler) : PTSampler :=
  if negb (swapReturn =? 0) then
    set_counters {| naccepted := naccepted (counters s);
                    swapProposed := swapProposed (counters s) + 1;
                    nswap_accepted := if swapReturn =? 2
                                      then nswap_accepted (counters s) + 1
                                      else nswap_accepted (counters s) |} s
  else s.

(** [PTMCMCOneStep(self, p0, lnlike0, lnprob0, iter, chain_ind)]. *)
Definition PTMCMCOneStep (p0 : vec) (lnlike0 lnprob0 : pyfloat)
    (iter chain_ind : Z) (e : step_env) : M (vec * pyfloat * pyfloat) :=
  run* covariance_update iter chain_ind in
  run* covariance_receive e in
  run* DEbuffer_update iter chain_ind in
  run* DEbuffer_receive e in
  run* DE_after_burn iter e in
  let* (p0, lnlike0, lnprob0) := jump_proposal p0 lnlike0 lnprob0 iter (e_jump e) in
  let* (swapReturn, p0, lnlike0, lnprob0) :=
    PTswap p0 lnlike0 lnprob0 iter (e_swap e) in
  run* modify (count_swap swapReturn) in
  run* updateChains p0 lnlike0 lnprob0 iter chain_ind in
  ret (p0, lnlike0, lnprob0).

(** The calls of [_updateRecursive] that [PTMCMCOneStep] makes on the
    coldest process while the first [k] windows of [mem = covUpdate]
    samples go by: at the iterations [iter] with [iter - 1 = j * mem],
    [j = 1 .. k]. *)
Definition feed_windows (mem chain_ind : Z) (k : nat) : M unit :=
  for_each (seqZ 1 (Z.of_nat k)) (fun j => _updateRecursive (j * mem) mem chain_ind).

(** ** The recorded points *)

(** The points a run has recorded for the cold chain [i] from
    iteration [lo] on, in the order of their iterations: none yet; the
    first point, which [sample] hands to [updateChains] itself
    ([self.updateChains(p0, lnlike0, lnprob0, i0, 0)]); and after the
    points of the iterations [lo .. iter - 1] the point that the step
    of iteration [iter] returns, which the step has recorded
    ([p0, lnlike0, lnprob0 = self.PTMCMCOneStep(p0, lnlike0, lnprob0,
    iter, i)]). *)
Inductive records (i lo : Z) : PTSampler -> list vec -> Prop :=
| records_none (s : PTSampler) : records i lo s []
| records_first (s s' : PTSampler) (p0 : vec) (lnlike0 lnprob0 : pyfloat) :
    updateChains p0 lnlike0 lnprob0 lo i s = (s', Ok tt) ->
    records i lo s' [p0]
| records_step (s s' : PTSampler) (pts : list vec) (p0 p : vec)
    (lnlike0 lnprob0 lnlike lnprob : pyfloat) (e : step_env) :
    records i lo s pts ->
    PTMCMCOneStep p0 lnlike0 lnprob0 (lo + Z.of_nat (length pts)) i e s =
      (s', Ok (p, lnlike, lnprob)) ->
    records i lo s' (pts ++ [p]).

(** ** The registration of the weights *)

(** The copies one item of the weights contributes to the cycle. *)
Definition copies_of (kw : gmap string kwargs) (item : string * Z) : list proposal :=
  match prop_getattr item.1 with
  | Some c => if decide (item.1 <> DE) then replicate (Z.to_nat item.2) (c (kw !! item.1))
              else []
  | None => []
  end.

(** ** The loop of [sample] *)

(** What one pass of the loop reads from outside besides what the step
    reads: the effective sample size arviz computes ([None]: the name
    [az] is not bound, arviz is missing) and the [Iprobe] for the
    message of tag 55. *)
Record loop_env : Type := {
  e_step : step_env;
  e_ess : option Z;
  e_runComplete : bool
}.

(** The body of the inner loop of [sample], at iteration [iter] of the
    cold chain [i]: the locals [p0, lnlike0, lnprob0], [Neff] and
    [runComplete] go in and come out, with [false] when the loop is
    left by [break].  [neff] is [self.neff], which [initialize] binds
    to its argument.  Of arviz only the result is modelled; the
    message [runComplete], which is [True] where it is sent, is the
    integer 1; the prints and [time.sleep] are left out. *)
Definition sample_step (neff i iter : Z) (e : loop_env)
    (st : vec * pyfloat * pyfloat) (Neff : Z) (runComplete : bool)
  : M (bool * (vec * pyfloat * pyfloat) * Z * bool) :=
  let '(p0, lnlike0, lnprob0) := st in
  let* st := PTMCMCOneStep p0 lnlike0 lnprob0 iter i (e_step e) in
  let* s := get in
  let rank := MPIrank (init s) in
  let* Neff :=
    if iter mod 10000 =? 0 then
      let* burn := attr "burn" burn in
      if (2 * burn <? iter) && (rank =? 0) then
        run* lift (py_index (_chain (store s)) i) in
        ret (match e_ess e with Some n => n | None => 0 end)
      else ret Neff
    else ret Neff in
  if (rank =? 0) && (neff <? Neff) then ret (false, st, Neff, runComplete)
  else
    run* (if (rank =? 0) && runComplete then
            for_each (range 1 (nchain (init s))) (fun jj =>
              emit (EvSend jj 55 (MInt 1)))
          else ret tt) in
    let runComplete := if 0 <? rank then e_runComplete e else runComplete in
    ret (true, st, Neff, runComplete).

(** [for j in range(Niter - 1)]: [js] is the range, [iter] the counter
    before the pass. *)
Fixpoint sample_chain (neff i : Z) (env : Z -> Z -> loop_env) (js : list Z)
    (iter : Z) (st : vec * pyfloat * pyfloat) (Neff : Z) (runComplete : bool)
  : M ((vec * pyfloat * pyfloat) * Z * bool) :=
  match js with
  | [] => ret (st, Neff, runComplete)
  | _ :: js' =>
      let iter := iter + 1 in
      let* (go, st, Neff, runComplete) :=
        sample_step neff i iter (env i iter) st Neff runComplete in
      if go then sample_chain neff i env js' iter st Neff runComplete
      else ret (st, Neff, runComplete)
  end.

(** [for i in range(n_cold_chains)]. *)
Fixpoint sample_chains (neff : Z) (env : Z -> Z -> loop_env) (Niter i0 : Z)
    (chains : list Z) (st : vec * pyfloat * pyfloat) (Neff : Z)
    (runComplete : bool) : M ((vec * pyfloat * pyfloat) * Z * bool) :=
  match chains with
  | [] => ret (st, Neff, runComplete)
  | i :: chains' =>
      let* (st, Neff, runComplete) :=
        sample_chain neff i env (range 0 (Niter - 1)) i0 st Neff runComplete in
      sample_chains neff env Niter i0 chains' st Neff runComplete
  end.

(** [sample(self, p0, Niter, ...)]; the result is what [Result] is
    built from.  [neff0] is the value of [self.neff] an earlier call
    has left, read when [i0 != 0].  The barrier and the clock in front
    of the loop are left out. *)
Definition sample (p0 : vec) (a : initialize_args) (e : initialize_env)
    (neff0 : Z) (env : Z -> Z -> loop_env)
  : M (list matrix * matrix * matrix * Z * Z) :=
  let* st := sample_start p0 a e in
  let neff := if a_i0 a =? 0 then a_neff a else neff0 in
  run* sample_chains neff env (a_Niter a) (a_i0 a) (range 0 (a_n_cold_chains a))
         st 0 false in
  let* s := get in
  let* burn := attr "burn" burn in
  let* n_cold_chains := attr "n_cold_chains" n_cold_chains in
  ret (_chain (store s), _lnlike (store s), _lnprob (store s), burn, n_cold_chains).

End Sampler.

(** ** The ladder over the real numbers *)

(** The reading of [temperatureLadder] in which the float operations
    are the real ones.  It agrees with numpy where numpy is defined on
    reals: [ln] of a positive number, [sqrt] of a non-negative one. *)
#[export] Instance R_numeric : Numeric R := {|
  num_of_Z := IZR;
  num_add := Rplus;
  num_mul := Rmult;
  num_div := Rdiv;
  num_pow := fun x ii => pow x (Z.to_nat ii);
  num_exp := exp;
  num_log := ln;
  num_sqrt := sqrt;
  num_is_zero := fun x => if Req_dec_T x 0 then true else false
|}.

(** A sequence is strictly increasing. *)
Definition strictly_increasing (l : list R) : Prop :=
  forall (i j : nat) (x y : R),
    (i < j)%nat -> l !! i = Some x -> l !! j = Some y -> (x < y)%R.

(** ** The batch covariance of the specification *)

(** The closed form the specification compares the running update
    with: [xbar = sum_i x_i / N] and
    [cov = sum_i outer(x_i - xbar, x_i - xbar) / (N - 1)]. *)
Definition vadd (x y : vec) : vec := zip_with fadd x y.

Definition sample_mean (n : nat) (xs : list vec) : vec :=
  map (fun v => fdiv v (of_Z (Z.of_nat (length xs))))
      (fold_right vadd (replicate n (Finite 0%Qc)) xs).

Definition batch_covariance (n : nat) (xs : list vec) : matrix :=
  let xbar := sample_mean n xs in
  mdiv (fold_right (fun x acc => madd (np_outer (vsub x xbar) (vsub x xbar)) acc)
          (replicate n (replicate n (Finite 0%Qc))) xs)
       (of_Z (Z.of_nat (length xs) - 1)).

(** ** Exact vectors and matrices *)

(** Arrays of finite floats, and the running update on rationals. *)
Definition fvec (q : list Qc) : vec := map Finite q.
Definition fmat (q : list (list Qc)) : matrix := map fvec q.

Definition qZ (z : Z) : Qc := Q2Qc (inject_Z z).

Definition qsub (x y : list Qc) : list Qc := zip_with Qcminus x y.
Definition qouter (x y : list Qc) : list (list Qc) :=
  map (fun a => map (fun b => (a * b)%Qc) y) x.
Definition qmadd (a b : list (list Qc)) : list (list Qc) :=
  zip_with (zip_with Qcplus) a b.

(** One sample [x] seen as the [it]-th: the new mean and scatter. *)
Definition welford_mean (it : Qc) (m x : list Qc) : list Qc :=
  zip_with (fun mi xi => (mi + (xi - mi) / it)%Qc) m x.

Definition welford_step (it : Qc) (st : list Qc * list (list Qc)) (x : list Qc)
  : list Qc * list (list Qc) :=
  let m' := welford_mean it st.1 x in
  (m', qmadd st.2 (qouter (qsub x st.1) (qsub x m'))).

(** The samples [xs] seen after [t] others. *)
Fixpoint welford_run (t : Z) (st : list Qc * list (list Qc)) (xs : list (list Qc))
  : list Qc * list (list Qc) :=
  match xs with
  | [] => st
  | x :: xs' => welford_run (t + 1) (welford_step (qZ (t + 1)) st x) xs'
  end.

(** Sums over the samples: of a component, and of a product of two. *)
Definition qnth (x : list Qc) (a : nat) : Qc := nth a x 0%Qc.

Definition qsum1 (xs : list (list Qc)) (a : nat) : Qc :=
  fold_right (fun x acc => (qnth x a + acc)%Qc) 0%Qc xs.

Definition qsum2 (xs : list (list Qc)) (a b : nat) : Qc :=
  fold_right (fun x acc => (qnth x a * qnth x b + acc)%Qc) 0%Qc xs.

(** The moments the running update holds after the samples [xs]:
    component [a] of the mean is [sum_i x_i[a] / N], entry [(a, b)] of
    the scatter is [sum_i x_i[a] x_i[b] - (sum_i x_i[a]) (sum_i x_i[b]) / N]. *)
Definition moments_of (n : nat) (xs : list (list Qc))
    (st : list Qc * list (list Qc)) : Prop :=
  let N := qZ (Z.of_nat (length xs)) in
  (forall a, (a < n)%nat -> qnth st.1 a = (qsum1 xs a / N)%Qc)
  /\ (forall a b, (a < n)%nat -> (b < n)%nat ->
        qnth (nth a st.2 []) b =
        (qsum2 xs a b - qsum1 xs a * qsum1 xs b / N)%Qc).

(** The batch mean and scatter on the rationals. *)
Definition qmean (n : nat) (qs : list (list Qc)) : list Qc :=
  map (fun v => (v / qZ (Z.of_nat (length qs)))%Qc)
      (fold_right (zip_with Qcplus) (replicate n 0%Qc) qs).

Definition qscatter (n : nat) (c : list Qc) (qs : list (list Qc)) : list (list Qc) :=
  fold_right (fun x acc => qmadd (qouter (qsub x c) (qsub x c)) acc)
             (replicate n (replicate n 0%Qc)) qs.

(** A mean of [n] components with a scatter of [n] by [n]. *)
Definition qshape (n : nat) (st : list Qc * list (list Qc)) : Prop :=
  length st.1 = n /\ length st.2 = n /\ Forall (fun r => length r = n) st.2.

Definition qzero (n : nat) : list Qc * list (list Qc) :=
  (replicate n 0%Qc, replicate n (replicate n 0%Qc)).

(** The groups index the covariance matrix, and [self.U], [self.S]
    have a slot for each group. *)
Definition groups_wf (n : nat) (s : PTSampler) : Prop :=
  Forall (Forall (fun g => - Z.of_nat n <= g < Z.of_nat n)) (groups (init s))
  /\ length (svd_U (covm s)) = length (groups (init s))
  /\ length (svd_S (covm s)) = length (groups (init s)).

(** ** Outcomes *)

(** An outcome of the registration of proposals that is neither of the
    two configuration errors of setup: a normal return, or the
    [AttributeError] of an unknown name or of an unbound attribute. *)
Definition other_outcome (o : res unit) : Prop :=
  o = Ok tt \/ (exists a, o = Raise (AttributeError a)).

(** ** Footprints, events and costs *)

(** The vocabulary of the properties that say what a method leaves
    alone, what it does outside, and how often it calls the densities. *)

(** A method leaves a part of the object as it was, whatever its
    outcome; a part does not depend on a group of attributes. *)
Definition keeps {A B} (part : PTSampler -> B) (m : M A) : Prop :=
  forall s, part (m s).1 = part s.

Definition ign_trace {B} (part : PTSampler -> B) : Prop :=
  forall t s, part (set_trace t s) = part s.
Definition ign_cycle {B} (part : PTSampler -> B) : Prop :=
  forall c s, part (set_cycle c s) = part s.
Definition ign_store {B} (part : PTSampler -> B) : Prop :=
  forall c s, part (set_store c s) = part s.
Definition ign_covm {B} (part : PTSampler -> B) : Prop :=
  forall c s, part (set_covm c s) = part s.
Definition ign_counters {B} (part : PTSampler -> B) : Prop :=
  forall c s, part (set_counters c s) = part s.
Definition ign_run {B} (part : PTSampler -> B) : Prop :=
  forall r s, part (set_run r s) = part s.
Definition ign_weights {B} (part : PTSampler -> B) : Prop :=
  forall w s, part (set_weights w s) = part s.
Definition ign_randomized {B} (part : PTSampler -> B) : Prop :=
  forall l s, part (set_cycle (set_randomizedPropCycle l (cycle s)) s) = part s.
Definition ign_resumechain {B} (part : PTSampler -> B) : Prop :=
  forall loaded s, part (set_run (set_resumechain loaded <$> run s) s) = part s.

(** A method only appends to the trace, and every event it appends
    satisfies [P]. *)
Definition emits {A} (P : event -> Prop) (m : M A) : Prop :=
  forall s, exists evs, trace (m s).1 = trace s ++ evs /\ Forall P evs.

(** The events of one step: the prior and the likelihood, the messages
    of the swap (tags 18, 19 and 888), of the covariance (111) and of
    the buffer (222), and the files. *)
Definition step_event (ev : event) : Prop :=
  match ev with
  | EvSend _ tag _ => tag = 18 \/ tag = 19 \/ tag = 888 \/ tag = 111 \/ tag = 222
  | _ => True
  end.

(** The calls of the likelihood, and of the prior, among some events. *)
Definition logl_weight (ev : event) : nat :=
  match ev with EvLogl _ => 1%nat | _ => 0%nat end.
Definition logp_weight (ev : event) : nat :=
  match ev with EvLogp _ => 1%nat | _ => 0%nat end.

Definition logl_calls (evs : list event) : nat := list_sum (map logl_weight evs).
Definition logp_calls (evs : list event) : nat := list_sum (map logp_weight evs).

(** A method appends events of total weight at most [n]. *)
Definition spends {A} (w : event -> nat) (n : nat) (m : M A) : Prop :=
  forall s, exists evs,
    trace (m s).1 = trace s ++ evs /\ (list_sum (map w evs) <= n)%nat.

(** Entry [j] of row [i] of an array of two axes. *)
Definition entry {A} (a : list (list A)) (i j : nat) : option A :=
  a !! i ≫= fun row => row !! j.

(** Row 0 of the recorded arrays, for the cold chains from [k] on. *)
Definition first_rows (k : nat) (s : PTSampler)
  : list (option vec) * list (option pyfloat) * list (option pyfloat) :=
  (drop k (head <$> _chain (store s)),
   drop k (head <$> _lnlike (store s)),
   drop k (head <$> _lnprob (store s))).

(** The same for a run that records every [thin > 0] iterations. *)
Definition first_rows_thinned (k : nat) (s : PTSampler)
  : option (list (option vec) * list (option pyfloat) * list (option pyfloat)) :=
  match run s with
  | Some r => if 0 <? thin r then Some (first_rows k s) else None
  | None => None
  end.

(** ** Concrete objects *)

(** Small objects on which the properties below are evaluated: a
    proposal that stays where it is, and a sampler of one dimension as
    [__init__] leaves it (unit covariance, one group). *)
Definition demo_proposal (name : string) : proposal :=
  {| pname := name; pcall := fun x _ => (x, Finite 0%Qc) |}.

Definition demo_fresh (rank size : Z) (lp ll : vec -> pyfloat) : PTSampler :=
  {| init := {| MPIrank := rank; nchain := size; ndim := 1; logl := ll;
                logp := lp; logl_grad := None; logp_grad := None;
                outDir := "./chains"; resume := false; groups := [[0]] |};
     run := None;
     covm := {| cov := [[Finite 1%Qc]]; svd_U := [[[Finite 1%Qc]]];
                svd_S := [[Finite 1%Qc]]; M2 := [[Finite 0%Qc]];
                mu := [Finite 0%Qc] |};
     cycle := {| propCycle := []; jumpDict := ∅; aux := [];
                 randomizedPropCycle := [] |};
     store := {| _chain := []; _lnlike := []; _lnprob := [];
                 _AMbuffer := None; _DEbuffer := None |};
     counters := {| naccepted := of_Z 0; swapProposed := 0; nswap_accepted := 0 |};
     weights := [];
     trace := [] |}.

(** A registry of proposals in which every name is known, default
    arguments of [sample], and an outside with no chain file. *)
Definition demo_getattr (key : string) : option (option unit -> proposal) :=
  Some (fun _ => demo_proposal key).

Definition demo_args (ws : list (string * Z)) : @initialize_args unit :=
  {| a_Niter := 10; a_ladder := None; a_Tmin := of_Z 1; a_Tmax := None;
     a_Tskip := 100; a_isave := 1000; a_covUpdate := 1000; a_weights := ws;
     a_initialize_jump_proposal_kwargs := ∅; a_burn := 10000;
     a_maxIter := Some 10; a_thin := 1; a_i0 := 0; a_neff := 100000;
     a_write_cold_chains := false; a_writeHotChains := false;
     a_save_jump_stats := false; a_hotChain := false; a_n_cold_chains := 2 |}.

Definition demo_env : initialize_env :=
  {| e_index := [0]; e_isfile := false; e_loadtxt := None;
     e_loadtxt_retry := None |}.

(** A sampler of rank [rank] among two processes after [initialize],
    with the ladder [1, 4] and a swap every 100 iterations. *)
Definition demo_run (rank : Z) : run_attrs :=
  {| ladder := [of_Z 1; of_Z 4]; covUpdate := 1000; burn := 2; Tskip := 100;
     thin := 1; isave := 1000; Niter := 10; write_cold_chains := false;
     writeHotChains := false; save_jump_stats := false; n_cold_chains := 1;
     temp := if rank =? 0 then of_Z 1 else of_Z 4;
     fname := "./chains/chain_1.0.txt"; resumeLength := 0;
     resumechain := inl [] |}.

Definition demo_sampler (rank : Z) (lp ll : vec -> pyfloat) : PTSampler :=
  set_run (Some (demo_run rank)) (demo_fresh rank 2 lp ll).

Definition zero_density (x : vec) : pyfloat := Finite 0%Qc.

(** The single process of a run without MPI, as [__init__] leaves it;
    the hotter and the colder process of a run of two. *)
Definition demo_single : PTSampler := demo_fresh 0 1 zero_density zero_density.
Definition demo_hot : PTSampler := demo_sampler 1 zero_density zero_density.
Definition demo_cold : PTSampler := demo_sampler 0 zero_density zero_density.

(** The hotter process (rank 1) finds a proposal of rank 0 pending:
    the colder likelihood is -3, its own is -1, and the draw has
    [log U = -1]. *)
Definition demo_swap_env : swap_env :=
  {| e_swapAccepted := 0; e_lnlike := of_Z (-3); e_pnew := [of_Z 7];
     e_readyToSwap := true; e_logU_swap := of_Z (-1) |}.

(** [iter % Tskip == 0 and rank < nchain - 1]: this process proposes a
    swap at this iteration. *)
Definition proposes (s : PTSampler) (r : run_attrs) (iter : Z) : bool :=
  (iter mod Tskip r =? 0) && (MPIrank (init s) <? nchain (init s) - 1).

(** [self.resume and self.resumeLength > 0 and iter < self.resumeLength]:
    the step replays a row of the resumed chain file. *)
Definition replaying (s : PTSampler) (r : run_attrs) (iter : Z) : bool :=
  resume (init s) && (0 <? resumeLength r) && (iter <? resumeLength r).

(** Every proposal of the cycle has its entry in the ledger (what
    [addProposalToCycle] maintains). *)
Definition cycle_in_ledger (s : PTSampler) : Prop :=
  Forall (fun f => is_Some (jumpDict (cycle s) !! pname f)) (propCycle (cycle s)).

Definition nowhere_density (x : vec) : pyfloat := NInf.

(** A cold process whose prior is [-inf] everywhere, with one proposal
    registered and a buffer bound. *)
Definition demo_infeasible : PTSampler :=
  (addProposalToCycle (demo_proposal "jump") 1
     (set_DEbuffer (Some (inr []))
        (demo_sampler 0 nowhere_density zero_density))).1.

Definition demo_jump_env : jump_env := {| e_randint := 0; e_logU := NInf |}.

(** The [n] most recent of a list of recorded points. *)
Definition most_recent (n : Z) (rows : matrix) : matrix :=
  drop (length rows - Z.to_nat n) rows.

(** A cold process with the arrays [initialize] allocates for one
    chain of ten iterations in one dimension. *)
Definition demo_recording : PTSampler :=
  set_store {| _chain := [replicate 10 [Finite 0%Qc]];
               _lnlike := [replicate 10 (Finite 0%Qc)];
               _lnprob := [replicate 10 (Finite 0%Qc)];
               _AMbuffer := Some [replicate 11 [Finite 0%Qc]];
               _DEbuffer := Some (inl [replicate 3 [Finite 0%Qc]]) |} demo_cold.

(** The same process after the points 1, 2 and 3 have been recorded
    at the iterations 0, 1 and 2. *)
Definition demo_history : PTSampler :=
  ((run* updateChains [of_Z 1] (of_Z 0) (of_Z 0) 0 0 in
    run* updateChains [of_Z 2] (of_Z 0) (of_Z 0) 1 0 in
    updateChains [of_Z 3] (of_Z 0) (of_Z 0) 2 0) demo_recording).1.

(** A single process on a problem of two dimensions, as [__init__]
    leaves it, and then as [initialize] leaves it for a run of ten
    iterations that writes its chain file every second iteration. *)
Definition demo_fresh2 : PTSampler :=
  {| init := {| MPIrank := 0; nchain := 1; ndim := 2; logl := zero_density;
                logp := zero_density; logl_grad := None; logp_grad := None;
                outDir := "./chains"; resume := false; groups := [[0; 1]] |};
     run := None;
     covm := {| cov := [[Finite 1%Qc; Finite 0%Qc]; [Finite 0%Qc; Finite 1%Qc]];
                svd_U := [[[Finite 1%Qc; Finite 0%Qc]; [Finite 0%Qc; Finite 1%Qc]]];
                svd_S := [[Finite 1%Qc; Finite 1%Qc]];
                M2 := [[Finite 0%Qc; Finite 0%Qc]; [Finite 0%Qc; Finite 0%Qc]];
                mu := [Finite 0%Qc; Finite 0%Qc] |};
     cycle := {| propCycle := []; jumpDict := ∅; aux := [];
                 randomizedPropCycle := [] |};
     store := {| _chain := []; _lnlike := []; _lnprob := [];
                 _AMbuffer := None; _DEbuffer := None |};
     counters := {| naccepted := of_Z 0; swapProposed := 0; nswap_accepted := 0 |};
     weights := [];
     trace := [] |}.

Definition demo_write_args : @initialize_args unit :=
  {| a_Niter := 10; a_ladder := None; a_Tmin := of_Z 1; a_Tmax := None;
     a_Tskip := 100; a_isave := 2; a_covUpdate := 1000;
     a_weights := [("SCAM", 1)];
     a_initialize_jump_proposal_kwargs := ∅; a_burn := 10000;
     a_maxIter := None; a_thin := 1; a_i0 := 0; a_neff := 100000;
     a_write_cold_chains := true; a_writeHotChains := false;
     a_save_jump_stats := false; a_hotChain := false; a_n_cold_chains := 2 |}.

Definition demo_writer : PTSampler :=
  (initialize demo_getattr ["SCAM"] (fun _ _ _ _ => tt) (fun _ _ => tt)
     (fun _ => "1.0") (fun x => x) (fun x => x) (fun x => x)
     demo_write_args demo_env demo_fresh2).1.

(** The methods with the registry [demo_getattr], no gradients, no
    differential-evolution proposal, and the identity for the
    functions of numpy. *)
Definition demo_initialize : initialize_args -> initialize_env -> M unit :=
  initialize demo_getattr ["SCAM"] (fun _ _ _ _ => tt) (fun _ _ => tt)
    (fun _ => "1.0") (fun x => x) (fun x => x) (fun x => x).

Definition demo_sample_start
  : vec -> initialize_args -> initialize_env -> M (vec * pyfloat * pyfloat) :=
  sample_start demo_getattr ["SCAM"] (fun _ _ _ _ => tt) (fun _ _ => tt)
    (fun _ => "1.0") (fun x => x) (fun x => x) (fun x => x).

Definition demo_PTMCMCOneStep
  : vec -> pyfloat -> pyfloat -> Z -> Z -> step_env -> M (vec * pyfloat * pyfloat) :=
  PTMCMCOneStep demo_getattr (fun _ => false) (fun m => (m, [])).

(** A run of three iterations on two cold chains with the ladder
    [1, 4], one proposal, and [save_jump_stats] asked for. *)
Definition demo_ladder_args : @initialize_args unit :=
  {| a_Niter := 3; a_ladder := Some [of_Z 1; of_Z 4]; a_Tmin := of_Z 1;
     a_Tmax := None; a_Tskip := 100; a_isave := 1000; a_covUpdate := 1000;
     a_weights := [("SCAM", 1)];
     a_initialize_jump_proposal_kwargs := ∅; a_burn := 100;
     a_maxIter := Some 10; a_thin := 1; a_i0 := 0; a_neff := 100000;
     a_write_cold_chains := false; a_writeHotChains := false;
     a_save_jump_stats := true; a_hotChain := false; a_n_cold_chains := 2 |}.

(** The process of rank [rank] among two after [initialize]. *)
Definition demo_started (rank : Z) : PTSampler :=
  (demo_initialize demo_ladder_args demo_env
     (demo_fresh rank 2 zero_density zero_density)).1.

(** The same object built with [resume=True]. *)
Definition demo_resume (s : PTSampler) : PTSampler :=
  {| init := {| MPIrank := MPIrank (init s); nchain := nchain (init s);
                ndim := ndim (init s); logl := logl (init s);
                logp := logp (init s); logl_grad := logl_grad (init s);
                logp_grad := logp_grad (init s); outDir := outDir (init s);
                resume := true; groups := groups (init s) |};
     run := run s; covm := covm s; cycle := cycle s; store := store s;
     counters := counters s; weights := weights s; trace := trace s |}.

(** A chain file of two rows, a chain file of a single row, and the
    single process that resumes from the first. *)
Definition demo_rows : matrix :=
  [[of_Z 1; of_Z (-2); of_Z (-3); of_Z 1; of_Z 0];
   [of_Z 2; of_Z (-4); of_Z (-5); of_Z 1; of_Z 0]].

Definition demo_file (rows : vec + matrix) : initialize_env :=
  {| e_index := [0]; e_isfile := true; e_loadtxt := Some rows;
     e_loadtxt_retry := None |}.

Definition demo_resumed : PTSampler :=
  (demo_initialize demo_ladder_args (demo_file (inr demo_rows))
     (demo_resume demo_single)).1.

(** A process with the arrays of one chain of ten iterations, two
    proposals registered with the weights 2 and 1, and a buffer
    bound. *)
Definition demo_ready (s : PTSampler) : PTSampler :=
  (addProposalToCycle (demo_proposal "other") 1
     (addProposalToCycle (demo_proposal "jump") 2
        (set_store {| _chain := [replicate 10 [Finite 0%Qc]];
                      _lnlike := [replicate 10 (Finite 0%Qc)];
                      _lnprob := [replicate 10 (Finite 0%Qc)];
                      _AMbuffer := Some [replicate 11 [Finite 0%Qc]];
                      _DEbuffer := Some (inr []) |} s)).1).1.

(** A draw that takes the first proposal of the cycle, with
    [log U = 0]. *)
Definition demo_accepting : jump_env := {| e_randint := 0; e_logU := of_Z 0 |}.

(** An outside that has nothing pending for a step. *)
Definition demo_quiet : step_env :=
  {| e_getCovariance := false; e_cov := []; e_getDEbuf := false;
     e_DEbuf := inr []; e_shuffle := [0; 1; 2; 3; 4]; e_jump := demo_accepting;
     e_swap := demo_swap_env |}.

Definition demo_loop (i iter : Z) : loop_env :=
  {| e_step := demo_quiet; e_ess := None; e_runComplete := false |}.

(** The cold process of [demo_history] with a covariance update every
    second iteration. *)
Definition demo_adapting : PTSampler :=
  set_run (Some {| ladder := [of_Z 1; of_Z 4]; covUpdate := 2; burn := 2;
                   Tskip := 100; thin := 1; isave := 1000; Niter := 10;
                   write_cold_chains := false; writeHotChains := false;
                   save_jump_stats := false; n_cold_chains := 1;
                   temp := of_Z 1; fname := "./chains/chain_1.0.txt";
                   resumeLength := 0; resumechain := inl [] |}) demo_history.

(** A cold process whose weights name the differential-evolution
    proposal. *)
Definition demo_with_DE : PTSampler :=
  set_weights [("SCAM", 1); (DE, 2)] (demo_ready demo_cold).

(** A registry that knows the single name SCAM. *)
Definition demo_known (key : string) : option (option unit -> proposal) :=
  if decide (key = "SCAM") then Some (fun _ => demo_proposal key) else None.

(** A proposal that moves every coordinate up by one, the registry
    that has it under every name, and a run of two cold chains with
    [burn = 2] on the coldest of two processes, with the attributes
    [initialize] binds for it. *)
Definition demo_shift : proposal :=
  {| pname := "shift";
     pcall := fun x _ => (map (fadd (of_Z 1)) x, Finite 0%Qc) |}.

Definition demo_shift_getattr (key : string) : option (option unit -> proposal) :=
  Some (fun _ => demo_shift).

Definition demo_burn_args : @initialize_args unit :=
  {| a_Niter := 4; a_ladder := Some [of_Z 1; of_Z 4]; a_Tmin := of_Z 1; a_Tmax := None;
     a_Tskip := 100; a_isave := 1000; a_covUpdate := 1000;
     a_weights := [("shift", 1)];
     a_initialize_jump_proposal_kwargs := ∅; a_burn := 2;
     a_maxIter := Some 4; a_thin := 1; a_i0 := 0; a_neff := 100000;
     a_write_cold_chains := false; a_writeHotChains := false;
     a_save_jump_stats := false; a_hotChain := false; a_n_cold_chains := 2 |}.

Definition demo_burn_run : run_attrs :=
  {| ladder := [of_Z 1; of_Z 4]; covUpdate := 1000; burn := 2; Tskip := 100;
     thin := 1; isave := 1000; Niter := 4; write_cold_chains := false;
     writeHotChains := false; save_jump_stats := false; n_cold_chains := 2;
     temp := of_Z 1; fname := "./chains/chain_1.0.txt"; resumeLength := 0;
     resumechain := inl [] |}.

(** An outside with nothing pending, whose draws accept the move and
    take the first proposal of the cycle. *)
Definition demo_moving : step_env :=
  {| e_getCovariance := false; e_cov := []; e_getDEbuf := false;
     e_DEbuf := inr []; e_shuffle := [0];
     e_jump := {| e_randint := 0; e_logU := of_Z (-1) |};
     e_swap := demo_swap_env |}.

Definition demo_shift_step
  : vec -> pyfloat -> pyfloat -> Z -> Z -> step_env -> M (vec * pyfloat * pyfloat) :=
  PTMCMCOneStep demo_shift_getattr (fun _ => false) (fun m => (m, [])).

(** The run from the point 5: the object after the start of [sample],
    and after the steps of the iterations 1 and 2 of the first cold
    chain, which return the points 6 and 7. *)
Definition demo_run0 : PTSampler :=
  (sample_start demo_shift_getattr ["shift"] (fun _ _ _ _ => tt) (fun _ _ => tt)
     (fun _ => "1.0") (fun x => x) (fun x => x) (fun x => x)
     [of_Z 5] demo_burn_args demo_env
     (demo_fresh 0 2 zero_density zero_density)).1.

Definition demo_run1 : PTSampler :=
  (demo_shift_step [of_Z 5] (of_Z 0) (of_Z 0) 1 0 demo_moving demo_run0).1.

Definition demo_run2 : PTSampler :=
  (demo_shift_step [of_Z 6] (of_Z 0) (of_Z 0) 2 0 demo_moving demo_run1).1.

(** The same run after the step of iteration 3 of the first cold chain
    (the point 8) and the steps of the iterations 1 and 2 of the second
    (the points 9 and 10). *)
Definition demo_run3 : PTSampler :=
  (demo_shift_step [of_Z 7] (of_Z 0) (of_Z 0) 3 0 demo_moving demo_run2).1.

Definition demo_second1 : PTSampler :=
  (demo_shift_step [of_Z 8] (of_Z 0) (of_Z 0) 1 1 demo_moving demo_run3).1.

Definition demo_second2 : PTSampler :=
  (demo_shift_step [of_Z 9] (of_Z 0) (of_Z 0) 2 1 demo_moving demo_second1).1.

(** * Properties *)

(** ** The monad *)

Lemma bind_ok {A B} (m : M A) (k : A -> M B) s s' a :
  m s = (s', Ok a) -> bind m k s = k a s'.
Proof. intros H. unfold bind. now rewrite H. Qed.

Lemma bind_raise {A B} (m : M A) (k : A -> M B) s s' e :
  m s = (s', Raise e) -> bind m k s = (s', Raise e).
Proof. intros H. unfold bind. now rewrite H. Qed.

(** ** The proposal cycle *)

Lemma for_each_append (f : proposal) (l : list Z) (s : PTSampler) :
  for_each l (fun _ => modify (propCycle_append f)) s =
  (set_cycle (set_propCycle (propCycle (cycle s) ++ replicate (length l) f)
                (cycle s)) s, Ok tt).
Proof.
  revert s. induction l as [|x l IH]; intros s; simpl.
  - unfold ret. rewrite app_nil_r. now destruct s as [? ? ? [] ? ? ? ?].
  - unfold bind at 1. unfold modify at 1. rewrite IH. simpl.
    now rewrite <- app_assoc.
Qed.

Lemma length_range (lo hi : Z) : length (range lo hi) = Z.to_nat (hi - lo).
Proof. unfold range. now rewrite length_seqZ. Qed.

(** The cycle after [addProposalToCycle], whatever the outcome. *)
Lemma addProposalToCycle_cycle (f : proposal) (w : Z) (s : PTSampler) :
  propCycle (cycle (addProposalToCycle f w s).1) =
  propCycle (cycle s) ++ replicate (Z.to_nat w) f.
Proof.
  unfold addProposalToCycle, bind at 1, get at 1.
  destruct (w =? 0) eqn:Hw.
  - apply Z.eqb_eq in Hw. subst w. simpl. now rewrite app_nil_r.
  - unfold bind at 1. rewrite for_each_append, length_range.
    replace (Z.of_nat (length (propCycle (cycle s))) + w -
             Z.of_nat (length (propCycle (cycle s)))) with w by lia.
    unfold bind at 1, get at 1. cbn [cycle set_cycle jumpDict set_propCycle].
    destruct (jumpDict (cycle s) !! pname f) as [c|]; [reflexivity|].
    unfold bind at 1, modify at 1, bind at 1, attr.
    cbn [run jumpDict_add set_cycle].
    destruct (run s) as [r|]; [|reflexivity].
    destruct (save_jump_stats r); reflexivity.
Qed.

(** C8: for every proposal [f] and every weight [w >= 0],
    [addProposalToCycle(f, w)] appends exactly [w] copies of [f] to the
    proposal cycle (the cycle grows by [w]); for [w = 0] it returns
    without an error and leaves the whole object, hence the length of
    the cycle and the acceptance ledger [jumpDict], as it was. *)
Theorem addProposalToCycle_appends (f : proposal) (w : Z) (s : PTSampler) :
  0 <= w ->
  propCycle (cycle (addProposalToCycle f w s).1) =
    propCycle (cycle s) ++ replicate (Z.to_nat w) f
  /\ Z.of_nat (length (propCycle (cycle (addProposalToCycle f w s).1))) =
       Z.of_nat (length (propCycle (cycle s))) + w
  /\ (w = 0 ->
      addProposalToCycle f w s = (s, Ok tt)
      /\ length (propCycle (cycle (addProposalToCycle f w s).1)) =
           length (propCycle (cycle s))
      /\ jumpDict (cycle (addProposalToCycle f w s).1) = jumpDict (cycle s)).
Proof.
  intros Hw. split; [apply addProposalToCycle_cycle|]. split.
  - rewrite addProposalToCycle_cycle, length_app, length_replicate. lia.
  - intros ->. repeat split; reflexivity.
Qed.

Lemma set_propCycle_same (s : PTSampler) :
  set_cycle (set_propCycle (propCycle (cycle s)) (cycle s)) s = s.
Proof. now destruct s as [? ? ? [] ? ? ? ?]. Qed.

(** A negative weight registers no copy but does reach the ledger. *)
Lemma addProposalToCycle_negative (f : proposal) (w : Z) (s : PTSampler) :
  w < 0 ->
  jumpDict (cycle s) !! pname f = None ->
  addProposalToCycle f w s =
  match run s with
  | Some r =>
      if save_jump_stats r
      then (set_trace (trace s ++ [EvOpen (jump_file (outDir (init s)) (pname f)) "w"])
              (jumpDict_add (pname f) s), Ok tt)
      else (jumpDict_add (pname f) s, Ok tt)
  | None => (jumpDict_add (pname f) s, Raise (AttributeError "save_jump_stats"))
  end.
Proof.
  intros Hw Hf.
  unfold addProposalToCycle, bind at 1, get at 1.
  destruct (w =? 0) eqn:E; [apply Z.eqb_eq in E; lia|].
  unfold bind at 1. rewrite for_each_append, length_range.
  replace (Z.to_nat _) with 0%nat by lia.
  cbn [replicate]. rewrite app_nil_r, set_propCycle_same.
  unfold bind at 1, get at 1. rewrite Hf.
  unfold bind at 1, modify at 1, bind at 1, attr.
  cbn [run jumpDict_add set_cycle].
  destruct (run s) as [r|]; [|reflexivity].
  destruct (save_jump_stats r); reflexivity.
Qed.

(** X1: on a sampler that [initialize] has configured, the registration
    of a new proposal with a negative weight returns normally: no copy
    in the cycle, a fresh entry [(0, 0)] in the ledger. *)
Lemma addProposalToCycle_negative_initialized (f : proposal) (w : Z)
    (s : PTSampler) (r : run_attrs) :
  w < 0 ->
  jumpDict (cycle s) !! pname f = None ->
  run s = Some r ->
  (addProposalToCycle f w s).2 = Ok tt
  /\ propCycle (cycle (addProposalToCycle f w s).1) = propCycle (cycle s)
  /\ jumpDict (cycle (addProposalToCycle f w s).1) =
       <[pname f := (0, 0)]> (jumpDict (cycle s)).
Proof.
  intros Hw Hf Hr. rewrite addProposalToCycle_negative, Hr by assumption.
  destruct (save_jump_stats r); repeat split; reflexivity.
Qed.

Lemma addProposalToCycle_negative_initialized_witness :
  (addProposalToCycle (demo_proposal "jump") (-1) demo_cold).2 = Ok tt
  /\ propCycle (cycle (addProposalToCycle (demo_proposal "jump") (-1) demo_cold).1) =
       propCycle (cycle demo_cold)
  /\ jumpDict (cycle (addProposalToCycle (demo_proposal "jump") (-1) demo_cold).1) =
       <["jump" := (0, 0)]> (jumpDict (cycle demo_cold)).
Proof.
  apply (addProposalToCycle_negative_initialized (demo_proposal "jump") (-1)
           demo_cold (demo_run 0)).
  - reflexivity.
  - reflexivity.
  - reflexivity.
Defined.

(** The ledger after a registration of non-zero weight. *)
Lemma addProposalToCycle_jumpDict (f : proposal) (w : Z) (s : PTSampler) :
  w <> 0 ->
  jumpDict (cycle (addProposalToCycle f w s).1) =
  match jumpDict (cycle s) !! pname f with
  | None => <[pname f := (0, 0)]> (jumpDict (cycle s))
  | Some _ => jumpDict (cycle s)
  end.
Proof.
  intros Hw. unfold addProposalToCycle, bind at 1, get at 1.
  rewrite (proj2 (Z.eqb_neq w 0) Hw).
  unfold bind at 1. rewrite for_each_append.
  unfold bind at 1, get at 1. cbn [cycle set_cycle jumpDict set_propCycle].
  destruct (jumpDict (cycle s) !! pname f) as [c|]; [reflexivity|].
  unfold bind at 1, modify at 1, bind at 1, attr.
  cbn [run jumpDict_add set_cycle].
  destruct (run s) as [r|]; [|reflexivity].
  destruct (save_jump_stats r); reflexivity.
Qed.

(** X2: [addProposalToCycle] keeps every proposal of the cycle in the
    ledger: if each proposal of [propCycle] has its entry in [jumpDict]
    before the call, so it has after it, whatever the weight and the
    outcome. *)
Lemma addProposalToCycle_in_ledger (f : proposal) (w : Z) (s : PTSampler) :
  cycle_in_ledger s -> cycle_in_ledger (addProposalToCycle f w s).1.
Proof.
  intros Hinv. destruct (Z.eq_dec w 0) as [->|Hw]; [exact Hinv|].
  unfold cycle_in_ledger in *.
  rewrite addProposalToCycle_cycle, addProposalToCycle_jumpDict by exact Hw.
  apply Forall_app. split.
  - eapply Forall_impl; [exact Hinv|]. intros g Hg. cbn beta in *.
    destruct (jumpDict (cycle s) !! pname f); [exact Hg|].
    apply lookup_insert_is_Some. destruct (decide (pname f = pname g)); auto.
  - apply Forall_replicate.
    destruct (jumpDict (cycle s) !! pname f) eqn:E; [now rewrite E|].
    rewrite lookup_insert_eq. eauto.
Qed.

Lemma addProposalToCycle_in_ledger_witness :
  cycle_in_ledger (addProposalToCycle (demo_proposal "third") 2
                     (demo_ready demo_cold)).1.
Proof.
  apply (addProposalToCycle_in_ledger (demo_proposal "third") 2 (demo_ready demo_cold)).
  repeat constructor; eexists; vm_compute; reflexivity.
Defined.

(** C10: for a proposal [f] whose name is not in the ledger and a
    weight [w < 0], [addProposalToCycle(f, w)] leaves the cycle as it
    is and inserts the entry [(0, 0)] for [f]; but on a sampler on which
    [initialize] has not run yet (as [__init__] returns it) it then
    raises [AttributeError]: [save_jump_stats] is bound by [initialize]
    only. *)
Theorem addProposalToCycle_negative_before_initialize (f : proposal) (w : Z)
    (s : PTSampler) :
  w < 0 ->
  jumpDict (cycle s) !! pname f = None ->
  run s = None ->
  addProposalToCycle f w s =
    (jumpDict_add (pname f) s, Raise (AttributeError "save_jump_stats"))
  /\ propCycle (cycle (addProposalToCycle f w s).1) = propCycle (cycle s)
  /\ jumpDict (cycle (addProposalToCycle f w s).1) =
       <[pname f := (0, 0)]> (jumpDict (cycle s)).
Proof.
  intros Hw Hf Hr. rewrite addProposalToCycle_negative, Hr by assumption.
  repeat split; reflexivity.
Qed.

Lemma addProposalToCycle_negative_before_initialize_witness :
  addProposalToCycle (demo_proposal "jump") (-1) demo_single =
    (jumpDict_add "jump" demo_single, Raise (AttributeError "save_jump_stats"))
  /\ propCycle (cycle (addProposalToCycle (demo_proposal "jump") (-1) demo_single).1) =
       propCycle (cycle demo_single)
  /\ jumpDict (cycle (addProposalToCycle (demo_proposal "jump") (-1) demo_single).1) =
       <["jump" := (0, 0)]> (jumpDict (cycle demo_single)).
Proof.
  apply (addProposalToCycle_negative_before_initialize
           (demo_proposal "jump") (-1) demo_single);
    [lia | reflexivity | reflexivity].
Defined.

Lemma addProposalToCycle_appends_witness :
  0 <= 3
  /\ propCycle (cycle (addProposalToCycle (demo_proposal "jump") 3 demo_single).1) =
       propCycle (cycle demo_single) ++ replicate (Z.to_nat 3) (demo_proposal "jump").
Proof.
  split; [lia|].
  apply (proj1 (addProposalToCycle_appends (demo_proposal "jump") 3 demo_single
                  ltac:(lia))).
Defined.

(** ** Setup *)

Lemma addProposalToCycle_outcome (f : proposal) (w : Z) (s : PTSampler) :
  other_outcome (addProposalToCycle f w s).2.
Proof.
  unfold addProposalToCycle, bind at 1, get at 1.
  destruct (w =? 0); [now left|].
  unfold bind at 1. rewrite for_each_append.
  unfold bind at 1, get at 1. cbn [cycle set_cycle jumpDict set_propCycle].
  destruct (jumpDict (cycle s) !! pname f); [now left|].
  unfold bind at 1, modify at 1, bind at 1, attr.
  cbn [run jumpDict_add set_cycle].
  destruct (run s) as [r|]; [|right; now eexists].
  destruct (save_jump_stats r); now left.
Qed.

Section SetupProperties.

Context {kwargs : Type}
        (prop_getattr : string -> option (option kwargs -> proposal))
        (prop_default : list string).

Lemma register_outcome (kw : gmap string kwargs) (ws : list (string * Z))
    (s : PTSampler) :
  other_outcome
    (for_each ws (fun '(key, w) =>
       let* name := lift (get_proposal_object_from_name prop_getattr key) in
       let kwargs := kw !! key in
       if decide (key <> DE) then addProposalToCycle (name kwargs) w
       else ret tt) s).2.
Proof.
  revert s. induction ws as [|[key w] ws IH]; intros s; simpl; [now left|].
  unfold bind at 1, bind at 1, lift, get_proposal_object_from_name.
  destruct (prop_getattr key) as [c|]; [|right; now eexists].
  destruct (decide (key <> DE)).
  - pose proof (addProposalToCycle_outcome (c (kw !! key)) w s) as H.
    destruct (addProposalToCycle (c (kw !! key)) w s) as [s' [[]|err]]; simpl in *.
    + apply IH.
    + exact H.
  - unfold ret. apply IH.
Qed.

Lemma initialize_jump_proposals_DE_alone (ws : list (string * Z))
    (kw : gmap string kwargs) (s : PTSampler) :
  (effective_weights prop_default ws).*1 = [DE] ->
  initialize_jump_proposals prop_getattr prop_default ws kw s =
    (s, Raise (Exception DE_alone_msg)).
Proof.
  intros H. unfold initialize_jump_proposals.
  now rewrite decide_True by exact H.
Qed.

Lemma initialize_jump_proposals_other (ws : list (string * Z))
    (kw : gmap string kwargs) (s : PTSampler) :
  (effective_weights prop_default ws).*1 <> [DE] ->
  other_outcome
    (initialize_jump_proposals prop_getattr prop_default ws kw s).2.
Proof.
  intros H. unfold initialize_jump_proposals.
  rewrite decide_False by exact H.
  apply register_outcome.
Qed.

End SetupProperties.

Lemma py_index_error {A} (l : list A) (i : Z) (e : exn) :
  py_index l i = Raise e -> e = IndexError.
Proof.
  unfold py_index. destruct (_ && _); [destruct (l !! _)|]; congruence.
Qed.

Lemma res_map_py_index_error {A} (l : list A) (ix : list Z) (e : exn) :
  res_map (py_index l) ix = Raise e -> e = IndexError.
Proof.
  induction ix as [|i ix IH]; simpl; [discriminate|].
  destruct (py_index l i) eqn:E; simpl.
  - destruct (res_map (py_index l) ix); simpl; [discriminate|].
    intros [= <-]. now apply IH.
  - intros [= <-]. now apply py_index_error in E.
Qed.

Lemma randomizeProposalCycle_outcome (ix : list Z) (s : PTSampler) :
  (randomizeProposalCycle ix s).2 = Ok tt
  \/ (randomizeProposalCycle ix s).2 = Raise IndexError.
Proof.
  unfold randomizeProposalCycle, bind, get, lift.
  destruct (res_map _ ix) eqn:E; [now left|].
  right. simpl. f_equal. now apply res_map_py_index_error in E.
Qed.

Section InitializeProperties.

Context {kwargs : Type}
        (prop_getattr : string -> option (option kwargs -> proposal))
        (prop_default : list string)
        (grad_kwargs : (vec -> pyfloat * vec) -> (vec -> pyfloat * vec) ->
                       matrix -> Z -> kwargs)
        (kwargs_update : kwargs -> kwargs -> kwargs)
        (str_of_float : pyfloat -> string)
        (np_exp np_log np_sqrt : pyfloat -> pyfloat).

Local Abbreviation initialize_jump_proposals' :=
  (initialize_jump_proposals prop_getattr prop_default).
Local Abbreviation initialize_cycle' :=
  (initialize_cycle prop_getattr prop_default).
Local Abbreviation initialize' :=
  (initialize prop_getattr prop_default grad_kwargs kwargs_update
     str_of_float np_exp np_log np_sqrt).
Local Abbreviation initialize_attributes' :=
  (initialize_attributes grad_kwargs kwargs_update
     str_of_float np_exp np_log np_sqrt).
Local Abbreviation sample_start' :=
  (sample_start prop_getattr prop_default grad_kwargs kwargs_update
     str_of_float np_exp np_log np_sqrt).

(** What follows the check of the cycle raises neither configuration
    error. *)
Lemma initialize_files_outcome (a : @initialize_args kwargs) (e : initialize_env)
    (s0 s : PTSampler) :
  let rest :=
    (run* randomizeProposalCycle (e_index e) in
     let* fname := attr "fname" fname in
     if resume (init s0) && e_isfile e then
       let* loaded :=
         match e_loadtxt e with
         | Some arr => ret arr
         | None =>
             match e_loadtxt_retry e with
             | Some arr => ret arr
             | None => raise (ValueError loadtxt_msg)
             end
         end in
       run* modify (fun s => set_run (set_resumechain loaded <$> run s) s) in
       emit (EvOpen fname "a")
     else if a_write_cold_chains a then emit (EvOpen fname "w")
     else ret tt) in
  forall o, (rest s).2 = o ->
  o <> Raise (Exception DE_alone_msg) /\ o <> Raise (ValueError no_jump_msg).
Proof.
  intros rest o Ho. subst rest. unfold bind at 1 in Ho.
  pose proof (randomizeProposalCycle_outcome (e_index e) s) as H.
  destruct (randomizeProposalCycle (e_index e) s) as [s' [[]|err]]; simpl in H.
  2:{ destruct H as [H|H]; [discriminate|]. injection H as ->.
      simpl in Ho. subst o. split; discriminate. }
  clear H. unfold bind at 1, attr in Ho.
  destruct (run s') as [r|]; [|simpl in Ho; subst o; split; discriminate].
  destruct (resume (init s0) && e_isfile e).
  - destruct (e_loadtxt e) as [arr|];
      [simpl in Ho; subst o; split; discriminate|].
    destruct (e_loadtxt_retry e) as [arr|];
      simpl in Ho; subst o; split; discriminate.
  - destruct (a_write_cold_chains a); simpl in Ho; subst o; split; discriminate.
Qed.

Lemma initialize_cycle_outcome (a : @initialize_args kwargs) (e : initialize_env)
    (kw : gmap string kwargs) (s1 : PTSampler) (o : res unit) :
  (initialize_cycle' a e kw s1).2 = o ->
  let reg := initialize_jump_proposals' (a_weights a) kw s1 in
  (o = Raise (Exception DE_alone_msg) <->
     (effective_weights prop_default (a_weights a)).*1 = [DE])
  /\ (o = Raise (ValueError no_jump_msg) <->
      reg.2 = Ok tt /\ propCycle (cycle reg.1) = []).
Proof.
  intros Ho reg. unfold initialize_cycle, bind at 1 in Ho. fold reg in Ho.
  destruct (decide ((effective_weights prop_default (a_weights a)).*1 = [DE]))
    as [Hde|Hde].
  - pose proof (initialize_jump_proposals_DE_alone prop_getattr prop_default
                  (a_weights a) kw s1 Hde) as H.
    fold reg in H. rewrite H in *. simpl in Ho. subst o.
    split; split; try easy; try (intros [? _]; discriminate).
  - pose proof (initialize_jump_proposals_other prop_getattr prop_default
                  (a_weights a) kw s1 Hde) as H.
    fold reg in H. destruct reg as [s2 o2]. simpl in H.
    destruct H as [->|[attr_name ->]].
    2:{ simpl in Ho. subst o.
        split; split; try easy; try (intros [? _]; discriminate). }
    unfold bind at 1, get at 1 in Ho. cbn [fst snd].
    destruct (propCycle (cycle s2)) as [|f l] eqn:Hc.
    + simpl in Ho. subst o. split; split; try easy; try (intros [=]).
    + cbn [length Nat.eqb] in Ho.
      apply initialize_files_outcome in Ho as [H1 H2].
      split; split; try easy; try (intros [_ [=]]).
Qed.

(** C6: [initialize] raises the error of the differential-evolution
    proposal named alone exactly when the keys of the weights it works
    with are the single name [DifferentialEvolution], and it raises "No
    jump proposals specified!" exactly when the registrations return
    and leave the cycle empty; in every other configuration it raises
    neither.  Both surface from [sample] before the first point is
    evaluated: when [initialize] raises, [sample] raises the same error
    out of the state [initialize] left, and the loop is not entered. *)
Theorem initialize_configuration_errors (a : @initialize_args kwargs)
    (e : initialize_env) (s s1 : PTSampler) (kw : gmap string kwargs) :
  initialize_attributes' a s = (s1, Ok kw) ->
  let reg := initialize_jump_proposals' (a_weights a) kw s1 in
  ((initialize' a e s).2 = Raise (Exception DE_alone_msg) <->
     (effective_weights prop_default (a_weights a)).*1 = [DE])
  /\ ((initialize' a e s).2 = Raise (ValueError no_jump_msg) <->
      reg.2 = Ok tt /\ propCycle (cycle reg.1) = [])
  /\ (forall (p0 : vec) (a0 : @initialize_args kwargs) (err : exn),
        a_i0 a0 = 0 ->
        sample_initialize_args
          (default_maxIter (MPIrank (init s)) (a_Niter a0) (a_maxIter a0)) a0 = a ->
        (initialize' a e s).2 = Raise err ->
        sample_start' p0 a0 e s = ((initialize' a e s).1, Raise err)).
Proof.
  intros Hattr reg.
  assert (Hinit : initialize' a e s = initialize_cycle' a e kw s1).
  { unfold initialize. now rewrite (bind_ok _ _ _ _ _ Hattr). }
  rewrite Hinit.
  destruct (initialize_cycle_outcome a e kw s1 _ eq_refl) as [H1 H2].
  split; [exact H1|]. split; [exact H2|].
  intros p0 a0 err Hi0 Ha Herr.
  unfold sample_start, bind at 1, get at 1.
  set (maxIter := default_maxIter (MPIrank (init s)) (a_Niter a0) (a_maxIter a0)) in *.
  assert (Hrows : exists N, chain_rows maxIter (a_thin a0) = Ok N).
  { revert Hattr. unfold initialize_attributes, bind at 1, get at 1, bind at 1, lift.
    rewrite <- Ha. cbn [a_Niter a_maxIter a_thin sample_initialize_args default_maxIter].
    destruct (chain_rows maxIter (a_thin a0)); [eauto|discriminate]. }
  destruct Hrows as [N HN].
  unfold bind at 1, lift. rewrite HN.
  rewrite Hi0. change (0 =? 0) with true. cbv iota.
  unfold bind at 1. rewrite Ha, Hinit.
  destruct (initialize_cycle' a e kw s1) as [s2 o]. simpl in Herr. subst o.
  reflexivity.
Qed.

End InitializeProperties.

Lemma initialize_configuration_errors_witness :
  (initialize demo_getattr ["SCAM"] (fun _ _ _ _ => tt) (fun _ _ => tt)
     (fun _ => "1.0") (fun x => x) (fun x => x) (fun x => x)
     (demo_args [(DE, 5)]) demo_env demo_single).2 =
  Raise (Exception DE_alone_msg).
Proof.
  eapply (initialize_configuration_errors demo_getattr ["SCAM"]
            (fun _ _ _ _ => tt) (fun _ _ => tt) (fun _ => "1.0")
            (fun x => x) (fun x => x) (fun x => x)
            (demo_args [(DE, 5)]) demo_env demo_single).
  - vm_compute. reflexivity.
  - reflexivity.
Defined.

(** ** The swap coordinator *)

Lemma py_mod_ok (a b : Z) : b <> 0 -> py_mod a b = Ok (a mod b).
Proof. intros H. unfold py_mod. now rewrite (proj2 (Z.eqb_neq b 0) H). Qed.

(** On finite values the float operations are the rational ones. *)
Lemma Qceqb_true (a b : Qc) : Qceqb a b = true <-> a = b.
Proof.
  unfold Qceqb. split.
  - destruct (a ?= b)%Qc eqn:E; try discriminate. intros _.
    now apply Qceq_alt.
  - intros ->. now rewrite (proj1 (Qceq_alt b b) eq_refl).
Qed.

Lemma Qceqb_false (a b : Qc) : a <> b -> Qceqb a b = false.
Proof.
  intros H. destruct (Qceqb a b) eqn:E; [|reflexivity].
  now apply Qceqb_true in E.
Qed.

Lemma Qcltb_true (a b : Qc) : Qcltb a b = true <-> (a < b)%Qc.
Proof.
  unfold Qcltb. rewrite Qclt_alt.
  destruct (a ?= b)%Qc; split; congruence.
Qed.

Lemma fdiv_finite (a b : Qc) :
  b <> 0%Qc -> fdiv (Finite a) (Finite b) = Finite (a / b)%Qc.
Proof. intros H. simpl. now rewrite Qceqb_false. Qed.

Lemma of_Z_1 : of_Z 1 = Finite 1%Qc.
Proof. reflexivity. Qed.

(** On finite temperatures and likelihoods [logChainSwap] is the
    rational number [(1/T1 - 1/T2) * (l2 - l1)]. *)
Lemma logChainSwap_finite (t1 t2 l2 l1 : Qc) :
  t1 <> 0%Qc -> t2 <> 0%Qc ->
  logChainSwap (Finite t1) (Finite t2) (Finite l2) (Finite l1) =
  Finite ((1 / t1 - 1 / t2) * (l2 - l1))%Qc.
Proof.
  intros H1 H2. unfold logChainSwap.
  rewrite of_Z_1, !fdiv_finite by assumption. reflexivity.
Qed.

Lemma emit_eq (ev : event) (s : PTSampler) :
  emit ev s = (set_trace (trace s ++ [ev]) s, Ok tt).
Proof. reflexivity. Qed.

Lemma attr_eq {A} (name : string) (f : run_attrs -> A) (s : PTSampler) (r : run_attrs) :
  run s = Some r -> attr name f s = (s, Ok (f r)).
Proof. intros H. unfold attr. now rewrite H. Qed.

(** What the decider does, step by step: the decision is sent first;
    on acceptance its likelihood and its parameters follow and the
    posterior is recomputed at the parameters received. *)
Lemma PTswap_decider (s : PTSampler) (r : run_attrs) (p0 : vec)
    (l2 lnprob0 : pyfloat) (iter : Z) (e : swap_env) (T1 T2 : pyfloat) :
  run s = Some r ->
  Tskip r <> 0 ->
  proposes s r iter = false ->
  0 < MPIrank (init s) ->
  e_readyToSwap e = true ->
  py_index (ladder r) (MPIrank (init s) - 1) = Ok T1 ->
  py_index (ladder r) (MPIrank (init s)) = Ok T2 ->
  PTswap p0 l2 lnprob0 iter e s =
  if fgt (logChainSwap T1 T2 l2 (e_lnlike e)) (e_logU_swap e) then
    (set_trace (trace s ++ [EvSend (MPIrank (init s) - 1) 888 (MInt 1);
                            EvSend (MPIrank (init s) - 1) 18 (MFloat l2);
                            EvSend (MPIrank (init s) - 1) 19 (MVec p0);
                            EvLogp (e_pnew e)]) s,
     Ok (0, e_pnew e, e_lnlike e,
         tempered (temp r) (e_lnlike e) (logp (init s) (e_pnew e))))
  else
    (set_trace (trace s ++ [EvSend (MPIrank (init s) - 1) 888 (MInt 0)]) s,
     Ok (0, p0, l2, lnprob0)).
Proof.
  intros Hr Ht Hp Hrank Hready H1 H2.
  unfold PTswap, bind at 1, get at 1.
  unfold bind at 1. rewrite (attr_eq _ _ _ _ Hr).
  unfold bind at 1, lift. rewrite (py_mod_ok _ _ Ht).
  unfold proposes in Hp. rewrite Hp.
  rewrite (proj2 (Z.ltb_lt 0 _) Hrank), Hready.
  unfold bind at 1, bind at 1. rewrite (attr_eq _ _ _ _ Hr).
  unfold bind at 1. rewrite H1. unfold bind at 1. rewrite H2.
  destruct (fgt _ _).
  - unfold exchange, call_logp, bind, emit, modify, get, ret, attr.
    cbn -[tempered]. rewrite Hr. cbn -[tempered].
    rewrite <- !app_assoc. reflexivity.
  - reflexivity.
Qed.

(** C1: the decider, at rank [k] with the ladder temperatures
    [T1 = ladder[k-1]] and [T2 = ladder[k]], its own likelihood [l2]
    and the likelihood [l1] received from the colder chain, computes
    [(1/T1 - 1/T2) * (l2 - l1)] and accepts exactly when this exceeds
    [log U]: the decision it sends is 1 or 0 accordingly, the exchange
    is made in the first case only, and on finite inputs with
    [0 < T1 < T2] the quantity is that rational number. *)
Theorem PTswap_decider_criterion (s : PTSampler) (r : run_attrs) (p0 : vec)
    (l2 lnprob0 : pyfloat) (iter : Z) (e : swap_env) (T1 T2 : pyfloat) :
  run s = Some r ->
  Tskip r <> 0 ->
  proposes s r iter = false ->
  0 < MPIrank (init s) ->
  e_readyToSwap e = true ->
  py_index (ladder r) (MPIrank (init s) - 1) = Ok T1 ->
  py_index (ladder r) (MPIrank (init s)) = Ok T2 ->
  let delta := fmul (fsub (fdiv (of_Z 1) T1) (fdiv (of_Z 1) T2))
                    (fsub l2 (e_lnlike e)) in
  let accept := fgt delta (e_logU_swap e) in
  let out := PTswap p0 l2 lnprob0 iter e s in
  (exists rest,
     trace out.1 =
     trace s ++ EvSend (MPIrank (init s) - 1) 888 (MInt (if accept then 1 else 0))
             :: rest)
  /\ (accept = true ->
      out.2 = Ok (0, e_pnew e, e_lnlike e,
                  tempered (temp r) (e_lnlike e) (logp (init s) (e_pnew e))))
  /\ (accept = false -> out.2 = Ok (0, p0, l2, lnprob0))
  /\ (forall t1 t2 q1 q2 u : Qc,
        T1 = Finite t1 -> T2 = Finite t2 -> (0 < t1)%Qc -> (t1 < t2)%Qc ->
        l2 = Finite q2 -> e_lnlike e = Finite q1 -> e_logU_swap e = Finite u ->
        delta = Finite ((1 / t1 - 1 / t2) * (q2 - q1))%Qc
        /\ (accept = true <-> (u < (1 / t1 - 1 / t2) * (q2 - q1))%Qc)).
Proof.
  intros Hr Ht Hp Hrank Hready H1 H2 delta accept out.
  pose proof (PTswap_decider s r p0 l2 lnprob0 iter e T1 T2
                Hr Ht Hp Hrank Hready H1 H2) as Hout.
  fold out in Hout. change (logChainSwap T1 T2 l2 (e_lnlike e)) with delta in Hout.
  fold accept in Hout.
  split; [|split; [|split]].
  - rewrite Hout. destruct accept; simpl; eauto.
  - intros Ha. rewrite Hout, Ha. reflexivity.
  - intros Ha. rewrite Hout, Ha. reflexivity.
  - intros t1 t2 q1 q2 u -> -> Hpos Hlt -> Hl1 Hu.
    assert (Hd : delta = Finite ((1 / t1 - 1 / t2) * (q2 - q1))%Qc).
    { subst delta. rewrite Hl1.
      apply logChainSwap_finite.
      - intros ->. now apply Qclt_not_eq in Hpos.
      - intros ->. apply (Qclt_not_eq 0 0); [|reflexivity].
        now apply Qclt_trans with t1. }
    split; [exact Hd|].
    subst accept. rewrite Hd, Hu. simpl. apply Qcltb_true.
Qed.

Lemma PTswap_decider_criterion_witness :
  exists rest,
    trace (PTswap [of_Z 5] (of_Z (-1)) (of_Z (-1)) 100 demo_swap_env demo_hot).1 =
    trace demo_hot ++ EvSend 0 888 (MInt 1) :: rest.
Proof.
  exact (proj1 (PTswap_decider_criterion demo_hot (demo_run 1) [of_Z 5] (of_Z (-1))
                  (of_Z (-1)) 100 demo_swap_env (of_Z 1) (of_Z 4)
                  eq_refl ltac:(discriminate) eq_refl ltac:(reflexivity)
                  eq_refl eq_refl eq_refl)).
Defined.

(** The proposer: it sends its likelihood, reads the decision of the
    hotter neighbour, and exchanges on acceptance. *)
Lemma PTswap_proposer (s : PTSampler) (r : run_attrs) (p0 : vec)
    (l1 lnprob0 : pyfloat) (iter : Z) (e : swap_env) :
  run s = Some r ->
  Tskip r <> 0 ->
  proposes s r iter = true ->
  PTswap p0 l1 lnprob0 iter e s =
  if negb (e_swapAccepted e =? 0) then
    (set_trace (trace s ++ [EvSend (MPIrank (init s) + 1) 18 (MFloat l1);
                            EvSend (MPIrank (init s) + 1) 19 (MVec p0);
                            EvLogp (e_pnew e)]) s,
     Ok (2, e_pnew e, e_lnlike e,
         tempered (temp r) (e_lnlike e) (logp (init s) (e_pnew e))))
  else
    (set_trace (trace s ++ [EvSend (MPIrank (init s) + 1) 18 (MFloat l1)]) s,
     Ok (1, p0, l1, lnprob0)).
Proof.
  intros Hr Ht Hp.
  unfold PTswap, bind at 1, get at 1.
  unfold bind at 1. rewrite (attr_eq _ _ _ _ Hr).
  unfold bind at 1, lift. rewrite (py_mod_ok _ _ Ht).
  unfold proposes in Hp. rewrite Hp.
  destruct (e_swapAccepted e =? 0) eqn:E.
  - unfold swapReturn_of, bind, emit, modify, get, ret. cbn.
    rewrite E. reflexivity.
  - unfold exchange, call_logp, bind, emit, modify, get, ret, attr, swapReturn_of.
    cbn -[tempered]. rewrite Hr. cbn -[tempered]. rewrite E.
    rewrite <- !app_assoc. reflexivity.
Qed.

(** A process that does not propose returns 0 whatever else it does. *)
Lemma PTswap_not_proposer (s : PTSampler) (r : run_attrs) (p0 : vec)
    (l lnprob0 : pyfloat) (iter : Z) (e : swap_env) :
  run s = Some r ->
  Tskip r <> 0 ->
  proposes s r iter = false ->
  0 <= MPIrank (init s) < Z.of_nat (length (ladder r)) ->
  exists s' p l' lp, PTswap p0 l lnprob0 iter e s = (s', Ok (0, p, l', lp)).
Proof.
  intros Hr Ht Hp Hrank.
  destruct (Z.ltb_spec 0 (MPIrank (init s))) as [Hpos|Hle].
  - destruct (e_readyToSwap e) eqn:Hready.
    + assert (H1 : exists T1, py_index (ladder r) (MPIrank (init s) - 1) = Ok T1).
      { unfold py_index.
        replace (MPIrank (init s) - 1 <? 0) with false by lia.
        replace ((0 <=? MPIrank (init s) - 1)
                 && (MPIrank (init s) - 1 <? Z.of_nat (length (ladder r))))
          with true by lia.
        destruct (ladder r !! Z.to_nat (MPIrank (init s) - 1)) eqn:E; [eauto|].
        apply lookup_ge_None in E. lia. }
      assert (H2 : exists T2, py_index (ladder r) (MPIrank (init s)) = Ok T2).
      { unfold py_index.
        replace (MPIrank (init s) <? 0) with false by lia.
        replace ((0 <=? MPIrank (init s))
                 && (MPIrank (init s) <? Z.of_nat (length (ladder r))))
          with true by lia.
        destruct (ladder r !! Z.to_nat (MPIrank (init s))) eqn:E; [eauto|].
        apply lookup_ge_None in E. lia. }
      destruct H1 as [T1 H1], H2 as [T2 H2].
      rewrite (PTswap_decider s r p0 l lnprob0 iter e T1 T2
                 Hr Ht Hp Hpos Hready H1 H2).
      destruct (fgt _ _); eauto 8.
    + unfold PTswap, bind at 1, get at 1.
      unfold bind at 1. rewrite (attr_eq _ _ _ _ Hr).
      unfold bind at 1, lift. rewrite (py_mod_ok _ _ Ht).
      unfold proposes in Hp. rewrite Hp.
      rewrite (proj2 (Z.ltb_lt 0 _) Hpos), Hready.
      cbn. eauto 8.
  - unfold PTswap, bind at 1, get at 1.
    unfold bind at 1. rewrite (attr_eq _ _ _ _ Hr).
    unfold bind at 1, lift. rewrite (py_mod_ok _ _ Ht).
    unfold proposes in Hp. rewrite Hp.
    replace (0 <? MPIrank (init s)) with false by lia.
    cbn. eauto 8.
Qed.

(** As first stated the claim on the return code fails: the hotter of
    two processes finds a proposal
    pending, accepts it (it sends the decision 1 and its parameters,
    and comes back with the parameters and the likelihood of its
    neighbour), and [PTswap] returns 0. *)
Lemma PTswap_decider_accepts_returns_0 :
  In (EvSend 0 888 (MInt 1))
     (trace (PTswap [of_Z 5] (of_Z (-1)) (of_Z (-1)) 100 demo_swap_env demo_hot).1)
  /\ In (EvSend 0 19 (MVec [of_Z 5]))
       (trace (PTswap [of_Z 5] (of_Z (-1)) (of_Z (-1)) 100 demo_swap_env demo_hot).1)
  /\ (PTswap [of_Z 5] (of_Z (-1)) (of_Z (-1)) 100 demo_swap_env demo_hot).2 =
     Ok (0, [of_Z 7], of_Z (-3), tempered (of_Z 4) (of_Z (-3)) (Finite 0%Qc)).
Proof.
  rewrite (PTswap_decider demo_hot (demo_run 1) [of_Z 5] (of_Z (-1)) (of_Z (-1))
             100 demo_swap_env (of_Z 1) (of_Z 4)
             eq_refl ltac:(discriminate) eq_refl ltac:(reflexivity)
             eq_refl eq_refl eq_refl).
  change (fgt _ _) with true. cbv iota.
  split; [|split]; [simpl; tauto | simpl; tauto | reflexivity].
Qed.

(** C5, amended: the code [PTswap] returns speaks of the proposing
    side only.  It is 2 exactly when this process proposed a swap (the
    iteration is on the cadence and the process is not the hottest) and
    the hotter neighbour accepted, 1 exactly when it proposed and the
    neighbour refused, and 0 exactly when it did not propose, whether
    or not it decided, and accepted, a proposal of its colder
    neighbour. *)
Theorem PTswap_return_code (s : PTSampler) (r : run_attrs) (p0 : vec)
    (l lnprob0 : pyfloat) (iter : Z) (e : swap_env) :
  run s = Some r ->
  Tskip r <> 0 ->
  0 <= MPIrank (init s) < Z.of_nat (length (ladder r)) ->
  exists s' code p l' lp,
    PTswap p0 l lnprob0 iter e s = (s', Ok (code, p, l', lp))
    /\ (code = 2 <-> proposes s r iter = true /\ e_swapAccepted e <> 0)
    /\ (code = 1 <-> proposes s r iter = true /\ e_swapAccepted e = 0)
    /\ (code = 0 <-> proposes s r iter = false).
Proof.
  intros Hr Ht Hrank.
  destruct (proposes s r iter) eqn:Hp.
  - rewrite (PTswap_proposer s r p0 l lnprob0 iter e Hr Ht Hp).
    destruct (Z.eqb_spec (e_swapAccepted e) 0) as [E|E]; cbn [negb].
    + do 5 eexists. split; [reflexivity|].
      repeat split; try easy; intros [_ H]; contradiction.
    + do 5 eexists. split; [reflexivity|].
      repeat split; try easy; intros [_ H]; contradiction.
  - destruct (PTswap_not_proposer s r p0 l lnprob0 iter e Hr Ht Hp Hrank)
      as (s' & p & l' & lp & H).
    exists s', 0, p, l', lp. split; [exact H|].
    repeat split; try easy; intros [H' _]; discriminate.
Qed.

Lemma PTswap_return_code_witness :
  exists s' code p l' lp,
    PTswap [of_Z 5] (of_Z (-1)) (of_Z (-1)) 100 demo_swap_env demo_cold =
      (s', Ok (code, p, l', lp))
    /\ (code = 2 <-> proposes demo_cold (demo_run 0) 100 = true
                     /\ e_swapAccepted demo_swap_env <> 0)
    /\ (code = 1 <-> proposes demo_cold (demo_run 0) 100 = true
                     /\ e_swapAccepted demo_swap_env = 0)
    /\ (code = 0 <-> proposes demo_cold (demo_run 0) 100 = false).
Proof.
  apply (PTswap_return_code demo_cold (demo_run 0) [of_Z 5] (of_Z (-1))
           (of_Z (-1)) 100 demo_swap_env eq_refl);
    [discriminate | simpl; lia].
Defined.

(** ** The Metropolis step *)

(** A proposal of posterior [-inf] is never accepted: the difference
    is [-inf] or [nan], and neither exceeds anything. *)
Lemma infeasible_never_accepted (lnprob0 qxy logU : pyfloat) :
  fgt (fadd (fsub NInf lnprob0) qxy) logU = false.
Proof. destruct lnprob0, qxy, logU; reflexivity. Qed.

(** [_jump] only reads the object, and the name it returns is the
    name of a proposal of the cycle. *)
Lemma _jump_outcome (x : vec) (iter ind : Z) (s : PTSampler) :
  (_jump x iter ind s).1 = s
  /\ forall y qxy name,
       (_jump x iter ind s).2 = Ok (y, qxy, name) ->
       exists f, f ∈ propCycle (cycle s) /\ pname f = name.
Proof.
  unfold _jump, update_jump_proposal_kwargs, attr, bind, get, lift, ret, raise.
  cbv beta.
  destruct (_ <=? 0); [split; [reflexivity|discriminate]|].
  destruct (run s) as [r|] eqn:Hr; [|split; [reflexivity|discriminate]].
  destruct (_DEbuffer (store s)); [|split; [reflexivity|discriminate]].
  destruct (py_index _ ind) as [f|] eqn:E; [|split; [reflexivity|discriminate]].
  destruct (pcall f x _) as [q qxy'].
  rewrite Hr.
  destruct (apply_aux _ _ _ _ _ _).
  split; [reflexivity|]. simpl.
  intros y qxy name [= _ _ <-]. exists f. split; [|reflexivity].
  unfold py_index in E. destruct (_ && _); [|discriminate].
  destruct (_ !! _) eqn:El; [|discriminate]. injection E as ->.
  eapply list_elem_of_lookup_2. exact El.
Qed.

Lemma resuming_at_eq (bound : Z) (s : PTSampler) (r : run_attrs) :
  run s = Some r ->
  resuming_at bound s = (s, Ok (resume (init s) && (bound <? resumeLength r))).
Proof.
  intros Hr. unfold resuming_at, bind, get, attr, ret. cbv beta.
  destruct (resume (init s)); [|reflexivity]. now rewrite Hr.
Qed.

(** C4: in a step that does not replay a resumed chain, a proposed
    point [y] whose log-prior is [-inf] is rejected whatever the current
    posterior, the Hastings correction and the draw are: the likelihood
    is not called (the only call recorded is the prior at [y]), the
    step returns the current [(p0, lnlike0, lnprob0)] without an error,
    and the count of accepted steps is unchanged. *)
Theorem infeasible_proposal_rejected (s : PTSampler) (r : run_attrs) (p0 : vec)
    (lnlike0 lnprob0 : pyfloat) (iter : Z) (e : jump_env) (y : vec)
    (qxy : pyfloat) (name : string) :
  run s = Some r ->
  replaying s r iter = false ->
  cycle_in_ledger s ->
  (_jump p0 iter (e_randint e) s).2 = Ok (y, qxy, name) ->
  logp (init s) y = NInf ->
  (jump_proposal p0 lnlike0 lnprob0 iter e s).2 = Ok (p0, lnlike0, lnprob0)
  /\ naccepted (counters (jump_proposal p0 lnlike0 lnprob0 iter e s).1) =
       naccepted (counters s)
  /\ trace (jump_proposal p0 lnlike0 lnprob0 iter e s).1 = trace s ++ [EvLogp y]
  /\ (forall x, In (EvLogl x) (trace (jump_proposal p0 lnlike0 lnprob0 iter e s).1) ->
                In (EvLogl x) (trace s)).
Proof.
  intros Hr Hrep Hinv Hjump Hlp.
  destruct (_jump_outcome p0 iter (e_randint e) s) as [Hs Hname].
  destruct (Hname _ _ _ Hjump) as (f & Hf & <-).
  unfold cycle_in_ledger in Hinv. rewrite Forall_forall in Hinv.
  destruct (Hinv f Hf) as [[proposed accepted] Hentry].
  assert (Hj : _jump p0 iter (e_randint e) s = (s, Ok (y, qxy, pname f))).
  { destruct (_jump p0 iter (e_randint e) s) as [s1 o]. simpl in *. congruence. }
  assert (Hout : jump_proposal p0 lnlike0 lnprob0 iter e s =
                 (set_trace (trace s ++ [EvLogp y])
                    (set_cycle (set_jumpDict
                       (<[pname f := (proposed + 1, accepted)]> (jumpDict (cycle s)))
                       (cycle s)) s),
                  Ok (p0, lnlike0, lnprob0))).
  { unfold jump_proposal.
    rewrite (bind_ok _ _ _ _ _ (resuming_at_eq 0 s r Hr)).
    unfold replaying in Hrep.
    destruct (resume (init s) && (0 <? resumeLength r)) eqn:Hres.
    - rewrite (bind_ok _ _ _ _ _ (attr_eq _ _ _ _ Hr)).
      cbn [andb] in Hrep |- *. rewrite Hrep.
      rewrite (bind_ok _ _ _ _ _ Hj).
      unfold jumpDict_incr, call_logp, bind, get, emit, modify, ret.
      cbv beta. rewrite Hentry. cbn [init set_cycle set_trace].
      rewrite Hlp. cbn [feq]. cbv iota beta.
      rewrite infeasible_never_accepted. reflexivity.
    - unfold bind at 1, ret at 1. cbn [andb].
      rewrite (bind_ok _ _ _ _ _ Hj).
      unfold jumpDict_incr, call_logp, bind, get, emit, modify, ret.
      cbv beta. rewrite Hentry. cbn [init set_cycle set_trace].
      rewrite Hlp. cbn [feq]. cbv iota beta.
      rewrite infeasible_never_accepted. reflexivity. }
  rewrite Hout. cbn [fst snd trace set_trace set_cycle counters].
  repeat split.
  intros x Hx. apply in_app_or in Hx as [Hx|Hx]; [exact Hx|].
  simpl in Hx. destruct Hx as [Hx|[]]. discriminate.
Qed.

Lemma infeasible_proposal_rejected_witness :
  (jump_proposal [of_Z 5] (of_Z (-1)) (of_Z (-1)) 1 demo_jump_env demo_infeasible).2 =
    Ok ([of_Z 5], of_Z (-1), of_Z (-1))
  /\ naccepted (counters (jump_proposal [of_Z 5] (of_Z (-1)) (of_Z (-1)) 1
                           demo_jump_env demo_infeasible).1) =
       naccepted (counters demo_infeasible)
  /\ trace (jump_proposal [of_Z 5] (of_Z (-1)) (of_Z (-1)) 1
              demo_jump_env demo_infeasible).1 =
       trace demo_infeasible ++ [EvLogp [of_Z 5]]
  /\ (forall x, In (EvLogl x) (trace (jump_proposal [of_Z 5] (of_Z (-1)) (of_Z (-1)) 1
                                       demo_jump_env demo_infeasible).1) ->
                In (EvLogl x) (trace demo_infeasible)).
Proof.
  apply (infeasible_proposal_rejected demo_infeasible (demo_run 0) [of_Z 5]
           (of_Z (-1)) (of_Z (-1)) 1 demo_jump_env [of_Z 5] (Finite 0%Qc) "jump").
  - reflexivity.
  - reflexivity.
  - repeat constructor. eexists. vm_compute. reflexivity.
  - vm_compute. reflexivity.
  - reflexivity.
Defined.

(** ** The differential-evolution buffer *)

Lemma py_slice_inner {A} (l : list A) (lo hi : Z) :
  0 <= lo <= hi -> hi <= Z.of_nat (length l) ->
  py_slice l lo hi = take (Z.to_nat (hi - lo)) (drop (Z.to_nat lo) l).
Proof.
  intros H1 H2. unfold py_slice, py_clip.
  replace (lo <? 0) with false by lia.
  replace (hi <? 0) with false by lia.
  replace (Z.max 0 (Z.min (Z.of_nat (length l)) lo)) with lo by lia.
  replace (Z.max 0 (Z.min (Z.of_nat (length l)) hi)) with hi by lia.
  reflexivity.
Qed.

Lemma for_each_emit {A} (xs : list A) (f : A -> event) (s : PTSampler) :
  for_each xs (fun x => emit (f x)) s = (set_trace (trace s ++ map f xs) s, Ok tt).
Proof.
  revert s. induction xs as [|x xs IH]; intros s; simpl.
  - unfold ret. rewrite app_nil_r. now destruct s.
  - unfold bind. rewrite emit_eq, IH. cbn [trace set_trace].
    now rewrite <- app_assoc.
Qed.

(** The update of the buffer when it fires. *)
Lemma DEbuffer_update_fires (s : PTSampler) (r : run_attrs) (iter chain_ind : Z)
    (am : list matrix) (chain : matrix) :
  run s = Some r ->
  MPIrank (init s) = 0 ->
  burn r <> 0 ->
  (iter - 1) mod burn r = 0 ->
  iter - 1 <> 0 ->
  _AMbuffer (store s) = Some am ->
  py_index am chain_ind = Ok chain ->
  let de := inr (py_slice chain (iter - 1 - burn r) (iter - 1)) in
  DEbuffer_update iter chain_ind s =
  (set_trace (trace s ++ map (fun rank => EvSend (rank + 1) 222 (MBuf de))
                             (range 0 (nchain (init s) - 1)))
     (set_DEbuffer (Some de) s), Ok tt).
Proof.
  intros Hr Hrank Hb Hmod Hne Ham Hchain de.
  unfold DEbuffer_update, bind at 1, get at 1.
  rewrite (bind_ok _ _ _ _ _ (attr_eq _ _ _ _ Hr)).
  unfold bind at 1, lift. rewrite (py_mod_ok _ _ Hb), Hmod, Hrank.
  replace (iter - 1 =? 0) with false by lia.
  cbn [Z.eqb andb negb].
  unfold _updateDEbuffer, get_AMbuffer, bind, get, lift, modify. cbv beta.
  rewrite Ham, Hchain. cbn [store set_DEbuffer set_store _DEbuffer].
  rewrite for_each_emit. reflexivity.
Qed.

(** ** The chain file *)

Lemma py_index_elem_of {A} (l : list A) (i : Z) (a : A) :
  py_index l i = Ok a -> a ∈ l.
Proof.
  unfold py_index. destruct (_ && _); [|discriminate].
  destruct (l !! _) eqn:E; [|discriminate]. intros [= <-].
  eapply list_elem_of_lookup_2. exact E.
Qed.

(** The body of the loop of [_writeToFile] cannot complete a row when
    no row of [_lnprob] has a single element: ["%f" % self._lnprob[ind]]
    formats a whole row of the array. *)
Lemma writeToFile_row_raises (s : PTSampler) (r : run_attrs) (iter jj : Z)
    (body : Z -> M unit) (out : PTSampler * res unit) :
  run s = Some r ->
  Forall (fun row => length row <> 1%nat) (_lnprob (store s)) ->
  body = (fun jj =>
         let ind := Z.quot jj (thin r) in
         let* s := get in
         let pt_acc :=
           if (MPIrank (init s) <? nchain (init s) - 1)
              && negb (swapProposed (counters s) =? 0)
           then fdiv (of_Z (nswap_accepted (counters s)))
                     (of_Z (swapProposed (counters s)))
           else of_Z 1 in
         let* params := lift (res_map (fun kk =>
                          let? a := py_index2 (_chain (store s)) ind kk in
                          format_array a) (range 0 (ndim (init s)))) in
         run* emit (EvWrite (fname r) params) in
         let* lnprob := lift (py_index (_lnprob (store s)) ind) in
         let* lnlike := lift (py_index (_lnlike (store s)) ind) in
         let* acc := lift (py_truediv (naccepted (counters s)) (of_Z iter)) in
         let* lnprob' := lift (format_array lnprob) in
         let* lnlike' := lift (format_array lnlike) in
         emit (EvWrite (fname r) [lnprob'; lnlike'; acc; pt_acc])) ->
  body jj s = out ->
  exists e,
    out.2 = Raise e
    /\ (trace out.1 = trace s
        \/ exists params, trace out.1 = trace s ++ [EvWrite (fname r) params]).
Proof.
  intros Hr Hshape -> Hout. cbv beta zeta in Hout.
  unfold bind at 1, get at 1 in Hout. unfold bind at 1, lift at 1 in Hout.
  destruct (res_map _ _) as [params|e];
    [|subst out; exists e; split; [reflexivity|now left]].
  unfold bind at 1 in Hout. rewrite emit_eq in Hout.
  unfold bind at 1, lift at 1 in Hout. cbn [store set_trace] in Hout.
  destruct (py_index (_lnprob (store s)) _) as [lnprob|e] eqn:E1;
    [|subst out; exists e; split; [reflexivity|right; now exists params]].
  unfold bind at 1, lift at 1 in Hout.
  destruct (py_index (_lnlike (store s)) _) as [lnlike|e];
    [|subst out; exists e; split; [reflexivity|right; now exists params]].
  unfold bind at 1, lift at 1 in Hout.
  destruct (py_truediv _ _) as [acc|e];
    [|subst out; exists e; split; [reflexivity|right; now exists params]].
  unfold bind at 1, lift at 1 in Hout.
  apply py_index_elem_of in E1.
  rewrite Forall_forall in Hshape. specialize (Hshape _ E1).
  destruct lnprob as [|x [|x' l]]; simpl in Hshape; try congruence;
    (subst out; exists TypeError; split; [reflexivity|right; now exists params]).
Qed.

(** C7: [_writeToFile], on arrays shaped as [initialize] shapes them
    (every row of [_lnprob] holds the [N <> 1] values of one chain),
    raises at the first row it is to write: it indexes [_chain],
    [_lnprob] and [_lnlike] as before the axis of the cold chains was
    added, so a whole row of an array reaches ["%f"].  The file is
    opened, at most the parameter half of one row is written, and no
    row is completed. *)
Theorem writeToFile_completes_no_row (s : PTSampler) (r : run_attrs)
    (iter jj : Z) (jjs : list Z) (out : PTSampler * res unit) :
  run s = Some r ->
  Forall (fun row => length row <> 1%nat) (_lnprob (store s)) ->
  range_step (iter - isave r) iter (thin r) = Ok (jj :: jjs) ->
  _writeToFile iter s = out ->
  exists e,
    out.2 = Raise e
    /\ (trace out.1 = trace s ++ [EvOpen (fname r) "a+"]
        \/ exists params,
             trace out.1 =
             trace s ++ [EvOpen (fname r) "a+"; EvWrite (fname r) params]).
Proof.
  intros Hr Hshape Hrange Hout.
  unfold _writeToFile in Hout.
  rewrite (bind_ok _ _ _ _ _ (attr_eq _ _ _ _ Hr)) in Hout.
  unfold bind at 1 in Hout. rewrite emit_eq in Hout.
  set (s1 := set_trace (trace s ++ [EvOpen (fname r) "a+"]) s) in *.
  assert (Hr1 : run s1 = Some r) by exact Hr.
  rewrite (bind_ok _ _ _ _ _ (attr_eq _ _ _ _ Hr1)) in Hout.
  rewrite (bind_ok _ _ _ _ _ (attr_eq _ _ _ _ Hr1)) in Hout.
  unfold bind at 1, lift at 1 in Hout. rewrite Hrange in Hout.
  match type of Hout with
  | context [for_each (jj :: jjs) ?b] => set (body := b) in Hout
  end.
  change (for_each (jj :: jjs) body)
    with (bind (body jj) (fun _ => for_each jjs body)) in Hout.
  unfold bind at 1 2 in Hout.
  destruct (writeToFile_row_raises s1 r iter jj body (body jj s1) Hr1 Hshape
              eq_refl eq_refl) as (e & He & Htr).
  destruct (body jj s1) as [s2 o2] eqn:Hbody. simpl in He. subst o2.
  subst out. exists e. split; [reflexivity|].
  cbn [fst trace] in *. subst s1. cbn [trace set_trace] in Htr.
  destruct Htr as [-> | [params ->]]; [now left|].
  right. exists params. now rewrite <- app_assoc.
Qed.

Lemma writeToFile_completes_no_row_witness :
  exists e,
    (_writeToFile 2 demo_writer).2 = Raise e
    /\ (trace (_writeToFile 2 demo_writer).1 =
          trace demo_writer ++ [EvOpen "./chains/chain_1.0.txt" "a+"]
        \/ exists params,
             trace (_writeToFile 2 demo_writer).1 =
             trace demo_writer ++ [EvOpen "./chains/chain_1.0.txt" "a+";
                                   EvWrite "./chains/chain_1.0.txt" params]).
Proof.
  refine (writeToFile_completes_no_row demo_writer
            {| ladder := [of_Z 1]; covUpdate := 1000; burn := 10000;
               Tskip := 100; thin := 1; isave := 2; Niter := 10;
               write_cold_chains := true; writeHotChains := false;
               save_jump_stats := false; n_cold_chains := 2; temp := of_Z 1;
               fname := "./chains/chain_1.0.txt"; resumeLength := 0;
               resumechain := inl [] |}
            2 0 [1] _ _ _ _ eq_refl).
  - vm_compute. reflexivity.
  - vm_compute. repeat constructor; discriminate.
  - vm_compute. reflexivity.
Defined.

(** At this input the exception is the [TypeError] of the format, and
    it reaches the caller [updateChains] at the first save. *)
Lemma writeToFile_raises_TypeError :
  (_writeToFile 2 demo_writer).2 = Raise TypeError
  /\ (updateChains [of_Z 1; of_Z 2] (of_Z 0) (of_Z 0) 2 0 demo_writer).2 =
     Raise TypeError.
Proof. split; vm_compute; reflexivity. Qed.

Lemma py_index_nonneg {A} (l : list A) (i : Z) (a : A) :
  0 <= i -> l !! Z.to_nat i = Some a -> py_index l i = Ok a.
Proof.
  intros Hi Hl. unfold py_index.
  pose proof (lookup_lt_Some _ _ _ Hl) as Hlt.
  replace (i <? 0) with false by lia.
  replace ((0 <=? i) && (i <? Z.of_nat (length l))) with true by lia.
  now rewrite Hl.
Qed.

Lemma py_index_negative {A} (l : list A) (i : Z) (a : A) :
  i < 0 -> 0 <= i + Z.of_nat (length l) ->
  l !! Z.to_nat (i + Z.of_nat (length l)) = Some a -> py_index l i = Ok a.
Proof.
  intros Hi Hn Hl. unfold py_index.
  pose proof (lookup_lt_Some _ _ _ Hl) as Hlt.
  replace (i <? 0) with true by lia.
  replace ((0 <=? i + Z.of_nat (length l))
           && (i + Z.of_nat (length l) <? Z.of_nat (length l))) with true by lia.
  now rewrite Hl.
Qed.

(** X3: the reading side agrees with the layout of a row: from a file of
    at least two rows whose first row is the parameters followed by log-
    posterior, log-likelihood and the two acceptance fractions, the
    resume path of [sample] takes the parameters, the log-likelihood
    (column -3) and the log-posterior (column -4). *)
Lemma resume_row_layout (params : vec) (lnprob lnlike acc pt_acc : pyfloat)
    (rows : matrix) :
  resume_row (inr ((params ++ [lnprob; lnlike; acc; pt_acc]) :: rows)) 0 =
  Ok (params, lnlike, lnprob).
Proof.
  unfold resume_row.
  rewrite (py_index_nonneg _ 0 (params ++ [lnprob; lnlike; acc; pt_acc]))
    by (try lia; reflexivity).
  cbn [res_bind].
  set (row := params ++ [lnprob; lnlike; acc; pt_acc]).
  assert (Hlen : Z.of_nat (length row) = Z.of_nat (length params) + 4).
  { subst row. rewrite length_app. simpl. lia. }
  rewrite (py_index_negative row (-3) lnlike).
  2: lia. 2: lia.
  2:{ rewrite Hlen.
      replace (Z.to_nat (-3 + (Z.of_nat (length params) + 4)))
        with (length params + 1)%nat by lia.
      subst row. rewrite lookup_app_r by lia.
      replace (length params + 1 - length params)%nat with 1%nat by lia.
      reflexivity. }
  rewrite (py_index_negative row (-4) lnprob).
  2: lia. 2: lia.
  2:{ rewrite Hlen.
      replace (Z.to_nat (-4 + (Z.of_nat (length params) + 4)))
        with (length params + 0)%nat by lia.
      subst row. rewrite lookup_app_r by lia.
      replace (length params + 0 - length params)%nat with 0%nat by lia.
      reflexivity. }
  cbn [res_bind]. do 3 f_equal.
  unfold py_slice, py_clip. rewrite Hlen.
  replace (0 <? 0) with false by lia.
  replace (-4 <? 0) with true by lia.
  replace (Z.to_nat (Z.max 0 (Z.min (Z.of_nat (length params) + 4)
                                (-4 + (Z.of_nat (length params) + 4))) -
                     Z.max 0 (Z.min (Z.of_nat (length params) + 4) 0)))
    with (length params) by lia.
  replace (Z.to_nat (Z.max 0 (Z.min (Z.of_nat (length params) + 4) 0)))
    with 0%nat by lia.
  subst row. rewrite drop_0. now rewrite take_app_length.
Qed.

(** ** The temperature ladder *)

Section Ladder.

Local Open Scope R_scope.

Lemma exp_pow_INR (x : R) (n : nat) : exp x ^ n = exp (INR n * x).
Proof.
  induction n as [|n IH].
  - simpl. now rewrite Rmult_0_l, exp_0.
  - rewrite S_INR. simpl. rewrite IH, <- exp_plus. f_equal. ring.
Qed.

(** The ladder computed from a step [t]. *)
Lemma ladder_of_step (K : Z) (Tmin t : R) (i : nat) :
  (i < Z.to_nat K)%nat ->
  ((fun ii => num_mul Tmin (num_pow t ii)) <$> range 0 K) !! i =
  Some (Tmin * t ^ i).
Proof.
  intros Hi. rewrite list_lookup_fmap. unfold range.
  rewrite lookup_seqZ_lt by lia. simpl.
  replace (Z.to_nat (0 + Z.of_nat i)) with i by lia. reflexivity.
Qed.

Lemma ladder_length (K : Z) (Tmin t : R) :
  (0 <= K)%Z ->
  Z.of_nat (length ((fun ii => num_mul Tmin (num_pow t ii)) <$> range 0 K)) = K.
Proof.
  intros HK. rewrite length_fmap, length_range. lia.
Qed.

Lemma ladder_increasing (K : Z) (Tmin t : R) :
  0 < Tmin -> 1 < t ->
  strictly_increasing ((fun ii => num_mul Tmin (num_pow t ii)) <$> range 0 K).
Proof.
  intros HT Ht i j x y Hij Hx Hy.
  assert (Hj : (j < Z.to_nat K)%nat).
  { apply lookup_lt_Some in Hy. rewrite length_fmap, length_range in Hy. lia. }
  rewrite ladder_of_step in Hx by lia. rewrite ladder_of_step in Hy by lia.
  injection Hx as <-. injection Hy as <-.
  apply Rmult_lt_compat_l; [exact HT|].
  now apply Rlt_pow.
Qed.

(** The step of the ladder when [Tmax] is given. *)
Lemma step_to_Tmax (K : Z) (Tmin tmax : R) :
  (2 <= K)%Z -> 0 < Tmin -> 0 < tmax ->
  let r := exp (ln (tmax / Tmin) / IZR (K - 1)) in
  r = Rpower (tmax / Tmin) (/ IZR (K - 1))
  /\ Tmin * r ^ Z.to_nat (K - 1) = tmax
  /\ (Tmin < tmax -> 1 < r).
Proof.
  intros HK HT Hmax r.
  assert (Hq : 0 < tmax / Tmin) by (apply Rdiv_lt_0_compat; assumption).
  assert (HK1 : 0 < IZR (K - 1)) by (apply IZR_lt; lia).
  split; [|split].
  - subst r. unfold Rpower. f_equal. unfold Rdiv. ring.
  - subst r. rewrite exp_pow_INR, INR_IZR_INZ, Z2Nat.id by lia.
    replace (IZR (K - 1) * (ln (tmax / Tmin) / IZR (K - 1)))
      with (ln (tmax / Tmin)) by (field; lra).
    rewrite exp_ln by exact Hq. field. lra.
  - intros Hlt. subst r. rewrite <- exp_0. apply exp_increasing.
    apply Rdiv_lt_0_compat; [|exact HK1].
    rewrite <- ln_1. apply ln_increasing; [lra|].
    apply (Rmult_lt_reg_r Tmin); [exact HT|].
    unfold Rdiv. rewrite Rmult_assoc, Rinv_l by lra. lra.
Qed.

Lemma default_step_gt_1 (ndim : Z) :
  (1 <= ndim)%Z -> 1 < 1 + sqrt (2 / IZR ndim).
Proof.
  intros Hn.
  assert (0 < IZR ndim) by (apply IZR_lt; lia).
  assert (0 < sqrt (2 / IZR ndim)).
  { apply sqrt_lt_R0. apply Rdiv_lt_0_compat; lra. }
  lra.
Qed.

(** The ladder [temperatureLadder] returns for at least two
    processes. *)
Lemma temperatureLadder_eq (K ndim : Z) (Tmin : R) (Tmax : option R) :
  (2 <= K)%Z -> (1 <= ndim)%Z -> 0 < Tmin ->
  temperatureLadder K ndim Tmin Tmax None =
  Ok ((fun ii => num_mul Tmin
                   (num_pow (match Tmax with
                             | Some t => exp (ln (t / Tmin) / IZR (K - 1))
                             | None => 1 + sqrt (2 / IZR ndim)
                             end) ii)) <$> range 0 K).
Proof.
  intros HK Hn HT. unfold temperatureLadder.
  replace (1 <? K)%Z with true by lia.
  destruct Tmax as [t|].
  - cbn [num_is_zero R_numeric]. destruct (Req_dec_T Tmin 0); [lra|reflexivity].
  - replace (ndim =? 0)%Z with false by lia. reflexivity.
Qed.

(** As first stated the claim on the ladder fails: with
    [Tmax = Tmin = 1] and two processes the ladder is [1, 1]. *)
Lemma temperatureLadder_flat :
  exists l, temperatureLadder 2 1 1 (Some 1) None = Ok l
            /\ l !! 0%nat = Some 1 /\ l !! 1%nat = Some 1
            /\ ~ strictly_increasing l.
Proof.
  eexists. split; [apply temperatureLadder_eq; [lia|lia|lra]|].
  assert (H0 : forall i, (i < 2)%nat ->
             ((fun ii => num_mul 1 (num_pow (exp (ln (1 / 1) / IZR (2 - 1))) ii))
                <$> range 0 2) !! i = Some 1).
  { intros i Hi. rewrite (ladder_of_step 2 1 _ i) by exact Hi.
    f_equal. replace (1 / 1) with 1 by field.
    rewrite ln_1. replace (0 / IZR (2 - 1)) with 0 by (unfold Rdiv; ring).
    rewrite exp_0, pow1. ring. }
  split; [apply H0; lia|]. split; [apply H0; lia|].
  intros Hinc.
  assert (H : 1 < 1); [|lra].
  apply (Hinc 0%nat 1%nat); [lia | apply H0; lia | apply H0; lia].
Qed.

(** C2, amended: for [K >= 2] processes, [Tmin > 0] (and a dimension
    [ndim >= 1]), [temperatureLadder] returns a sequence of length [K]
    with [ladder[0] = Tmin] and [ladder[i] = Tmin * r^i]; it is strictly
    increasing when [Tmax] is not given ([r = 1 + sqrt(2/ndim)]) or
    when [Tmax > Tmin]; when [Tmax > 0] is given,
    [r = (Tmax/Tmin)^(1/(K-1))] and [ladder[K-1] = Tmax]. *)
Theorem temperatureLadder_spec (K ndim : Z) (Tmin : R) (Tmax : option R) :
  (2 <= K)%Z -> (1 <= ndim)%Z -> 0 < Tmin ->
  (forall t, Tmax = Some t -> 0 < t) ->
  let r := match Tmax with
           | Some t => exp (ln (t / Tmin) / IZR (K - 1))
           | None => 1 + sqrt (2 / IZR ndim)
           end in
  exists l,
    temperatureLadder K ndim Tmin Tmax None = Ok l
    /\ Z.of_nat (length l) = K
    /\ l !! 0%nat = Some Tmin
    /\ (forall i : nat, (i < Z.to_nat K)%nat -> l !! i = Some (Tmin * r ^ i))
    /\ (forall t, Tmax = Some t ->
          r = Rpower (t / Tmin) (/ IZR (K - 1))
          /\ l !! Z.to_nat (K - 1) = Some t)
    /\ ((Tmax = None \/ exists t, Tmax = Some t /\ Tmin < t) ->
        strictly_increasing l).
Proof.
  intros HK Hn HT Hmax r.
  eexists. split; [apply temperatureLadder_eq; assumption|]. fold r.
  split; [apply ladder_length; lia|].
  split; [rewrite ladder_of_step by lia; f_equal; simpl; ring|].
  split; [intros i Hi; now apply ladder_of_step|].
  split.
  - intros t ->. specialize (Hmax t eq_refl).
    destruct (step_to_Tmax K Tmin t HK HT Hmax) as (Hr & Hlast & _).
    split; [exact Hr|].
    rewrite ladder_of_step by lia. f_equal. exact Hlast.
  - intros Hcase. apply ladder_increasing; [exact HT|].
    destruct Hcase as [-> | (t & -> & Hlt)].
    + now apply default_step_gt_1.
    + specialize (Hmax t eq_refl).
      now apply (step_to_Tmax K Tmin t HK HT Hmax).
Qed.

Lemma temperatureLadder_spec_witness :
  exists l,
    temperatureLadder 2 2 1 (Some 4) None = Ok l
    /\ Z.of_nat (length l) = 2%Z
    /\ l !! 0%nat = Some 1
    /\ l !! Z.to_nat (2 - 1) = Some 4
    /\ strictly_increasing l.
Proof.
  destruct (temperatureLadder_spec 2 2 1 (Some 4) ltac:(lia) ltac:(lia)
              ltac:(lra) ltac:(intros t [= <-]; lra))
    as (l & Hl & Hlen & H0 & _ & Hlast & Hinc).
  exists l. split; [exact Hl|]. split; [exact Hlen|]. split; [exact H0|].
  split; [exact (proj2 (Hlast 4 eq_refl))|].
  apply Hinc. right. exists 4. split; [reflexivity|lra].
Defined.

End Ladder.

(** ** The covariance estimator *)

(** *** Finite arithmetic *)

Lemma qZ_succ (t : Z) : qZ (t + 1) = (qZ t + 1)%Qc.
Proof.
  unfold qZ. apply Qc_is_canon. simpl. rewrite !Qred_correct.
  rewrite inject_Z_plus. reflexivity.
Qed.

Lemma qZ_0 : qZ 0 = 0%Qc.
Proof. reflexivity. Qed.

Lemma qZ_neq_0 (t : Z) : t <> 0%Z -> qZ t <> 0%Qc.
Proof.
  intros Ht H. unfold qZ in H.
  change 0%Qc with (Q2Qc (inject_Z 0)) in H.
  apply Q2Qc_eq_iff in H. apply Ht.
  unfold Qeq, inject_Z in H. simpl in H. lia.
Qed.

Lemma of_Z_qZ (z : Z) : of_Z z = Finite (qZ z).
Proof. reflexivity. Qed.

Lemma vsub_fvec (a b : list Qc) : vsub (fvec a) (fvec b) = fvec (qsub a b).
Proof.
  unfold vsub, fvec, qsub. revert b.
  induction a as [|x a IH]; intros [|y b]; simpl; try reflexivity.
  now rewrite IH.
Qed.

Lemma np_outer_fvec (a b : list Qc) :
  np_outer (fvec a) (fvec b) = fmat (qouter a b).
Proof.
  unfold np_outer, fmat, fvec, qouter. rewrite !map_map.
  apply map_ext. intros x. rewrite !map_map. reflexivity.
Qed.

Lemma vadd_fvec (a b : list Qc) :
  vadd (fvec a) (fvec b) = fvec (zip_with Qcplus a b).
Proof.
  unfold vadd, fvec. revert b.
  induction a as [|x a IH]; intros [|y b]; simpl; try reflexivity.
  now rewrite IH.
Qed.

Lemma madd_fmat (a b : list (list Qc)) :
  madd (fmat a) (fmat b) = fmat (qmadd a b).
Proof.
  unfold madd, fmat, qmadd. revert b.
  induction a as [|x a IH]; intros [|y b]; simpl; try reflexivity.
  rewrite IH. f_equal. apply vadd_fvec.
Qed.

Lemma mdiv_fmat (a : list (list Qc)) (c : Qc) :
  c <> 0%Qc ->
  mdiv (fmat a) (Finite c) = fmat (map (map (fun v => (v / c)%Qc)) a).
Proof.
  intros Hc. unfold mdiv, fmat, fvec. rewrite !map_map.
  apply map_ext. intros row. rewrite !map_map.
  apply map_ext. intros v. now apply fdiv_finite.
Qed.

(** *** Indexing in the middle of a list *)

Lemma py_index_middle {A} (l1 l2 : list A) (x : A) :
  py_index (l1 ++ x :: l2) (Z.of_nat (length l1)) = Ok x.
Proof.
  apply py_index_nonneg; [lia|].
  rewrite Nat2Z.id. now apply list_lookup_middle.
Qed.

Lemma py_set_middle {A} (l1 l2 : list A) (x y : A) :
  py_set (l1 ++ x :: l2) (Z.of_nat (length l1)) y = Ok (l1 ++ y :: l2).
Proof.
  unfold py_set. rewrite length_app. cbn [length].
  destruct (Z.ltb_spec (Z.of_nat (length l1)) 0); [lia|].
  destruct (Z.leb_spec 0 (Z.of_nat (length l1))); [|lia].
  destruct (Z.ltb_spec (Z.of_nat (length l1))
              (Z.of_nat (length l1 + S (length l2)))); [|lia].
  cbn [andb]. rewrite Nat2Z.id.
  replace (length l1) with (length l1 + 0)%nat at 1 by lia.
  now rewrite insert_app_r.
Qed.

(** *** The loops of [_updateRecursive] *)

Lemma set_mu_same (s : PTSampler) : set_mu (mu (covm s)) s = s.
Proof. now destruct s as [? ? [] ? ? ? ? ?]. Qed.

Lemma get_AMbuffer_eq (s : PTSampler) (am : list matrix) :
  _AMbuffer (store s) = Some am -> get_AMbuffer s = (s, Ok am).
Proof. intros H. unfold get_AMbuffer. now rewrite H. Qed.

Lemma py_index3_eq {A} (a : list (list (list A))) (m : list (list A))
    (r : list A) (x : A) (i j k : Z) :
  py_index a i = Ok m -> py_index m j = Ok r -> py_index r k = Ok x ->
  py_index3 a i j k = Ok x.
Proof.
  intros H1 H2 H3. unfold py_index3, py_index2. rewrite H1. cbn [res_bind].
  rewrite H2. cbn [res_bind]. exact H3.
Qed.

(** The loop over the components: it leaves [x - mu] in [diff] and
    the new mean in [self.mu]. *)
Lemma updateRecursive_jj_spec (am : list matrix) (chain : matrix)
    (chain_ind row it : Z) (mR : list Qc) :
  forall (xR : list Qc) (dR : vec) (xL mL dL : list Qc) (s : PTSampler),
    _AMbuffer (store s) = Some am ->
    py_index am chain_ind = Ok chain ->
    py_index chain row = Ok (fvec (xL ++ xR)) ->
    mu (covm s) = fvec (mL ++ mR) ->
    length xL = length mL -> length dL = length mL ->
    length xR = length mR -> length dR = length mR ->
    it <> 0 ->
    updateRecursive_jj chain_ind row it
      (seqZ (Z.of_nat (length mL)) (Z.of_nat (length mR))) (fvec dL ++ dR) s =
    (set_mu (fvec (mL ++ welford_mean (qZ it) mR xR)) s,
     Ok (fvec (dL ++ qsub xR mR))).
Proof.
  induction mR as [|m mR IH];
    intros xR dR xL mL dL s Ham Hchain Hrow Hmu HxL HdL HxR HdR Hit.
  - destruct xR; [|discriminate]. destruct dR; [|discriminate].
    cbn [length Z.of_nat seqZ updateRecursive_jj welford_mean qsub zip_with].
    unfold ret. rewrite !app_nil_r in *. rewrite <- Hmu, set_mu_same.
    reflexivity.
  - destruct xR as [|x xR]; [discriminate|]. destruct dR as [|d0 dR]; [discriminate|].
    rewrite seqZ_cons by (cbn [length]; lia).
    cbn [updateRecursive_jj].
    rewrite (bind_ok _ _ _ _ _ (get_AMbuffer_eq s am Ham)).
    unfold bind at 1, get at 1.
    assert (Hx : py_index3 am chain_ind row (Z.of_nat (length mL)) = Ok (Finite x)).
    { apply (py_index3_eq _ _ _ _ _ _ _ Hchain Hrow).
      unfold fvec. rewrite map_app. cbn [map].
      rewrite <- HxL, <- (length_map Finite xL). apply py_index_middle. }
    unfold bind at 1, lift at 1. rewrite Hx.
    assert (Hm : py_index (mu (covm s)) (Z.of_nat (length mL)) = Ok (Finite m)).
    { rewrite Hmu. unfold fvec. rewrite map_app. cbn [map].
      rewrite <- (length_map Finite mL). apply py_index_middle. }
    unfold bind at 1, lift at 1. rewrite Hm.
    assert (Hd : py_set (fvec dL ++ d0 :: dR) (Z.of_nat (length mL))
                   (fsub (Finite x) (Finite m)) =
                 Ok (fvec dL ++ Finite (x - m)%Qc :: dR)).
    { rewrite <- HdL, <- (length_map Finite dL). apply py_set_middle. }
    unfold bind at 1, lift at 1. rewrite Hd.
    assert (Hd' : py_index (fvec dL ++ Finite (x - m)%Qc :: dR)
                    (Z.of_nat (length mL)) = Ok (Finite (x - m)%Qc)).
    { rewrite <- HdL, <- (length_map Finite dL). apply py_index_middle. }
    unfold bind at 1, lift at 1. rewrite Hd'.
    assert (Hmu' : py_set (mu (covm s)) (Z.of_nat (length mL))
                     (fadd (Finite m) (fdiv (Finite (x - m)%Qc) (of_Z it))) =
                   Ok (fvec (mL ++ (m + (x - m) / qZ it)%Qc :: mR))).
    { rewrite Hmu, of_Z_qZ, fdiv_finite by (now apply qZ_neq_0).
      unfold fvec. rewrite !map_app. cbn [map fadd].
      rewrite <- (length_map Finite mL). apply py_set_middle. }
    unfold bind at 1, lift at 1. rewrite Hmu'.
    unfold bind at 1, modify at 1.
    set (s1 := set_mu (fvec (mL ++ (m + (x - m) / qZ it)%Qc :: mR)) s).
    specialize (IH xR dR (xL ++ [x]) (mL ++ [(m + (x - m) / qZ it)%Qc])
                  (dL ++ [(x - m)%Qc]) s1).
    rewrite !length_app in IH. cbn [length] in IH.
    replace (Z.succ (Z.of_nat (length mL)))
      with (Z.of_nat (length mL + 1)) by lia.
    replace (Z.pred (Z.of_nat (length (m :: mR))))
      with (Z.of_nat (length mR)) by (cbn [length]; lia).
    replace (fvec dL ++ Finite (x - m)%Qc :: dR)
      with (fvec (dL ++ [(x - m)%Qc]) ++ dR)
      by (unfold fvec; rewrite map_app, <- app_assoc; reflexivity).
    rewrite IH.
    + subst s1. cbn [welford_mean qsub zip_with].
      rewrite <- !app_assoc. reflexivity.
    + exact Ham.
    + exact Hchain.
    + rewrite <- app_assoc. exact Hrow.
    + subst s1. cbn [set_mu set_covm covm mu]. now rewrite <- app_assoc.
    + lia.
    + lia.
    + cbn [length] in HxR. lia.
    + cbn [length] in HdR. lia.
    + exact Hit.
Qed.

Lemma np_zeros1_eq (n : nat) :
  np_zeros1 (Z.of_nat n) = Ok (replicate n (Finite 0%Qc)).
Proof.
  unfold np_zeros1. destruct (Z.ltb_spec (Z.of_nat n) 0); [lia|].
  now rewrite Nat2Z.id.
Qed.

Lemma np_zeros2_eq (n : nat) :
  np_zeros2 (Z.of_nat n) (Z.of_nat n) =
  Ok (replicate n (replicate n (Finite 0%Qc))).
Proof.
  unfold np_zeros2. destruct (Z.ltb_spec (Z.of_nat n) 0); [lia|].
  cbn [orb]. now rewrite Nat2Z.id.
Qed.

Lemma length_welford_mean (it : Qc) (m x : list Qc) :
  length x = length m -> length (welford_mean it m x) = length m.
Proof. intros H. unfold welford_mean. rewrite length_zip_with. lia. Qed.

(** The loop over the samples of a window: the running update on the
    rationals, sample after sample; the count [it] grows by one for
    each. *)
Lemma updateRecursive_ii_spec (am : list matrix) (chain : matrix)
    (iter mem chain_ind : Z) (n : nat) (xs : list (list Qc)) :
  forall (i0 it : Z) (st : list Qc * list (list Qc)) (s : PTSampler),
    _AMbuffer (store s) = Some am ->
    py_index am chain_ind = Ok chain ->
    ndim (init s) = Z.of_nat n ->
    (forall (j : nat) (x : list Qc),
        xs !! j = Some x ->
        py_index chain (iter - mem + (i0 + Z.of_nat j)) = Ok (fvec x)) ->
    Forall (fun x => length x = n) xs ->
    mu (covm s) = fvec st.1 ->
    M2 (covm s) = fmat st.2 ->
    length st.1 = n ->
    0 <= it ->
    updateRecursive_ii iter mem chain_ind (seqZ i0 (Z.of_nat (length xs))) it s =
    (set_mu (fvec (welford_run it st xs).1)
       (set_M2 (fmat (welford_run it st xs).2) s),
     Ok (it + Z.of_nat (length xs))).
Proof.
  induction xs as [|x xs IH];
    intros i0 it st s Ham Hchain Hn Hrows Hlen Hmu HM2 Hst Hit.
  - cbn [length Z.of_nat seqZ updateRecursive_ii welford_run]. unfold ret.
    rewrite <- Hmu, <- HM2, Z.add_0_r. f_equal.
    now destruct s as [? ? [] ? ? ? ? ?].
  - rewrite seqZ_cons by (cbn [length]; lia).
    cbn [updateRecursive_ii].
    unfold bind at 1, get at 1.
    unfold bind at 1, lift at 1. rewrite Hn, np_zeros1_eq.
    apply Forall_cons in Hlen as [Hx Hlen].
    pose proof (updateRecursive_jj_spec am chain chain_ind (iter - mem + i0)
                  (it + 1) st.1 x (replicate n (Finite 0%Qc)) [] [] [] s
                  Ham Hchain) as Hjj.
    cbn [app length fvec map] in Hjj. change (Z.of_nat 0) with 0 in Hjj.
    rewrite Hst in Hjj. unfold range. rewrite Z.sub_0_r.
    specialize (Hrows 0%nat x eq_refl) as Hrow0. cbn [Z.of_nat] in Hrow0.
    rewrite Z.add_0_r in Hrow0.
    specialize (Hjj Hrow0 Hmu eq_refl eq_refl Hx
                  (length_replicate n (Finite 0%Qc)) ltac:(lia)).
    rewrite (bind_ok _ _ _ _ _ Hjj). clear Hjj.
    set (m' := welford_mean (qZ (it + 1)) st.1 x).
    set (s1 := set_mu (map Finite m') s).
    rewrite (bind_ok _ _ _ _ _ (get_AMbuffer_eq s1 am Ham)).
    unfold bind at 1, lift at 1. rewrite Hchain.
    unfold bind at 1, lift at 1. rewrite Hrow0.
    unfold bind at 1, modify at 1.
    set (s2 := set_M2 _ s1).
    specialize (IH (Z.succ i0) (it + 1)
                  (welford_step (qZ (it + 1)) st x) s2).
    replace (Z.pred (Z.of_nat (length (x :: xs))))
      with (Z.of_nat (length xs)) by (cbn [length]; lia).
    rewrite IH.
    + cbn [welford_run].
      replace (it + Z.of_nat (length (x :: xs)))
        with (it + 1 + Z.of_nat (length xs)) by (cbn [length]; lia).
      subst s2 s1. reflexivity.
    + exact Ham.
    + exact Hchain.
    + exact Hn.
    + intros j y Hy. specialize (Hrows (S j) y Hy).
      replace (iter - mem + (Z.succ i0 + Z.of_nat j))
        with (iter - mem + (i0 + Z.of_nat (S j))) by lia.
      exact Hrows.
    + exact Hlen.
    + reflexivity.
    + subst s2 s1.
      cbn [set_M2 set_mu set_covm covm M2 mu welford_step fst snd].
      rewrite HM2. fold (fvec (qsub x st.1)). fold (fvec m') (fvec x).
      now rewrite vsub_fvec, np_outer_fvec, madd_fmat.
    + cbn [welford_step fst]. rewrite length_welford_mean; lia.
    + lia.
Qed.

(** *** The factorisation of the groups *)

Lemma py_index_in_range {A} (l : list A) (i : Z) :
  - Z.of_nat (length l) <= i < Z.of_nat (length l) ->
  exists a, py_index l i = Ok a /\ a ∈ l.
Proof.
  intros Hi.
  destruct (Z.ltb_spec i 0) as [Hneg|Hpos].
  - destruct (lookup_lt_is_Some_2 l (Z.to_nat (i + Z.of_nat (length l))))
      as [a Ha]; [lia|].
    exists a. split; [|eapply list_elem_of_lookup_2; exact Ha].
    apply py_index_negative; [lia|lia|exact Ha].
  - destruct (lookup_lt_is_Some_2 l (Z.to_nat i)) as [a Ha]; [lia|].
    exists a. split; [|eapply list_elem_of_lookup_2; exact Ha].
    apply py_index_nonneg; [lia|exact Ha].
Qed.

Lemma res_map_ok {A B} (f : A -> res B) (l : list A) :
  Forall (fun x => exists y, f x = Ok y) l -> exists ys, res_map f l = Ok ys.
Proof.
  induction 1 as [|x l [y Hy] _ [ys Hys]]; simpl; [eauto|].
  rewrite Hy. cbn [res_bind]. rewrite Hys. cbn [res_bind]. eauto.
Qed.

(** A square covariance matrix can be cut along any group of valid
    indices. *)
Lemma covgroup_ok (c : matrix) (n : nat) (group : list Z) :
  length c = n -> Forall (fun row => length row = n) c ->
  Forall (fun g => - Z.of_nat n <= g < Z.of_nat n) group ->
  exists cg, res_map (fun gi => res_map (fun gj => py_index2 c gi gj) group) group
             = Ok cg.
Proof.
  intros Hc Hrows Hg. apply res_map_ok.
  rewrite Forall_forall in Hg |- *. intros gi Hgi.
  apply res_map_ok. rewrite Forall_forall. intros gj Hgj.
  destruct (py_index_in_range c gi) as (row & Hrow & Hin);
    [rewrite Hc; now apply Hg|].
  rewrite Forall_forall in Hrows. specialize (Hrows _ Hin).
  destruct (py_index_in_range row gj) as (v & Hv & _);
    [rewrite Hrows; now apply Hg|].
  exists v. unfold py_index2. rewrite Hrow. cbn [res_bind]. exact Hv.
Qed.

Lemma py_set_in_range {A} (l : list A) (i : Z) (v : A) :
  0 <= i < Z.of_nat (length l) ->
  py_set l i v = Ok (<[Z.to_nat i := v]> l).
Proof.
  intros Hi. unfold py_set.
  destruct (Z.ltb_spec i 0); [lia|].
  destruct (Z.leb_spec 0 i); [|lia].
  destruct (Z.ltb_spec i (Z.of_nat (length l))); [|lia].
  reflexivity.
Qed.

Section Factorisation.

Context (np_linalg_svd : matrix -> matrix * vec).

(** The loop "do svd on parameter groups" returns, and touches
    [self.U] and [self.S] only. *)
Lemma svd_loop_ok (n len : nat) (l : list (Z * list Z)) :
  Forall (fun cg => 0 <= cg.1 < Z.of_nat len
                    /\ Forall (fun g => - Z.of_nat n <= g < Z.of_nat n) cg.2) l ->
  forall s : PTSampler,
    length (cov (covm s)) = n ->
    Forall (fun row => length row = n) (cov (covm s)) ->
    length (svd_U (covm s)) = len ->
    length (svd_S (covm s)) = len ->
    exists U' S',
      length U' = len /\ length S' = len
      /\ for_each l (fun '(ct, group) =>
           let* s := get in
           let* covgroup := lift (res_map (fun gi =>
                              res_map (fun gj => py_index2 (cov (covm s)) gi gj) group)
                                group) in
           let '(u, sv) := np_linalg_svd covgroup in
           let* U' := lift (py_set (svd_U (covm s)) ct u) in
           let* S' := lift (py_set (svd_S (covm s)) ct sv) in
           modify (fun s => set_covm {| cov := cov (covm s); svd_U := U'; svd_S := S';
                                        M2 := M2 (covm s); mu := mu (covm s) |} s)) s
         = (set_covm {| cov := cov (covm s); svd_U := U'; svd_S := S';
                        M2 := M2 (covm s); mu := mu (covm s) |} s, Ok tt).
Proof.
  induction 1 as [|[ct group] l [Hct Hg] _ IH]; intros s Hc Hrows HU HS.
  - exists (svd_U (covm s)), (svd_S (covm s)). split; [exact HU|]. split; [exact HS|].
    cbn [for_each]. unfold ret. f_equal. now destruct s as [? ? [] ? ? ? ? ?].
  - cbn [fst snd] in Hct, Hg.
    destruct (covgroup_ok (cov (covm s)) n group Hc Hrows Hg) as [cg Hcg].
    cbn [for_each]. unfold bind at 1, bind at 1, get at 1.
    unfold bind at 1, lift at 1. rewrite Hcg.
    destruct (np_linalg_svd cg) as [u sv].
    unfold bind at 1, lift at 1.
    rewrite py_set_in_range by (rewrite HU; exact Hct).
    unfold bind at 1, lift at 1.
    rewrite py_set_in_range by (rewrite HS; exact Hct).
    unfold modify at 1.
    set (s1 := set_covm _ s).
    destruct (IH s1) as (U' & S' & HU' & HS' & Hloop).
    + exact Hc.
    + exact Hrows.
    + subst s1. cbn [set_covm covm svd_U]. now rewrite length_insert.
    + subst s1. cbn [set_covm covm svd_S]. now rewrite length_insert.
    + exists U', S'. split; [exact HU'|]. split; [exact HS'|].
      rewrite Hloop. subst s1. reflexivity.
Qed.

Lemma enumerate_wf {A} (l : list A) (P : A -> Prop) :
  Forall P l ->
  Forall (fun cg => 0 <= cg.1 < Z.of_nat (length l) /\ P cg.2) (enumerate l).
Proof.
  intros HP. unfold enumerate. rewrite Forall_forall.
  intros [ct g] Hin. apply elem_of_zip_with in Hin as (ct' & g' & [= -> ->] & Hct & Hgin).
  split.
  - apply elem_of_seqZ in Hct. cbn [fst]. lia.
  - rewrite Forall_forall in HP. now apply HP.
Qed.

Lemma svd_on_groups_ok (n : nat) (s : PTSampler) :
  groups_wf n s ->
  length (cov (covm s)) = n ->
  Forall (fun row => length row = n) (cov (covm s)) ->
  exists U' S',
    length U' = length (groups (init s))
    /\ length S' = length (groups (init s))
    /\ svd_on_groups np_linalg_svd s =
       (set_covm {| cov := cov (covm s); svd_U := U'; svd_S := S';
                    M2 := M2 (covm s); mu := mu (covm s) |} s, Ok tt).
Proof.
  intros (Hg & HU & HS) Hc Hrows.
  unfold svd_on_groups, bind at 1, get at 1.
  apply (svd_loop_ok n (length (groups (init s)))); try assumption.
  now apply enumerate_wf.
Qed.

End Factorisation.

(** *** One window *)

Lemma zip_rows_length {A} (f : A -> A -> A) (n : nat) (a b : list (list A)) :
  Forall (fun r => length r = n) a -> Forall (fun r => length r = n) b ->
  Forall (fun r => length r = n) (zip_with (zip_with f) a b).
Proof.
  intros Ha. revert b. induction Ha as [|r a Hr _ IH]; intros b Hb; [constructor|].
  destruct Hb as [|r' b Hr' Hb]; [constructor|].
  cbn [zip_with]. constructor; [|now apply IH].
  rewrite length_zip_with. lia.
Qed.

Lemma qshape_zero (n : nat) : qshape n (qzero n).
Proof.
  unfold qshape, qzero. cbn [fst snd]. rewrite !length_replicate.
  split; [reflexivity|]. split; [reflexivity|].
  apply Forall_replicate. apply length_replicate.
Qed.

Lemma qshape_step (n : nat) (it : Qc) (st : list Qc * list (list Qc)) (x : list Qc) :
  qshape n st -> length x = n -> qshape n (welford_step it st x).
Proof.
  intros (Hm & HS & Hrows) Hx. unfold qshape, welford_step. cbn [fst snd].
  assert (Hm' : length (welford_mean it st.1 x) = n).
  { rewrite length_welford_mean; lia. }
  split; [exact Hm'|]. split.
  - unfold qmadd, qouter, qsub. rewrite length_zip_with, length_map, length_zip_with. lia.
  - apply zip_rows_length; [exact Hrows|].
    unfold qouter. rewrite Forall_map. apply Forall_forall. intros a _.
    rewrite length_map. unfold qsub. rewrite length_zip_with. lia.
Qed.

Lemma qshape_run (n : nat) (xs : list (list Qc)) :
  forall (t : Z) (st : list Qc * list (list Qc)),
    qshape n st -> Forall (fun x => length x = n) xs ->
    qshape n (welford_run t st xs).
Proof.
  induction xs as [|x xs IH]; intros t st Hst Hxs; [exact Hst|].
  apply Forall_cons in Hxs as [Hx Hxs]. cbn [welford_run].
  apply IH; [|exact Hxs]. now apply qshape_step.
Qed.

Lemma welford_run_app (xs ys : list (list Qc)) :
  forall (t : Z) (st : list Qc * list (list Qc)),
    welford_run t st (xs ++ ys) =
    welford_run (t + Z.of_nat (length xs)) (welford_run t st xs) ys.
Proof.
  induction xs as [|x xs IH]; intros t st.
  - cbn. now rewrite Z.add_0_r.
  - cbn [app welford_run length]. rewrite IH. f_equal. lia.
Qed.

Lemma fvec_zero (n : nat) : replicate n (Finite 0%Qc) = fvec (replicate n 0%Qc).
Proof. unfold fvec. now rewrite <- fmap_replicate. Qed.

Lemma fmat_zero (n : nat) :
  replicate n (replicate n (Finite 0%Qc)) = fmat (replicate n (replicate n 0%Qc)).
Proof.
  unfold fmat. change (map fvec) with (fmap (M:=list) fvec).
  now rewrite fmap_replicate, fvec_zero.
Qed.

Section Window.

Context (np_linalg_svd : matrix -> matrix * vec).

(** One call of [_updateRecursive] on a window of [mem] samples that
    follows [t] samples already seen: the running update goes on from
    the current moments (from zero when [t = 0]), the covariance
    committed is the scatter over the count minus one, and the call
    returns. *)
Lemma updateRecursive_window (am : list matrix) (chain : matrix)
    (chain_ind mem t : Z) (n : nat) (xs : list (list Qc))
    (st : list Qc * list (list Qc)) (s : PTSampler) :
  _AMbuffer (store s) = Some am ->
  py_index am chain_ind = Ok chain ->
  ndim (init s) = Z.of_nat n ->
  groups_wf n s ->
  0 <= t ->
  Z.of_nat (length xs) = mem ->
  (forall (j : nat) (x : list Qc),
      xs !! j = Some x -> py_index chain (t + Z.of_nat j) = Ok (fvec x)) ->
  Forall (fun x => length x = n) xs ->
  qshape n st ->
  (t = 0 -> st = qzero n) ->
  (t <> 0 -> mu (covm s) = fvec st.1 /\ M2 (covm s) = fmat st.2) ->
  exists U' S',
    length U' = length (groups (init s))
    /\ length S' = length (groups (init s))
    /\ _updateRecursive np_linalg_svd (t + mem) mem chain_ind s =
       (set_covm {| cov := mdiv (fmat (welford_run t st xs).2) (of_Z (t + mem - 1));
                    svd_U := U'; svd_S := S';
                    M2 := fmat (welford_run t st xs).2;
                    mu := fvec (welford_run t st xs).1 |} s, Ok tt).
Proof.
  intros Ham Hchain Hn Hwf Ht Hmem Hrows Hxs Hst Hzero Hcur.
  unfold _updateRecursive. replace (t + mem - mem) with t by lia.
  unfold bind at 1, get at 1.
  set (s0 := if t =? 0 then set_mu (fvec st.1) (set_M2 (fmat st.2) s) else s).
  assert (Hreset :
    (if t =? 0
     then let* z2 := lift (np_zeros2 (ndim (init s)) (ndim (init s))) in
          let* z1 := lift (np_zeros1 (ndim (init s))) in
          modify (fun s => set_mu z1 (set_M2 z2 s))
     else ret tt) s = (s0, Ok tt)).
  { subst s0. destruct (Z.eqb_spec t 0) as [E|E]; [|reflexivity].
    rewrite (Hzero E), Hn. unfold bind, lift, modify.
    rewrite np_zeros2_eq, np_zeros1_eq. cbn [qzero fst snd].
    now rewrite fmat_zero, fvec_zero. }
  rewrite (bind_ok _ _ _ _ _ Hreset).
  assert (Hmu0 : mu (covm s0) = fvec st.1 /\ M2 (covm s0) = fmat st.2).
  { subst s0. destruct (Z.eqb_spec t 0) as [E|E]; [split; reflexivity|].
    now apply Hcur. }
  assert (Hsame : init s0 = init s /\ store s0 = store s
                  /\ svd_U (covm s0) = svd_U (covm s)
                  /\ svd_S (covm s0) = svd_S (covm s)
                  /\ cov (covm s0) = cov (covm s)).
  { subst s0. destruct (t =? 0); repeat split; reflexivity. }
  destruct Hsame as (Hinit & Hstore & HU0 & HS0 & Hcov0). destruct Hmu0 as [Hmu0 HM20].
  pose proof (updateRecursive_ii_spec am chain (t + mem) mem chain_ind n xs
                0 t st s0) as Hii.
  unfold range.
  replace (seqZ 0 (mem - 0)) with (seqZ 0 (Z.of_nat (length xs)))
    by (f_equal; lia).
  rewrite (bind_ok _ _ _ _ _ (Hii ltac:(now rewrite Hstore) Hchain
                                  ltac:(now rewrite Hinit)
                                  ltac:(intros j x Hx;
                                        replace (t + mem - mem + (0 + Z.of_nat j))
                                          with (t + Z.of_nat j) by lia;
                                        now apply Hrows)
                                  Hxs Hmu0 HM20 (proj1 Hst) Ht)).
  clear Hii.
  set (st' := welford_run t st xs).
  unfold bind at 1, modify at 1. rewrite Hmem.
  set (s3 := set_cov _ _).
  pose proof (qshape_run n xs t st Hst Hxs) as (Hm' & HS' & Hrows').
  fold st' in Hm', HS', Hrows'.
  destruct (svd_on_groups_ok np_linalg_svd n s3) as (U' & S' & HU' & HS'' & Hsvd).
  - destruct Hwf as (Hg & HU & HS). subst s3. unfold groups_wf.
    cbn [set_cov set_mu set_M2 set_covm init covm svd_U svd_S].
    rewrite Hinit, HU0, HS0. repeat split; assumption.
  - subst s3. cbn [set_cov set_mu set_M2 set_covm covm cov M2].
    unfold mdiv, fmat. now rewrite !length_map.
  - subst s3. cbn [set_cov set_mu set_M2 set_covm covm cov M2].
    unfold mdiv, fmat, fvec. rewrite !Forall_map.
    eapply Forall_impl; [exact Hrows'|]. intros r Hr. cbn beta.
    now rewrite !length_map.
  - exists U', S'.
    assert (Hi3 : init s3 = init s) by (subst s3; exact Hinit).
    rewrite Hi3 in HU', HS''.
    split; [exact HU'|]. split; [exact HS''|].
    rewrite Hsvd. subst s3 s0. f_equal.
    destruct (t =? 0); reflexivity.
Qed.

End Window.

(** *** The windows of a run *)

Lemma for_each_app {A} (l1 l2 : list A) (f : A -> M unit) (s : PTSampler) :
  for_each (l1 ++ l2) f s = bind (for_each l1 f) (fun _ => for_each l2 f) s.
Proof.
  revert s. induction l1 as [|x l1 IH]; intros s; [reflexivity|].
  cbn [app for_each]. unfold bind.
  destruct (f x s) as [s' [[]|e]]; [|reflexivity].
  rewrite IH. reflexivity.
Qed.

Section Windows.

Context (np_linalg_svd : matrix -> matrix * vec).

(** After [k + 1] windows the moments are those of the running update
    over all the samples, and the covariance committed is their scatter
    over the count minus one. *)
Lemma feed_windows_spec (am : list matrix) (chain : matrix)
    (chain_ind mem : Z) (n : nat) (k : nat) :
  forall (qs : list (list Qc)) (s : PTSampler),
    _AMbuffer (store s) = Some am ->
    py_index am chain_ind = Ok chain ->
    ndim (init s) = Z.of_nat n ->
    groups_wf n s ->
    0 < mem ->
    Z.of_nat (length qs) = Z.of_nat (S k) * mem ->
    (forall (j : nat) (x : list Qc),
        qs !! j = Some x -> py_index chain (Z.of_nat j) = Ok (fvec x)) ->
    Forall (fun x => length x = n) qs ->
    exists U' S',
      length U' = length (groups (init s))
      /\ length S' = length (groups (init s))
      /\ feed_windows np_linalg_svd mem chain_ind (S k) s =
         (set_covm {| cov := mdiv (fmat (welford_run 0 (qzero n) qs).2)
                               (of_Z (Z.of_nat (length qs) - 1));
                      svd_U := U'; svd_S := S';
                      M2 := fmat (welford_run 0 (qzero n) qs).2;
                      mu := fvec (welford_run 0 (qzero n) qs).1 |} s, Ok tt).
Proof.
  induction k as [|k IH]; intros qs s Ham Hchain Hn Hwf Hmem Hlen Hrows Hxs.
  - unfold feed_windows.
    destruct (updateRecursive_window np_linalg_svd am chain chain_ind mem 0 n qs
                (qzero n) s Ham Hchain Hn Hwf ltac:(lia) ltac:(lia))
      as (U' & S' & HU & HS & Hw).
    + intros j x Hx. rewrite Z.add_0_l. now apply Hrows.
    + exact Hxs.
    + apply qshape_zero.
    + reflexivity.
    + intros H. contradiction.
    + exists U', S'. split; [exact HU|]. split; [exact HS|].
      change (seqZ 1 (Z.of_nat 1)) with [1]. cbn [for_each].
      rewrite Z.mul_1_l. rewrite !Z.add_0_l in Hw.
      unfold bind. rewrite Hw. unfold ret.
      replace (Z.of_nat (length qs) - 1) with (mem - 1) by lia. reflexivity.
  - set (t := Z.of_nat (S k) * mem).
    set (qs1 := take (Z.to_nat t) qs). set (qs2 := drop (Z.to_nat t) qs).
    assert (Hqs : qs = qs1 ++ qs2) by (subst qs1 qs2; now rewrite take_drop).
    assert (Ht : 0 < t) by (subst t; nia).
    assert (Hl1 : Z.of_nat (length qs1) = t).
    { subst qs1. rewrite length_take. nia. }
    assert (Hl2 : Z.of_nat (length qs2) = mem).
    { subst qs2. rewrite length_drop. nia. }
    unfold feed_windows.
    replace (seqZ 1 (Z.of_nat (S (S k))))
      with (seqZ 1 (Z.of_nat (S k)) ++ [Z.of_nat (S (S k))]).
    2:{ rewrite (seqZ_S 1 (S k)). do 2 f_equal. lia. }
    rewrite for_each_app. fold (feed_windows np_linalg_svd mem chain_ind (S k)).
    destruct (IH qs1 s Ham Hchain Hn Hwf Hmem) as (U1 & S1 & HU1 & HS1 & H1).
    + exact Hl1.
    + intros j x Hx. apply Hrows. rewrite Hqs.
      rewrite lookup_app_l; [exact Hx|]. now apply lookup_lt_Some in Hx.
    + rewrite Hqs in Hxs. now apply Forall_app in Hxs as [? _].
    + rewrite (bind_ok _ _ _ _ _ H1). cbn [for_each].
      set (s1 := set_covm _ s) in *.
      set (st := welford_run 0 (qzero n) qs1) in *.
      destruct (updateRecursive_window np_linalg_svd am chain chain_ind mem t n qs2
                  st s1) as (U' & S' & HU & HS & Hw).
      * exact Ham.
      * exact Hchain.
      * exact Hn.
      * destruct Hwf as (Hg & _ & _). unfold groups_wf. subst s1.
        cbn [set_covm init covm svd_U svd_S]. repeat split; assumption.
      * lia.
      * exact Hl2.
      * intros j x Hx.
        replace (t + Z.of_nat j) with (Z.of_nat (length qs1 + j)) by lia.
        apply Hrows. rewrite Hqs. now rewrite lookup_app_r, Nat.add_sub' by lia.
      * rewrite Hqs in Hxs. now apply Forall_app in Hxs as [_ ?].
      * apply qshape_run; [apply qshape_zero|].
        rewrite Hqs in Hxs. now apply Forall_app in Hxs as [? _].
      * intros H. lia.
      * intros _. subst s1. split; reflexivity.
      * exists U', S'. split; [exact HU|]. split; [exact HS|].
        replace (Z.of_nat (S (S k)) * mem) with (t + mem) by (subst t; lia).
        unfold bind. rewrite Hw. unfold ret.
        replace (Z.of_nat (length qs) - 1) with (t + mem - 1)
          by (rewrite Hqs, length_app; lia).
        replace (welford_run 0 (qzero n) qs) with (welford_run t st qs2).
        2:{ rewrite Hqs, welford_run_app. subst st. f_equal. lia. }
        subst s1. reflexivity.
Qed.

End Windows.

(** *** The running update and the sums *)

Lemma nth_zip_with {A B C} (f : A -> B -> C) (l1 : list A) (l2 : list B)
    (a : nat) (d1 : A) (d2 : B) (d : C) :
  (a < length l1)%nat -> (a < length l2)%nat ->
  nth a (zip_with f l1 l2) d = f (nth a l1 d1) (nth a l2 d2).
Proof.
  revert l2 a. induction l1 as [|x l1 IH]; intros [|y l2] [|a] H1 H2;
    cbn [length] in *; try lia; [reflexivity|].
  cbn [zip_with nth]. apply IH; lia.
Qed.

Lemma nth_map_lt {A B} (f : A -> B) (l : list A) (a : nat) (d : A) (d' : B) :
  (a < length l)%nat -> nth a (map f l) d' = f (nth a l d).
Proof.
  revert a. induction l as [|x l IH]; intros [|a] H; cbn [length] in *;
    try lia; [reflexivity|].
  cbn [map nth]. apply IH. lia.
Qed.

Lemma qsum1_snoc (ys : list (list Qc)) (x : list Qc) (a : nat) :
  qsum1 (ys ++ [x]) a = (qsum1 ys a + qnth x a)%Qc.
Proof.
  unfold qsum1. induction ys as [|y ys IH]; cbn [app fold_right].
  - ring.
  - rewrite IH. ring.
Qed.

Lemma qsum2_snoc (ys : list (list Qc)) (x : list Qc) (a b : nat) :
  qsum2 (ys ++ [x]) a b = (qsum2 ys a b + qnth x a * qnth x b)%Qc.
Proof.
  unfold qsum2. induction ys as [|y ys IH]; cbn [app fold_right].
  - ring.
  - rewrite IH. ring.
Qed.

Lemma Qcdiv_0_l (c : Qc) : (0 / c)%Qc = 0%Qc.
Proof. unfold Qcdiv. apply Qcmult_0_l. Qed.

Lemma qZ_pos_neq_0 (t : Z) : 0 <= t -> (qZ t + 1)%Qc <> 0%Qc.
Proof. intros Ht. rewrite <- qZ_succ. apply qZ_neq_0. lia. Qed.

(** One step of the running update keeps the moments. *)
Lemma welford_step_moments (n : nat) (ys : list (list Qc)) (x : list Qc)
    (st : list Qc * list (list Qc)) :
  qshape n st -> length x = n ->
  moments_of n ys st ->
  moments_of n (ys ++ [x]) (welford_step (qZ (Z.of_nat (length ys) + 1)) st x).
Proof.
  intros (Hm & HS & Hrows) Hx [Hmean Hscat].
  set (t := Z.of_nat (length ys)) in *.
  assert (HN : qZ (Z.of_nat (length (ys ++ [x]))) = (qZ t + 1)%Qc).
  { rewrite length_app. cbn [length]. rewrite <- qZ_succ. f_equal. lia. }
  assert (Hmean' : forall a, (a < n)%nat ->
            qnth (welford_mean (qZ (t + 1)) st.1 x) a =
            (qsum1 (ys ++ [x]) a / (qZ t + 1))%Qc).
  { intros a Ha. unfold welford_mean, qnth.
    rewrite (nth_zip_with _ _ _ _ 0%Qc 0%Qc) by lia.
    fold (qnth st.1 a) (qnth x a). rewrite (Hmean a Ha), qsum1_snoc, qZ_succ.
    destruct (Z.eq_dec t 0) as [E|E].
    - assert (ys = []) as -> by (destruct ys; [reflexivity|cbn in t; lia]).
      cbn [qsum1 fold_right]. rewrite Qcdiv_0_l. field.
      apply qZ_pos_neq_0. lia.
    - field. split; [apply qZ_pos_neq_0; subst t; lia|now apply qZ_neq_0]. }
  unfold moments_of. cbv zeta. rewrite HN. cbn [welford_step fst snd].
  split; [exact Hmean'|].
  intros a b Ha Hb.
  assert (Hrow : length (nth a st.2 []) = n).
  { rewrite Forall_forall in Hrows. apply Hrows.
    apply list_elem_of_In, nth_In. lia. }
  unfold qmadd.
  rewrite (nth_zip_with _ _ _ _ [] []); cycle 1.
  { lia. }
  { unfold qouter, qsub. rewrite length_map, length_zip_with. lia. }
  unfold qnth at 1.
  rewrite (nth_zip_with _ _ _ _ 0%Qc 0%Qc); cycle 1.
  { lia. }
  { unfold qouter, qsub.
    rewrite (nth_map_lt _ _ _ 0%Qc) by (rewrite length_zip_with; lia).
    rewrite length_map, length_zip_with, length_welford_mean; lia. }
  fold (qnth (nth a st.2 []) b). rewrite (Hscat a b Ha Hb).
  unfold qouter.
  rewrite (nth_map_lt _ _ _ 0%Qc) by (unfold qsub; rewrite length_zip_with; lia).
  rewrite (nth_map_lt _ _ _ 0%Qc)
    by (unfold qsub; rewrite length_zip_with, length_welford_mean; lia).
  unfold qsub.
  rewrite !(nth_zip_with _ _ _ _ 0%Qc 0%Qc)
    by (rewrite ?length_welford_mean; lia).
  fold (qnth x a) (qnth x b) (qnth st.1 a)
       (qnth (welford_mean (qZ (t + 1)) st.1 x) b).
  rewrite (Hmean' b Hb), (Hmean a Ha), !qsum1_snoc, qsum2_snoc.
  destruct (Z.eq_dec t 0) as [E|E].
  - assert (ys = []) as -> by (destruct ys; [reflexivity|cbn in t; lia]).
    cbn [qsum1 qsum2 fold_right]. rewrite Qcmult_0_l, !Qcdiv_0_l. field.
    apply qZ_pos_neq_0. lia.
  - field. split; [apply qZ_pos_neq_0; subst t; lia|now apply qZ_neq_0].
Qed.

Lemma moments_zero (n : nat) : moments_of n [] (qzero n).
Proof.
  unfold moments_of, qzero, qnth. cbn [fst snd length qsum1 qsum2 fold_right].
  split.
  - intros a Ha. rewrite Qcdiv_0_l.
    now rewrite (nth_lookup_Some _ _ _ 0%Qc) by now apply lookup_replicate_2.
  - intros a b Ha Hb. rewrite Qcmult_0_l, Qcdiv_0_l.
    rewrite (nth_lookup_Some _ _ _ (replicate n 0%Qc))
      by now apply lookup_replicate_2.
    rewrite (nth_lookup_Some _ _ _ 0%Qc) by now apply lookup_replicate_2.
    ring.
Qed.

Lemma welford_run_moments (n : nat) (xs : list (list Qc)) :
  forall (ys : list (list Qc)) (st : list Qc * list (list Qc)),
    qshape n st -> Forall (fun x => length x = n) xs ->
    moments_of n ys st ->
    moments_of n (ys ++ xs) (welford_run (Z.of_nat (length ys)) st xs).
Proof.
  induction xs as [|x xs IH]; intros ys st Hst Hxs Hmom.
  - now rewrite app_nil_r.
  - apply Forall_cons in Hxs as [Hx Hxs]. cbn [welford_run].
    replace (ys ++ x :: xs) with ((ys ++ [x]) ++ xs)
      by (now rewrite <- app_assoc).
    replace (Z.of_nat (length ys) + 1) with (Z.of_nat (length (ys ++ [x])))
      by (rewrite length_app; cbn [length]; lia).
    apply IH.
    + apply qshape_step; assumption.
    + exact Hxs.
    + replace (Z.of_nat (length (ys ++ [x]))) with (Z.of_nat (length ys) + 1)
        by (rewrite length_app; cbn [length]; lia).
      now apply welford_step_moments.
Qed.

(** *** The batch covariance *)

Lemma sum_fold_shape (n : nat) (qs : list (list Qc)) :
  Forall (fun x => length x = n) qs ->
  length (fold_right (zip_with Qcplus) (replicate n 0%Qc) qs) = n
  /\ forall a, (a < n)%nat ->
       qnth (fold_right (zip_with Qcplus) (replicate n 0%Qc) qs) a = qsum1 qs a.
Proof.
  induction 1 as [|x qs Hx _ [IHl IHv]]; cbn [fold_right qsum1].
  - split; [apply length_replicate|]. intros a Ha. unfold qnth.
    now rewrite (nth_lookup_Some _ _ _ 0%Qc) by now apply lookup_replicate_2.
  - split; [rewrite length_zip_with; lia|]. intros a Ha. unfold qnth.
    rewrite (nth_zip_with _ _ _ _ 0%Qc 0%Qc) by lia.
    fold (qnth x a). f_equal. now apply IHv.
Qed.

Lemma qscatter_shape (n : nat) (c : list Qc) (qs : list (list Qc)) :
  length c = n -> Forall (fun x => length x = n) qs ->
  length (qscatter n c qs) = n
  /\ Forall (fun r => length r = n) (qscatter n c qs)
  /\ forall a b, (a < n)%nat -> (b < n)%nat ->
       qnth (nth a (qscatter n c qs) []) b =
       fold_right (fun x acc => ((qnth x a - qnth c a) * (qnth x b - qnth c b) + acc)%Qc)
                  0%Qc qs.
Proof.
  intros Hc. induction 1 as [|x qs Hx _ (IHl & IHr & IHv)]; cbn [qscatter fold_right].
  - split; [apply length_replicate|].
    split; [apply Forall_replicate, length_replicate|].
    intros a b Ha Hb. unfold qnth.
    rewrite (nth_lookup_Some _ _ _ (replicate n 0%Qc))
      by now apply lookup_replicate_2.
    now rewrite (nth_lookup_Some _ _ _ 0%Qc) by now apply lookup_replicate_2.
  - fold (qscatter n c qs).
    assert (Hsub : length (qsub x c) = n)
      by (unfold qsub; rewrite length_zip_with; lia).
    assert (Hout : Forall (fun r => length r = n) (qouter (qsub x c) (qsub x c))).
    { unfold qouter. rewrite Forall_map. apply Forall_forall. intros v _.
      now rewrite length_map. }
    split; [unfold qmadd, qouter; rewrite length_zip_with, length_map; lia|].
    split; [now apply zip_rows_length|].
    intros a b Ha Hb. unfold qmadd.
    assert (Hrow : length (nth a (qscatter n c qs) []) = n).
    { rewrite Forall_forall in IHr. apply IHr.
      apply list_elem_of_In, nth_In. lia. }
    rewrite (nth_zip_with _ _ _ _ [] [])
      by (unfold qouter; rewrite ?length_map; lia).
    unfold qnth at 1.
    unfold qouter at 1.
    rewrite (nth_map_lt _ _ _ 0%Qc) by lia.
    rewrite (nth_zip_with _ _ _ _ 0%Qc 0%Qc) by (rewrite ?length_map; lia).
    rewrite (nth_map_lt _ _ _ 0%Qc) by lia.
    fold (qnth (nth a (qscatter n c qs) []) b). rewrite (IHv a b Ha Hb).
    unfold qsub. rewrite !(nth_zip_with _ _ _ _ 0%Qc 0%Qc) by lia.
    reflexivity.
Qed.

Lemma centered_sum (c : list Qc) (qs : list (list Qc)) (a b : nat) :
  fold_right (fun x acc => ((qnth x a - qnth c a) * (qnth x b - qnth c b) + acc)%Qc)
             0%Qc qs =
  (qsum2 qs a b - qnth c a * qsum1 qs b - qnth c b * qsum1 qs a
   + qZ (Z.of_nat (length qs)) * qnth c a * qnth c b)%Qc.
Proof.
  unfold qsum1, qsum2.
  induction qs as [|x qs IH]; cbn [fold_right length].
  - change (qZ (Z.of_nat 0)) with 0%Qc. ring.
  - rewrite IH, Nat2Z.inj_succ, <- Z.add_1_r, qZ_succ. ring.
Qed.

Lemma matrix_ext (n : nat) (A B : list (list Qc)) :
  length A = n -> Forall (fun r => length r = n) A ->
  length B = n -> Forall (fun r => length r = n) B ->
  (forall a b, (a < n)%nat -> (b < n)%nat ->
     qnth (nth a A []) b = qnth (nth a B []) b) ->
  A = B.
Proof.
  intros HA HrA HB HrB Hent.
  apply (nth_ext _ _ [] []); [congruence|].
  intros a Ha. rewrite HA in Ha.
  rewrite Forall_forall in HrA, HrB.
  assert (H1 : length (nth a A []) = n)
    by (apply HrA, list_elem_of_In, nth_In; lia).
  assert (H2 : length (nth a B []) = n)
    by (apply HrB, list_elem_of_In, nth_In; lia).
  apply (nth_ext _ _ 0%Qc 0%Qc); [congruence|].
  intros b Hb. rewrite H1 in Hb. now apply Hent.
Qed.

(** The scatter of the running update is the batch scatter about the
    batch mean. *)
Lemma welford_scatter_is_batch (n : nat) (qs : list (list Qc)) :
  qs <> [] -> Forall (fun x => length x = n) qs ->
  (welford_run 0 (qzero n) qs).2 = qscatter n (qmean n qs) qs.
Proof.
  intros Hne Hqs.
  pose proof (welford_run_moments n qs [] (qzero n) (qshape_zero n) Hqs
                (moments_zero n)) as [_ Hscat].
  cbn [app length] in Hscat. change (Z.of_nat 0) with 0 in Hscat.
  pose proof (qshape_run n qs 0 (qzero n) (qshape_zero n) Hqs) as (_ & HS & Hrows).
  destruct (sum_fold_shape n qs Hqs) as [Hsl Hsv].
  assert (Hc : length (qmean n qs) = n) by (unfold qmean; now rewrite length_map).
  destruct (qscatter_shape n (qmean n qs) qs Hc Hqs) as (HB & HrB & Hent).
  assert (HN : qZ (Z.of_nat (length qs)) <> 0%Qc).
  { apply qZ_neq_0. destruct qs; [contradiction|cbn [length]; lia]. }
  apply (matrix_ext n); try assumption.
  intros a b Ha Hb. rewrite (Hscat a b Ha Hb), (Hent a b Ha Hb), centered_sum.
  assert (Hmean : forall i, (i < n)%nat ->
            qnth (qmean n qs) i = (qsum1 qs i / qZ (Z.of_nat (length qs)))%Qc).
  { intros i Hi. unfold qmean, qnth.
    rewrite (nth_map_lt _ _ _ 0%Qc) by lia.
    fold (qnth (fold_right (zip_with Qcplus) (replicate n 0%Qc) qs) i).
    now rewrite Hsv. }
  rewrite (Hmean a Ha), (Hmean b Hb). field. exact HN.
Qed.

Lemma sum_fold_fvec (n : nat) (qs : list (list Qc)) :
  fold_right vadd (replicate n (Finite 0%Qc)) (map fvec qs) =
  fvec (fold_right (zip_with Qcplus) (replicate n 0%Qc) qs).
Proof.
  induction qs as [|x qs IH]; cbn [map fold_right].
  - apply fvec_zero.
  - now rewrite IH, vadd_fvec.
Qed.

Lemma sample_mean_fvec (n : nat) (qs : list (list Qc)) :
  qs <> [] -> sample_mean n (map fvec qs) = fvec (qmean n qs).
Proof.
  intros Hne. unfold sample_mean, qmean. rewrite length_map, sum_fold_fvec.
  unfold fvec. rewrite !map_map. apply map_ext. intros v.
  rewrite of_Z_qZ. apply fdiv_finite. apply qZ_neq_0.
  destruct qs; [contradiction|cbn [length]; lia].
Qed.

Lemma scatter_fold_fmat (n : nat) (c : list Qc) (qs : list (list Qc)) :
  fold_right (fun x acc => madd (np_outer (vsub x (fvec c)) (vsub x (fvec c))) acc)
             (replicate n (replicate n (Finite 0%Qc))) (map fvec qs) =
  fmat (qscatter n c qs).
Proof.
  induction qs as [|x qs IH]; cbn [map fold_right qscatter].
  - apply fmat_zero.
  - fold (qscatter n c qs). now rewrite IH, vsub_fvec, np_outer_fvec, madd_fmat.
Qed.

(** The batch covariance of finite samples, on the rationals. *)
Lemma batch_covariance_fvec (n : nat) (qs : list (list Qc)) :
  qs <> [] ->
  batch_covariance n (map fvec qs) =
  mdiv (fmat (qscatter n (qmean n qs) qs)) (of_Z (Z.of_nat (length qs) - 1)).
Proof.
  intros Hne. unfold batch_covariance. cbv zeta.
  now rewrite sample_mean_fvec, scatter_fold_fmat, length_map.
Qed.

Section Covariance.

Context (np_linalg_svd : matrix -> matrix * vec).

(** C3: the samples [x_1 .. x_N] of [n] components, recorded in
    [_AMbuffer] and fed to [_updateRecursive] one window of [mem] after
    the other (the first call, with [it == 0], resets the moments), leave
    in [self.cov] the batch covariance
    [sum_i outer(x_i - xbar, x_i - xbar) / (N - 1)] of the whole
    sequence, exactly, float arithmetic being read as exact on finite
    values; every call returns. *)
Theorem updateRecursive_batch_covariance (s : PTSampler) (n k : nat)
    (mem chain_ind : Z) (am : list matrix) (chain : matrix)
    (qs : list (list Qc)) :
  _AMbuffer (store s) = Some am ->
  py_index am chain_ind = Ok chain ->
  ndim (init s) = Z.of_nat n ->
  groups_wf n s ->
  0 < mem ->
  (1 <= k)%nat ->
  Z.of_nat (length qs) = Z.of_nat k * mem ->
  (forall (j : nat) (x : list Qc),
      qs !! j = Some x -> py_index chain (Z.of_nat j) = Ok (fvec x)) ->
  Forall (fun x => length x = n) qs ->
  (feed_windows np_linalg_svd mem chain_ind k s).2 = Ok tt
  /\ cov (covm (feed_windows np_linalg_svd mem chain_ind k s).1) =
     batch_covariance n (map fvec qs).
Proof.
  intros Ham Hchain Hn Hwf Hmem Hk Hlen Hrows Hqs.
  destruct k as [|k]; [lia|].
  destruct (feed_windows_spec np_linalg_svd am chain chain_ind mem n k qs s
              Ham Hchain Hn Hwf Hmem Hlen Hrows Hqs)
    as (U' & S' & _ & _ & Hfeed).
  rewrite Hfeed. cbn [fst snd set_covm covm cov].
  split; [reflexivity|].
  assert (Hne : qs <> []).
  { intros ->. cbn [length] in Hlen. nia. }
  now rewrite batch_covariance_fvec, welford_scatter_is_batch.
Qed.

End Covariance.

Lemma updateRecursive_batch_covariance_witness :
  cov (covm (feed_windows (fun m => (m, [])) 3 0 1 demo_history).1) =
  batch_covariance 1 (map fvec [[qZ 1]; [qZ 2]; [qZ 3]]).
Proof.
  refine (proj2 (updateRecursive_batch_covariance (fun m => (m, []))
                   demo_history 1 1 3 0 _ _ [[qZ 1]; [qZ 2]; [qZ 3]]
                   _ _ eq_refl _ _ _ _ _ _)).
  - vm_compute. reflexivity.
  - vm_compute. reflexivity.
  - vm_compute. repeat split; repeat constructor; discriminate.
  - lia.
  - lia.
  - reflexivity.
  - intros [|[|[|j]]] x Hx; try discriminate Hx;
      injection Hx as <-; vm_compute; reflexivity.
  - repeat constructor.
Defined.

(** ** Footprints *)

Section Footprints.

Context {B : Type} (part : PTSampler -> B).

Lemma keeps_ret {A} (a : A) : keeps part (ret a).
Proof. now intros s. Qed.

Lemma keeps_raise {A} (e : exn) : keeps part (@raise A e).
Proof. now intros s. Qed.

Lemma keeps_get : keeps part get.
Proof. now intros s. Qed.

Lemma keeps_lift {A} (r : res A) : keeps part (lift r).
Proof. now intros s. Qed.

Lemma keeps_attr {A} (name : string) (f : run_attrs -> A) : keeps part (attr name f).
Proof. intros s. unfold attr. now destruct (run s). Qed.

Lemma keeps_modify (f : PTSampler -> PTSampler) :
  (forall s, part (f s) = part s) -> keeps part (modify f).
Proof. intros H s. apply H. Qed.

Lemma keeps_emit (ev : event) : ign_trace part -> keeps part (emit ev).
Proof. intros H s. apply H. Qed.

Lemma keeps_bind {A C} (m : M A) (k : A -> M C) :
  keeps part m -> (forall a, keeps part (k a)) -> keeps part (bind m k).
Proof.
  intros Hm Hk s. unfold bind. specialize (Hm s).
  destruct (m s) as [s' [a|e]]; simpl in *; [|exact Hm].
  now rewrite Hk.
Qed.

Lemma keeps_for_each {A} (xs : list A) (body : A -> M unit) :
  (forall x, keeps part (body x)) -> keeps part (for_each xs body).
Proof.
  intros H. induction xs as [|x xs IH]; simpl.
  - apply keeps_ret.
  - apply keeps_bind; [apply H|]. intros _. exact IH.
Qed.

Lemma keeps_get_AMbuffer : keeps part get_AMbuffer.
Proof. intros s. unfold get_AMbuffer. now destruct (_AMbuffer (store s)). Qed.

End Footprints.

Ltac keeps_side :=
  intros;
  unfold propCycle_append, jumpDict_add, set_mu, set_M2, set_cov, set_DEbuffer,
    set_AMbuffer, set_chain, set_lnlike, set_lnprob, set_naccepted, count_swap;
  repeat match goal with
         | |- context [if ?b then _ else _] => destruct b
         end;
  solve [ auto | congruence ].

Ltac keeps_step :=
  first
    [ apply keeps_ret | apply keeps_raise | apply keeps_get | apply keeps_lift
    | apply keeps_attr | apply keeps_get_AMbuffer
    | match goal with
      | |- keeps _ (emit _) =>
          apply keeps_emit; first [solve [auto] | intros ? ?; reflexivity]
      | |- keeps _ (modify _) => apply keeps_modify; keeps_side
      end
    | apply keeps_bind; [|intros ?]
    | apply keeps_for_each; intros ?
    | match goal with
      | |- keeps _ (if ?b then _ else _) => destruct b
      | |- keeps _ (match ?x with _ => _ end) => destruct x
      end
    | progress cbv zeta ].

Ltac keeps_auto := repeat keeps_step.

Section Frames.

Context {B : Type} (part : PTSampler -> B).

Lemma addProposalToCycle_keeps (f : proposal) (w : Z) :
  ign_cycle part -> ign_trace part -> keeps part (addProposalToCycle f w).
Proof. intros Hc Ht. unfold addProposalToCycle. keeps_auto. Qed.

Lemma randomizeProposalCycle_keeps (ix : list Z) :
  ign_randomized part -> keeps part (randomizeProposalCycle ix).
Proof. intros Hc. unfold randomizeProposalCycle. keeps_auto. Qed.

Lemma _writeToFile_keeps (iter : Z) :
  ign_trace part -> keeps part (_writeToFile iter).
Proof. intros Ht. unfold _writeToFile. keeps_auto. Qed.

Lemma updateChains_keeps (p0 : vec) (lnlike0 lnprob0 : pyfloat) (iter chain_ind : Z) :
  ign_store part -> ign_trace part ->
  keeps part (updateChains p0 lnlike0 lnprob0 iter chain_ind).
Proof.
  intros Hs Ht. unfold updateChains.
  pose proof (_writeToFile_keeps iter Ht).
  repeat first [assumption | keeps_step].
Qed.

Lemma svd_on_groups_keeps (svd : matrix -> matrix * vec) :
  ign_covm part -> keeps part (svd_on_groups svd).
Proof. intros Hc. unfold svd_on_groups. keeps_auto. Qed.

Lemma updateRecursive_jj_keeps (chain_ind row it : Z) (jjs : list Z) (diff : vec) :
  ign_covm part -> keeps part (updateRecursive_jj chain_ind row it jjs diff).
Proof.
  intros Hc. revert diff. induction jjs as [|jj jjs IH]; intros diff; simpl.
  - keeps_auto.
  - keeps_auto. apply IH.
Qed.

Lemma updateRecursive_ii_keeps (iter mem chain_ind : Z) (iis : list Z) (it : Z) :
  ign_covm part -> keeps part (updateRecursive_ii iter mem chain_ind iis it).
Proof.
  intros Hc. revert it. induction iis as [|ii iis IH]; intros it; simpl.
  - keeps_auto.
  - pose proof (fun d => updateRecursive_jj_keeps chain_ind (iter - mem + ii) (it + 1)
                           (range 0 (ndim (init d))) ).
    keeps_auto; try (apply updateRecursive_jj_keeps; assumption). apply IH.
Qed.

Lemma _updateRecursive_keeps (svd : matrix -> matrix * vec) (iter mem chain_ind : Z) :
  ign_covm part -> keeps part (_updateRecursive svd iter mem chain_ind).
Proof.
  intros Hc. unfold _updateRecursive.
  keeps_auto;
    try (apply updateRecursive_ii_keeps; assumption);
    try (apply svd_on_groups_keeps; assumption).
Qed.

End Frames.

Ltac keeps_all :=
  keeps_auto;
  try (apply updateRecursive_ii_keeps; assumption);
  try (apply updateRecursive_jj_keeps; assumption);
  keeps_auto.

Section MethodFrames.

Context {B : Type} (part : PTSampler -> B).

Lemma _updateDEbuffer_keeps (iter burn chain_ind : Z) :
  ign_store part -> keeps part (_updateDEbuffer iter burn chain_ind).
Proof. intros Hs. unfold _updateDEbuffer. keeps_all. Qed.

Lemma call_logp_keeps (y : vec) : ign_trace part -> keeps part (call_logp y).
Proof. intros Ht. unfold call_logp. keeps_all. Qed.

Lemma call_logl_keeps (y : vec) : ign_trace part -> keeps part (call_logl y).
Proof. intros Ht. unfold call_logl. keeps_all. Qed.

Lemma resuming_at_keeps (bound : Z) : keeps part (resuming_at bound).
Proof. unfold resuming_at. keeps_all. Qed.

Lemma _jump_keeps (x : vec) (iter ind : Z) : keeps part (_jump x iter ind).
Proof. unfold _jump, update_jump_proposal_kwargs. keeps_all. Qed.

Lemma jumpDict_incr_keeps (name : string) (k : nat) :
  ign_cycle part -> keeps part (jumpDict_incr name k).
Proof. intros Hc. unfold jumpDict_incr. keeps_all. Qed.

Lemma jump_proposal_keeps (p0 : vec) (lnlike0 lnprob0 : pyfloat) (iter : Z)
    (e : jump_env) :
  ign_trace part -> ign_cycle part -> ign_counters part ->
  keeps part (jump_proposal p0 lnlike0 lnprob0 iter e).
Proof.
  intros Ht Hc Hn. unfold jump_proposal.
  keeps_all;
    try (apply resuming_at_keeps); try (apply _jump_keeps);
    try (apply jumpDict_incr_keeps; assumption);
    try (apply call_logp_keeps; assumption);
    try (apply call_logl_keeps; assumption).
Qed.

Lemma exchange_keeps (peer : Z) (p0 : vec) (lnlike0 : pyfloat) (e : swap_env) :
  ign_trace part -> keeps part (exchange peer p0 lnlike0 e).
Proof.
  intros Ht. unfold exchange.
  keeps_all; try (apply call_logp_keeps; assumption).
Qed.

Lemma PTswap_keeps (p0 : vec) (lnlike0 lnprob0 : pyfloat) (iter : Z) (e : swap_env) :
  ign_trace part -> keeps part (PTswap p0 lnlike0 lnprob0 iter e).
Proof.
  intros Ht. unfold PTswap.
  keeps_all; try (apply exchange_keeps; assumption).
Qed.

Lemma covariance_update_keeps (svd : matrix -> matrix * vec) (iter chain_ind : Z) :
  ign_covm part -> ign_trace part ->
  keeps part (covariance_update svd iter chain_ind).
Proof.
  intros Hc Ht. unfold covariance_update.
  keeps_all; try (apply _updateRecursive_keeps; assumption).
Qed.

Lemma covariance_receive_keeps (svd : matrix -> matrix * vec) (e : step_env) :
  ign_covm part -> keeps part (covariance_receive svd e).
Proof.
  intros Hc. unfold covariance_receive.
  keeps_all; try (apply svd_on_groups_keeps; assumption).
Qed.

Lemma DEbuffer_update_keeps (iter chain_ind : Z) :
  ign_store part -> ign_trace part -> keeps part (DEbuffer_update iter chain_ind).
Proof.
  intros Hs Ht. unfold DEbuffer_update.
  keeps_all; try (apply _updateDEbuffer_keeps; assumption).
Qed.

End MethodFrames.

Section SamplerFrames.

Context {kwargs : Type}
        (prop_getattr : string -> option (option kwargs -> proposal))
        (prop_default : list string)
        (is_DEJump : proposal -> bool)
        (grad_kwargs : (vec -> pyfloat * vec) -> (vec -> pyfloat * vec) ->
                       matrix -> Z -> kwargs)
        (kwargs_update : kwargs -> kwargs -> kwargs)
        (str_of_float : pyfloat -> string)
        (np_exp np_log np_sqrt : pyfloat -> pyfloat)
        (np_linalg_svd : matrix -> matrix * vec).

Context {B : Type} (part : PTSampler -> B).

Lemma add_DE_jump_keeps :
  ign_cycle part -> ign_trace part -> keeps part (add_DE_jump prop_getattr).
Proof.
  intros Hc Ht. unfold add_DE_jump.
  keeps_all; try (apply addProposalToCycle_keeps; assumption).
Qed.

Lemma DEbuffer_receive_keeps (e : step_env) :
  ign_store part -> ign_cycle part -> ign_trace part ->
  keeps part (DEbuffer_receive prop_getattr is_DEJump e).
Proof.
  intros Hs Hc Ht. unfold DEbuffer_receive.
  keeps_all;
    try (apply add_DE_jump_keeps; assumption);
    try (apply randomizeProposalCycle_keeps; intros ? ?; apply Hc).
Qed.

Lemma DE_after_burn_keeps (iter : Z) (e : step_env) :
  ign_cycle part -> ign_trace part ->
  keeps part (DE_after_burn prop_getattr iter e).
Proof.
  intros Hc Ht. unfold DE_after_burn.
  keeps_all;
    try (apply add_DE_jump_keeps; assumption);
    try (apply randomizeProposalCycle_keeps; intros ? ?; apply Hc).
Qed.

(** [PTMCMCOneStep] touches the covariance model, the trajectory, the
    cycle, the counters and the outside, and nothing else. *)
Lemma PTMCMCOneStep_keeps (p0 : vec) (lnlike0 lnprob0 : pyfloat)
    (iter chain_ind : Z) (e : step_env) :
  ign_covm part -> ign_store part -> ign_cycle part -> ign_counters part ->
  ign_trace part ->
  keeps part (PTMCMCOneStep prop_getattr is_DEJump np_linalg_svd
                p0 lnlike0 lnprob0 iter chain_ind e).
Proof.
  intros Hv Hs Hc Hn Ht. unfold PTMCMCOneStep.
  keeps_all;
    try (apply covariance_update_keeps; assumption);
    try (apply covariance_receive_keeps; assumption);
    try (apply DEbuffer_update_keeps; assumption);
    try (apply DEbuffer_receive_keeps; assumption);
    try (apply DE_after_burn_keeps; assumption);
    try (apply jump_proposal_keeps; assumption);
    try (apply PTswap_keeps; assumption);
    try (apply updateChains_keeps; assumption).
Qed.

Lemma initialize_jump_proposals_keeps (ws : list (string * Z))
    (kw : gmap string kwargs) :
  ign_cycle part -> ign_trace part ->
  keeps part (initialize_jump_proposals prop_getattr prop_default ws kw).
Proof.
  intros Hc Ht. unfold initialize_jump_proposals.
  keeps_all; try (apply addProposalToCycle_keeps; assumption).
Qed.

Lemma initialize_cycle_keeps (a : @initialize_args kwargs) (e : initialize_env)
    (kw : gmap string kwargs) :
  ign_cycle part -> ign_trace part -> ign_resumechain part ->
  keeps part (initialize_cycle prop_getattr prop_default a e kw).
Proof.
  intros Hc Ht Hr. unfold initialize_cycle.
  keeps_all;
    try (apply initialize_jump_proposals_keeps; assumption);
    try (apply randomizeProposalCycle_keeps; intros ? ?; apply Hc).
Qed.

Lemma initialize_attributes_keeps (a : @initialize_args kwargs) :
  ign_store part -> ign_counters part -> ign_run part ->
  keeps part (initialize_attributes grad_kwargs kwargs_update str_of_float
                np_exp np_log np_sqrt a).
Proof.
  intros Hs Hn Hr. unfold initialize_attributes.
  keeps_all.
Qed.

End SamplerFrames.

(** ** The registration of the weights *)

Lemma addProposalToCycle_returns (f : proposal) (w : Z) (s : PTSampler) (r : run_attrs) :
  run s = Some r -> (addProposalToCycle f w s).2 = Ok tt.
Proof.
  intros Hr. unfold addProposalToCycle, bind at 1, get at 1.
  destruct (w =? 0); [reflexivity|].
  unfold bind at 1. rewrite for_each_append.
  unfold bind at 1, get at 1. cbn [cycle set_cycle jumpDict set_propCycle].
  destruct (jumpDict (cycle s) !! pname f); [reflexivity|].
  unfold bind at 1, modify at 1, bind at 1, attr.
  cbn [run jumpDict_add set_cycle]. rewrite Hr.
  destruct (save_jump_stats r); reflexivity.
Qed.

Lemma addProposalToCycle_run (f : proposal) (w : Z) (s : PTSampler) :
  run (addProposalToCycle f w s).1 = run s.
Proof. apply (addProposalToCycle_keeps run); now intros ? ?. Qed.

Section Registration.

Context {kwargs : Type}
        (prop_getattr : string -> option (option kwargs -> proposal))
        (prop_default : list string).

Local Abbreviation register kw :=
  (fun '(key, w) =>
     let* name := lift (get_proposal_object_from_name prop_getattr key) in
     if decide (key <> DE) then addProposalToCycle (name (kw !! key)) w
     else ret tt).

Lemma register_cons (kw : gmap string kwargs) (key : string) (w : Z)
    (ws : list (string * Z)) (c : option kwargs -> proposal) (s : PTSampler)
    (r : run_attrs) :
  prop_getattr key = Some c ->
  run s = Some r ->
  for_each ((key, w) :: ws) (register kw) s =
  for_each ws (register kw)
    (if decide (key <> DE) then (addProposalToCycle (c (kw !! key)) w s).1 else s).
Proof.
  intros Hc Hr. simpl.
  unfold bind at 1, bind at 1, lift, get_proposal_object_from_name.
  rewrite Hc. destruct (decide (key <> DE)); [|reflexivity].
  pose proof (addProposalToCycle_returns (c (kw !! key)) w s r Hr) as Hret.
  destruct (addProposalToCycle (c (kw !! key)) w s) as [s' o]. simpl in *.
  now subst o.
Qed.

Lemma register_known (kw : gmap string kwargs) (ws : list (string * Z)) :
  forall (s : PTSampler) (r : run_attrs),
    run s = Some r ->
    Forall (fun item => is_Some (prop_getattr item.1)) ws ->
    (for_each ws (register kw) s).2 = Ok tt
    /\ run (for_each ws (register kw) s).1 = Some r
    /\ propCycle (cycle (for_each ws (register kw) s).1) =
       propCycle (cycle s) ++ flat_map (copies_of prop_getattr kw) ws.
Proof.
  induction ws as [|[key w] ws IH]; intros s r Hr Hk.
  - simpl. now rewrite app_nil_r.
  - inversion Hk as [|? ? [c Hc] Hk']; subst. simpl in Hc.
    rewrite (register_cons kw key w ws c s r Hc Hr).
    cbn [flat_map]. unfold copies_of at 1. cbn [fst snd]. rewrite Hc.
    destruct (decide (key <> DE)).
    + assert (Hrun : run (addProposalToCycle (c (kw !! key)) w s).1 = Some r).
      { now rewrite addProposalToCycle_run. }
      destruct (IH _ r Hrun Hk') as (H1 & H2 & H3).
      split; [exact H1|]. split; [exact H2|].
      rewrite H3, addProposalToCycle_cycle. now rewrite <- app_assoc.
    + apply (IH s r Hr Hk').
Qed.

(** X4: on a configured sampler, when the weights (the defaults when
    none are given) are not the differential-evolution proposal alone
    and the module of proposals has every name,
    [initialize_jump_proposals] returns normally and has appended to the
    cycle, in the order of the weights, [weights[key]] copies of each
    proposal built with its keyword arguments; the differential-
    evolution proposal is skipped. *)
Theorem initialize_jump_proposals_cycle (ws : list (string * Z))
    (kw : gmap string kwargs) (s : PTSampler) (r : run_attrs) :
  run s = Some r ->
  (effective_weights prop_default ws).*1 <> [DE] ->
  Forall (fun item => is_Some (prop_getattr item.1)) (effective_weights prop_default ws) ->
  let out := initialize_jump_proposals prop_getattr prop_default ws kw s in
  out.2 = Ok tt
  /\ propCycle (cycle out.1) =
     propCycle (cycle s) ++ flat_map (copies_of prop_getattr kw) (effective_weights prop_default ws).
Proof.
  intros Hr Hde Hk out. subst out. unfold initialize_jump_proposals.
  rewrite decide_False by exact Hde.
  destruct (register_known kw _ s r Hr Hk) as (H1 & _ & H3). now split.
Qed.

Lemma register_unknown (kw : gmap string kwargs) (ws1 ws2 : list (string * Z))
    (key : string) (w : Z) (s : PTSampler) (r : run_attrs) :
  run s = Some r ->
  Forall (fun item => is_Some (prop_getattr item.1)) ws1 ->
  prop_getattr key = None ->
  for_each (ws1 ++ (key, w) :: ws2) (register kw) s =
  ((for_each ws1 (register kw) s).1, Raise (AttributeError key)).
Proof.
  intros Hr Hk Hnone. rewrite for_each_app.
  destruct (register_known kw ws1 s r Hr Hk) as (H1 & H2 & H3).
  unfold bind at 1.
  destruct (for_each ws1 _ s) as [s' o]. simpl in *. subst o.
  unfold bind at 1, bind at 1, lift, get_proposal_object_from_name.
  now rewrite Hnone.
Qed.

(** X5: a name that the module of proposals does not have stops the
    registration with [AttributeError]; the proposals in front of it in
    the weights stay registered in the cycle. *)
Theorem initialize_jump_proposals_unknown (kw : gmap string kwargs)
    (ws1 ws2 : list (string * Z)) (key : string) (w : Z) (s : PTSampler)
    (r : run_attrs) :
  run s = Some r ->
  (ws1 ++ (key, w) :: ws2).*1 <> [DE] ->
  Forall (fun item => is_Some (prop_getattr item.1)) ws1 ->
  prop_getattr key = None ->
  let out := initialize_jump_proposals prop_getattr prop_default
               (ws1 ++ (key, w) :: ws2) kw s in
  out.2 = Raise (AttributeError key)
  /\ propCycle (cycle out.1) = propCycle (cycle s) ++ flat_map (copies_of prop_getattr kw) ws1.
Proof.
  intros Hr Hde Hk Hnone out. subst out. unfold initialize_jump_proposals.
  assert (He : effective_weights prop_default (ws1 ++ (key, w) :: ws2) =
               ws1 ++ (key, w) :: ws2).
  { unfold effective_weights. rewrite length_app. simpl.
    now replace (length ws1 + S (length ws2))%nat with (S (length ws1 + length ws2)) by lia. }
  rewrite He. rewrite decide_False by exact Hde. cbv zeta.
  rewrite (register_unknown kw ws1 ws2 key w s r Hr Hk Hnone).
  split; [reflexivity|]. apply (register_known kw ws1 s r Hr Hk).
Qed.

End Registration.

Lemma initialize_jump_proposals_cycle_witness :
  (initialize_jump_proposals demo_getattr ["SCAM"]
     [("SCAM", 2); (DE, 3); ("AM", 1)] ∅ demo_cold).2 = Ok tt
  /\ propCycle (cycle (initialize_jump_proposals demo_getattr ["SCAM"]
                         [("SCAM", 2); (DE, 3); ("AM", 1)] ∅ demo_cold).1) =
     propCycle (cycle demo_cold)
     ++ flat_map (copies_of demo_getattr ∅) [("SCAM", 2); (DE, 3); ("AM", 1)].
Proof.
  apply (initialize_jump_proposals_cycle demo_getattr ["SCAM"]
           [("SCAM", 2); (DE, 3); ("AM", 1)] ∅ demo_cold (demo_run 0)).
  - reflexivity.
  - vm_compute. discriminate.
  - repeat constructor; eexists; reflexivity.
Defined.

Lemma initialize_jump_proposals_unknown_witness :
  (initialize_jump_proposals demo_known ["SCAM"]
     ([("SCAM", 2)] ++ ("Gibbs", 1) :: [("AM", 1)]) ∅ demo_cold).2 =
    Raise (AttributeError "Gibbs")
  /\ propCycle (cycle (initialize_jump_proposals demo_known ["SCAM"]
                         ([("SCAM", 2)] ++ ("Gibbs", 1) :: [("AM", 1)]) ∅
                         demo_cold).1) =
     propCycle (cycle demo_cold) ++ flat_map (copies_of demo_known ∅) [("SCAM", 2)].
Proof.
  apply (initialize_jump_proposals_unknown demo_known ["SCAM"] ∅
           [("SCAM", 2)] [("AM", 1)] "Gibbs" 1 demo_cold (demo_run 0)).
  - reflexivity.
  - vm_compute. discriminate.
  - repeat constructor; eexists; reflexivity.
  - reflexivity.
Defined.

(** ** The shuffle of the cycle *)

Lemma res_map_py_index_seqZ {A} (l2 : list A) :
  forall l1 : list A,
    res_map (py_index (l1 ++ l2)) (seqZ (Z.of_nat (length l1)) (Z.of_nat (length l2))) =
    Ok l2.
Proof.
  induction l2 as [|x l2 IH]; intros l1; [reflexivity|].
  rewrite seqZ_cons by (simpl; lia). cbn [res_map].
  rewrite py_index_middle. cbn [res_bind].
  replace (Z.succ (Z.of_nat (length l1))) with (Z.of_nat (length (l1 ++ [x])))
    by (rewrite length_app; simpl; lia).
  replace (Z.pred (Z.of_nat (length (x :: l2)))) with (Z.of_nat (length l2))
    by (simpl; lia).
  replace (l1 ++ x :: l2) with ((l1 ++ [x]) ++ l2) by now rewrite <- app_assoc.
  now rewrite IH.
Qed.

Lemma res_map_Permutation {A B} (f : A -> res B) (a a' : list A) :
  a ≡ₚ a' ->
  forall b, res_map f a = Ok b -> exists b', res_map f a' = Ok b' /\ b ≡ₚ b'.
Proof.
  induction 1 as [|x a a' Hp IH|x y a|a a' a'' _ IH1 _ IH2]; intros b Hb.
  - injection Hb as <-. now exists [].
  - simpl in *. destruct (f x) as [y|]; [|discriminate]. simpl in *.
    destruct (res_map f a) as [ys|]; [|discriminate]. simpl in Hb.
    injection Hb as <-. destruct (IH ys eq_refl) as (b' & -> & Hb').
    exists (y :: b'). split; [reflexivity|]. now constructor.
  - simpl in *. destruct (f y) as [y'|]; [|discriminate]. simpl in *.
    destruct (f x) as [x'|]; [|discriminate]. simpl in *.
    destruct (res_map f a) as [ys|]; [|discriminate]. simpl in *.
    injection Hb as <-. exists (x' :: y' :: ys). split; [reflexivity|]. constructor.
  - destruct (IH1 b Hb) as (b1 & H1 & Hp1).
    destruct (IH2 b1 H1) as (b2 & H2 & Hp2).
    exists b2. split; [exact H2|]. now transitivity b1.
Qed.

(** The shuffle, when the indices drawn are a permutation of
    [arange(len(self.propCycle))]. *)
Lemma randomizeProposalCycle_eq (index : list Z) (s : PTSampler) :
  index ≡ₚ seqZ 0 (Z.of_nat (length (propCycle (cycle s)))) ->
  exists l,
    randomizeProposalCycle index s =
      (set_cycle (set_randomizedPropCycle l (cycle s)) s, Ok tt)
    /\ l ≡ₚ propCycle (cycle s).
Proof.
  intros Hp. symmetry in Hp.
  destruct (res_map_Permutation (py_index (propCycle (cycle s))) _ _ Hp
              (propCycle (cycle s))) as (l & Hl & Hperm).
  { apply (res_map_py_index_seqZ (propCycle (cycle s)) []). }
  exists l. split; [|now symmetry].
  unfold randomizeProposalCycle, bind, get, lift, modify. now rewrite Hl.
Qed.

(** X6: when the indices drawn are a permutation of [0 .. len(propCycle)
    - 1] (what [np.random.shuffle] makes of [arange]),
    [randomizeProposalCycle] returns normally and [randomizedPropCycle]
    is a permutation of [propCycle]: each proposal keeps its number of
    copies. The cycle itself, the ledger and the outside are left as
    they were. *)
Theorem randomizeProposalCycle_permutation (index : list Z) (s : PTSampler) :
  index ≡ₚ seqZ 0 (Z.of_nat (length (propCycle (cycle s)))) ->
  let out := randomizeProposalCycle index s in
  out.2 = Ok tt
  /\ randomizedPropCycle (cycle out.1) ≡ₚ propCycle (cycle s)
  /\ propCycle (cycle out.1) = propCycle (cycle s)
  /\ jumpDict (cycle out.1) = jumpDict (cycle s)
  /\ trace out.1 = trace s.
Proof.
  intros Hp out. subst out.
  destruct (randomizeProposalCycle_eq index s Hp) as (l & -> & Hl).
  repeat split; [exact Hl].
Qed.


Lemma randomizeProposalCycle_permutation_witness :
  (randomizeProposalCycle [1; 0; 2] (demo_ready demo_cold)).2 = Ok tt
  /\ randomizedPropCycle (cycle (randomizeProposalCycle [1; 0; 2] (demo_ready demo_cold)).1)
       ≡ₚ propCycle (cycle (demo_ready demo_cold))
  /\ propCycle (cycle (randomizeProposalCycle [1; 0; 2] (demo_ready demo_cold)).1) =
       propCycle (cycle (demo_ready demo_cold))
  /\ jumpDict (cycle (randomizeProposalCycle [1; 0; 2] (demo_ready demo_cold)).1) =
       jumpDict (cycle (demo_ready demo_cold))
  /\ trace (randomizeProposalCycle [1; 0; 2] (demo_ready demo_cold)).1 = trace (demo_ready demo_cold).
Proof.
  apply (randomizeProposalCycle_permutation [1; 0; 2] (demo_ready demo_cold)).
  change ([1; 0; 2] ≡ₚ [0; 1; 2]). constructor.
Defined.

(** ** The Metropolis-Hastings rule *)

(** X8: the Metropolis-Hastings rule of a step that is not replayed, for
    a proposal [y] of finite prior. The prior and the likelihood are
    called once each at [y]; with [newlnprob = 1 / temp * logl(y) +
    logp(y)] the proposal is accepted exactly when [newlnprob - lnprob0
    + qxy > log U]. Then the step returns [y] with its likelihood and
    posterior, [naccepted] grows by one and the ledger entry of the
    proposal counts one more proposal and one more acceptance; otherwise
    the state is kept and only the count of proposals grows. *)
Theorem jump_proposal_metropolis (s : PTSampler) (r : run_attrs) (p0 : vec)
    (lnlike0 lnprob0 : pyfloat) (iter : Z) (e : jump_env) (y : vec)
    (qxy : pyfloat) (name : string) :
  run s = Some r ->
  replaying s r iter = false ->
  cycle_in_ledger s ->
  (_jump p0 iter (e_randint e) s).2 = Ok (y, qxy, name) ->
  feq (logp (init s) y) NInf = false ->
  let newlnlike := logl (init s) y in
  let newlnprob := tempered (temp r) newlnlike (logp (init s) y) in
  let accept := fgt (fadd (fsub newlnprob lnprob0) qxy) (e_logU e) in
  let out := jump_proposal p0 lnlike0 lnprob0 iter e s in
  out.2 = Ok (if accept then (y, newlnlike, newlnprob) else (p0, lnlike0, lnprob0))
  /\ naccepted (counters out.1) =
       (if accept then fadd (naccepted (counters s)) (of_Z 1)
        else naccepted (counters s))
  /\ trace out.1 = trace s ++ [EvLogp y; EvLogl y]
  /\ exists proposed accepted,
       jumpDict (cycle s) !! name = Some (proposed, accepted)
       /\ jumpDict (cycle out.1) =
            <[name := (proposed + 1, if accept then accepted + 1 else accepted)]>
              (jumpDict (cycle s)).
Proof.
  intros Hr Hrep Hinv Hjump Hlp newlnlike newlnprob accept out.
  destruct (_jump_outcome p0 iter (e_randint e) s) as [Hs Hname].
  destruct (Hname _ _ _ Hjump) as (f & Hf & <-).
  unfold cycle_in_ledger in Hinv. rewrite Forall_forall in Hinv.
  destruct (Hinv f Hf) as [[proposed accepted] Hentry].
  assert (Hj : _jump p0 iter (e_randint e) s = (s, Ok (y, qxy, pname f))).
  { destruct (_jump p0 iter (e_randint e) s) as [s1 o]. simpl in *. congruence. }
  assert (Hout : out =
            if accept then
              (set_cycle (set_jumpDict
                 (<[pname f := (proposed + 1, accepted + 1)]>
                    (<[pname f := (proposed + 1, accepted)]> (jumpDict (cycle s))))
                 (cycle s))
                 (set_counters {| naccepted := fadd (naccepted (counters s)) (of_Z 1);
                                  swapProposed := swapProposed (counters s);
                                  nswap_accepted := nswap_accepted (counters s) |}
                    (set_trace (trace s ++ [EvLogp y; EvLogl y]) s)),
               Ok (y, newlnlike, newlnprob))
            else
              (set_trace (trace s ++ [EvLogp y; EvLogl y])
                 (set_cycle (set_jumpDict
                    (<[pname f := (proposed + 1, accepted)]> (jumpDict (cycle s)))
                    (cycle s)) s),
               Ok (p0, lnlike0, lnprob0))).
  { subst out. unfold jump_proposal.
    rewrite (bind_ok _ _ _ _ _ (resuming_at_eq 0 s r Hr)).
    unfold replaying in Hrep.
    assert (Hrest :
      (let* (y0, qxy0, jump_name) := _jump p0 iter (e_randint e) in
       run* jumpDict_incr jump_name 0 in
       let* lp := call_logp y0 in
       let* new :=
         if feq lp NInf then ret (None, NInf)
         else
           let* newlnlike := call_logl y0 in
           let* temp := attr "temp" temp in
           ret (Some newlnlike, tempered temp newlnlike lp) in
       let '(newlnlike, newlnprob) := new in
       let diff := fadd (fsub newlnprob lnprob0) qxy0 in
       if fgt diff (e_logU e) then
         match newlnlike with
         | None => raise (UnboundLocalError "newlnlike")
         | Some newlnlike =>
             let* s := get in
             run* modify (set_naccepted (fadd (naccepted (counters s)) (of_Z 1))) in
             run* jumpDict_incr jump_name 1 in
             ret (y0, newlnlike, newlnprob)
         end
       else ret (p0, lnlike0, lnprob0)) s =
      if accept then
        (set_cycle (set_jumpDict
           (<[pname f := (proposed + 1, accepted + 1)]>
              (<[pname f := (proposed + 1, accepted)]> (jumpDict (cycle s))))
           (cycle s))
           (set_counters {| naccepted := fadd (naccepted (counters s)) (of_Z 1);
                            swapProposed := swapProposed (counters s);
                            nswap_accepted := nswap_accepted (counters s) |}
              (set_trace (trace s ++ [EvLogp y; EvLogl y]) s)),
         Ok (y, newlnlike, newlnprob))
      else
        (set_trace (trace s ++ [EvLogp y; EvLogl y])
           (set_cycle (set_jumpDict
              (<[pname f := (proposed + 1, accepted)]> (jumpDict (cycle s)))
              (cycle s)) s),
         Ok (p0, lnlike0, lnprob0))).
    { rewrite (bind_ok _ _ _ _ _ Hj).
      unfold jumpDict_incr, call_logp, call_logl, attr, bind, get, emit, modify, ret,
        set_naccepted.
      cbv beta. rewrite Hentry. cbn [init set_cycle set_trace run].
      rewrite Hlp. cbv iota beta. cbn [init set_cycle set_trace run trace].
      rewrite Hr. cbv iota beta.
      fold newlnlike. fold newlnprob. fold accept.
      destruct accept.
      - cbn [cycle set_cycle set_trace set_counters jumpDict set_jumpDict counters].
        rewrite lookup_insert_eq. cbn [cycle set_cycle set_trace set_counters].
        rewrite <- !app_assoc. reflexivity.
      - rewrite <- !app_assoc. reflexivity. }
    destruct (resume (init s) && (0 <? resumeLength r)) eqn:Hres.
    - rewrite (bind_ok _ _ _ _ _ (attr_eq _ _ _ _ Hr)).
      cbn [andb] in Hrep |- *. rewrite Hrep. exact Hrest.
    - unfold bind at 1, ret at 1. cbn [andb]. exact Hrest. }
  rewrite Hout. destruct accept; cbn; (split; [reflexivity|]); (split; [reflexivity|]);
    (split; [reflexivity|]); exists proposed, accepted; (split; [exact Hentry|]).
  - now rewrite insert_insert_eq.
  - reflexivity.
Qed.

Lemma jump_proposal_metropolis_witness :
  let out := jump_proposal [of_Z 5] (of_Z (-1)) (of_Z (-1)) 1 demo_accepting
               (demo_ready demo_cold) in
  out.2 = Ok ([of_Z 5], of_Z 0, tempered (of_Z 1) (of_Z 0) (of_Z 0))
  /\ naccepted (counters out.1) =
       fadd (naccepted (counters (demo_ready demo_cold))) (of_Z 1)
  /\ trace out.1 = trace (demo_ready demo_cold) ++ [EvLogp [of_Z 5]; EvLogl [of_Z 5]]
  /\ exists proposed accepted,
       jumpDict (cycle (demo_ready demo_cold)) !! "jump" = Some (proposed, accepted)
       /\ jumpDict (cycle out.1) =
            <["jump" := (proposed + 1, accepted + 1)]>
              (jumpDict (cycle (demo_ready demo_cold))).
Proof.
  apply (jump_proposal_metropolis (demo_ready demo_cold) (demo_run 0) [of_Z 5]
           (of_Z (-1)) (of_Z (-1)) 1 demo_accepting [of_Z 5] (Finite 0%Qc) "jump").
  - reflexivity.
  - reflexivity.
  - repeat constructor; eexists; vm_compute; reflexivity.
  - vm_compute. reflexivity.
  - reflexivity.
Defined.

(** ** The replay of a resumed chain *)

Lemma py_index_tail {A} (l tl : list A) (k : nat) (a : A) :
  tl !! k = Some a ->
  py_index (l ++ tl) (Z.of_nat k - Z.of_nat (length tl)) = Ok a.
Proof.
  intros Hk. pose proof (lookup_lt_Some _ _ _ Hk) as Hlt.
  apply py_index_negative; rewrite ?length_app; try lia.
  replace (Z.to_nat (Z.of_nat k - Z.of_nat (length tl)
                     + Z.of_nat (length l + length tl)))
    with (length l + k)%nat by lia.
  rewrite lookup_app_r by lia.
  now replace (length l + k - length l)%nat with k by lia.
Qed.

(** One row of a chain file, as the resume path cuts it. *)
Lemma resume_row_at (rows : matrix) (iter : Z) (params : vec)
    (lnprob lnlike acc pt_acc : pyfloat) :
  0 <= iter ->
  rows !! Z.to_nat iter = Some (params ++ [lnprob; lnlike; acc; pt_acc]) ->
  resume_row (inr rows) iter = Ok (params, lnlike, lnprob)
  /\ py_index2 rows iter (-2) = Ok acc.
Proof.
  intros Hi Hrow. unfold resume_row, py_index2.
  rewrite (py_index_nonneg _ _ _ Hi Hrow). cbn [res_bind].
  set (tl := [lnprob; lnlike; acc; pt_acc]).
  assert (H3 : py_index (params ++ tl) (-3) = Ok lnlike)
    by exact (py_index_tail params tl 1 lnlike eq_refl).
  assert (H4 : py_index (params ++ tl) (-4) = Ok lnprob)
    by exact (py_index_tail params tl 0 lnprob eq_refl).
  assert (H2 : py_index (params ++ tl) (-2) = Ok acc)
    by exact (py_index_tail params tl 2 acc eq_refl).
  rewrite H3, H4, H2.
  cbn [res_bind]. split; [|reflexivity]. do 3 f_equal.
  unfold py_slice, py_clip. rewrite length_app. cbn [length tl].
  replace (0 <? 0) with false by lia.
  replace (-4 <? 0) with true by lia.
  replace (Z.to_nat (Z.max 0 (Z.min (Z.of_nat (length params + 4)) 0)))
    with 0%nat by lia.
  replace (Z.to_nat (Z.max 0 (Z.min (Z.of_nat (length params + 4))
                                (-4 + Z.of_nat (length params + 4))) -
                     Z.max 0 (Z.min (Z.of_nat (length params + 4)) 0)))
    with (length params) by lia.
  rewrite drop_0. now rewrite take_app_length.
Qed.

(** X9: while a resumed run is below the length of its chain file, a
    step reads row [iter] of the file instead of proposing: the
    parameters are all columns but the last four, the likelihood is
    column -3 and the posterior column -4; [naccepted] becomes [iter]
    times the acceptance fraction of column -2, and nothing else of the
    object changes: no density is called. *)
Theorem jump_proposal_replay (s : PTSampler) (r : run_attrs) (p0 : vec)
    (lnlike0 lnprob0 : pyfloat) (iter : Z) (e : jump_env) (rows : matrix)
    (params : vec) (lnprob lnlike acc pt_acc : pyfloat) :
  run s = Some r ->
  resume (init s) = true ->
  0 <= iter < resumeLength r ->
  resumechain r = inr rows ->
  rows !! Z.to_nat iter = Some (params ++ [lnprob; lnlike; acc; pt_acc]) ->
  jump_proposal p0 lnlike0 lnprob0 iter e s =
    (set_naccepted (fmul (of_Z iter) acc) s, Ok (params, lnlike, lnprob)).
Proof.
  intros Hr Hres Hiter Hrc Hrow.
  destruct (resume_row_at rows iter params lnprob lnlike acc pt_acc
              (proj1 Hiter) Hrow) as [H1 H2].
  unfold jump_proposal.
  rewrite (bind_ok _ _ _ _ _ (resuming_at_eq 0 s r Hr)).
  rewrite Hres. replace (0 <? resumeLength r) with true by lia. cbn [andb].
  rewrite (bind_ok _ _ _ _ _ (attr_eq _ _ _ _ Hr)).
  replace (iter <? resumeLength r) with true by lia.
  rewrite (bind_ok _ _ _ _ _ (attr_eq _ _ _ _ Hr)).
  rewrite Hrc. unfold bind, lift, modify, ret. now rewrite H1, H2.
Qed.

Lemma jump_proposal_replay_witness :
  jump_proposal [of_Z 9] (of_Z 0) (of_Z 0) 1 demo_accepting demo_resumed =
    (set_naccepted (fmul (of_Z 1) (of_Z 1)) demo_resumed,
     Ok ([of_Z 2], of_Z (-5), of_Z (-4))).
Proof.
  eapply (jump_proposal_replay demo_resumed _ [of_Z 9] (of_Z 0) (of_Z 0) 1
            demo_accepting demo_rows [of_Z 2] (of_Z (-4)) (of_Z (-5)) (of_Z 1)
            (of_Z 0)).
  - vm_compute. reflexivity.
  - reflexivity.
  - vm_compute. split; [discriminate|reflexivity].
  - reflexivity.
  - reflexivity.
Defined.

(** ** The buffers of the hotter processes *)

Section HotProcess.

Context {kwargs : Type}
        (prop_getattr : string -> option (option kwargs -> proposal))
        (prop_default : list string)
        (is_DEJump : proposal -> bool)
        (grad_kwargs : (vec -> pyfloat * vec) -> (vec -> pyfloat * vec) ->
                       matrix -> Z -> kwargs)
        (kwargs_update : kwargs -> kwargs -> kwargs)
        (str_of_float : pyfloat -> string)
        (np_exp np_log np_sqrt : pyfloat -> pyfloat)
        (np_linalg_svd : matrix -> matrix * vec).

Lemma initialize_attributes_buffers (a : @initialize_args kwargs) (s : PTSampler) :
  0 < MPIrank (init s) ->
  let s1 := (initialize_attributes grad_kwargs kwargs_update str_of_float
               np_exp np_log np_sqrt a s).1 in
  _AMbuffer (store s1) = _AMbuffer (store s)
  /\ _DEbuffer (store s1) = _DEbuffer (store s).
Proof.
  intros Hrank. unfold initialize_attributes, bind, get, lift, modify, ret.
  cbv beta iota.
  destruct (chain_rows _ _) as [N|]; [|now split]. cbv beta iota.
  destruct (np_zeros2 _ _) as [z2|]; [|now split]. cbv beta iota.
  destruct (np_zeros3 _ _ _) as [z3|]; [|now split]. cbv beta iota.
  replace (MPIrank (init s) =? 0) with false by lia. cbv beta iota.
  cbn [init set_counters set_store].
  destruct (a_ladder a) as [l|]; cbv beta iota.
  - destruct (py_index l _); now split.
  - destruct (temperatureLadder _ _ _ _ _) as [l|]; cbv beta iota; [|now split].
    destruct (py_index l _); now split.
Qed.

(** X10: on a process of rank > 0, [initialize] leaves [_AMbuffer] and
    [_DEbuffer] as they were (not bound, on a fresh object), whatever
    its outcome. *)
Theorem initialize_buffers_rank0_only (a : @initialize_args kwargs)
    (e : initialize_env) (s : PTSampler) :
  0 < MPIrank (init s) ->
  let s' := (initialize prop_getattr prop_default grad_kwargs kwargs_update
               str_of_float np_exp np_log np_sqrt a e s).1 in
  _AMbuffer (store s') = _AMbuffer (store s)
  /\ _DEbuffer (store s') = _DEbuffer (store s).
Proof.
  intros Hrank s'. subst s'. unfold initialize, bind.
  pose proof (initialize_attributes_buffers a s Hrank) as H. cbv zeta in H.
  destruct (initialize_attributes _ _ _ _ _ _ a s) as [s1 [kw|err]]; simpl in H;
    [|exact H].
  destruct H as [H1 H2]. rewrite <- H1, <- H2.
  split.
  - apply (initialize_cycle_keeps prop_getattr prop_default
             (fun s => _AMbuffer (store s))); now intros ? ?.
  - apply (initialize_cycle_keeps prop_getattr prop_default
             (fun s => _DEbuffer (store s))); now intros ? ?.
Qed.

(** X11: on a process of rank > 0 on which [_DEbuffer] is not bound and
    for which no message is pending, a step that is not replayed raises
    [AttributeError] when [_jump] collects the keyword arguments of the
    proposal, and leaves the object as it was. *)
Theorem PTMCMCOneStep_unbound_DEbuffer (s : PTSampler) (r : run_attrs) (p0 : vec)
    (lnlike0 lnprob0 : pyfloat) (iter chain_ind : Z) (e : step_env) :
  run s = Some r ->
  0 < MPIrank (init s) ->
  _DEbuffer (store s) = None ->
  propCycle (cycle s) <> [] ->
  covUpdate r <> 0 -> burn r <> 0 ->
  replaying s r iter = false ->
  e_getCovariance e = false -> e_getDEbuf e = false ->
  PTMCMCOneStep prop_getattr is_DEJump np_linalg_svd
    p0 lnlike0 lnprob0 iter chain_ind e s =
  (s, Raise (AttributeError "_DEbuffer")).
Proof.
  intros Hr Hrank Hde Hcyc Hcov Hburn Hrep Hgc Hgd.
  unfold PTMCMCOneStep.
  assert (H1 : covariance_update np_linalg_svd iter chain_ind s = (s, Ok tt)).
  { unfold covariance_update, bind at 1, get at 1.
    rewrite (bind_ok _ _ _ _ _ (attr_eq _ _ _ _ Hr)).
    unfold bind at 1, lift. rewrite (py_mod_ok _ _ Hcov).
    replace (MPIrank (init s) =? 0) with false by lia.
    now rewrite andb_false_r. }
  rewrite (bind_ok _ _ _ _ _ H1).
  assert (H2 : covariance_receive np_linalg_svd e s = (s, Ok tt)).
  { unfold covariance_receive, bind at 1, get at 1. now rewrite Hgc. }
  rewrite (bind_ok _ _ _ _ _ H2).
  assert (H3 : DEbuffer_update iter chain_ind s = (s, Ok tt)).
  { unfold DEbuffer_update, bind at 1, get at 1.
    rewrite (bind_ok _ _ _ _ _ (attr_eq _ _ _ _ Hr)).
    unfold bind at 1, lift. rewrite (py_mod_ok _ _ Hburn).
    replace (MPIrank (init s) =? 0) with false by lia.
    now rewrite andb_false_r. }
  rewrite (bind_ok _ _ _ _ _ H3).
  assert (H4 : DEbuffer_receive prop_getattr is_DEJump e s = (s, Ok tt)).
  { unfold DEbuffer_receive, bind at 1, get at 1. now rewrite Hgd. }
  rewrite (bind_ok _ _ _ _ _ H4).
  assert (H5 : DE_after_burn prop_getattr iter e s = (s, Ok tt)).
  { unfold DE_after_burn, bind at 1, get at 1.
    rewrite (bind_ok _ _ _ _ _ (attr_eq _ _ _ _ Hr)).
    replace (MPIrank (init s) =? 0) with false by lia.
    now rewrite andb_false_r. }
  rewrite (bind_ok _ _ _ _ _ H5).
  assert (H6 : jump_proposal p0 lnlike0 lnprob0 iter (e_jump e) s =
               (s, Raise (AttributeError "_DEbuffer"))).
  { assert (Hj : _jump p0 iter (e_randint (e_jump e)) s =
                 (s, Raise (AttributeError "_DEbuffer"))).
    { unfold _jump, bind at 1, get at 1.
      destruct (propCycle (cycle s)) as [|f l] eqn:E; [congruence|].
      destruct (Z.leb_spec (Z.of_nat (length (f :: l))) 0) as [H|H];
        [simpl in H; lia|clear H].
      unfold update_jump_proposal_kwargs, bind at 1, bind at 1, get at 1.
      rewrite (bind_ok _ _ _ _ _ (attr_eq _ _ _ _ Hr)). now rewrite Hde. }
    unfold jump_proposal.
    rewrite (bind_ok _ _ _ _ _ (resuming_at_eq 0 s r Hr)).
    unfold replaying in Hrep.
    destruct (resume (init s) && (0 <? resumeLength r)) eqn:Hres.
    - rewrite (bind_ok _ _ _ _ _ (attr_eq _ _ _ _ Hr)).
      cbn [andb] in Hrep |- *. rewrite Hrep.
      now rewrite (bind_raise _ _ _ _ _ Hj).
    - unfold bind at 1, ret at 1. cbn [andb].
      now rewrite (bind_raise _ _ _ _ _ Hj). }
  now rewrite (bind_raise _ _ _ _ _ H6).
Qed.

End HotProcess.

Lemma initialize_buffers_rank0_only_witness :
  _AMbuffer (store (demo_started 1)) = None
  /\ _DEbuffer (store (demo_started 1)) = None.
Proof.
  apply (initialize_buffers_rank0_only demo_getattr ["SCAM"] (fun _ _ _ _ => tt)
           (fun _ _ => tt) (fun _ => "1.0") (fun x => x) (fun x => x) (fun x => x)
           demo_ladder_args demo_env (demo_fresh 1 2 zero_density zero_density)).
  reflexivity.
Defined.

Lemma PTMCMCOneStep_unbound_DEbuffer_witness :
  demo_PTMCMCOneStep [of_Z 5] (of_Z (-1)) (of_Z (-1)) 1 0 demo_quiet (demo_started 1) =
    (demo_started 1, Raise (AttributeError "_DEbuffer")).
Proof.
  eapply (PTMCMCOneStep_unbound_DEbuffer demo_getattr (fun _ => false)
            (fun m => (m, [])) (demo_started 1) _ [of_Z 5] (of_Z (-1)) (of_Z (-1))
            1 0 demo_quiet).
  - vm_compute. reflexivity.
  - reflexivity.
  - reflexivity.
  - vm_compute. discriminate.
  - vm_compute. discriminate.
  - vm_compute. discriminate.
  - reflexivity.
  - reflexivity.
  - reflexivity.
Defined.

(** ** The two sides of a swap *)

(** X12: the two sides of a swap. The colder process proposes at its
    iteration; the next hotter one, which does not propose itself,
    decides with [logChainSwap] of the two temperatures of its ladder
    against [log U]. When it accepts, each side returns the point and
    the likelihood of the other with the posterior recomputed at its own
    temperature and prior, the proposer with code 2 and the decider with
    code 0; when it rejects, both keep their state and the proposer
    returns code 1. The messages are the likelihood (tag 18) from the
    proposer, the verdict (tag 888) from the decider and, on acceptance,
    the likelihood of the decider and the two points (tag 19). *)
Theorem PTswap_exchange (sc sh : PTSampler) (rc rh : run_attrs)
    (pc ph : vec) (lc lpc lh lph logU T1 T2 : pyfloat) (iter_c iter_h : Z) :
  run sc = Some rc -> run sh = Some rh ->
  MPIrank (init sh) = MPIrank (init sc) + 1 ->
  0 <= MPIrank (init sc) ->
  Tskip rc <> 0 -> Tskip rh <> 0 ->
  proposes sc rc iter_c = true ->
  proposes sh rh iter_h = false ->
  py_index (ladder rh) (MPIrank (init sc)) = Ok T1 ->
  py_index (ladder rh) (MPIrank (init sh)) = Ok T2 ->
  let accept := fgt (logChainSwap T1 T2 lh lc) logU in
  let e_hot := {| e_swapAccepted := 0; e_lnlike := lc; e_pnew := pc;
                  e_readyToSwap := true; e_logU_swap := logU |} in
  let e_cold := {| e_swapAccepted := if accept then 1 else 0; e_lnlike := lh;
                   e_pnew := ph; e_readyToSwap := false; e_logU_swap := logU |} in
  let hot := PTswap ph lh lph iter_h e_hot sh in
  let cold := PTswap pc lc lpc iter_c e_cold sc in
  hot.2 = Ok (if accept
              then (0, pc, lc, tempered (temp rh) lc (logp (init sh) pc))
              else (0, ph, lh, lph))
  /\ cold.2 = Ok (if accept
                  then (2, ph, lh, tempered (temp rc) lh (logp (init sc) ph))
                  else (1, pc, lc, lpc))
  /\ trace hot.1 =
       trace sh ++ EvSend (MPIrank (init sc)) 888 (MInt (if accept then 1 else 0))
                :: (if accept
                    then [EvSend (MPIrank (init sc)) 18 (MFloat lh);
                          EvSend (MPIrank (init sc)) 19 (MVec ph); EvLogp pc]
                    else [])
  /\ trace cold.1 =
       trace sc ++ EvSend (MPIrank (init sh)) 18 (MFloat lc)
                :: (if accept
                    then [EvSend (MPIrank (init sh)) 19 (MVec pc); EvLogp ph]
                    else []).
Proof.
  intros Hrc Hrh Hrank Hpos Htc Hth Hpc Hph H1 H2 accept e_hot e_cold hot cold.
  assert (Hk : MPIrank (init sh) - 1 = MPIrank (init sc)) by lia.
  assert (Hhot : hot =
    if accept then
      (set_trace (trace sh ++ [EvSend (MPIrank (init sh) - 1) 888 (MInt 1);
                               EvSend (MPIrank (init sh) - 1) 18 (MFloat lh);
                               EvSend (MPIrank (init sh) - 1) 19 (MVec ph);
                               EvLogp pc]) sh,
       Ok (0, pc, lc, tempered (temp rh) lc (logp (init sh) pc)))
    else
      (set_trace (trace sh ++ [EvSend (MPIrank (init sh) - 1) 888 (MInt 0)]) sh,
       Ok (0, ph, lh, lph))).
  { subst hot.
    rewrite (PTswap_decider sh rh ph lh lph iter_h e_hot T1 T2); try assumption;
      try reflexivity; try lia.
    now rewrite Hk. }
  assert (Hcold : cold =
    if accept then
      (set_trace (trace sc ++ [EvSend (MPIrank (init sc) + 1) 18 (MFloat lc);
                               EvSend (MPIrank (init sc) + 1) 19 (MVec pc);
                               EvLogp ph]) sc,
       Ok (2, ph, lh, tempered (temp rc) lh (logp (init sc) ph)))
    else
      (set_trace (trace sc ++ [EvSend (MPIrank (init sc) + 1) 18 (MFloat lc)]) sc,
       Ok (1, pc, lc, lpc))).
  { subst cold.
    rewrite (PTswap_proposer sc rc pc lc lpc iter_c e_cold Hrc Htc Hpc).
    subst e_cold. cbn [e_swapAccepted e_lnlike e_pnew].
    now destruct accept. }
  rewrite Hhot, Hcold, Hk, <- Hrank.
  destruct accept; cbn; repeat split; reflexivity.
Qed.

Lemma PTswap_exchange_witness :
  let hot := PTswap [of_Z 9] (of_Z (-1)) (of_Z (-1)) 100
               {| e_swapAccepted := 0; e_lnlike := of_Z (-3); e_pnew := [of_Z 7];
                  e_readyToSwap := true; e_logU_swap := of_Z (-1) |} demo_hot in
  let cold := PTswap [of_Z 7] (of_Z (-3)) (of_Z (-3)) 100
                {| e_swapAccepted := 1; e_lnlike := of_Z (-1); e_pnew := [of_Z 9];
                   e_readyToSwap := false; e_logU_swap := of_Z (-1) |} demo_cold in
  hot.2 = Ok (0, [of_Z 7], of_Z (-3), tempered (of_Z 4) (of_Z (-3)) (of_Z 0))
  /\ cold.2 = Ok (2, [of_Z 9], of_Z (-1), tempered (of_Z 1) (of_Z (-1)) (of_Z 0))
  /\ trace hot.1 =
       trace demo_hot ++ [EvSend 0 888 (MInt 1); EvSend 0 18 (MFloat (of_Z (-1)));
                          EvSend 0 19 (MVec [of_Z 9]); EvLogp [of_Z 7]]
  /\ trace cold.1 =
       trace demo_cold ++ [EvSend 1 18 (MFloat (of_Z (-3)));
                           EvSend 1 19 (MVec [of_Z 7]); EvLogp [of_Z 9]].
Proof.
  apply (PTswap_exchange demo_cold demo_hot (demo_run 0) (demo_run 1)
           [of_Z 7] [of_Z 9] (of_Z (-3)) (of_Z (-3)) (of_Z (-1)) (of_Z (-1))
           (of_Z (-1)) (of_Z 1) (of_Z 4) 100 100).
  - reflexivity.
  - reflexivity.
  - reflexivity.
  - reflexivity.
  - vm_compute. discriminate.
  - vm_compute. discriminate.
  - reflexivity.
  - reflexivity.
  - reflexivity.
  - reflexivity.
Defined.

(** ** What [updateChains] records *)

Lemma py_index_lookup {A} (l : list A) (i : Z) (a : A) :
  0 <= i -> l !! Z.to_nat i = Some a -> py_index l i = Ok a.
Proof. apply py_index_nonneg. Qed.

Lemma py_set_lookup {A} (l : list A) (i : Z) (a v : A) :
  0 <= i -> l !! Z.to_nat i = Some a -> py_set l i v = Ok (<[Z.to_nat i := v]> l).
Proof.
  intros Hi Hl. apply py_set_in_range.
  pose proof (lookup_lt_Some _ _ _ Hl). lia.
Qed.

Lemma py_set_row_lookup (a : list matrix) (i j : Z) (m : matrix) (row v : vec) :
  0 <= i -> 0 <= j ->
  a !! Z.to_nat i = Some m -> m !! Z.to_nat j = Some row -> length v = length row ->
  py_set_row a i j v = Ok (<[Z.to_nat i := <[Z.to_nat j := v]> m]> a).
Proof.
  intros Hi Hj Ha Hm Hlen. unfold py_set_row.
  rewrite (py_index_lookup _ _ _ Hi Ha). cbn [res_bind].
  rewrite (py_index_lookup _ _ _ Hj Hm). cbn [res_bind].
  rewrite Hlen, Nat.eqb_refl.
  rewrite (py_set_lookup _ _ _ _ Hj Hm). cbn [res_bind].
  now rewrite (py_set_lookup _ _ _ _ Hi Ha).
Qed.

Lemma py_set2_lookup {A} (a : list (list A)) (i j : Z) (row : list A) (x v : A) :
  0 <= i -> 0 <= j ->
  a !! Z.to_nat i = Some row -> row !! Z.to_nat j = Some x ->
  py_set2 a i j v = Ok (<[Z.to_nat i := <[Z.to_nat j := v]> row]> a).
Proof.
  intros Hi Hj Ha Hr. unfold py_set2.
  rewrite (py_index_lookup _ _ _ Hi Ha). cbn [res_bind].
  rewrite (py_set_lookup _ _ _ _ Hj Hr). cbn [res_bind].
  now rewrite (py_set_lookup _ _ _ _ Hi Ha).
Qed.

Lemma entry_insert {A} (a : list (list A)) (i j : nat) (row : list A) (x v : A) :
  a !! i = Some row -> row !! j = Some x ->
  entry (<[i := <[j := v]> row]> a) i j = Some v.
Proof.
  intros Ha Hr. unfold entry.
  rewrite list_lookup_insert_eq by (now apply lookup_lt_Some in Ha). simpl.
  apply list_lookup_insert_eq. now apply lookup_lt_Some in Hr.
Qed.

Lemma entry_insert_ne {A} (a : list (list A)) (i j i' j' : nat) (row : list A) (v : A) :
  a !! i = Some row -> (i', j') <> (i, j) ->
  entry (<[i := <[j := v]> row]> a) i' j' = entry a i' j'.
Proof.
  intros Ha Hne. unfold entry.
  destruct (decide (i' = i)) as [->|Hi].
  - rewrite list_lookup_insert_eq by (now apply lookup_lt_Some in Ha).
    rewrite Ha. simpl. apply list_lookup_insert_ne. congruence.
  - now rewrite list_lookup_insert_ne by congruence.
Qed.

(** X13: on rank 0, at an iteration that is a multiple of [thin],
    [updateChains] writes the point to row [iter] of [_AMbuffer] and the
    point, the likelihood and the posterior to row [iter / thin] of
    [_chain], [_lnlike] and [_lnprob] of the chain; every other entry of
    the four arrays is as before, and without [write_cold_chains] the
    call returns and nothing is written outside. *)
Theorem updateChains_records (s : PTSampler) (r : run_attrs) (p0 : vec)
    (lnlike0 lnprob0 : pyfloat) (iter chain_ind : Z)
    (am : list matrix) (arow crow : vec) (x1 x2 : pyfloat) :
  run s = Some r ->
  0 < thin r -> 0 <= iter -> iter mod thin r = 0 -> 0 <= chain_ind ->
  let ci := Z.to_nat chain_ind in
  let ind := Z.to_nat (Z.quot iter (thin r)) in
  MPIrank (init s) = 0 ->
  _AMbuffer (store s) = Some am ->
  entry am ci (Z.to_nat iter) = Some arow -> length arow = length p0 ->
  entry (_chain (store s)) ci ind = Some crow -> length crow = length p0 ->
  entry (_lnlike (store s)) ci ind = Some x1 ->
  entry (_lnprob (store s)) ci ind = Some x2 ->
  let out := updateChains p0 lnlike0 lnprob0 iter chain_ind s in
  (exists am', _AMbuffer (store out.1) = Some am'
               /\ entry am' ci (Z.to_nat iter) = Some p0
               /\ forall i j, (i, j) <> (ci, Z.to_nat iter) -> entry am' i j = entry am i j)
  /\ entry (_chain (store out.1)) ci ind = Some p0
  /\ entry (_lnlike (store out.1)) ci ind = Some lnlike0
  /\ entry (_lnprob (store out.1)) ci ind = Some lnprob0
  /\ (forall i j, (i, j) <> (ci, ind) ->
        entry (_chain (store out.1)) i j = entry (_chain (store s)) i j
        /\ entry (_lnlike (store out.1)) i j = entry (_lnlike (store s)) i j
        /\ entry (_lnprob (store out.1)) i j = entry (_lnprob (store s)) i j)
  /\ (write_cold_chains r = false -> out.2 = Ok tt /\ trace out.1 = trace s).
Proof.
  intros Hr Hthin Hiter Hmod Hci ci ind Hrank Ham Harow Hal Hcrow Hcl Hx1 Hx2 out.
  assert (Hq : 0 <= Z.quot iter (thin r)) by (apply Z.quot_pos; lia).
  unfold entry in Harow, Hcrow, Hx1, Hx2.
  destruct (am !! ci) as [ac|] eqn:Eac; [|discriminate]. simpl in Harow.
  destruct (_chain (store s) !! ci) as [cm|] eqn:Ecm; [|discriminate]. simpl in Hcrow.
  destruct (_lnlike (store s) !! ci) as [ll|] eqn:Ell; [|discriminate]. simpl in Hx1.
  destruct (_lnprob (store s) !! ci) as [lp|] eqn:Elp; [|discriminate]. simpl in Hx2.
  set (am' := <[ci := <[Z.to_nat iter := p0]> ac]> am).
  set (st2 := {| _chain := <[ci := <[ind := p0]> cm]> (_chain (store s));
                 _lnlike := <[ci := <[ind := lnlike0]> ll]> (_lnlike (store s));
                 _lnprob := <[ci := <[ind := lnprob0]> lp]> (_lnprob (store s));
                 _AMbuffer := Some am';
                 _DEbuffer := _DEbuffer (store s) |}).
  set (rest :=
    (let* write_cold := attr "write_cold_chains" write_cold_chains in
     if write_cold then
       let* isave := attr "isave" isave in
       let* r := lift (py_mod iter isave) in
       let* resumeLength := attr "resumeLength" resumeLength in
       if (r =? 0) && (1 <? iter) && (resumeLength <? iter) then
         let* writeHot := attr "writeHotChains" writeHotChains in
         let* s := get in
         run* (if writeHot || (MPIrank (init s) =? 0) then _writeToFile iter
               else ret tt) in
         let* s := get in
         emit (EvSave (String.append (outDir (init s)) "/cov.npy") (cov (covm s)))
       else ret tt
     else ret tt) : M unit).
  assert (Hout : out = rest (set_store st2 s)).
  { subst out. unfold updateChains, bind at 1, get at 1.
    rewrite Hrank. change (0 =? 0) with true. cbv iota.
    unfold bind at 1, bind at 1. rewrite (get_AMbuffer_eq s am Ham).
    unfold bind at 1, lift at 1.
    rewrite (py_set_row_lookup am chain_ind iter ac arow p0 Hci Hiter Eac Harow)
      by congruence.
    unfold modify at 1.
    set (s1 := set_AMbuffer _ s).
    assert (Hr1 : run s1 = Some r) by exact Hr.
    rewrite (bind_ok _ _ _ _ _ (attr_eq _ _ _ _ Hr1)).
    assert (Hthin' : thin r <> 0) by lia.
    unfold bind at 1, lift at 1. rewrite (py_mod_ok iter (thin r) Hthin').
    rewrite Hmod. change (0 =? 0) with true. cbv iota.
    unfold bind at 1, bind at 1, get at 1, bind at 1, lift at 1.
    change (_chain (store s1)) with (_chain (store s)).
    rewrite (py_set_row_lookup _ chain_ind _ cm crow p0 Hci Hq Ecm Hcrow)
      by congruence.
    change (_lnlike (store s1)) with (_lnlike (store s)).
    change (_lnprob (store s1)) with (_lnprob (store s)).
    rewrite (py_set2_lookup _ chain_ind _ ll x1 lnlike0 Hci Hq Ell Hx1).
    rewrite (py_set2_lookup _ chain_ind _ lp x2 lnprob0 Hci Hq Elp Hx2).
    reflexivity. }
  assert (Hkeep : keeps store rest).
  { subst rest. keeps_all; try (apply _writeToFile_keeps); now intros ? ?. }
  assert (Hstore : store out.1 = st2).
  { rewrite Hout. now rewrite Hkeep. }
  rewrite Hstore. subst st2. cbn [_chain _lnlike _lnprob _AMbuffer].
  split.
  { exists am'. split; [reflexivity|]. split.
    - now apply (entry_insert am ci _ ac arow).
    - intros i j Hne. now apply entry_insert_ne. }
  split; [now apply (entry_insert _ ci ind cm crow)|].
  split; [now apply (entry_insert _ ci ind ll x1)|].
  split; [now apply (entry_insert _ ci ind lp x2)|].
  split.
  { intros i j Hne. repeat split; now apply entry_insert_ne. }
  intros Hw. rewrite Hout. subst rest.
  assert (Hr2 : run (set_store
            {| _chain := <[ci := <[ind := p0]> cm]> (_chain (store s));
               _lnlike := <[ci := <[ind := lnlike0]> ll]> (_lnlike (store s));
               _lnprob := <[ci := <[ind := lnprob0]> lp]> (_lnprob (store s));
               _AMbuffer := Some am';
               _DEbuffer := _DEbuffer (store s) |} s) = Some r) by exact Hr.
  rewrite (bind_ok _ _ _ _ _ (attr_eq _ _ _ _ Hr2)). rewrite Hw. now split.
Qed.

Lemma updateChains_records_witness :
  let out := updateChains [of_Z 7] (of_Z (-1)) (of_Z (-2)) 3 0 demo_recording in
  (exists am', _AMbuffer (store out.1) = Some am'
               /\ entry am' 0 3 = Some [of_Z 7]
               /\ forall i j, (i, j) <> (0%nat, 3%nat) ->
                    entry am' i j = entry [replicate 11 [Finite 0%Qc]] i j)
  /\ entry (_chain (store out.1)) 0 3 = Some [of_Z 7]
  /\ entry (_lnlike (store out.1)) 0 3 = Some (of_Z (-1))
  /\ entry (_lnprob (store out.1)) 0 3 = Some (of_Z (-2))
  /\ (forall i j, (i, j) <> (0%nat, 3%nat) ->
        entry (_chain (store out.1)) i j = entry (_chain (store demo_recording)) i j
        /\ entry (_lnlike (store out.1)) i j = entry (_lnlike (store demo_recording)) i j
        /\ entry (_lnprob (store out.1)) i j = entry (_lnprob (store demo_recording)) i j)
  /\ (write_cold_chains (demo_run 0) = false ->
      out.2 = Ok tt /\ trace out.1 = trace demo_recording).
Proof.
  apply (updateChains_records demo_recording (demo_run 0) [of_Z 7] (of_Z (-1))
           (of_Z (-2)) 3 0 [replicate 11 [Finite 0%Qc]] [Finite 0%Qc] [Finite 0%Qc]
           (Finite 0%Qc) (Finite 0%Qc)).
  - reflexivity.
  - reflexivity.
  - discriminate.
  - reflexivity.
  - discriminate.
  - reflexivity.
  - reflexivity.
  - reflexivity.
  - reflexivity.
  - reflexivity.
  - reflexivity.
  - reflexivity.
  - reflexivity.
Defined.

(** ** The object [initialize] leaves *)

Lemma np_zeros2_inv (r c : Z) (m : matrix) :
  np_zeros2 r c = Ok m ->
  0 <= r /\ 0 <= c
  /\ m = replicate (Z.to_nat r) (replicate (Z.to_nat c) (Finite 0%Qc)).
Proof.
  unfold np_zeros2.
  destruct (Z.ltb_spec r 0), (Z.ltb_spec c 0); simpl; try discriminate.
  intros [= <-]. repeat split; lia.
Qed.

Lemma np_zeros3_inv (a r c : Z) (m : list matrix) :
  np_zeros3 a r c = Ok m ->
  0 <= a /\ 0 <= r /\ 0 <= c
  /\ m = replicate (Z.to_nat a)
           (replicate (Z.to_nat r) (replicate (Z.to_nat c) (Finite 0%Qc))).
Proof.
  unfold np_zeros3.
  destruct (Z.ltb_spec a 0), (Z.ltb_spec r 0), (Z.ltb_spec c 0); simpl;
    try discriminate.
  intros [= <-]. repeat split; lia.
Qed.

Section InitializeState.

Context {kwargs : Type}
        (prop_getattr : string -> option (option kwargs -> proposal))
        (prop_default : list string)
        (grad_kwargs : (vec -> pyfloat * vec) -> (vec -> pyfloat * vec) ->
                       matrix -> Z -> kwargs)
        (kwargs_update : kwargs -> kwargs -> kwargs)
        (str_of_float : pyfloat -> string)
        (np_exp np_log np_sqrt : pyfloat -> pyfloat).

Local Abbreviation initialize' :=
  (initialize prop_getattr prop_default grad_kwargs kwargs_update
     str_of_float np_exp np_log np_sqrt).
Local Abbreviation initialize_attributes' :=
  (initialize_attributes grad_kwargs kwargs_update
     str_of_float np_exp np_log np_sqrt).
Local Abbreviation temperatureLadder' :=
  (@temperatureLadder pyfloat (pyfloat_numeric np_exp np_log np_sqrt)).

(** What [initialize] has bound when its first part returns. *)
Lemma initialize_attributes_inv (a : @initialize_args kwargs) (s0 s1 : PTSampler)
    (kw : gmap string kwargs) :
  initialize_attributes' a s0 = (s1, Ok kw) ->
  exists (N : Z) (lad : list pyfloat) (T : pyfloat) (am : option (list matrix))
         (de : option (list matrix + matrix)),
    chain_rows (default_maxIter (MPIrank (init s0)) (a_Niter a) (a_maxIter a))
      (a_thin a) = Ok N
    /\ 0 <= a_n_cold_chains a /\ 0 <= N /\ 0 <= ndim (init s0)
    /\ match a_ladder a with
       | Some l => Ok l
       | None => temperatureLadder' (nchain (init s0)) (ndim (init s0))
                   (a_Tmin a) (a_Tmax a) None
       end = Ok lad
    /\ py_index lad (MPIrank (init s0)) = Ok T
    /\ (if MPIrank (init s0) =? 0
        then 0 <= a_Niter a + 1 /\ 0 <= a_burn a + 1
             /\ am = Some (replicate (Z.to_nat (a_n_cold_chains a))
                             (replicate (Z.to_nat (a_Niter a + 1))
                                (replicate (Z.to_nat (ndim (init s0))) (Finite 0%Qc))))
             /\ de = Some (inl (replicate (Z.to_nat (a_n_cold_chains a))
                                  (replicate (Z.to_nat (a_burn a + 1))
                                     (replicate (Z.to_nat (ndim (init s0)))
                                        (Finite 0%Qc)))))
        else am = _AMbuffer (store s0) /\ de = _DEbuffer (store s0))
    /\ let hot := a_hotChain a && (MPIrank (init s0) =? nchain (init s0) - 1) in
       let temp := if hot then hot_temp else T in
       s1 =
       set_run
         (Some {| ladder := lad; covUpdate := a_covUpdate a; burn := a_burn a;
                  Tskip := a_Tskip a; thin := a_thin a; isave := a_isave a;
                  Niter := a_Niter a; write_cold_chains := a_write_cold_chains a;
                  writeHotChains := a_writeHotChains a;
                  save_jump_stats := a_save_jump_stats a;
                  n_cold_chains := a_n_cold_chains a; temp := temp;
                  fname :=
                    if hot then String.append (outDir (init s0)) "/chain_hot.txt"
                    else String.append (outDir (init s0))
                           (String.append "/chain_"
                              (String.append (str_of_float temp) ".txt"));
                  resumeLength := 0; resumechain := inl [] |})
         (set_counters {| naccepted := of_Z 0; swapProposed := 0; nswap_accepted := 0 |}
            (set_store
               {| _chain := replicate (Z.to_nat (a_n_cold_chains a))
                              (replicate (Z.to_nat N)
                                 (replicate (Z.to_nat (ndim (init s0))) (Finite 0%Qc)));
                  _lnlike := replicate (Z.to_nat (a_n_cold_chains a))
                               (replicate (Z.to_nat N) (Finite 0%Qc));
                  _lnprob := replicate (Z.to_nat (a_n_cold_chains a))
                               (replicate (Z.to_nat N) (Finite 0%Qc));
                  _AMbuffer := am; _DEbuffer := de |} s0)).
Proof.
  unfold initialize_attributes, bind, get, lift, modify, ret. cbv beta iota.
  destruct (chain_rows _ _) as [N|] eqn:EN; [|discriminate]. cbv beta iota.
  destruct (np_zeros2 _ N) as [z2|] eqn:E2; [|discriminate]. cbv beta iota.
  destruct (np_zeros3 _ N _) as [z3|] eqn:E3; [|discriminate]. cbv beta iota.
  apply np_zeros2_inv in E2 as (Hc & HN & ->).
  apply np_zeros3_inv in E3 as (_ & _ & Hd & ->).
  destruct (MPIrank (init s0) =? 0) eqn:Erank; cbv beta iota.
  - destruct (np_zeros3 _ (a_Niter a + 1) _) as [zam|] eqn:Eam; [|discriminate].
    cbv beta iota.
    destruct (np_zeros3 _ (a_burn a + 1) _) as [zde|] eqn:Ede; [|discriminate].
    cbv beta iota.
    apply np_zeros3_inv in Eam as (_ & HNi & _ & ->).
    apply np_zeros3_inv in Ede as (_ & Hb & _ & ->).
    cbn [init set_counters set_store fst snd].
    destruct (a_ladder a) as [l|]; cbv beta iota.
    + destruct (py_index l _) as [T|] eqn:ET; [|discriminate]. cbv beta iota.
      intros [= <- _]. exists N, l, T. do 2 eexists.
      repeat split; first [assumption | lia | reflexivity].
    + destruct (temperatureLadder _ _ _ _ _) as [l|] eqn:El; [|discriminate].
      cbv beta iota.
      destruct (py_index l _) as [T|] eqn:ET; [|discriminate]. cbv beta iota.
      intros [= <- _]. exists N, l, T. do 2 eexists.
      repeat split; first [assumption | lia | reflexivity].
  - cbn [init set_counters set_store fst snd].
    destruct (a_ladder a) as [l|]; cbv beta iota.
    + destruct (py_index l _) as [T|] eqn:ET; [|discriminate]. cbv beta iota.
      intros [= <- _]. exists N, l, T. do 2 eexists.
      repeat split; first [assumption | lia | reflexivity].
    + destruct (temperatureLadder _ _ _ _ _) as [l|] eqn:El; [|discriminate].
      cbv beta iota.
      destruct (py_index l _) as [T|] eqn:ET; [|discriminate]. cbv beta iota.
      intros [= <- _]. exists N, l, T. do 2 eexists.
      repeat split; first [assumption | lia | reflexivity].
Qed.

(** The attributes of a run without those of a resumed chain file. *)
Lemma set_resumechain_twice (l1 l2 : vec + matrix) (r : run_attrs) :
  set_resumechain l1 (set_resumechain l2 r) = set_resumechain l1 r.
Proof. reflexivity. Qed.

Lemma initialize_cycle_inv (a : @initialize_args kwargs) (e : initialize_env)
    (kw : gmap string kwargs) (s1 s : PTSampler) (r1 : run_attrs) :
  initialize_cycle prop_getattr prop_default a e kw s1 = (s, Ok tt) ->
  run s1 = Some r1 ->
  store s = store s1 /\ counters s = counters s1 /\ init s = init s1
  /\ covm s = covm s1 /\ weights s = weights s1
  /\ (exists r, run s = Some r
                /\ set_resumechain (inl []) r = set_resumechain (inl []) r1)
  /\ propCycle (cycle s) <> [].
Proof.
  intros H Hr1.
  assert (Hk : forall (B : Type) (part : PTSampler -> B),
             ign_cycle part -> ign_trace part -> ign_resumechain part ->
             part s = part s1).
  { intros B part H1 H2 H3.
    pose proof (initialize_cycle_keeps prop_getattr prop_default part a e kw
                  H1 H2 H3 s1) as Hp.
    now rewrite H in Hp. }
  split; [apply (Hk _ store); intros ? ?; reflexivity|].
  split; [apply (Hk _ counters); intros ? ?; reflexivity|].
  split; [apply (Hk _ init); intros ? ?; reflexivity|].
  split; [apply (Hk _ covm); intros ? ?; reflexivity|].
  split; [apply (Hk _ weights); intros ? ?; reflexivity|].
  split.
  - assert (Hp : (set_resumechain (inl []) <$> run s) =
                 (set_resumechain (inl []) <$> run s1)).
    { apply (Hk _ (fun s => set_resumechain (inl []) <$> run s));
        try (now intros ? ?).
      intros loaded s2. cbn [run set_run]. now destruct (run s2). }
    rewrite Hr1 in Hp. destruct (run s) as [r|]; [|discriminate].
    exists r. split; [reflexivity|].
    change (Some (set_resumechain (inl []) r) = Some (set_resumechain (inl []) r1))
      in Hp.
    congruence.
  - revert H. unfold initialize_cycle, bind at 1.
    destruct (initialize_jump_proposals _ _ _ _ s1) as [s2 [[]|err]];
      [|discriminate].
    unfold bind at 1, get at 1.
    destruct (propCycle (cycle s2)) as [|f l] eqn:Ec; [discriminate|].
    cbn [length Nat.eqb]. intros H.
    match type of H with
    | ?m s2 = _ =>
        assert (Hkeep : keeps (fun s => propCycle (cycle s)) m)
    end.
    { keeps_all. }
    specialize (Hkeep s2). rewrite H in Hkeep. simpl in Hkeep.
    rewrite Hkeep, Ec. discriminate.
Qed.

(** The recorded arrays are zero when [initialize] returns. *)
Lemma initialize_zero_arrays (a : @initialize_args kwargs) (e : initialize_env)
    (s0 s : PTSampler) (N : Z) :
  initialize' a e s0 = (s, Ok tt) ->
  chain_rows (default_maxIter (MPIrank (init s0)) (a_Niter a) (a_maxIter a))
    (a_thin a) = Ok N ->
  _chain (store s) =
    replicate (Z.to_nat (a_n_cold_chains a))
      (replicate (Z.to_nat N) (replicate (Z.to_nat (ndim (init s0))) (Finite 0%Qc)))
  /\ _lnlike (store s) =
       replicate (Z.to_nat (a_n_cold_chains a)) (replicate (Z.to_nat N) (Finite 0%Qc))
  /\ _lnprob (store s) =
       replicate (Z.to_nat (a_n_cold_chains a)) (replicate (Z.to_nat N) (Finite 0%Qc)).
Proof.
  intros H HN. unfold initialize, bind at 1 in H.
  destruct (initialize_attributes' a s0) as [s1 [kw|err]] eqn:E1; [|discriminate].
  destruct (initialize_attributes_inv a s0 s1 kw E1)
    as (N' & lad & T & am & de & HN' & _ & _ & _ & _ & _ & _ & Hs1).
  assert (N' = N) by congruence. subst N'.
  cbv zeta in Hs1.
  destruct (initialize_cycle_inv a e kw s1 s _ H ltac:(now rewrite Hs1))
    as (Hst & _).
  rewrite Hst, Hs1. now cbn.
Qed.

(** X14: when [initialize] returns, [_chain], [_lnlike] and [_lnprob]
    are zero arrays of [n_cold_chains] chains of [N = int(maxIter /
    thin)] rows, the three counters are zero, and on rank 0 [_AMbuffer]
    and [_DEbuffer] are zero arrays of [Niter + 1] and [burn + 1] rows
    for each chain. *)
Theorem initialize_allocates (a : @initialize_args kwargs) (e : initialize_env)
    (s0 s : PTSampler) :
  initialize' a e s0 = (s, Ok tt) ->
  exists N : Z,
    chain_rows (default_maxIter (MPIrank (init s0)) (a_Niter a) (a_maxIter a))
      (a_thin a) = Ok N
    /\ 0 <= a_n_cold_chains a /\ 0 <= N /\ 0 <= ndim (init s0)
    /\ _chain (store s) =
         replicate (Z.to_nat (a_n_cold_chains a))
           (replicate (Z.to_nat N)
              (replicate (Z.to_nat (ndim (init s0))) (Finite 0%Qc)))
    /\ _lnlike (store s) =
         replicate (Z.to_nat (a_n_cold_chains a)) (replicate (Z.to_nat N) (Finite 0%Qc))
    /\ _lnprob (store s) =
         replicate (Z.to_nat (a_n_cold_chains a)) (replicate (Z.to_nat N) (Finite 0%Qc))
    /\ counters s = {| naccepted := of_Z 0; swapProposed := 0; nswap_accepted := 0 |}
    /\ (MPIrank (init s0) = 0 ->
        _AMbuffer (store s) =
          Some (replicate (Z.to_nat (a_n_cold_chains a))
                  (replicate (Z.to_nat (a_Niter a + 1))
                     (replicate (Z.to_nat (ndim (init s0))) (Finite 0%Qc))))
        /\ _DEbuffer (store s) =
             Some (inl (replicate (Z.to_nat (a_n_cold_chains a))
                          (replicate (Z.to_nat (a_burn a + 1))
                             (replicate (Z.to_nat (ndim (init s0))) (Finite 0%Qc)))))).
Proof.
  intros H. unfold initialize, bind at 1 in H.
  destruct (initialize_attributes' a s0) as [s1 [kw|err]] eqn:E1; [|discriminate].
  destruct (initialize_attributes_inv a s0 s1 kw E1)
    as (N & lad & T & am & de & HN & Hc & HN0 & Hd & _ & _ & Hbuf & Hs1).
  cbv zeta in Hs1.
  destruct (initialize_cycle_inv a e kw s1 s _ H ltac:(now rewrite Hs1))
    as (Hst & Hcn & _).
  exists N. rewrite Hst, Hcn, Hs1. cbn [store counters set_run set_counters set_store
                                         _chain _lnlike _lnprob _AMbuffer _DEbuffer].
  repeat (split; [first [assumption | reflexivity]|]).
  intros Hrank. rewrite Hrank in Hbuf. change (0 =? 0) with true in Hbuf.
  destruct Hbuf as (_ & _ & -> & ->). now split.
Qed.

(** X15: when [initialize] returns, the ladder is the one given or else
    the one [temperatureLadder] computes from [Tmin] and [Tmax]; the
    temperature of the process is [ladder[MPIrank]] and its file
    [chain_<temp>.txt], except on the last process of a run with
    [hotChain], whose temperature is 1e80 and whose file is
    [chain_hot.txt]. *)
Theorem initialize_temperature (a : @initialize_args kwargs) (e : initialize_env)
    (s0 s : PTSampler) :
  initialize' a e s0 = (s, Ok tt) ->
  exists (r : run_attrs) (T : pyfloat),
    run s = Some r
    /\ match a_ladder a with
       | Some l => Ok l
       | None => temperatureLadder' (nchain (init s0)) (ndim (init s0))
                   (a_Tmin a) (a_Tmax a) None
       end = Ok (ladder r)
    /\ py_index (ladder r) (MPIrank (init s0)) = Ok T
    /\ (if a_hotChain a && (MPIrank (init s0) =? nchain (init s0) - 1)
        then temp r = hot_temp
             /\ fname r = String.append (outDir (init s0)) "/chain_hot.txt"
        else temp r = T
             /\ fname r = String.append (outDir (init s0))
                            (String.append "/chain_"
                               (String.append (str_of_float T) ".txt"))).
Proof.
  intros H. unfold initialize, bind at 1 in H.
  destruct (initialize_attributes' a s0) as [s1 [kw|err]] eqn:E1; [|discriminate].
  destruct (initialize_attributes_inv a s0 s1 kw E1)
    as (N & lad & T & am & de & _ & _ & _ & _ & Hlad & HT & _ & Hs1).
  cbv zeta in Hs1.
  destruct (initialize_cycle_inv a e kw s1 s _ H ltac:(now rewrite Hs1))
    as (_ & _ & _ & _ & _ & (r & Hr & Heq) & _).
  exists r, T. split; [exact Hr|].
  assert (Hl : ladder r = lad) by (now injection Heq).
  assert (Ht : temp r = if a_hotChain a && (MPIrank (init s0) =? nchain (init s0) - 1)
                        then hot_temp else T) by (now injection Heq).
  assert (Hf : fname r =
               if a_hotChain a && (MPIrank (init s0) =? nchain (init s0) - 1)
               then String.append (outDir (init s0)) "/chain_hot.txt"
               else String.append (outDir (init s0))
                      (String.append "/chain_"
                         (String.append
                            (str_of_float
                               (if a_hotChain a
                                   && (MPIrank (init s0) =? nchain (init s0) - 1)
                                then hot_temp else T)) ".txt")))
    by (now injection Heq).
  rewrite Hl. split; [exact Hlad|]. split; [exact HT|].
  destruct (a_hotChain a && _); now split.
Qed.

End InitializeState.

Lemma initialize_allocates_witness :
  exists N : Z,
    chain_rows (default_maxIter 0 3 (Some 10)) 1 = Ok N
    /\ 0 <= 2 /\ 0 <= N /\ 0 <= 1
    /\ _chain (store (demo_started 0)) =
         replicate (Z.to_nat 2)
           (replicate (Z.to_nat N) (replicate (Z.to_nat 1) (Finite 0%Qc)))
    /\ _lnlike (store (demo_started 0)) =
         replicate (Z.to_nat 2) (replicate (Z.to_nat N) (Finite 0%Qc))
    /\ _lnprob (store (demo_started 0)) =
         replicate (Z.to_nat 2) (replicate (Z.to_nat N) (Finite 0%Qc))
    /\ counters (demo_started 0) =
         {| naccepted := of_Z 0; swapProposed := 0; nswap_accepted := 0 |}
    /\ (0 = 0 ->
        _AMbuffer (store (demo_started 0)) =
          Some (replicate (Z.to_nat 2)
                  (replicate (Z.to_nat (3 + 1))
                     (replicate (Z.to_nat 1) (Finite 0%Qc))))
        /\ _DEbuffer (store (demo_started 0)) =
             Some (inl (replicate (Z.to_nat 2)
                          (replicate (Z.to_nat (100 + 1))
                             (replicate (Z.to_nat 1) (Finite 0%Qc)))))).
Proof.
  apply (initialize_allocates demo_getattr ["SCAM"] (fun _ _ _ _ => tt)
           (fun _ _ => tt) (fun _ => "1.0") (fun x => x) (fun x => x) (fun x => x)
           demo_ladder_args demo_env (demo_fresh 0 2 zero_density zero_density)
           (demo_started 0)).
  vm_compute. reflexivity.
Defined.

Lemma initialize_temperature_witness :
  exists (r : run_attrs) (T : pyfloat),
    run (demo_started 1) = Some r
    /\ Ok [of_Z 1; of_Z 4] = Ok (ladder r)
    /\ py_index (ladder r) 1 = Ok T
    /\ temp r = T
    /\ fname r = String.append "./chains"
                   (String.append "/chain_" (String.append "1.0" ".txt")).
Proof.
  apply (initialize_temperature demo_getattr ["SCAM"] (fun _ _ _ _ => tt)
           (fun _ _ => tt) (fun _ => "1.0") (fun x => x) (fun x => x) (fun x => x)
           demo_ladder_args demo_env (demo_fresh 1 2 zero_density zero_density)
           (demo_started 1)).
  vm_compute. reflexivity.
Defined.

(** ** The start of [sample], continued *)

Section SampleStart.

Context {kwargs : Type}
        (prop_getattr : string -> option (option kwargs -> proposal))
        (prop_default : list string)
        (grad_kwargs : (vec -> pyfloat * vec) -> (vec -> pyfloat * vec) ->
                       matrix -> Z -> kwargs)
        (kwargs_update : kwargs -> kwargs -> kwargs)
        (str_of_float : pyfloat -> string)
        (np_exp np_log np_sqrt : pyfloat -> pyfloat).

Local Abbreviation initialize' :=
  (initialize prop_getattr prop_default grad_kwargs kwargs_update
     str_of_float np_exp np_log np_sqrt).
Local Abbreviation sample_start' :=
  (sample_start prop_getattr prop_default grad_kwargs kwargs_update
     str_of_float np_exp np_log np_sqrt).

(** The attributes of the run when [initialize] returns. *)
Lemma initialize_run (a : @initialize_args kwargs) (e : initialize_env)
    (s0 s : PTSampler) :
  initialize' a e s0 = (s, Ok tt) ->
  exists r, run s = Some r
            /\ covUpdate r = a_covUpdate a /\ burn r = a_burn a
            /\ Tskip r = a_Tskip a /\ thin r = a_thin a /\ isave r = a_isave a
            /\ Niter r = a_Niter a
            /\ write_cold_chains r = a_write_cold_chains a
            /\ writeHotChains r = a_writeHotChains a
            /\ save_jump_stats r = a_save_jump_stats a
            /\ n_cold_chains r = a_n_cold_chains a
            /\ init s = init s0 /\ propCycle (cycle s) <> [].
Proof.
  intros H. unfold initialize, bind at 1 in H.
  destruct (initialize_attributes _ _ _ _ _ _ a s0) as [s1 [kw|err]] eqn:E1;
    [|discriminate].
  destruct (initialize_attributes_inv _ _ _ _ _ _ a s0 s1 kw E1)
    as (N & lad & T & am & de & _ & _ & _ & _ & _ & _ & _ & Hs1).
  cbv zeta in Hs1.
  destruct (initialize_cycle_inv prop_getattr prop_default a e kw s1 s _ H
              ltac:(now rewrite Hs1))
    as (_ & _ & Hi & _ & _ & (r & Hr & Heq) & Hc).
  exists r. split; [exact Hr|].
  repeat (split; [now injection Heq|]).
  split; [|exact Hc]. rewrite Hi, Hs1. reflexivity.
Qed.

(** X16: [sample] does not hand its [save_jump_stats] to [initialize]:
    after the start of a fresh run ([i0 = 0]) the attribute is [False],
    whatever the caller asked for. *)
Theorem sample_drops_save_jump_stats (p0 : vec) (a : @initialize_args kwargs)
    (e : initialize_env) (s0 s : PTSampler) (first : vec * pyfloat * pyfloat) :
  a_i0 a = 0 ->
  sample_start' p0 a e s0 = (s, Ok first) ->
  exists r, run s = Some r /\ save_jump_stats r = false.
Proof.
  intros Hi0 H. unfold sample_start, bind at 1, get at 1 in H.
  unfold bind at 1, lift at 1 in H.
  destruct (chain_rows _ _) as [N|]; [|discriminate].
  rewrite Hi0 in H. change (0 =? 0) with true in H. cbv iota in H.
  unfold bind at 1 in H.
  destruct (initialize' _ e s0) as [s1 [[]|err]] eqn:E1; [|discriminate].
  destruct (initialize_run _ e s0 s1 E1) as (r & Hr & Hrest).
  exists r. split; [|apply Hrest].
  match type of H with
  | ?m s1 = _ => assert (Hkeep : keeps run m)
  end.
  { keeps_all; try (apply updateChains_keeps; intros ? ?; reflexivity);
      try (apply call_logp_keeps; intros ? ?; reflexivity);
      try (apply call_logl_keeps; intros ? ?; reflexivity). }
  specialize (Hkeep s1). rewrite H in Hkeep. simpl in Hkeep. congruence.
Qed.



End SampleStart.

Lemma sample_drops_save_jump_stats_witness :
  exists r,
    run (demo_sample_start [of_Z 5] demo_ladder_args demo_env
           (demo_fresh 0 2 zero_density zero_density)).1 = Some r
    /\ save_jump_stats r = false.
Proof.
  apply (sample_drops_save_jump_stats demo_getattr ["SCAM"] (fun _ _ _ _ => tt)
           (fun _ _ => tt) (fun _ => "1.0") (fun x => x) (fun x => x) (fun x => x)
           [of_Z 5] demo_ladder_args demo_env
           (demo_fresh 0 2 zero_density zero_density)
           (demo_sample_start [of_Z 5] demo_ladder_args demo_env
              (demo_fresh 0 2 zero_density zero_density)).1
           ([of_Z 5], of_Z 0, tempered (of_Z 1) (of_Z 0) (of_Z 0))).
  - reflexivity.
  - vm_compute. reflexivity.
Defined.


(** ** The broadcasts of a step *)

Section Broadcast.

Context (np_linalg_svd : matrix -> matrix * vec).

(** X18: the covariance update of a step happens exactly when [iter - 1]
    is a multiple of [covUpdate] other than 0, on rank 0. Then, when
    [_updateRecursive] returns, the new covariance is sent once to each
    of the ranks 1 .. nchain - 1 with tag 111, and nothing else is done
    outside; otherwise the object is left as it was. *)
Theorem covariance_update_broadcast (s : PTSampler) (r : run_attrs)
    (iter chain_ind : Z) :
  run s = Some r ->
  covUpdate r <> 0 ->
  let fires := ((iter - 1) mod covUpdate r =? 0) && negb (iter - 1 =? 0)
               && (MPIrank (init s) =? 0) in
  (fires = false -> covariance_update np_linalg_svd iter chain_ind s = (s, Ok tt))
  /\ (fires = true ->
      forall s1,
        _updateRecursive np_linalg_svd (iter - 1) (covUpdate r) chain_ind s =
          (s1, Ok tt) ->
        trace s1 = trace s
        /\ covariance_update np_linalg_svd iter chain_ind s =
           (set_trace (trace s ++ map (fun rank => EvSend (rank + 1) 111
                                                     (MMat (cov (covm s1))))
                                      (range 0 (nchain (init s) - 1))) s1, Ok tt)).
Proof.
  intros Hr Hc fires.
  assert (Hcu : covariance_update np_linalg_svd iter chain_ind s =
                if fires then
                  (run* _updateRecursive np_linalg_svd (iter - 1) (covUpdate r)
                          chain_ind in
                   let* s := get in
                   for_each (range 0 (nchain (init s) - 1)) (fun rank =>
                     emit (EvSend (rank + 1) 111 (MMat (cov (covm s)))))) s
                else (s, Ok tt)).
  { unfold covariance_update, bind at 1, get at 1.
    rewrite (bind_ok _ _ _ _ _ (attr_eq _ _ _ _ Hr)).
    unfold bind at 1, lift. rewrite (py_mod_ok _ _ Hc). fold fires.
    now destruct fires. }
  rewrite Hcu. split; intros Hf; rewrite Hf; [reflexivity|].
  intros s1 Hup.
  pose proof (_updateRecursive_keeps trace np_linalg_svd (iter - 1) (covUpdate r)
                chain_ind ltac:(intros ? ?; reflexivity) s) as Ht.
  pose proof (_updateRecursive_keeps init np_linalg_svd (iter - 1) (covUpdate r)
                chain_ind ltac:(intros ? ?; reflexivity) s) as Hi.
  rewrite Hup in Ht, Hi. simpl in Ht, Hi.
  split; [exact Ht|].
  rewrite (bind_ok _ _ _ _ _ Hup). unfold bind, get.
  rewrite for_each_emit. now rewrite Hi, Ht.
Qed.

End Broadcast.

Lemma dict_has_get (d : list (string * Z)) (key : string) :
  dict_has d key = true -> exists w, dict_get d key = Ok w.
Proof.
  unfold dict_has. intros H. apply bool_decide_eq_true in H.
  induction d as [|[k v] d IH]; simpl in *.
  - now apply elem_of_nil in H.
  - destruct (decide (k = key)); [eauto|].
    apply IH. apply elem_of_cons in H as [H|H]; [congruence|exact H].
Qed.

Section AfterBurn.

Context {kwargs : Type}
        (prop_getattr : string -> option (option kwargs -> proposal)).

(** X19: the differential-evolution proposal joins the cycle exactly at
    iteration [burn + 1], on rank 0, when the weights name it:
    [weights[DE]] copies are appended to the cycle, and after a shuffle
    by a permutation the block returns normally with
    [randomizedPropCycle] a permutation of the new cycle. At any other
    iteration, on another rank or without the weight the object is left
    as it was. *)
Theorem DE_after_burn_registers (s : PTSampler) (r : run_attrs) (iter : Z)
    (e : step_env) (c : option kwargs -> proposal) :
  run s = Some r ->
  prop_getattr DE = Some c ->
  let due := (iter - 1 =? burn r) && (MPIrank (init s) =? 0)
             && dict_has (weights s) DE in
  let out := DE_after_burn prop_getattr iter e s in
  (due = false -> out = (s, Ok tt))
  /\ (due = true ->
      exists w,
        dict_get (weights s) DE = Ok w
        /\ propCycle (cycle out.1) =
             propCycle (cycle s) ++ replicate (Z.to_nat w) (c None)
        /\ (e_shuffle e ≡ₚ seqZ 0 (Z.of_nat (length (propCycle (cycle out.1)))) ->
            out.2 = Ok tt
            /\ randomizedPropCycle (cycle out.1) ≡ₚ propCycle (cycle out.1))).
Proof.
  intros Hr Hc due out.
  assert (Hout : out =
            if due then
              (run* add_DE_jump prop_getattr in
               randomizeProposalCycle (e_shuffle e)) s
            else (s, Ok tt)).
  { subst out. unfold DE_after_burn, bind at 1, get at 1.
    rewrite (bind_ok _ _ _ _ _ (attr_eq _ _ _ _ Hr)). fold due.
    now destruct due. }
  rewrite Hout. split; intros Hd; rewrite Hd; [reflexivity|].
  assert (Hhas : dict_has (weights s) DE = true).
  { subst due. now apply andb_true_iff in Hd as [_ Hd]. }
  destruct (dict_has_get _ _ Hhas) as [w Hw]. exists w. split; [exact Hw|].
  assert (Hadd : add_DE_jump prop_getattr s = addProposalToCycle (c None) w s).
  { unfold add_DE_jump, bind at 1, lift at 1, get_proposal_object_from_name.
    rewrite Hc. unfold bind at 1, get at 1. unfold bind at 1, lift at 1.
    now rewrite Hw. }
  pose proof (addProposalToCycle_returns (c None) w s r Hr) as Hret.
  pose proof (addProposalToCycle_cycle (c None) w s) as Hcyc.
  assert (Hb : (run* add_DE_jump prop_getattr in
                randomizeProposalCycle (e_shuffle e)) s =
               randomizeProposalCycle (e_shuffle e)
                 (addProposalToCycle (c None) w s).1).
  { unfold bind. rewrite Hadd.
    destruct (addProposalToCycle (c None) w s) as [s1 o]. simpl in *. now subst o. }
  rewrite Hb. clear Hb.
  set (s1 := (addProposalToCycle (c None) w s).1) in *.
  pose proof (randomizeProposalCycle_keeps (fun s => propCycle (cycle s))
                (e_shuffle e) ltac:(intros ? ?; reflexivity) s1) as Hk.
  cbv beta in Hk. rewrite Hk. split; [exact Hcyc|].
  intros Hperm.
  destruct (randomizeProposalCycle_eq (e_shuffle e) s1 Hperm)
    as (l & -> & Hl).
  split; [reflexivity|]. exact Hl.
Qed.

End AfterBurn.

Lemma covariance_update_broadcast_witness :
  trace (_updateRecursive (fun m => (m, [])) 2 2 0 demo_adapting).1 =
    trace demo_adapting
  /\ covariance_update (fun m => (m, [])) 3 0 demo_adapting =
     (set_trace
        (trace demo_adapting
         ++ map (fun rank =>
                   EvSend (rank + 1) 111
                     (MMat (cov (covm (_updateRecursive (fun m => (m, [])) 2 2 0
                                         demo_adapting).1))))
              (range 0 (2 - 1)))
        (_updateRecursive (fun m => (m, [])) 2 2 0 demo_adapting).1, Ok tt).
Proof.
  eapply (proj2 (covariance_update_broadcast (fun m => (m, [])) demo_adapting _ 3 0
                   eq_refl _)).
  - reflexivity.
  - vm_compute. reflexivity.
  Unshelve. vm_compute. discriminate.
Defined.

Lemma DE_after_burn_registers_witness :
  exists w,
    dict_get (weights demo_with_DE) DE = Ok w
    /\ propCycle (cycle (DE_after_burn demo_getattr 3 demo_quiet demo_with_DE).1) =
         propCycle (cycle demo_with_DE)
         ++ replicate (Z.to_nat w) (demo_proposal DE)
    /\ (e_shuffle demo_quiet
          ≡ₚ seqZ 0 (Z.of_nat (length (propCycle (cycle
                 (DE_after_burn demo_getattr 3 demo_quiet demo_with_DE).1)))) ->
        (DE_after_burn demo_getattr 3 demo_quiet demo_with_DE).2 = Ok tt
        /\ randomizedPropCycle (cycle
             (DE_after_burn demo_getattr 3 demo_quiet demo_with_DE).1)
           ≡ₚ propCycle (cycle
                (DE_after_burn demo_getattr 3 demo_quiet demo_with_DE).1)).
Proof.
  apply (proj2 (DE_after_burn_registers demo_getattr demo_with_DE (demo_run 0) 3
                  demo_quiet (fun _ => demo_proposal DE) eq_refl eq_refl)).
  reflexivity.
Defined.

(** ** The constructor *)

Lemma res_map_ext_in {A B} (f g : A -> res B) (l : list A) :
  (forall x, x ∈ l -> f x = g x) -> res_map f l = res_map g l.
Proof.
  induction l as [|x l IH]; intros H; [reflexivity|]. simpl.
  rewrite (H x) by constructor. rewrite IH; [reflexivity|].
  intros y Hy. apply H. now constructor.
Qed.

(** Cutting a square matrix along all its indices gives it back. *)
Lemma covgroup_full (c : matrix) (n : nat) :
  length c = n -> Forall (fun row => length row = n) c ->
  res_map (fun gi => res_map (fun gj => py_index2 c gi gj) (range 0 (Z.of_nat n)))
          (range 0 (Z.of_nat n)) = Ok c.
Proof.
  intros Hlen Hrows. unfold range. rewrite Z.sub_0_r.
  assert (Hrow : forall gi row, c !! Z.to_nat gi = Some row -> 0 <= gi ->
            res_map (fun gj => py_index2 c gi gj) (seqZ 0 (Z.of_nat n)) = Ok row).
  { intros gi row Hgi Hpos.
    rewrite (res_map_ext_in _ (py_index row)).
    - rewrite Forall_forall in Hrows.
      rewrite <- (Hrows row) by (eapply list_elem_of_lookup_2; exact Hgi).
      apply (res_map_py_index_seqZ row []).
    - intros gj _. unfold py_index2. now rewrite (py_index_nonneg _ _ _ Hpos Hgi). }
  assert (Hgen : forall (l2 l1 : matrix), c = l1 ++ l2 ->
            res_map (fun gi => res_map (fun gj => py_index2 c gi gj)
                                 (seqZ 0 (Z.of_nat n)))
                    (seqZ (Z.of_nat (length l1)) (Z.of_nat (length l2))) = Ok l2).
  { induction l2 as [|x l2 IH]; intros l1 Hc; [reflexivity|].
    rewrite (seqZ_cons (Z.of_nat (length l1))) by (simpl; lia). cbn [res_map].
    rewrite (Hrow _ x); [|rewrite Hc, Nat2Z.id; apply list_lookup_middle; reflexivity
                         |lia].
    cbn [res_bind].
    replace (Z.succ (Z.of_nat (length l1))) with (Z.of_nat (length (l1 ++ [x])))
      by (rewrite length_app; simpl; lia).
    replace (Z.pred (Z.of_nat (length (x :: l2)))) with (Z.of_nat (length l2))
      by (simpl; lia).
    rewrite (IH (l1 ++ [x])); [reflexivity|]. now rewrite <- app_assoc. }
  specialize (Hgen c [] eq_refl). now rewrite Hlen in Hgen.
Qed.

Section Init.

Context (np_linalg_svd : matrix -> matrix * vec).

(** X20: [__init__] without groups, on a covariance matrix of [ndim]
    rows and columns: one group of all the parameters, [U] and [S] the
    factorisation of the whole matrix, zero running moments, an empty
    cycle and ledger, and none of the attributes of [initialize] bound. *)
Theorem PTSampler_init_default (rank size : Z) (n : nat)
    (logl0 logp0 : vec -> pyfloat) (cov0 : matrix)
    (logl_grad0 logp_grad0 : option (vec -> pyfloat * vec))
    (outDir0 : string) (resume0 : bool) :
  length cov0 = n -> Forall (fun row => length row = n) cov0 ->
  exists s,
    PTSampler_init np_linalg_svd rank size (Z.of_nat n) logl0 logp0 cov0 None
      logl_grad0 logp_grad0 outDir0 resume0 = Ok s
    /\ groups (init s) = [range 0 (Z.of_nat n)]
    /\ cov (covm s) = cov0
    /\ svd_U (covm s) = [(np_linalg_svd cov0).1]
    /\ svd_S (covm s) = [(np_linalg_svd cov0).2]
    /\ M2 (covm s) = replicate n (replicate n (Finite 0%Qc))
    /\ mu (covm s) = replicate n (Finite 0%Qc)
    /\ propCycle (cycle s) = [] /\ jumpDict (cycle s) = ∅ /\ aux (cycle s) = []
    /\ run s = None
    /\ _AMbuffer (store s) = None /\ _DEbuffer (store s) = None.
Proof.
  intros Hlen Hrows. unfold PTSampler_init. cbv zeta.
  match goal with
  | |- context [svd_on_groups np_linalg_svd ?x] => set (s0 := x)
  end.
  assert (Hsvd : svd_on_groups np_linalg_svd s0 =
                 (set_covm {| cov := cov0; svd_U := [(np_linalg_svd cov0).1];
                              svd_S := [(np_linalg_svd cov0).2];
                              M2 := []; mu := [] |} s0, Ok tt)).
  { unfold svd_on_groups, bind at 1, get at 1.
    change (groups (init s0)) with [range 0 (Z.of_nat n)].
    change (enumerate [range 0 (Z.of_nat n)]) with [(0, range 0 (Z.of_nat n))].
    cbn [for_each].
    unfold bind, get, lift, modify, ret. cbv beta iota.
    change (cov (covm s0)) with cov0.
    rewrite (covgroup_full cov0 n Hlen Hrows).
    destruct (np_linalg_svd cov0) as [u sv]. reflexivity. }
  rewrite Hsvd. rewrite np_zeros2_eq, np_zeros1_eq. cbn [res_bind].
  eexists. split; [reflexivity|]. repeat split; reflexivity.
Qed.

End Init.

Lemma PTSampler_init_default_witness :
  exists s,
    PTSampler_init (fun m => (m, [])) 0 1 (Z.of_nat 1) zero_density zero_density
      [[Finite 1%Qc]] None None None "./chains" false = Ok s
    /\ groups (init s) = [range 0 (Z.of_nat 1)]
    /\ cov (covm s) = [[Finite 1%Qc]]
    /\ svd_U (covm s) = [[[Finite 1%Qc]]]
    /\ svd_S (covm s) = [[]]
    /\ M2 (covm s) = replicate 1 (replicate 1 (Finite 0%Qc))
    /\ mu (covm s) = replicate 1 (Finite 0%Qc)
    /\ propCycle (cycle s) = [] /\ jumpDict (cycle s) = ∅ /\ aux (cycle s) = []
    /\ run s = None
    /\ _AMbuffer (store s) = None /\ _DEbuffer (store s) = None.
Proof.
  apply (PTSampler_init_default (fun m => (m, [])) 0 1 1 zero_density zero_density
           [[Finite 1%Qc]] None None "./chains" false).
  - reflexivity.
  - repeat constructor.
Defined.

(** ** The running mean *)

(** The mean of the running update is the batch mean. *)
Lemma welford_mean_is_batch (n : nat) (qs : list (list Qc)) :
  qs <> [] -> Forall (fun x => length x = n) qs ->
  (welford_run 0 (qzero n) qs).1 = qmean n qs.
Proof.
  intros Hne Hqs.
  pose proof (welford_run_moments n qs [] (qzero n) (qshape_zero n) Hqs
                (moments_zero n)) as [Hmean _].
  cbn [app length] in Hmean. change (Z.of_nat 0) with 0 in Hmean.
  pose proof (qshape_run n qs 0 (qzero n) (qshape_zero n) Hqs) as (Hl & _ & _).
  destruct (sum_fold_shape n qs Hqs) as [Hsl Hsv].
  assert (Hc : length (qmean n qs) = n) by (unfold qmean; now rewrite length_map).
  apply (nth_ext _ _ 0%Qc 0%Qc); [congruence|].
  intros a Ha. rewrite Hl in Ha.
  fold (qnth (welford_run 0 (qzero n) qs).1 a). rewrite (Hmean a Ha).
  unfold qmean. rewrite (nth_map_lt _ _ _ 0%Qc) by lia.
  fold (qnth (fold_right (zip_with Qcplus) (replicate n 0%Qc) qs) a).
  now rewrite Hsv.
Qed.

Section Mean.

Context (np_linalg_svd : matrix -> matrix * vec).

(** X21: under the hypotheses of the batch covariance, the running mean
    [mu] after [k] windows of [mem] rows is the mean of these [k * mem]
    rows. *)
Theorem updateRecursive_batch_mean (s : PTSampler) (n k : nat)
    (mem chain_ind : Z) (am : list matrix) (chain : matrix)
    (qs : list (list Qc)) :
  _AMbuffer (store s) = Some am ->
  py_index am chain_ind = Ok chain ->
  ndim (init s) = Z.of_nat n ->
  groups_wf n s ->
  0 < mem ->
  (1 <= k)%nat ->
  Z.of_nat (length qs) = Z.of_nat k * mem ->
  (forall (j : nat) (x : list Qc),
      qs !! j = Some x -> py_index chain (Z.of_nat j) = Ok (fvec x)) ->
  Forall (fun x => length x = n) qs ->
  (feed_windows np_linalg_svd mem chain_ind k s).2 = Ok tt
  /\ mu (covm (feed_windows np_linalg_svd mem chain_ind k s).1) =
     sample_mean n (map fvec qs).
Proof.
  intros Ham Hchain Hn Hwf Hmem Hk Hlen Hrows Hqs.
  destruct k as [|k]; [lia|].
  destruct (feed_windows_spec np_linalg_svd am chain chain_ind mem n k qs s
              Ham Hchain Hn Hwf Hmem Hlen Hrows Hqs)
    as (U' & S' & _ & _ & Hfeed).
  rewrite Hfeed. cbn [fst snd set_covm covm mu].
  split; [reflexivity|].
  assert (Hne : qs <> []).
  { intros ->. cbn [length] in Hlen. nia. }
  now rewrite sample_mean_fvec, welford_mean_is_batch.
Qed.

(** X22: [__init__] without groups, on a covariance matrix with fewer
    rows than [ndim], raises [IndexError]. *)
Theorem PTSampler_init_small_cov (rank size : Z) (n : nat)
    (logl0 logp0 : vec -> pyfloat) (cov0 : matrix)
    (logl_grad0 logp_grad0 : option (vec -> pyfloat * vec))
    (outDir0 : string) (resume0 : bool) :
  (length cov0 < n)%nat ->
  PTSampler_init np_linalg_svd rank size (Z.of_nat n) logl0 logp0 cov0 None
    logl_grad0 logp_grad0 outDir0 resume0 = Raise IndexError.
Proof.
  intros Hlt. unfold PTSampler_init. cbv zeta.
  match goal with
  | |- context [svd_on_groups np_linalg_svd ?x] => set (s0 := x)
  end.
  assert (Hcg : res_map (fun gi => res_map (fun gj => py_index2 cov0 gi gj)
                                     (range 0 (Z.of_nat n)))
                        (range 0 (Z.of_nat n)) = Raise IndexError).
  { assert (Herr : forall (l1 l2 : list Z) e,
              res_map (fun gi => res_map (fun gj => py_index2 cov0 gi gj) l2) l1 =
              Raise e -> e = IndexError).
    { intros l1 l2. induction l1 as [|gi l1 IH]; intros e; simpl; [discriminate|].
      destruct (res_map (fun gj => py_index2 cov0 gi gj) l2) as [row|e'] eqn:E; simpl.
      - destruct (res_map _ l1) as [rows|e'']; simpl; [discriminate|].
        intros [= <-]. now apply IH.
      - intros [= <-]. clear IH. revert e' E.
        induction l2 as [|gj l2 IH]; intros e'; simpl; [discriminate|].
        destruct (py_index2 cov0 gi gj) as [x|e''] eqn:E2; simpl.
        + destruct (res_map _ l2) as [xs|e3]; simpl; [discriminate|].
          intros [= <-]. now apply IH.
        + intros [= <-]. unfold py_index2 in E2.
          destruct (py_index cov0 gi) as [row|e4] eqn:E3; simpl in E2.
          * now apply py_index_error in E2.
          * injection E2 as <-. now apply py_index_error in E3. }
    destruct (res_map _ (range 0 (Z.of_nat n))) as [cg|e] eqn:E;
      [|f_equal; now apply (Herr _ _ e E)].
    exfalso.
    assert (Hall : forall (l1 l2 : list Z) cg' gi gj,
              res_map (fun gi => res_map (fun gj => py_index2 cov0 gi gj) l2) l1 =
              Ok cg' -> gi ∈ l1 -> gj ∈ l2 -> exists x, py_index2 cov0 gi gj = Ok x).
    { intros l1 l2. induction l1 as [|g l1 IH]; intros cg' gi gj; simpl.
      - intros _ H. now apply elem_of_nil in H.
      - destruct (res_map (fun gj => py_index2 cov0 g gj) l2) as [row|] eqn:E1;
          simpl; [|discriminate].
        destruct (res_map _ l1) as [rows|] eqn:E2; simpl; [|discriminate].
        intros _ Hgi Hgj. apply elem_of_cons in Hgi as [->|Hgi].
        + clear IH E2. revert row E1. induction l2 as [|g' l2 IH2]; intros row; simpl.
          * now apply elem_of_nil in Hgj.
          * destruct (py_index2 cov0 g g') as [x|] eqn:E3; simpl; [|discriminate].
            destruct (res_map _ l2) as [xs|] eqn:E4; simpl; [|discriminate].
            intros _. apply elem_of_cons in Hgj as [->|Hgj]; [eauto|].
            now apply (IH2 Hgj xs).
        + now apply (IH rows gi gj). }
    destruct (Hall _ _ cg (Z.of_nat (length cov0)) 0 E) as [x Hx].
    { unfold range. apply elem_of_seqZ. lia. }
    { unfold range. apply elem_of_seqZ. lia. }
    unfold py_index2, py_index in Hx.
    replace (Z.of_nat (length cov0) <? 0) with false in Hx by lia.
    replace ((0 <=? Z.of_nat (length cov0))
             && (Z.of_nat (length cov0) <? Z.of_nat (length cov0)))
      with false in Hx by lia.
    discriminate. }
  assert (Hsvd : svd_on_groups np_linalg_svd s0 = (s0, Raise IndexError)).
  { unfold svd_on_groups, bind at 1, get at 1.
    change (groups (init s0)) with [range 0 (Z.of_nat n)].
    change (enumerate [range 0 (Z.of_nat n)]) with [(0, range 0 (Z.of_nat n))].
    cbn [for_each].
    unfold bind, get, lift, modify, ret. cbv beta iota.
    change (cov (covm s0)) with cov0. now rewrite Hcg. }
  now rewrite Hsvd.
Qed.

End Mean.

Lemma updateRecursive_batch_mean_witness :
  (feed_windows (fun m => (m, [])) 3 0 1 demo_history).2 = Ok tt
  /\ mu (covm (feed_windows (fun m => (m, [])) 3 0 1 demo_history).1) =
     sample_mean 1 (map fvec [[qZ 1]; [qZ 2]; [qZ 3]]).
Proof.
  refine (updateRecursive_batch_mean (fun m => (m, []))
            demo_history 1 1 3 0 _ _ [[qZ 1]; [qZ 2]; [qZ 3]]
            _ _ eq_refl _ _ _ _ _ _).
  - vm_compute. reflexivity.
  - vm_compute. reflexivity.
  - vm_compute. repeat split; repeat constructor; discriminate.
  - lia.
  - lia.
  - reflexivity.
  - intros [|[|[|j]]] x Hx; try discriminate Hx;
      injection Hx as <-; vm_compute; reflexivity.
  - repeat constructor.
Defined.

Lemma PTSampler_init_small_cov_witness :
  PTSampler_init (fun m => (m, [])) 0 1 (Z.of_nat 2) zero_density zero_density
    [[Finite 1%Qc]] None None None "./chains" false = Raise IndexError.
Proof.
  apply (PTSampler_init_small_cov (fun m => (m, [])) 0 1 2 zero_density zero_density
           [[Finite 1%Qc]] None None "./chains" false).
  simpl. lia.
Defined.

(** ** What a step does outside *)

Section Emits.

Context (P : event -> Prop).

Lemma emits_ret {A} (a : A) : emits P (ret a).
Proof. intros s. exists []. rewrite app_nil_r. now split. Qed.

Lemma emits_raise {A} (e : exn) : emits P (@raise A e).
Proof. intros s. exists []. rewrite app_nil_r. now split. Qed.

Lemma emits_get : emits P get.
Proof. intros s. exists []. rewrite app_nil_r. now split. Qed.

Lemma emits_lift {A} (r : res A) : emits P (lift r).
Proof. intros s. exists []. rewrite app_nil_r. now split. Qed.

Lemma emits_attr {A} (name : string) (f : run_attrs -> A) : emits P (attr name f).
Proof.
  intros s. exists []. unfold attr. rewrite app_nil_r. split; [|constructor].
  now destruct (run s).
Qed.

Lemma emits_get_AMbuffer : emits P get_AMbuffer.
Proof.
  intros s. exists []. unfold get_AMbuffer. rewrite app_nil_r. split; [|constructor].
  now destruct (_AMbuffer (store s)).
Qed.

Lemma emits_modify (f : PTSampler -> PTSampler) :
  (forall s, trace (f s) = trace s) -> emits P (modify f).
Proof. intros H s. exists []. rewrite app_nil_r. split; [apply H|constructor]. Qed.

Lemma emits_emit (ev : event) : P ev -> emits P (emit ev).
Proof. intros H s. exists [ev]. split; [reflexivity|]. now constructor. Qed.

Lemma emits_bind {A C} (m : M A) (k : A -> M C) :
  emits P m -> (forall a, emits P (k a)) -> emits P (bind m k).
Proof.
  intros Hm Hk s. unfold bind. destruct (Hm s) as (evs & Ht & Hp).
  destruct (m s) as [s' [a|e]]; simpl in *; [|now exists evs].
  destruct (Hk a s') as (evs' & Ht' & Hp').
  exists (evs ++ evs'). rewrite Ht', Ht, <- app_assoc. split; [reflexivity|].
  now apply Forall_app.
Qed.

Lemma emits_for_each {A} (xs : list A) (body : A -> M unit) :
  (forall x, emits P (body x)) -> emits P (for_each xs body).
Proof.
  intros H. induction xs as [|x xs IH]; simpl.
  - apply emits_ret.
  - apply emits_bind; [apply H|]. intros _. exact IH.
Qed.

End Emits.

Ltac emits_side :=
  intros;
  unfold propCycle_append, jumpDict_add, set_mu, set_M2, set_cov, set_DEbuffer,
    set_AMbuffer, set_chain, set_lnlike, set_lnprob, set_naccepted, count_swap;
  repeat match goal with
         | |- context [if ?b then _ else _] => destruct b
         end;
  reflexivity.

Ltac emits_step :=
  first
    [ apply emits_ret | apply emits_raise | apply emits_get | apply emits_lift
    | apply emits_attr | apply emits_get_AMbuffer
    | apply emits_emit; solve [auto | exact I | cbn; tauto]
    | apply emits_modify; emits_side
    | apply emits_bind; [|intros ?]
    | apply emits_for_each; intros ?
    | match goal with
      | |- emits _ (if ?b then _ else _) => destruct b
      | |- emits _ (match ?x with _ => _ end) => destruct x
      end
    | progress cbv zeta ].

Ltac emits_auto := repeat emits_step.

Section EmitsMethods.

Context (P : event -> Prop).

Lemma updateRecursive_jj_emits (chain_ind row it : Z) (jjs : list Z) (diff : vec) :
  emits P (updateRecursive_jj chain_ind row it jjs diff).
Proof.
  revert diff. induction jjs as [|jj jjs IH]; intros diff; simpl.
  - emits_auto.
  - emits_auto. apply IH.
Qed.

Lemma updateRecursive_ii_emits (iter mem chain_ind : Z) (iis : list Z) (it : Z) :
  emits P (updateRecursive_ii iter mem chain_ind iis it).
Proof.
  revert it. induction iis as [|ii iis IH]; intros it; simpl.
  - emits_auto.
  - emits_auto; try apply updateRecursive_jj_emits. apply IH.
Qed.

End EmitsMethods.

Ltac emits_all :=
  emits_auto;
  try apply updateRecursive_ii_emits;
  try apply updateRecursive_jj_emits;
  emits_auto.

Section StepEvents.

Context {kwargs : Type}
        (prop_getattr : string -> option (option kwargs -> proposal))
        (is_DEJump : proposal -> bool)
        (np_linalg_svd : matrix -> matrix * vec).

Lemma PTMCMCOneStep_emits (P : event -> Prop) (p0 : vec) (lnlike0 lnprob0 : pyfloat)
    (iter chain_ind : Z) (e : step_env) :
  (forall x, P (EvLogp x)) -> (forall x, P (EvLogl x)) ->
  (forall d m, P (EvSend d 18 m)) -> (forall d m, P (EvSend d 19 m)) ->
  (forall d m, P (EvSend d 888 m)) -> (forall d m, P (EvSend d 111 m)) ->
  (forall d m, P (EvSend d 222 m)) ->
  (forall p m, P (EvOpen p m)) -> (forall p c, P (EvWrite p c)) ->
  (forall p m, P (EvSave p m)) ->
  emits P (PTMCMCOneStep prop_getattr is_DEJump np_linalg_svd
             p0 lnlike0 lnprob0 iter chain_ind e).
Proof.
  intros. unfold PTMCMCOneStep. emits_all.
Qed.

End StepEvents.

(** ** The density evaluations of a step *)

Section Spends.

Context (w : event -> nat).

Lemma spends_free {A} (n : nat) (m : M A) :
  emits (fun ev => w ev = 0%nat) m -> spends w n m.
Proof.
  intros H s. destruct (H s) as (evs & Ht & Hp). exists evs. split; [exact Ht|].
  clear Ht. induction Hp as [|ev evs Hev _ IH]; simpl; lia.
Qed.

Lemma spends_bind {A C} (n1 n2 n : nat) (m : M A) (k : A -> M C) :
  spends w n1 m -> (forall a, spends w n2 (k a)) -> (n1 + n2 <= n)%nat ->
  spends w n (bind m k).
Proof.
  intros Hm Hk Hn s. unfold bind. destruct (Hm s) as (evs & Ht & Hp).
  destruct (m s) as [s' [a|e]]; simpl in *; [|exists evs; split; [exact Ht|lia]].
  destruct (Hk a s') as (evs' & Ht' & Hp').
  exists (evs ++ evs'). rewrite Ht', Ht, <- app_assoc. split; [reflexivity|].
  rewrite map_app, list_sum_app. lia.
Qed.

Lemma spends_emit (n : nat) (ev : event) : (w ev <= n)%nat -> spends w n (emit ev).
Proof. intros H s. exists [ev]. split; [reflexivity|]. simpl. lia. Qed.

End Spends.

Ltac free := apply spends_free; emits_all.

Section Cost.

Context {kwargs : Type}
        (prop_getattr : string -> option (option kwargs -> proposal))
        (is_DEJump : proposal -> bool)
        (np_linalg_svd : matrix -> matrix * vec).

Lemma jump_proposal_logl (p0 : vec) (lnlike0 lnprob0 : pyfloat) (iter : Z)
    (e : jump_env) :
  spends logl_weight 1 (jump_proposal p0 lnlike0 lnprob0 iter e).
Proof.
  unfold jump_proposal.
  apply (spends_bind _ 0 1); [free| |lia]. intros resuming.
  apply (spends_bind _ 0 1); [free| |lia]. intros resumeLength.
  destruct (resuming && _); [free|].
  apply (spends_bind _ 0 1); [free| |lia]. intros [[y qxy] name].
  apply (spends_bind _ 0 1); [free| |lia]. intros _.
  apply (spends_bind _ 0 1); [free| |lia]. intros lp.
  apply (spends_bind _ 1 0); [| |lia].
  - destruct (feq lp NInf); [free|].
    apply (spends_bind _ 1 0); [| |lia].
    + unfold call_logl. apply (spends_bind _ 0 1); [free| |lia]. intros s.
      apply (spends_bind _ 1 0); [apply spends_emit; simpl; lia| |lia].
      intros _. free.
    + intros newlnlike. free.
  - intros new. free.
Qed.

Lemma jump_proposal_logp (p0 : vec) (lnlike0 lnprob0 : pyfloat) (iter : Z)
    (e : jump_env) :
  spends logp_weight 1 (jump_proposal p0 lnlike0 lnprob0 iter e).
Proof.
  unfold jump_proposal.
  apply (spends_bind _ 0 1); [free| |lia]. intros resuming.
  apply (spends_bind _ 0 1); [free| |lia]. intros resumeLength.
  destruct (resuming && _); [free|].
  apply (spends_bind _ 0 1); [free| |lia]. intros [[y qxy] name].
  apply (spends_bind _ 0 1); [free| |lia]. intros _.
  apply (spends_bind _ 1 0); [| |lia].
  - unfold call_logp. apply (spends_bind _ 0 1); [free| |lia]. intros s.
    apply (spends_bind _ 1 0); [apply spends_emit; simpl; lia| |lia].
    intros _. free.
  - intros lp. free.
Qed.

Lemma exchange_logp (peer : Z) (p0 : vec) (lnlike0 : pyfloat) (e : swap_env) :
  spends logp_weight 1 (exchange peer p0 lnlike0 e).
Proof.
  unfold exchange.
  apply (spends_bind _ 0 1); [free| |lia]. intros _.
  apply (spends_bind _ 0 1); [free| |lia]. intros temp.
  apply (spends_bind _ 1 0); [| |lia].
  - unfold call_logp. apply (spends_bind _ 0 1); [free| |lia]. intros s.
    apply (spends_bind _ 1 0); [apply spends_emit; simpl; lia| |lia].
    intros _. free.
  - intros lp. free.
Qed.

Lemma PTswap_logp (p0 : vec) (lnlike0 lnprob0 : pyfloat) (iter : Z) (e : swap_env) :
  spends logp_weight 1 (PTswap p0 lnlike0 lnprob0 iter e).
Proof.
  unfold PTswap.
  apply (spends_bind _ 0 1); [free| |lia]. intros s.
  apply (spends_bind _ 0 1); [free| |lia]. intros tskip.
  apply (spends_bind _ 0 1); [free| |lia]. intros r.
  apply (spends_bind _ 1 0); [| |lia].
  - destruct (_ && _).
    + apply (spends_bind _ 0 1); [free| |lia]. intros _.
      destruct (negb _); [|free].
      apply (spends_bind _ 1 0); [apply exchange_logp| |lia]. intros [[? ?] ?]. free.
    + destruct (0 <? _); [|free].
      destruct (e_readyToSwap e); [|free].
      apply (spends_bind _ 0 1); [free| |lia]. intros ladder.
      apply (spends_bind _ 0 1); [free| |lia]. intros T1.
      apply (spends_bind _ 0 1); [free| |lia]. intros T2.
      apply (spends_bind _ 0 1); [free| |lia]. intros _.
      destruct (negb _); [|free].
      apply (spends_bind _ 0 1); [free| |lia]. intros _.
      apply (spends_bind _ 1 0); [apply exchange_logp| |lia]. intros [[? ?] ?]. free.
  - intros [[[[? ?] ?] ?] ?]. free.
Qed.

(** X23: whatever its outcome, one step only adds to what the process
    has done outside, and in it the likelihood is called at most once
    and the prior at most twice (at the proposal, and at the point
    received in a swap). *)
Theorem PTMCMCOneStep_evaluations (p0 : vec) (lnlike0 lnprob0 : pyfloat)
    (iter chain_ind : Z) (e : step_env) (s : PTSampler) :
  exists evs,
    trace (PTMCMCOneStep prop_getattr is_DEJump np_linalg_svd
             p0 lnlike0 lnprob0 iter chain_ind e s).1 = trace s ++ evs
    /\ (logl_calls evs <= 1)%nat /\ (logp_calls evs <= 2)%nat.
Proof.
  assert (Hl : spends logl_weight 1
                 (PTMCMCOneStep prop_getattr is_DEJump np_linalg_svd
                    p0 lnlike0 lnprob0 iter chain_ind e)).
  { unfold PTMCMCOneStep.
    apply (spends_bind _ 0 1); [free| |lia]. intros _.
    apply (spends_bind _ 0 1); [free| |lia]. intros _.
    apply (spends_bind _ 0 1); [free| |lia]. intros _.
    apply (spends_bind _ 0 1); [free| |lia]. intros _.
    apply (spends_bind _ 0 1); [free| |lia]. intros _.
    apply (spends_bind _ 1 0); [apply jump_proposal_logl| |lia]. intros [[? ?] ?].
    free. }
  assert (Hp : spends logp_weight 2
                 (PTMCMCOneStep prop_getattr is_DEJump np_linalg_svd
                    p0 lnlike0 lnprob0 iter chain_ind e)).
  { unfold PTMCMCOneStep.
    apply (spends_bind _ 0 2); [free| |lia]. intros _.
    apply (spends_bind _ 0 2); [free| |lia]. intros _.
    apply (spends_bind _ 0 2); [free| |lia]. intros _.
    apply (spends_bind _ 0 2); [free| |lia]. intros _.
    apply (spends_bind _ 0 2); [free| |lia]. intros _.
    apply (spends_bind _ 1 1); [apply jump_proposal_logp| |lia]. intros [[? ?] ?].
    apply (spends_bind _ 1 0); [apply PTswap_logp| |lia]. intros [[[? ?] ?] ?].
    free. }
  destruct (Hl s) as (evs & Ht & Hle). destruct (Hp s) as (evs' & Ht' & Hle').
  assert (evs' = evs) by (rewrite Ht in Ht'; now apply app_inv_head in Ht').
  subst evs'. exists evs. split; [exact Ht|]. now split.
Qed.

End Cost.

(** ** The loop of [sample] *)

Section LoopProperties.

Context {kwargs : Type}
        (prop_getattr : string -> option (option kwargs -> proposal))
        (prop_default : list string)
        (is_DEJump : proposal -> bool)
        (grad_kwargs : (vec -> pyfloat * vec) -> (vec -> pyfloat * vec) ->
                       matrix -> Z -> kwargs)
        (kwargs_update : kwargs -> kwargs -> kwargs)
        (str_of_float : pyfloat -> string)
        (np_exp np_log np_sqrt : pyfloat -> pyfloat)
        (np_linalg_svd : matrix -> matrix * vec).

Local Abbreviation PTMCMCOneStep' :=
  (PTMCMCOneStep prop_getattr is_DEJump np_linalg_svd).
Local Abbreviation sample_step' :=
  (sample_step prop_getattr is_DEJump np_linalg_svd).
Local Abbreviation sample_chain' :=
  (sample_chain prop_getattr is_DEJump np_linalg_svd).
Local Abbreviation sample_chains' :=
  (sample_chains prop_getattr is_DEJump np_linalg_svd).
Local Abbreviation sample' :=
  (sample prop_getattr prop_default is_DEJump grad_kwargs kwargs_update
     str_of_float np_exp np_log np_sqrt np_linalg_svd).

Lemma PTMCMCOneStep_init (p0 : vec) (lnlike0 lnprob0 : pyfloat)
    (iter chain_ind : Z) (e : step_env) (s : PTSampler) :
  init (PTMCMCOneStep' p0 lnlike0 lnprob0 iter chain_ind e s).1 = init s.
Proof.
  apply (PTMCMCOneStep_keeps prop_getattr is_DEJump np_linalg_svd init);
    intros ? ?; reflexivity.
Qed.

(** The body of the loop on rank 0 once the target is passed. *)
Lemma sample_step_stops (neff i iter : Z) (e : loop_env) (p0 : vec)
    (lnlike0 lnprob0 : pyfloat) (Neff : Z) (runComplete : bool) (s : PTSampler) :
  MPIrank (init s) = 0 -> neff < Neff -> iter mod 10000 <> 0 ->
  sample_step' neff i iter e (p0, lnlike0, lnprob0) Neff runComplete s =
  (let* st := PTMCMCOneStep' p0 lnlike0 lnprob0 iter i (e_step e) in
   ret (false, st, Neff, runComplete)) s.
Proof.
  intros Hrank Hn Hiter.
  pose proof (PTMCMCOneStep_init p0 lnlike0 lnprob0 iter i (e_step e) s) as Hi.
  set (step := PTMCMCOneStep' p0 lnlike0 lnprob0 iter i (e_step e) s) in *.
  transitivity (match step with
                | (s1, Ok st) => (s1, Ok (false, st, Neff, runComplete))
                | (s1, Raise err) => (s1, Raise err)
                end).
  - unfold sample_step, bind at 1. fold step.
    destruct step as [s1 [st|err]]; [|reflexivity].
    simpl in Hi. unfold bind at 1, get at 1. rewrite Hi, Hrank.
    rewrite (proj2 (Z.eqb_neq _ _) Hiter).
    unfold bind at 1, ret at 1.
    replace (neff <? Neff) with true by lia. reflexivity.
  - unfold bind, ret. fold step. now destruct step as [s1 [st|err]].
Qed.

(** X24: on rank 0, once [Neff] exceeds [neff], the loop over the
    iterations of a cold chain is left after one step: at an iteration
    that is not a multiple of 10000 the whole loop is that step,
    whatever the number of iterations asked for. The later cold chains
    of such a run are one step long. *)
Theorem sample_chain_one_step (neff i : Z) (env : Z -> Z -> loop_env) (j : Z)
    (js : list Z) (iter : Z) (p0 : vec) (lnlike0 lnprob0 : pyfloat) (Neff : Z)
    (runComplete : bool) (s : PTSampler) :
  MPIrank (init s) = 0 -> neff < Neff -> (iter + 1) mod 10000 <> 0 ->
  sample_chain' neff i env (j :: js) iter (p0, lnlike0, lnprob0) Neff runComplete s =
  (let* st := PTMCMCOneStep' p0 lnlike0 lnprob0 (iter + 1) i
                (e_step (env i (iter + 1))) in
   ret (st, Neff, runComplete)) s.
Proof.
  intros Hrank Hn Hiter. cbn [sample_chain]. cbv zeta.
  unfold bind at 1.
  rewrite (sample_step_stops neff i (iter + 1) (env i (iter + 1)) p0 lnlike0 lnprob0
             Neff runComplete s Hrank Hn Hiter).
  unfold bind.
  destruct (PTMCMCOneStep' p0 lnlike0 lnprob0 (iter + 1) i _ s) as [s1 [st|err]];
    reflexivity.
Qed.

(** X25: on a process of rank > 0 a pass of the loop is the step
    followed by the probe for tag 55: the object is as the step leaves
    it, and when the pass returns the loop goes on ([break] is not
    taken), [Neff] is unchanged and [runComplete] is what the probe
    says. *)
Theorem sample_step_hot (neff i iter : Z) (e : loop_env) (p0 : vec)
    (lnlike0 lnprob0 : pyfloat) (Neff : Z) (runComplete : bool) (s : PTSampler) :
  0 < MPIrank (init s) ->
  let step := PTMCMCOneStep' p0 lnlike0 lnprob0 iter i (e_step e) s in
  let out := sample_step' neff i iter e (p0, lnlike0, lnprob0) Neff runComplete s in
  out.1 = step.1
  /\ forall go st Neff' runComplete',
       out.2 = Ok (go, st, Neff', runComplete') ->
       go = true /\ step.2 = Ok st /\ Neff' = Neff
       /\ runComplete' = e_runComplete e.
Proof.
  intros Hrank step out.
  pose proof (PTMCMCOneStep_init p0 lnlike0 lnprob0 iter i (e_step e) s) as Hi.
  fold step in Hi.
  assert (Hout : out =
            match step.2 with
            | Ok st =>
                if iter mod 10000 =? 0 then
                  match run step.1 with
                  | Some r => (step.1, Ok (true, st, Neff, e_runComplete e))
                  | None => (step.1, Raise (AttributeError "burn"))
                  end
                else (step.1, Ok (true, st, Neff, e_runComplete e))
            | Raise err => (step.1, Raise err)
            end).
  { subst out. unfold sample_step, bind at 1. fold step.
    destruct step as [s1 [st|err]]; [|reflexivity].
    cbn [fst snd] in *. unfold bind at 1, get at 1. rewrite Hi.
    replace (MPIrank (init s) =? 0) with false by lia.
    replace (0 <? MPIrank (init s)) with true by lia.
    cbn [andb].
    destruct (iter mod 10000 =? 0).
    - unfold bind at 1, bind at 1, attr.
      destruct (run s1); [rewrite andb_false_r|]; reflexivity.
    - reflexivity. }
  rewrite Hout. destruct step as [s1 [st|err]]; cbn [fst snd].
  - destruct (iter mod 10000 =? 0); [destruct (run s1)|]; cbn [fst snd];
      (split; [reflexivity|]); intros go st' Neff' rc' [=]; subst; auto.
  - split; [reflexivity|]. intros ? ? ? ? [=].
Qed.

(** The events of the body of the loop, while rank 0 has not seen
    [runComplete] become true. *)
Lemma sample_step_events (neff i iter : Z) (e : loop_env)
    (st : vec * pyfloat * pyfloat) (Neff : Z) (runComplete : bool) (s : PTSampler) :
  (MPIrank (init s) = 0 -> runComplete = false) ->
  let out := sample_step' neff i iter e st Neff runComplete s in
  init out.1 = init s
  /\ (exists evs, trace out.1 = trace s ++ evs /\ Forall step_event evs)
  /\ forall go st' Neff' runComplete',
       out.2 = Ok (go, st', Neff', runComplete') ->
       MPIrank (init s) = 0 -> runComplete' = false.
Proof.
  intros Hrc. destruct st as [[p0 lnlike0] lnprob0]. cbv zeta.
  pose proof (PTMCMCOneStep_init p0 lnlike0 lnprob0 iter i (e_step e) s) as Hi.
  destruct (PTMCMCOneStep_emits prop_getattr is_DEJump np_linalg_svd step_event
              p0 lnlike0 lnprob0 iter i (e_step e)
              ltac:(intros; exact I) ltac:(intros; exact I)
              ltac:(intros; cbn; tauto) ltac:(intros; cbn; tauto)
              ltac:(intros; cbn; tauto) ltac:(intros; cbn; tauto)
              ltac:(intros; cbn; tauto) ltac:(intros; exact I)
              ltac:(intros; exact I) ltac:(intros; exact I) s)
    as (evs & Ht & Hev).
  assert (Hsend : (MPIrank (init s) =? 0) && runComplete = false).
  { destruct (Z.eqb_spec (MPIrank (init s)) 0) as [E|E]; [|reflexivity].
    now rewrite (Hrc E). }
  remember (sample_step' neff i iter e (p0, lnlike0, lnprob0) Neff runComplete s)
    as out eqn:Eout.
  destruct out as [s' o]. cbn [fst snd]. symmetry in Eout.
  unfold sample_step, bind at 1 in Eout.
  destruct (PTMCMCOneStep' p0 lnlike0 lnprob0 iter i (e_step e) s) as [s1 [st|err]];
    cbn [fst snd] in *.
  2:{ injection Eout as <- <-. split; [exact Hi|].
      split; [now exists evs|]. intros ? ? ? ? [=]. }
  unfold bind at 1, get at 1 in Eout. rewrite Hi in Eout.
  match type of Eout with
  | bind ?m _ s1 = _ => assert (Hm : (m s1).1 = s1)
  end.
  { match goal with
    | |- (?m s1).1 = s1 => assert (Hk : keeps (fun s => s) m) by keeps_all
    end.
    apply Hk. }
  unfold bind at 1 in Eout.
  match type of Hm with
  | (?m s1).1 = s1 => destruct (m s1) as [s2 [Neff2|err]]
  end; simpl in Hm; subst s2.
  2:{ injection Eout as <- <-. split; [exact Hi|].
      split; [now exists evs|]. intros ? ? ? ? [=]. }
  destruct ((MPIrank (init s) =? 0) && (neff <? Neff2)) eqn:Hbrk.
  - injection Eout as <- <-. split; [exact Hi|]. split; [now exists evs|].
    intros go st' Neff' rc' [= _ _ _ <-] Hr0. now apply Hrc.
  - rewrite Hsend in Eout. injection Eout as <- <-.
    split; [exact Hi|]. split; [now exists evs|].
    intros go st' Neff' rc' [= _ _ _ <-] Hr0.
    destruct (Z.ltb_spec 0 (MPIrank (init s))); [lia|]. now apply Hrc.
Qed.

Lemma sample_chain_events (neff i : Z) (env : Z -> Z -> loop_env) (js : list Z) :
  forall (iter : Z) (st : vec * pyfloat * pyfloat) (Neff : Z) (runComplete : bool)
         (s : PTSampler),
    (MPIrank (init s) = 0 -> runComplete = false) ->
    init (sample_chain' neff i env js iter st Neff runComplete s).1 = init s
    /\ (exists evs,
          trace (sample_chain' neff i env js iter st Neff runComplete s).1 =
            trace s ++ evs
          /\ Forall step_event evs)
    /\ forall st' Neff' runComplete',
         (sample_chain' neff i env js iter st Neff runComplete s).2 =
           Ok (st', Neff', runComplete') ->
         MPIrank (init s) = 0 -> runComplete' = false.
Proof.
  induction js as [|j js IH]; intros iter st Neff rc s Hrc.
  - cbn. split; [reflexivity|]. split.
    + exists []. now rewrite app_nil_r.
    + intros ? ? ? [= _ _ <-]. exact Hrc.
  - cbn [sample_chain]. cbv zeta.
    destruct (sample_step_events neff i (iter + 1) (env i (iter + 1)) st Neff rc s Hrc)
      as (Hi & (evs & Ht & Hev) & Hrc').
    cbv zeta in Hi, Ht, Hrc'. unfold bind.
    destruct (sample_step' neff i (iter + 1) (env i (iter + 1)) st Neff rc s)
      as [s1 [[[[go st1] Neff1] rc1]|err]]; cbn [fst snd] in *.
    2:{ split; [exact Hi|]. split; [now exists evs|]. intros ? ? ? [=]. }
    destruct go.
    + assert (Hrc1 : MPIrank (init s1) = 0 -> rc1 = false).
      { rewrite Hi. intros H0. now apply (Hrc' true st1 Neff1 rc1). }
      destruct (IH (iter + 1) st1 Neff1 rc1 s1 Hrc1)
        as (Hi2 & (evs2 & Ht2 & Hev2) & Hrc2).
      split; [now rewrite Hi2|]. split.
      * exists (evs ++ evs2). rewrite Ht2, Ht, <- app_assoc. split; [reflexivity|].
        now apply Forall_app.
      * intros st' Neff' rc' Ho H0. apply (Hrc2 _ _ _ Ho). now rewrite Hi.
    + cbn [fst snd]. split; [exact Hi|]. split; [now exists evs|].
      intros ? ? ? [= _ _ <-] H0. now apply (Hrc' false st1 Neff1 rc1).
Qed.

Lemma sample_chains_events (neff : Z) (env : Z -> Z -> loop_env) (Niter i0 : Z)
    (chains : list Z) :
  forall (st : vec * pyfloat * pyfloat) (Neff : Z) (runComplete : bool)
         (s : PTSampler),
    (MPIrank (init s) = 0 -> runComplete = false) ->
    exists evs,
      trace (sample_chains' neff env Niter i0 chains st Neff runComplete s).1 =
        trace s ++ evs
      /\ Forall step_event evs.
Proof.
  induction chains as [|i chains IH]; intros st Neff rc s Hrc.
  - cbn. exists []. now rewrite app_nil_r.
  - cbn [sample_chains].
    destruct (sample_chain_events neff i env (range 0 (Niter - 1)) i0 st Neff rc s Hrc)
      as (Hi & (evs & Ht & Hev) & Hrc').
    unfold bind.
    destruct (sample_chain' neff i env (range 0 (Niter - 1)) i0 st Neff rc s)
      as [s1 [[[st1 Neff1] rc1]|err]]; cbn [fst snd] in *; [|now exists evs].
    assert (Hrc1 : MPIrank (init s1) = 0 -> rc1 = false).
    { rewrite Hi. intros H0. now apply (Hrc' st1 Neff1 rc1). }
    destruct (IH st1 Neff1 rc1 s1 Hrc1) as (evs2 & Ht2 & Hev2).
    exists (evs ++ evs2). rewrite Ht2, Ht, <- app_assoc. split; [reflexivity|].
    now apply Forall_app.
Qed.

Lemma sample_start_emits (p0 : vec) (a : @initialize_args kwargs)
    (e : initialize_env) :
  emits step_event
    (sample_start prop_getattr prop_default grad_kwargs kwargs_update
       str_of_float np_exp np_log np_sqrt p0 a e).
Proof.
  unfold sample_start. emits_all.
  unfold initialize_jump_proposals. emits_all.
Qed.

(** X26: whatever its outcome, [sample] only adds to what the process
    has done outside, and every message it sends has one of the tags 18,
    19, 888, 111 and 222: the message of tag 55, which would tell the
    hotter processes that the run is complete, is never sent. *)
Theorem sample_messages (p0 : vec) (a : @initialize_args kwargs)
    (e : initialize_env) (neff0 : Z) (env : Z -> Z -> loop_env) (s : PTSampler) :
  exists evs,
    trace (sample' p0 a e neff0 env s).1 = trace s ++ evs
    /\ Forall step_event evs.
Proof.
  unfold sample. cbv zeta. unfold bind at 1.
  destruct (sample_start_emits p0 a e s) as (evs & Ht & Hev).
  destruct (sample_start _ _ _ _ _ _ _ _ p0 a e s) as [s1 [st|err]];
    cbn [fst snd] in *; [|now exists evs].
  destruct (sample_chains_events (if a_i0 a =? 0 then a_neff a else neff0) env
              (a_Niter a) (a_i0 a) (range 0 (a_n_cold_chains a)) st 0 false s1
              ltac:(reflexivity)) as (evs2 & Ht2 & Hev2).
  unfold bind at 1.
  destruct (sample_chains' _ env _ _ _ st 0 false s1) as [s2 [x|err]];
    cbn [fst snd] in *.
  - match goal with
    | |- context [(?m s2).1] =>
        assert (Hk : keeps trace m) by keeps_all
    end.
    rewrite Hk. exists (evs ++ evs2). rewrite Ht2, Ht, <- app_assoc.
    split; [reflexivity|]. now apply Forall_app.
  - exists (evs ++ evs2). rewrite Ht2, Ht, <- app_assoc.
    split; [reflexivity|]. now apply Forall_app.
Qed.

End LoopProperties.

Lemma sample_chain_one_step_witness :
  sample_chain demo_getattr (fun _ => false) (fun m => (m, [])) 5 0 demo_loop
    (0 :: [1; 2]) 0 ([of_Z 5], of_Z 0, of_Z 0) 6 false (demo_ready demo_cold) =
  (let* st := demo_PTMCMCOneStep [of_Z 5] (of_Z 0) (of_Z 0) (0 + 1) 0
                (e_step (demo_loop 0 (0 + 1))) in
   ret (st, 6, false)) (demo_ready demo_cold).
Proof.
  apply (sample_chain_one_step demo_getattr (fun _ => false) (fun m => (m, []))
           5 0 demo_loop 0 [1; 2] 0 [of_Z 5] (of_Z 0) (of_Z 0) 6 false
           (demo_ready demo_cold)).
  - reflexivity.
  - reflexivity.
  - vm_compute. discriminate.
Defined.

Lemma sample_step_hot_witness :
  let step := demo_PTMCMCOneStep [of_Z 5] (of_Z 0) (of_Z 0) 1 0 demo_quiet
                (demo_ready demo_hot) in
  let out := sample_step demo_getattr (fun _ => false) (fun m => (m, [])) 5 0 1
               (demo_loop 0 1) ([of_Z 5], of_Z 0, of_Z 0) 6 false
               (demo_ready demo_hot) in
  out.1 = step.1
  /\ forall go st Neff' runComplete',
       out.2 = Ok (go, st, Neff', runComplete') ->
       go = true /\ step.2 = Ok st /\ Neff' = 6
       /\ runComplete' = e_runComplete (demo_loop 0 1).
Proof.
  apply (sample_step_hot demo_getattr (fun _ => false) (fun m => (m, []))
           5 0 1 (demo_loop 0 1) [of_Z 5] (of_Z 0) (of_Z 0) 6 false
           (demo_ready demo_hot)).
  reflexivity.
Defined.

(** ** The first recorded row *)

Lemma py_index_inv {A} (l : list A) (i : Z) (a : A) :
  py_index l i = Ok a -> 0 <= i -> l !! Z.to_nat i = Some a.
Proof.
  unfold py_index. intros H Hi.
  destruct (Z.ltb_spec i 0); [lia|].
  destruct (_ && _); [|discriminate].
  destruct (l !! Z.to_nat i); [congruence|discriminate].
Qed.

Lemma py_set_inv {A} (l l' : list A) (i : Z) (v : A) :
  py_set l i v = Ok l' -> 0 <= i -> l' = <[Z.to_nat i := v]> l.
Proof.
  unfold py_set. intros H Hi.
  destruct (Z.ltb_spec i 0); [lia|].
  destruct (_ && _); [congruence|discriminate].
Qed.

Lemma py_set_row_inv (a a' : list matrix) (i j : Z) (v : vec) :
  py_set_row a i j v = Ok a' -> 0 <= i -> 0 <= j ->
  exists m, a !! Z.to_nat i = Some m
            /\ a' = <[Z.to_nat i := <[Z.to_nat j := v]> m]> a.
Proof.
  unfold py_set_row. intros H Hi Hj.
  destruct (py_index a i) as [m|] eqn:Em; [|discriminate]. cbn [res_bind] in H.
  destruct (py_index m j) as [row|]; [|discriminate]. cbn [res_bind] in H.
  destruct (_ =? _)%nat; [|discriminate].
  destruct (py_set m j v) as [m'|] eqn:Em'; [|discriminate]. cbn [res_bind] in H.
  exists m. split; [now apply py_index_inv|].
  apply py_set_inv in Em'; [|exact Hj]. subst m'. now apply py_set_inv in H.
Qed.

Lemma py_set2_inv {A} (a a' : list (list A)) (i j : Z) (v : A) :
  py_set2 a i j v = Ok a' -> 0 <= i -> 0 <= j ->
  exists row, a !! Z.to_nat i = Some row
              /\ a' = <[Z.to_nat i := <[Z.to_nat j := v]> row]> a.
Proof.
  unfold py_set2. intros H Hi Hj.
  destruct (py_index a i) as [row|] eqn:Er; [|discriminate]. cbn [res_bind] in H.
  destruct (py_set row j v) as [row'|] eqn:Er'; [|discriminate]. cbn [res_bind] in H.
  exists row. split; [now apply py_index_inv|].
  apply py_set_inv in Er'; [|exact Hj]. subst row'. now apply py_set_inv in H.
Qed.

(** Writing an entry leaves the heads of the rows from [k] on alone,
    when the entry is not the first of its row or the row comes before
    [k]. *)
Lemma heads_insert {A} (a : list (list A)) (i j k : nat) (row : list A) (v : A) :
  a !! i = Some row -> (1 <= j \/ i < k)%nat ->
  drop k (head <$> <[i := <[j := v]> row]> a) = drop k (head <$> a).
Proof.
  intros Ha Hij. rewrite list_fmap_insert.
  destruct Hij as [Hj|Hi].
  - replace (head (<[j := v]> row)) with (head row).
    + rewrite list_insert_id; [reflexivity|].
      now rewrite list_lookup_fmap, Ha.
    + destruct row as [|x row]; [reflexivity|].
      destruct j as [|j]; [lia|reflexivity].
  - now rewrite drop_insert_lt by lia.
Qed.

Section FirstRows.

Context {kwargs : Type}
        (prop_getattr : string -> option (option kwargs -> proposal))
        (prop_default : list string)
        (is_DEJump : proposal -> bool)
        (grad_kwargs : (vec -> pyfloat * vec) -> (vec -> pyfloat * vec) ->
                       matrix -> Z -> kwargs)
        (kwargs_update : kwargs -> kwargs -> kwargs)
        (str_of_float : pyfloat -> string)
        (np_exp np_log np_sqrt : pyfloat -> pyfloat)
        (np_linalg_svd : matrix -> matrix * vec).

Lemma updateChains_first_rows (k : nat) (p0 : vec) (lnlike0 lnprob0 : pyfloat)
    (iter chain_ind : Z) :
  0 <= iter -> 0 <= chain_ind ->
  (1 <= iter \/ (Z.to_nat chain_ind < k)%nat) ->
  keeps (first_rows_thinned k) (updateChains p0 lnlike0 lnprob0 iter chain_ind).
Proof.
  intros Hiter Hci Hor s.
  pose proof (updateChains_keeps run p0 lnlike0 lnprob0 iter chain_ind
                ltac:(intros ? ?; reflexivity) ltac:(intros ? ?; reflexivity) s)
    as Hrun.
  unfold first_rows_thinned. rewrite Hrun.
  destruct (run s) as [r|] eqn:Hr; [|reflexivity].
  destruct (Z.ltb_spec 0 (thin r)) as [Hthin|]; [|reflexivity].
  f_equal.
  remember (updateChains p0 lnlike0 lnprob0 iter chain_ind s) as out eqn:Eout.
  clear Hrun. symmetry in Eout.
  unfold updateChains, bind at 1, get at 1 in Eout.
  (* the buffer *)
  match type of Eout with
  | bind ?m _ s = _ => assert (Hk1 : keeps (first_rows k) m) by keeps_all;
                       assert (Hr1 : keeps run m) by keeps_all
  end.
  unfold bind at 1 in Eout.
  match type of Hk1 with
  | keeps _ ?m => specialize (Hk1 s); specialize (Hr1 s);
                  destruct (m s) as [s1 [[]|err]]
  end; cbn [fst snd] in *.
  2:{ subst out. exact Hk1. }
  rewrite <- Hk1. rewrite <- Hr1 in Hr. clear Hk1 Hr1.
  rewrite (bind_ok _ _ _ _ _ (attr_eq _ _ _ _ Hr)) in Eout.
  unfold bind at 1, lift at 1 in Eout.
  rewrite (py_mod_ok iter (thin r) ltac:(lia)) in Eout.
  (* the arrays *)
  assert (Hind : iter mod thin r = 0 ->
                 0 <= Z.quot iter (thin r)
                 /\ ((1 <= Z.to_nat (Z.quot iter (thin r)))%nat
                     \/ (Z.to_nat chain_ind < k)%nat)).
  { intros Hmod. split; [apply Z.quot_pos; lia|].
    destruct Hor as [H1|H2]; [left|now right].
    rewrite Z.quot_div_nonneg by lia.
    assert (iter = thin r * (iter / thin r)) by (apply Z.div_exact; lia).
    assert (0 < iter / thin r) by nia. lia. }
  match type of Eout with
  | bind ?m ?rest s1 = _ =>
      assert (Hk2 : first_rows k (m s1).1 = first_rows k s1);
      [|assert (Hk3 : forall s2, first_rows k (rest tt s2).1 = first_rows k s2)]
  end.
  - destruct (iter mod thin r =? 0) eqn:Hmod; [|reflexivity].
    apply Z.eqb_eq in Hmod. destruct (Hind Hmod) as [Hq Hq'].
    unfold bind at 1, get at 1. unfold bind at 1, lift at 1.
    destruct (py_set_row (_chain (store s1)) chain_ind _ p0) as [c|] eqn:Ec;
      [|reflexivity].
    apply py_set_row_inv in Ec as (m & Hm & ->); try assumption.
    unfold bind at 1, modify at 1. unfold bind at 1, lift at 1.
    cbn [store set_chain set_store _lnlike].
    destruct (py_set2 (_lnlike (store s1)) chain_ind _ lnlike0) as [l1|] eqn:El1.
    2:{ cbn [fst]. unfold first_rows. cbn [store set_chain set_store _chain
                                            _lnlike _lnprob].
        now rewrite (heads_insert _ _ _ k m p0 Hm Hq'). }
    apply py_set2_inv in El1 as (row1 & Hrow1 & ->); try assumption.
    unfold bind at 1, modify at 1. unfold bind at 1, lift at 1.
    cbn [store set_chain set_lnlike set_store _lnprob].
    destruct (py_set2 (_lnprob (store s1)) chain_ind _ lnprob0) as [l2|] eqn:El2.
    2:{ cbn [fst]. unfold first_rows. cbn [store set_chain set_lnlike set_store
                                            _chain _lnlike _lnprob].
        now rewrite (heads_insert _ _ _ k m p0 Hm Hq'),
          (heads_insert _ _ _ k row1 lnlike0 Hrow1 Hq'). }
    apply py_set2_inv in El2 as (row2 & Hrow2 & ->); try assumption.
    unfold modify. cbn [fst]. unfold first_rows.
    cbn [store set_chain set_lnlike set_lnprob set_store _chain _lnlike _lnprob].
    now rewrite (heads_insert _ _ _ k m p0 Hm Hq'),
      (heads_insert _ _ _ k row1 lnlike0 Hrow1 Hq'),
      (heads_insert _ _ _ k row2 lnprob0 Hrow2 Hq').
  - intros s2.
    match goal with
    | |- first_rows k (?m s2).1 = _ =>
        assert (Hk : keeps (first_rows k) m)
          by (keeps_all; apply _writeToFile_keeps; intros ? ?; reflexivity)
    end.
    apply Hk.
  - unfold bind at 1 in Eout.
    match type of Hk2 with
    | first_rows k (?m s1).1 = _ => destruct (m s1) as [s2 [[]|err]]
    end; cbn [fst snd] in *.
    + subst out. now rewrite Hk3.
    + now subst out.
Qed.

Ltac keeps_rows :=
  repeat first
    [ apply updateChains_first_rows; [lia|lia|auto]
    | keeps_step ].

Lemma PTMCMCOneStep_first_rows (k : nat) (p0 : vec) (lnlike0 lnprob0 : pyfloat)
    (iter chain_ind : Z) (e : step_env) :
  1 <= iter -> 0 <= chain_ind ->
  keeps (first_rows_thinned k)
    (PTMCMCOneStep prop_getattr is_DEJump np_linalg_svd
       p0 lnlike0 lnprob0 iter chain_ind e).
Proof.
  intros Hiter Hci. unfold PTMCMCOneStep.
  keeps_rows;
    try (apply updateRecursive_ii_keeps; intros ? ?; reflexivity);
    keeps_rows.
Qed.

Lemma sample_step_first_rows (k : nat) (neff i iter : Z) (e : loop_env)
    (st : vec * pyfloat * pyfloat) (Neff : Z) (runComplete : bool) :
  1 <= iter -> 0 <= i ->
  keeps (first_rows_thinned k)
    (sample_step prop_getattr is_DEJump np_linalg_svd neff i iter e st Neff
       runComplete).
Proof.
  intros Hiter Hi. unfold sample_step. destruct st as [[p0 lnlike0] lnprob0].
  apply keeps_bind; [now apply PTMCMCOneStep_first_rows|]. intros st.
  keeps_all.
Qed.

Lemma sample_chain_first_rows (k : nat) (neff i : Z) (env : Z -> Z -> loop_env)
    (js : list Z) :
  forall (iter : Z) (st : vec * pyfloat * pyfloat) (Neff : Z) (runComplete : bool),
    0 <= iter -> 0 <= i ->
    keeps (first_rows_thinned k)
      (sample_chain prop_getattr is_DEJump np_linalg_svd neff i env js iter st Neff
         runComplete).
Proof.
  induction js as [|j js IH]; intros iter st Neff rc Hiter Hi; cbn [sample_chain].
  - apply keeps_ret.
  - cbv zeta. apply keeps_bind; [apply sample_step_first_rows; lia|].
    intros [[[go st1] Neff1] rc1]. destruct go; [|apply keeps_ret].
    apply IH; lia.
Qed.

Lemma sample_chains_first_rows (k : nat) (neff : Z) (env : Z -> Z -> loop_env)
    (Niter i0 : Z) (chains : list Z) :
  forall (st : vec * pyfloat * pyfloat) (Neff : Z) (runComplete : bool),
    0 <= i0 -> Forall (fun i => 0 <= i) chains ->
    keeps (first_rows_thinned k)
      (sample_chains prop_getattr is_DEJump np_linalg_svd neff env Niter i0 chains
         st Neff runComplete).
Proof.
  induction chains as [|i chains IH]; intros st Neff rc Hi0 Hch; cbn [sample_chains].
  - apply keeps_ret.
  - inversion Hch; subst.
    apply keeps_bind; [now apply sample_chain_first_rows|].
    intros [[st1 Neff1] rc1]. now apply IH.
Qed.

(** X27: the loop of [sample], started at [i0 >= 0] on a run that
    records every [thin > 0] iterations, never writes row 0 of [_chain],
    [_lnlike] and [_lnprob], in any cold chain. *)
Theorem sample_chains_keep_first_rows (neff : Z) (env : Z -> Z -> loop_env)
    (Niter i0 : Z) (chains : list Z) (st : vec * pyfloat * pyfloat) (Neff : Z)
    (runComplete : bool) (s : PTSampler) (r : run_attrs) :
  run s = Some r -> 0 < thin r -> 0 <= i0 -> Forall (fun i => 0 <= i) chains ->
  first_rows 0
    (sample_chains prop_getattr is_DEJump np_linalg_svd neff env Niter i0 chains
       st Neff runComplete s).1 = first_rows 0 s.
Proof.
  intros Hr Hthin Hi0 Hch.
  pose proof (sample_chains_first_rows 0 neff env Niter i0 chains st Neff
                runComplete Hi0 Hch s) as H.
  unfold first_rows_thinned in H. rewrite Hr in H.
  replace (0 <? thin r) with true in H by lia.
  set (s' := (sample_chains _ _ _ _ _ _ _ _ _ _ _ s).1) in *.
  destruct (run s') as [r'|]; [|discriminate H].
  destruct (0 <? thin r'); [|discriminate H]. congruence.
Qed.

(** X28: when a fresh run ([i0 = 0], [thin > 0]) returns, row 0 of every
    cold chain but the first is, in the [_chain], [_lnlike] and
    [_lnprob] of the result, still the zero row [initialize] allocated:
    the first point is recorded for chain 0 only. *)
Theorem sample_later_chains_first_row (p0 : vec) (a : @initialize_args kwargs)
    (e : initialize_env) (neff0 : Z) (env : Z -> Z -> loop_env)
    (s0 s : PTSampler) (chain : list matrix) (lnlike lnprob : matrix) (b n : Z) :
  a_i0 a = 0 -> 0 < a_thin a ->
  sample prop_getattr prop_default is_DEJump grad_kwargs kwargs_update
    str_of_float np_exp np_log np_sqrt np_linalg_svd p0 a e neff0 env s0 =
    (s, Ok (chain, lnlike, lnprob, b, n)) ->
  exists N : Z,
    chain_rows (default_maxIter (MPIrank (init s0)) (a_Niter a) (a_maxIter a))
      (a_thin a) = Ok N
    /\ drop 1 (head <$> chain) =
         drop 1 (head <$> replicate (Z.to_nat (a_n_cold_chains a))
                            (replicate (Z.to_nat N)
                               (replicate (Z.to_nat (ndim (init s0))) (Finite 0%Qc))))
    /\ drop 1 (head <$> lnlike) =
         drop 1 (head <$> replicate (Z.to_nat (a_n_cold_chains a))
                            (replicate (Z.to_nat N) (Finite 0%Qc)))
    /\ drop 1 (head <$> lnprob) =
         drop 1 (head <$> replicate (Z.to_nat (a_n_cold_chains a))
                            (replicate (Z.to_nat N) (Finite 0%Qc))).
Proof.
  intros Hi0 Hthin H.
  unfold sample, bind at 1 in H.
  unfold sample_start, bind at 1, get at 1 in H.
  unfold bind at 1, lift at 1 in H.
  destruct (chain_rows _ _) as [N|] eqn:EN; [|discriminate].
  rewrite Hi0 in H. change (0 =? 0) with true in H. cbv iota in H.
  unfold bind at 1 in H.
  set (a' := sample_initialize_args _ a) in *.
  destruct (initialize _ _ _ _ _ _ _ _ a' e s0) as [s1 [[]|err]] eqn:E1;
    [|discriminate].
  destruct (initialize_zero_arrays _ _ _ _ _ _ _ _ a' e s0 s1 N E1 EN)
    as (Hc & Hl & Hp).
  destruct (initialize_run _ _ _ _ _ _ _ _ a' e s0 s1 E1)
    as (r & Hr & _ & _ & _ & Hth & _).
  exists N. split; [reflexivity|].
  (* from the state [initialize] leaves to the end *)
  match type of H with
  | (let (_, _) := ?m s1 in _) = _ =>
      assert (Hk1 : keeps (first_rows_thinned 1) m)
  end.
  { keeps_rows. }
  match type of H with
  | (let (_, _) := ?m s1 in _) = _ =>
      specialize (Hk1 s1); destruct (m s1) as [s2 [st|err]]
  end; [|discriminate]. cbn [fst] in Hk1.
  cbv zeta in H. unfold bind at 1 in H.
  pose proof (sample_chains_first_rows 1 (if 0 =? 0 then a_neff a else neff0) env
                (a_Niter a) 0 (range 0 (a_n_cold_chains a)) st 0 false
                ltac:(lia)) as Hk2.
  assert (Hrange : Forall (fun i => 0 <= i) (range 0 (a_n_cold_chains a))).
  { apply Forall_forall. intros i Hi. unfold range in Hi.
    apply elem_of_seqZ in Hi. lia. }
  specialize (Hk2 Hrange s2).
  destruct (sample_chains _ _ _ _ _ _ _ _ _ _ _ s2) as [s3 [x|err]];
    [|discriminate].
  cbn [fst] in Hk2.
  unfold bind, get, attr, ret in H.
  destruct (run s3) as [r3|] eqn:Hr3; [|discriminate].
  rewrite ?Hr3 in H. injection H as _ <- <- <- _ _.
  rewrite Hk1 in Hk2. unfold first_rows_thinned in Hk2.
  rewrite Hr, Hr3 in Hk2. subst a'. cbn [a_thin sample_initialize_args] in Hth.
  rewrite Hth in Hk2. replace (0 <? a_thin a) with true in Hk2 by lia.
  revert Hk2. destruct (0 <? thin r3); [|intros [=]].
  unfold first_rows. intros [= H1 H2 H3].
  cbn [a_n_cold_chains sample_initialize_args] in Hc, Hl, Hp.
  rewrite H1, H2, H3, Hc, Hl, Hp. now split.
Qed.

End FirstRows.

Lemma sample_chains_keep_first_rows_witness :
  first_rows 0
    (sample_chains demo_getattr (fun _ => false) (fun m => (m, [])) 5 demo_loop
       3 0 [0] ([of_Z 5], of_Z 0, of_Z 0) 0 false (demo_ready demo_cold)).1 =
  first_rows 0 (demo_ready demo_cold).
Proof.
  apply (sample_chains_keep_first_rows demo_getattr (fun _ => false)
           (fun m => (m, [])) 5 demo_loop 3 0 [0] ([of_Z 5], of_Z 0, of_Z 0) 0 false
           (demo_ready demo_cold) (demo_run 0)).
  - reflexivity.
  - reflexivity.
  - discriminate.
  - repeat constructor; discriminate.
Defined.

Lemma sample_later_chains_first_row_witness :
  exists N : Z,
    chain_rows (default_maxIter 0 3 (Some 10)) 1 = Ok N
    /\ drop 1 (head <$> [replicate 3 [of_Z 5] ++ replicate 7 [of_Z 0];
                         [of_Z 0] :: replicate 2 [of_Z 5] ++ replicate 7 [of_Z 0]]) =
         drop 1 (head <$> replicate (Z.to_nat 2)
                            (replicate (Z.to_nat N)
                               (replicate (Z.to_nat 1) (Finite 0%Qc))))
    /\ drop 1 (head <$> replicate 2 (replicate 10 (of_Z 0))) =
         drop 1 (head <$> replicate (Z.to_nat 2)
                            (replicate (Z.to_nat N) (Finite 0%Qc)))
    /\ drop 1 (head <$> replicate 2 (replicate 10 (of_Z 0))) =
         drop 1 (head <$> replicate (Z.to_nat 2)
                            (replicate (Z.to_nat N) (Finite 0%Qc))).
Proof.
  eapply (sample_later_chains_first_row demo_getattr ["SCAM"] (fun _ => false)
            (fun _ _ _ _ => tt) (fun _ _ => tt) (fun _ => "1.0") (fun x => x)
            (fun x => x) (fun x => x) (fun m => (m, [])) [of_Z 5] demo_ladder_args
            demo_env 0 demo_loop demo_single _ _ _ _ 100 2).
  - reflexivity.
  - reflexivity.
  - vm_compute. reflexivity.
Defined.

(** ** The history behind the differential-evolution buffer *)

Lemma bind_inv {A B} (m : M A) (k : A -> M B) (s s' : PTSampler) (b : B) :
  bind m k s = (s', Ok b) ->
  exists s1 a, m s = (s1, Ok a) /\ k a s1 = (s', Ok b).
Proof.
  unfold bind. destruct (m s) as [s1 [a|err]]; [|discriminate].
  intros H. now exists s1, a.
Qed.

(** A row written after the rows [lo .. lo + n - 1] extends them. *)
Lemma take_drop_insert_snoc {A} (l : list A) (lo n : nat) (x : A) :
  (lo + n < length l)%nat ->
  take (S n) (drop lo (<[(lo + n)%nat := x]> l)) = take n (drop lo l) ++ [x].
Proof.
  intros Hlt.
  assert (Hd : drop lo (<[(lo + n)%nat := x]> l) = <[n := x]> (drop lo l)).
  { apply list_eq. intros j. rewrite lookup_drop.
    destruct (decide (j = n)) as [->|Hj].
    - rewrite !list_lookup_insert_eq; [reflexivity| |lia].
      rewrite length_drop. lia.
    - rewrite !list_lookup_insert_ne by lia. now rewrite lookup_drop. }
  rewrite Hd.
  rewrite (take_S_r _ n x).
  - now rewrite take_insert_ge by lia.
  - apply list_lookup_insert_eq. rewrite length_drop. lia.
Qed.

(** What a successful write of a row says of the array. *)
Lemma py_set_row_written (a a' : list matrix) (i j : Z) (v : vec) :
  py_set_row a i j v = Ok a' -> 0 <= i -> 0 <= j ->
  exists m, a !! Z.to_nat i = Some m
            /\ (Z.to_nat j < length m)%nat
            /\ a' = <[Z.to_nat i := <[Z.to_nat j := v]> m]> a.
Proof.
  intros H Hi Hj.
  destruct (py_set_row_inv a a' i j v H Hi Hj) as (m & Hm & ->).
  exists m. split; [exact Hm|]. split; [|reflexivity].
  unfold py_set_row in H.
  rewrite (py_index_nonneg a i m Hi Hm) in H. cbn [res_bind] in H.
  destruct (py_index m j) as [row|] eqn:Er; [|discriminate].
  apply py_index_inv in Er; [|exact Hj]. now apply lookup_lt_Some in Er.
Qed.

(** On rank 0 a call of [updateChains] that returns has written its
    point to row [iter] of the chain in [_AMbuffer], and nothing else
    there. *)
Lemma updateChains_AMbuffer (p0 : vec) (lnlike0 lnprob0 : pyfloat)
    (iter chain_ind : Z) (s s' : PTSampler) :
  updateChains p0 lnlike0 lnprob0 iter chain_ind s = (s', Ok tt) ->
  MPIrank (init s) = 0 -> 0 <= iter -> 0 <= chain_ind ->
  exists am m,
    _AMbuffer (store s) = Some am
    /\ am !! Z.to_nat chain_ind = Some m
    /\ (Z.to_nat iter < length m)%nat
    /\ _AMbuffer (store s') =
         Some (<[Z.to_nat chain_ind := <[Z.to_nat iter := p0]> m]> am).
Proof.
  intros H Hrank Hiter Hci.
  unfold updateChains, bind at 1, get at 1 in H. rewrite Hrank in H.
  change (0 =? 0) with true in H. cbv iota in H.
  apply bind_inv in H as (s1 & [] & H1 & H).
  match type of H with
  | ?rest s1 = _ =>
      assert (Hk : keeps (fun s => _AMbuffer (store s)) rest)
        by (keeps_all; apply _writeToFile_keeps; intros ? ?; reflexivity)
  end.
  specialize (Hk s1). rewrite H in Hk. cbn [fst] in Hk. rewrite Hk. clear Hk H.
  unfold get_AMbuffer, bind, lift, modify in H1.
  destruct (_AMbuffer (store s)) as [am|]; [|discriminate].
  destruct (py_set_row am chain_ind iter p0) as [am'|] eqn:Eam; [|discriminate].
  injection H1 as <-.
  apply py_set_row_written in Eam as (m & Hm & Hlt & ->); try assumption.
  exists am, m. repeat split; assumption.
Qed.

Section History.

Context {kwargs : Type}
        (prop_getattr : string -> option (option kwargs -> proposal))
        (is_DEJump : proposal -> bool)
        (np_linalg_svd : matrix -> matrix * vec).

Local Abbreviation PTMCMCOneStep' :=
  (PTMCMCOneStep prop_getattr is_DEJump np_linalg_svd).
Local Abbreviation records' := (records prop_getattr is_DEJump np_linalg_svd).

(** The part of a step in front of [updateChains] leaves [_AMbuffer]
    alone. *)
Lemma DEbuffer_update_AMbuffer (iter chain_ind : Z) :
  keeps (fun s => _AMbuffer (store s)) (DEbuffer_update iter chain_ind).
Proof. unfold DEbuffer_update, _updateDEbuffer. keeps_all. Qed.

Lemma DEbuffer_receive_AMbuffer (e : step_env) :
  keeps (fun s => _AMbuffer (store s)) (DEbuffer_receive prop_getattr is_DEJump e).
Proof.
  unfold DEbuffer_receive.
  keeps_all;
    try (apply add_DE_jump_keeps; intros ? ?; reflexivity);
    try (apply randomizeProposalCycle_keeps; intros ? ?; reflexivity).
Qed.

(** On rank 0 a step that returns has written the point it returns to
    row [iter] of the chain in [_AMbuffer], and nothing else there. *)
Lemma PTMCMCOneStep_AMbuffer (p0 p : vec) (lnlike0 lnprob0 lnlike lnprob : pyfloat)
    (iter chain_ind : Z) (e : step_env) (s s' : PTSampler) :
  PTMCMCOneStep' p0 lnlike0 lnprob0 iter chain_ind e s = (s', Ok (p, lnlike, lnprob)) ->
  MPIrank (init s) = 0 -> 0 <= iter -> 0 <= chain_ind ->
  exists am m,
    _AMbuffer (store s) = Some am
    /\ am !! Z.to_nat chain_ind = Some m
    /\ (Z.to_nat iter < length m)%nat
    /\ _AMbuffer (store s') =
         Some (<[Z.to_nat chain_ind := <[Z.to_nat iter := p]> m]> am).
Proof.
  intros H Hrank Hiter Hci. unfold PTMCMCOneStep in H.
  assert (Hstep : forall (A : Type) (m : M A) (rest : A -> M (vec * pyfloat * pyfloat))
                         (s0 : PTSampler),
             keeps (fun s => _AMbuffer (store s)) m -> keeps init m ->
             bind m rest s0 = (s', Ok (p, lnlike, lnprob)) ->
             exists s1 a, rest a s1 = (s', Ok (p, lnlike, lnprob))
                          /\ _AMbuffer (store s1) = _AMbuffer (store s0)
                          /\ init s1 = init s0).
  { intros A m rest s0 Hk Hi Hb. apply bind_inv in Hb as (s1 & a & Hm & Hb).
    exists s1, a. split; [exact Hb|].
    specialize (Hk s0). specialize (Hi s0). rewrite Hm in Hk, Hi. now split. }
  apply Hstep in H as (s1 & [] & H & Ha1 & Hi1);
    [|apply covariance_update_keeps; intros ? ?; reflexivity
     |apply covariance_update_keeps; intros ? ?; reflexivity].
  apply Hstep in H as (s2 & [] & H & Ha2 & Hi2);
    [|apply covariance_receive_keeps; intros ? ?; reflexivity
     |apply covariance_receive_keeps; intros ? ?; reflexivity].
  apply Hstep in H as (s3 & [] & H & Ha3 & Hi3);
    [|apply DEbuffer_update_AMbuffer
     |apply DEbuffer_update_keeps; intros ? ?; reflexivity].
  apply Hstep in H as (s4 & [] & H & Ha4 & Hi4);
    [|apply DEbuffer_receive_AMbuffer
     |apply DEbuffer_receive_keeps; intros ? ?; reflexivity].
  apply Hstep in H as (s5 & [] & H & Ha5 & Hi5);
    [|apply DE_after_burn_keeps; intros ? ?; reflexivity
     |apply DE_after_burn_keeps; intros ? ?; reflexivity].
  apply Hstep in H as (s6 & [[q1 l1] lp1] & H & Ha6 & Hi6);
    [|apply jump_proposal_keeps; intros ? ?; reflexivity
     |apply jump_proposal_keeps; intros ? ?; reflexivity].
  apply Hstep in H as (s7 & [[[ret1 q2] l2] lp2] & H & Ha7 & Hi7);
    [|apply PTswap_keeps; intros ? ?; reflexivity
     |apply PTswap_keeps; intros ? ?; reflexivity].
  apply Hstep in H as (s8 & [] & H & Ha8 & Hi8); [|keeps_all|keeps_all].
  apply bind_inv in H as (s9 & [] & Hup & H).
  unfold ret in H. injection H as <- <- <- <-.
  assert (Ha : _AMbuffer (store s8) = _AMbuffer (store s)) by congruence.
  assert (Hi : init s8 = init s) by congruence.
  destruct (updateChains_AMbuffer q2 l2 lp2 iter chain_ind s8 s9 Hup)
    as (am & m & Ham & Hm & Hlt & Hs9); try assumption.
  { now rewrite Hi. }
  exists am, m. rewrite <- Ha. repeat split; assumption.
Qed.

Lemma PTMCMCOneStep_init_eq (p0 : vec) (lnlike0 lnprob0 : pyfloat)
    (iter chain_ind : Z) (e : step_env) (s : PTSampler) :
  init (PTMCMCOneStep' p0 lnlike0 lnprob0 iter chain_ind e s).1 = init s.
Proof.
  apply (PTMCMCOneStep_keeps prop_getattr is_DEJump np_linalg_svd init);
    intros ? ?; reflexivity.
Qed.

(** The points recorded for a chain are the rows [lo ..] of the chain
    in [_AMbuffer]. *)
Lemma records_rows (i lo : Z) (s : PTSampler) (pts : list vec) :
  records' i lo s pts ->
  MPIrank (init s) = 0 -> 0 <= i -> 0 <= lo -> pts <> [] ->
  exists am chain,
    _AMbuffer (store s) = Some am
    /\ am !! Z.to_nat i = Some chain
    /\ take (length pts) (drop (Z.to_nat lo) chain) = pts.
Proof.
  intros Hrec. induction Hrec as [s|s s' p0 lnlike0 lnprob0 Hup
                                   |s s' pts p0 p lnlike0 lnprob0 lnlike lnprob e
                                      Hrec IH Hstep];
    intros Hrank Hi Hlo Hne.
  - congruence.
  - assert (Hinit : init s' = init s).
    { pose proof (updateChains_keeps init p0 lnlike0 lnprob0 lo i
                    ltac:(intros ? ?; reflexivity) ltac:(intros ? ?; reflexivity) s)
        as Hk.
      now rewrite Hup in Hk. }
    destruct (updateChains_AMbuffer p0 lnlike0 lnprob0 lo i s s' Hup)
      as (am & m & Ham & Hm & Hlt & Hs'); try assumption.
    { now rewrite <- Hinit. }
    exists (<[Z.to_nat i := <[Z.to_nat lo := p0]> m]> am), (<[Z.to_nat lo := p0]> m).
    split; [exact Hs'|]. split.
    + apply list_lookup_insert_eq. now apply lookup_lt_Some in Hm.
    + pose proof (take_drop_insert_snoc m (Z.to_nat lo) 0 p0) as Hsn.
      rewrite Nat.add_0_r in Hsn. cbn [length]. now rewrite Hsn by lia.
  - assert (Hinit : init s' = init s).
    { pose proof (PTMCMCOneStep_init_eq p0 lnlike0 lnprob0
                    (lo + Z.of_nat (length pts)) i e s) as Hk.
      now rewrite Hstep in Hk. }
    rewrite Hinit in Hrank.
    destruct (PTMCMCOneStep_AMbuffer p0 p lnlike0 lnprob0 lnlike lnprob
                (lo + Z.of_nat (length pts)) i e s s' Hstep)
      as (am & m & Ham & Hm & Hlt & Hs'); try assumption; [lia|].
    replace (Z.to_nat (lo + Z.of_nat (length pts)))
      with (Z.to_nat lo + length pts)%nat in * by lia.
    exists (<[Z.to_nat i := <[(Z.to_nat lo + length pts)%nat := p]> m]> am),
           (<[(Z.to_nat lo + length pts)%nat := p]> m).
    split; [exact Hs'|]. split.
    + apply list_lookup_insert_eq. now apply lookup_lt_Some in Hm.
    + rewrite length_app. cbn [length]. rewrite Nat.add_1_r.
      rewrite take_drop_insert_snoc by exact Hlt. f_equal.
      destruct pts as [|x pts]; [reflexivity|].
      destruct (IH Hrank Hi Hlo ltac:(discriminate)) as (am0 & chain0 & Ham0 & Hc0 & Ht).
      congruence.
Qed.

End History.

(** ** The window of the differential-evolution buffer *)

Section Start.

Context {kwargs : Type}
        (prop_getattr : string -> option (option kwargs -> proposal))
        (prop_default : list string)
        (is_DEJump : proposal -> bool)
        (grad_kwargs : (vec -> pyfloat * vec) -> (vec -> pyfloat * vec) ->
                       matrix -> Z -> kwargs)
        (kwargs_update : kwargs -> kwargs -> kwargs)
        (str_of_float : pyfloat -> string)
        (np_exp np_log np_sqrt : pyfloat -> pyfloat)
        (np_linalg_svd : matrix -> matrix * vec).

(** When the start of [sample] returns, the first point is recorded
    for the first cold chain at iteration [i0]. *)
Lemma sample_start_records (p0 p : vec) (lnlike lnprob : pyfloat)
    (a : @initialize_args kwargs) (e : initialize_env) (s0 s : PTSampler) :
  sample_start prop_getattr prop_default grad_kwargs kwargs_update str_of_float
    np_exp np_log np_sqrt p0 a e s0 = (s, Ok (p, lnlike, lnprob)) ->
  records prop_getattr is_DEJump np_linalg_svd 0 (a_i0 a) s [p].
Proof.
  intros H. unfold sample_start in H.
  apply bind_inv in H as (s1 & x1 & _ & H). cbv zeta in H.
  apply bind_inv in H as (s2 & N & _ & H).
  apply bind_inv in H as (s3 & [] & _ & H).
  apply bind_inv in H as (s4 & [] & _ & H).
  apply bind_inv in H as (s5 & resuming & _ & H).
  apply bind_inv in H as (s6 & [[q l] lp] & _ & H).
  apply bind_inv in H as (s7 & [] & Hup & H).
  unfold ret in H. injection H as <- <- <- <-.
  exact (records_first _ _ _ _ _ s6 s7 q l lp Hup).
Qed.

End Start.

Section BufferWindow.

Context {kwargs : Type}
        (prop_getattr : string -> option (option kwargs -> proposal))
        (is_DEJump : proposal -> bool)
        (np_linalg_svd : matrix -> matrix * vec).

(** C9, amended: on the coldest process, when the update fires at
    iteration [iter] (with [iter - 1 = k * burn], [k >= 1]) for a cold
    chain, the buffer is replaced wholesale by the rows
    [iter-1-burn .. iter-2] of the chain in [_AMbuffer], and sent to
    every other process.  When the run has recorded a point for the
    chain at each of the iterations [lo .. iter - 1] and the rows of
    the window are among them ([lo <= iter-1-burn]), the new buffer is
    the [burn] recorded points that precede the one recorded last: the
    point of iteration [iter - 1] is not part of it. *)
Theorem DEbuffer_update_window (i lo : Z) (s : PTSampler) (pts : list vec)
    (r : run_attrs) (iter k : Z) :
  records prop_getattr is_DEJump np_linalg_svd i lo s pts ->
  run s = Some r ->
  MPIrank (init s) = 0 ->
  0 <= i -> 0 <= lo ->
  0 < burn r ->
  1 <= k ->
  iter = lo + Z.of_nat (length pts) ->
  iter - 1 = k * burn r ->
  lo <= iter - 1 - burn r ->
  exists (older window : list vec) (latest : vec),
    pts = older ++ window ++ [latest]
    /\ Z.of_nat (length window) = burn r
    /\ (DEbuffer_update iter i s).2 = Ok tt
    /\ _DEbuffer (store (DEbuffer_update iter i s).1) = Some (inr window)
    /\ trace (DEbuffer_update iter i s).1 =
         trace s ++ map (fun rank => EvSend (rank + 1) 222 (MBuf (inr window)))
                        (range 0 (nchain (init s) - 1)).
Proof.
  intros Hrec Hr Hrank Hi Hlo Hb Hk Hiter Hfire Hwin.
  assert (Hne : pts <> []).
  { intros ->. cbn [length] in Hiter. nia. }
  destruct (records_rows prop_getattr is_DEJump np_linalg_svd i lo s pts
              Hrec Hrank Hi Hlo Hne) as (am & chain & Ham & Hchain & Hrows).
  set (d := Z.to_nat (iter - 1 - burn r - lo)).
  set (b := Z.to_nat (burn r)).
  assert (Hlen : length pts = (d + b + 1)%nat) by lia.
  assert (Hchlen : (Z.to_nat lo + length pts <= length chain)%nat).
  { apply (f_equal length) in Hrows. rewrite length_take, length_drop in Hrows. lia. }
  exists (take d pts), (take b (drop d pts)).
  destruct (drop (d + b) pts) as [|latest tl] eqn:Elast.
  { apply (f_equal length) in Elast. rewrite length_drop in Elast.
    cbn [length] in Elast. lia. }
  assert (tl = []) as ->.
  { apply (f_equal length) in Elast. rewrite length_drop in Elast.
    cbn [length] in Elast. destruct tl; [reflexivity|cbn [length] in Elast; lia]. }
  exists latest.
  assert (Hsplit : pts = take d pts ++ take b (drop d pts) ++ [latest]).
  { rewrite <- Elast. rewrite <- (drop_drop pts b d).
    now rewrite (take_drop b (drop d pts)), take_drop. }
  split; [exact Hsplit|]. split.
  { rewrite length_take, length_drop. lia. }
  assert (Hwindow : py_slice chain (iter - 1 - burn r) (iter - 1) =
                    take b (drop d pts)).
  { rewrite py_slice_inner by lia.
    replace (iter - 1 - (iter - 1 - burn r)) with (burn r) by lia. fold b.
    rewrite <- Hrows. rewrite Hlen.
    replace (d + b + 1)%nat with (d + (b + 1))%nat by lia.
    rewrite <- take_drop_commute, drop_drop, take_take.
    replace (Z.to_nat lo + d)%nat with (Z.to_nat (iter - 1 - burn r)) by lia.
    f_equal. lia. }
  rewrite (DEbuffer_update_fires s r iter i am chain Hr Hrank ltac:(lia)
             ltac:(rewrite Hfire; apply Z_mod_mult) ltac:(nia) Ham
             (py_index_nonneg am i chain Hi Hchain)).
  cbn [fst snd store set_trace set_DEbuffer set_store _DEbuffer trace init].
  rewrite Hwindow. repeat split; reflexivity.
Qed.

End BufferWindow.

(** The run of the example has recorded the points 5, 6 and 7 for the
    first cold chain at the iterations 0, 1 and 2. *)
Lemma demo_run2_records :
  records demo_shift_getattr (fun _ => false) (fun m => (m, [])) 0 0 demo_run2
    [[of_Z 5]; [of_Z 6]; [of_Z 7]].
Proof.
  change [[of_Z 5]; [of_Z 6]; [of_Z 7]] with (([[of_Z 5]] ++ [[of_Z 6]]) ++ [[of_Z 7]]).
  eapply (records_step _ _ _ 0 0 demo_run1 demo_run2 ([[of_Z 5]] ++ [[of_Z 6]])
            [of_Z 6] [of_Z 7] (of_Z 0) (of_Z 0) _ _ demo_moving).
  - eapply (records_step _ _ _ 0 0 demo_run0 demo_run1 [[of_Z 5]]
              [of_Z 5] [of_Z 6] (of_Z 0) (of_Z 0) _ _ demo_moving).
    + eapply (sample_start_records demo_shift_getattr ["shift"] (fun _ => false)
                (fun _ _ _ _ => tt) (fun _ _ => tt) (fun _ => "1.0") (fun x => x)
                (fun x => x) (fun x => x) (fun m => (m, [])) [of_Z 5] [of_Z 5] _ _
                demo_burn_args demo_env (demo_fresh 0 2 zero_density zero_density)).
      vm_compute. reflexivity.
    + vm_compute. reflexivity.
  - vm_compute. reflexivity.
Qed.

Lemma DEbuffer_update_window_witness :
  exists (older window : list vec) (latest : vec),
    [[of_Z 5]; [of_Z 6]; [of_Z 7]] = older ++ window ++ [latest]
    /\ Z.of_nat (length window) = 2
    /\ (DEbuffer_update 3 0 demo_run2).2 = Ok tt
    /\ _DEbuffer (store (DEbuffer_update 3 0 demo_run2).1) = Some (inr window)
    /\ trace (DEbuffer_update 3 0 demo_run2).1 =
         trace demo_run2 ++ map (fun rank => EvSend (rank + 1) 222 (MBuf (inr window)))
                                (range 0 (2 - 1)).
Proof.
  eapply (DEbuffer_update_window demo_shift_getattr (fun _ => false)
            (fun m => (m, [])) 0 0 demo_run2 [[of_Z 5]; [of_Z 6]; [of_Z 7]]
            demo_burn_run 3 1 demo_run2_records).
  - vm_compute. reflexivity.
  - reflexivity.
  - discriminate.
  - discriminate.
  - reflexivity.
  - discriminate.
  - reflexivity.
  - reflexivity.
  - discriminate.
Defined.

(** As first stated the claim on the buffer fails: with [burn = 2],
    after the run has recorded the points 5, 6 and 7 at the iterations
    0, 1 and 2, the update that fires at iteration 3 leaves the buffer
    [5, 6], while the two most recently recorded points are [6, 7]. *)
Lemma DEbuffer_update_misses_latest :
  records demo_shift_getattr (fun _ => false) (fun m => (m, [])) 0 0 demo_run2
    [[of_Z 5]; [of_Z 6]; [of_Z 7]]
  /\ _DEbuffer (store (DEbuffer_update 3 0 demo_run2).1) =
       Some (inr [[of_Z 5]; [of_Z 6]])
  /\ most_recent 2 [[of_Z 5]; [of_Z 6]; [of_Z 7]] = [[of_Z 6]; [of_Z 7]]
  /\ _DEbuffer (store (DEbuffer_update 3 0 demo_run2).1) <>
       Some (inr (most_recent 2 [[of_Z 5]; [of_Z 6]; [of_Z 7]])).
Proof.
  split; [exact demo_run2_records|].
  split; [vm_compute; reflexivity|].
  split; [vm_compute; reflexivity|].
  vm_compute. intros H. discriminate H.
Qed.

(** What the amended claim leaves out: [sample] records the first
    point for the first cold chain only, so row 0 of a later chain is
    still the zero row [initialize] allocated when the update fires
    for the first time on that chain.  In the run of the example the
    second cold chain has recorded the points 9 and 10 at the
    iterations 1 and 2, and the update of iteration 3 leaves the buffer
    [0, 9]. *)
Lemma DEbuffer_update_later_chain :
  records demo_shift_getattr (fun _ => false) (fun m => (m, [])) 1 1 demo_second2
    [[of_Z 9]; [of_Z 10]]
  /\ _DEbuffer (store (DEbuffer_update 3 1 demo_second2).1) =
       Some (inr [[of_Z 0]; [of_Z 9]]).
Proof.
  split; [|vm_compute; reflexivity].
  change [[of_Z 9]; [of_Z 10]] with (([] ++ [[of_Z 9]]) ++ [[of_Z 10]]).
  eapply (records_step _ _ _ 1 1 demo_second1 demo_second2 ([] ++ [[of_Z 9]])
            [of_Z 9] [of_Z 10] (of_Z 0) (of_Z 0) _ _ demo_moving).
  - eapply (records_step _ _ _ 1 1 demo_run3 demo_second1 []
              [of_Z 8] [of_Z 9] (of_Z 0) (of_Z 0) _ _ demo_moving).
    + apply records_none.
    + vm_compute. reflexivity.
  - vm_compute. reflexivity.
Qed.
